(** * Highlighter service: clip ledger, export guard, uploads, detection callback

    A shallow embedding of [app/services/highlighter/index.ts]
    (class [HighlighterService]) and the properties of its clip ordering,
    removal, query, loading, export, upload, start-up and detection paths.

    Conventions of the embedding.
    - A JavaScript object used as a record is a Rocq record whose optional
      properties are [option]s ([None] is [undefined] or a missing key).
    - [state.clips] is a JavaScript object keyed by file path.  Its values
      are enumerated in insertion order (the keys are file paths, none of
      which is an array index), and that order decides ties of the stable
      [Array.prototype.sort]; it is modelled as an association list
      ([dict]).
    - The per-clip [streamInfo] object, the in-memory [renderingClips] and
      the stream dictionary are finite maps ([gmap]).
    - The file system is the finite set of existing paths, kept in two
      parts: [sprites] is the content of the scrub sprite directory
      ([SCRUB_SPRITE_DIRECTORY]), where the probe of a clip puts the
      thumbnail sprite that [scrubSprite] names, and [files] is the rest,
      where the clips are.  A request to the file system ([fs.unlink],
      [fs.remove]) takes effect when it is made, that is before the caller
      is suspended at its [await].
    - JavaScript numbers are modelled as [Z]: order positions and counts are
      small integers, and clip times are taken in whole units.  A numeric
      property read from a missing key propagates as [None].
    - An [async] method called without [await] runs up to its first
      [await], the operand of that [await] included; what is left of it is
      recorded in the [pending] queue of the world and is run by
      [run_task].  One call is followed at a time: nothing else is
      interleaved at its [await]s.
    - Analytics events, console output and dialogs are left out. *)

From Stdlib Require Import ZArith Lia.
From stdpp Require Import base option list sorting gmap strings.

(** ** JavaScript helpers *)

(** [if (s)] on an optional string: [undefined] and [''] are falsy. *)
Definition truthy (s : option string) : option string :=
  match s with
  | Some x => if decide (x = "") then None else Some x
  | None => None
  end.

(** Spread of a partial property over an existing one:
    [{...old, ...patch}] read at one key. *)
Definition over {A : Type} (patch : option A) (old : A) : A :=
  match patch with
  | Some v => v
  | None => old
  end.

(** A JavaScript object with string keys, enumerated in insertion order. *)
Section Dict.
Context {V : Type}.

Definition dict := list (string * V).

Fixpoint dict_get (k : string) (d : dict) : option V :=
  match d with
  | [] => None
  | (k', v) :: d' => if decide (k = k') then Some v else dict_get k d'
  end.

(** [Vue.set(d, k, v)]: an existing key keeps its place. *)
Fixpoint dict_set (k : string) (v : V) (d : dict) : dict :=
  match d with
  | [] => [(k, v)]
  | (k', v') :: d' =>
      if decide (k = k') then (k, v) :: d' else (k', v') :: dict_set k v d'
  end.

(** [Vue.delete(d, k)]. *)
Fixpoint dict_delete (k : string) (d : dict) : dict :=
  match d with
  | [] => []
  | (k', v') :: d' =>
      if decide (k = k') then dict_delete k d' else (k', v') :: dict_delete k d'
  end.

(** [Object.values(d)]. *)
Definition dict_values (d : dict) : list V := snd <$> d.

Definition dict_keys (d : dict) : list string := fst <$> d.
End Dict.
Arguments dict : clear implicits.

(** [Array.prototype.sort(cmp)]: the sort is stable, so for a comparator
    that orders by a key every implementation returns the same array; this
    is the insertion sort that keeps equal elements in their order. *)
Section Sort.
Context {A : Type} (cmp : A -> A -> Z).

Fixpoint sort_insert (x : A) (l : list A) : list A :=
  match l with
  | [] => [x]
  | y :: l' => if (cmp x y <=? 0)%Z then x :: y :: l' else y :: sort_insert x l'
  end.

Fixpoint js_sort (l : list A) : list A :=
  match l with
  | [] => []
  | x :: l' => sort_insert x (js_sort l')
  end.
End Sort.

(** ** Data model *)

Inductive TSource := Manual | ReplayBuffer | AiClip.

#[global] Instance TSource_eq_dec : EqDecision TSource.
Proof. solve_decision. Defined.

(** [TStreamInfo]: a clip's association with one stream. *)
Record TStreamInfo := mkStreamInfo {
  orderPosition : Z;
  initialStartTime : option Z;
  initialEndTime : option Z;
}.

Definition set_orderPosition (n : Z) (si : TStreamInfo) : TStreamInfo :=
  {| orderPosition := n;
     initialStartTime := initialStartTime si;
     initialEndTime := initialEndTime si |}.

(** [aiInfo] of an AI clip. *)
Record IAiClipInfo := mkAiInfo {
  inputs : list string;
  score : Z;
  round : option Z;
}.

(** [TClip] as stored in [state.clips].  Only [path] is always there:
    [UPDATE_CLIP] on a path that is not in the ledger stores the bare
    patch. *)
Record TClip := mkClip {
  path : string;
  loaded : option bool;
  enabled : option bool;
  startTrim : option Z;
  endTrim : option Z;
  deleted : option bool;
  source : option TSource;
  globalOrderPosition : option Z;
  streamInfo : option (gmap string TStreamInfo);
  scrubSprite : option string;
  duration : option Z;
  aiInfo : option IAiClipInfo;
}.

(** [Partial<TClip> & { path }]: for each property, [None] when the patch
    has no such key, [Some v] when it has ([v] may itself be
    [undefined]). *)
Record TClipPatch := mkPatch {
  p_path : string;
  p_loaded : option (option bool);
  p_enabled : option (option bool);
  p_startTrim : option (option Z);
  p_endTrim : option (option Z);
  p_deleted : option (option bool);
  p_source : option (option TSource);
  p_globalOrderPosition : option (option Z);
  p_streamInfo : option (option (gmap string TStreamInfo));
  p_scrubSprite : option (option string);
  p_duration : option (option Z);
  p_aiInfo : option (option IAiClipInfo);
}.

Definition patch (p : string) : TClipPatch :=
  mkPatch p None None None None None None None None None None None.

Definition patch_streamInfo (p : string) (si : gmap string TStreamInfo) : TClipPatch :=
  mkPatch p None None None None None None None (Some (Some si)) None None None.

Definition patch_globalOrderPosition (p : string) (n : option Z) : TClipPatch :=
  mkPatch p None None None None None None (Some n) None None None None.

Definition patch_enabled (p : string) (b : bool) : TClipPatch :=
  mkPatch p None (Some (Some b)) None None None None None None None None None.

Definition patch_startTrim (p : string) (t : Z) : TClipPatch :=
  mkPatch p None None (Some (Some t)) None None None None None None None None.

Definition patch_endTrim (p : string) (t : Z) : TClipPatch :=
  mkPatch p None None None (Some (Some t)) None None None None None None None.

Definition patch_deleted (p : string) (b : bool) : TClipPatch :=
  mkPatch p None None None None (Some (Some b)) None None None None None None.

(** The object with no property but [path]. *)
Definition bare_clip (p : string) : TClip :=
  mkClip p None None None None None None None None None None None.

(** [{...old, ...patch}]. *)
Definition merge_clip (old : TClip) (pt : TClipPatch) : TClip :=
  {| path := p_path pt;
     loaded := over (p_loaded pt) (loaded old);
     enabled := over (p_enabled pt) (enabled old);
     startTrim := over (p_startTrim pt) (startTrim old);
     endTrim := over (p_endTrim pt) (endTrim old);
     deleted := over (p_deleted pt) (deleted old);
     source := over (p_source pt) (source old);
     globalOrderPosition := over (p_globalOrderPosition pt) (globalOrderPosition old);
     streamInfo := over (p_streamInfo pt) (streamInfo old);
     scrubSprite := over (p_scrubSprite pt) (scrubSprite old);
     duration := over (p_duration pt) (duration old);
     aiInfo := over (p_aiInfo pt) (aiInfo old) |}.

Inductive EExportStep := AudioMix | FrameRender.

Record IExportInfo := mkExportInfo {
  exporting : bool;
  currentFrame : Z;
  totalFrames : Z;
  step : EExportStep;
  cancelRequested : bool;
  file : string;
  previewFile : string;
  exported : bool;
  error : option string;
  fps : Z;
  resolution : Z;
  preset : string;
}.

(** [Partial<IExportInfo>]. *)
Record IExportInfoPatch := mkExportPatch {
  p_exporting : option bool;
  p_currentFrame : option Z;
  p_totalFrames : option Z;
  p_step : option EExportStep;
  p_cancelRequested : option bool;
  p_file : option string;
  p_previewFile : option string;
  p_exported : option bool;
  p_error : option (option string);
  p_fps : option Z;
  p_resolution : option Z;
  p_preset : option string;
}.

Definition export_patch : IExportInfoPatch :=
  mkExportPatch None None None None None None None None None None None None.

(** Modelled from the spec: [EUploadPlatform] is declared in
    [models/highlighter.models], which is not part of the sources at hand;
    the spec keeps "one record per platform key", so a platform is its key.
    The code names one member, [EUploadPlatform.YOUTUBE]. *)
Definition EUploadPlatform := string.
Definition YOUTUBE : EUploadPlatform := "youtube".

Record IUploadInfo := mkUploadInfo {
  platform : EUploadPlatform;
  uploading : bool;
  uploadedBytes : Z;
  totalBytes : Z;
  u_cancelRequested : bool;
  videoId : option string;
  u_error : bool;
}.

(** [Partial<IUploadInfo> & { platform }]. *)
Record IUploadInfoPatch := mkUploadPatch {
  q_platform : EUploadPlatform;
  q_uploading : option bool;
  q_uploadedBytes : option Z;
  q_totalBytes : option Z;
  q_cancelRequested : option bool;
  q_videoId : option (option string);
  q_error : option bool;
}.

Definition upload_patch (pf : EUploadPlatform) : IUploadInfoPatch :=
  mkUploadPatch pf None None None None None None.

Definition merge_upload (old : IUploadInfo) (q : IUploadInfoPatch) : IUploadInfo :=
  {| platform := q_platform q;
     uploading := over (q_uploading q) (uploading old);
     uploadedBytes := over (q_uploadedBytes q) (uploadedBytes old);
     totalBytes := over (q_totalBytes q) (totalBytes old);
     u_cancelRequested := over (q_cancelRequested q) (u_cancelRequested old);
     videoId := over (q_videoId q) (videoId old);
     u_error := over (q_error q) (u_error old) |}.

Record ITransitionInfo := mkTransition {
  t_type : string;
  t_duration : Z;
}.

Record ITransitionInfoPatch := mkTransitionPatch {
  p_t_type : option string;
  p_t_duration : option Z;
}.

Record IAudioInfo := mkAudio {
  musicEnabled : bool;
  musicPath : string;
  musicVolume : Z;
}.

Record IAudioInfoPatch := mkAudioPatch {
  p_musicEnabled : option bool;
  p_musicPath : option string;
  p_musicVolume : option Z;
}.

Record IVideoClipInfo := mkVideoClip {
  v_path : string;
  v_duration : option Z;
}.

Record IVideoInfo := mkVideo {
  intro : IVideoClipInfo;
  outro : IVideoClipInfo;
}.

Record IVideoInfoPatch := mkVideoPatch {
  p_intro : option IVideoClipInfo;
  p_outro : option IVideoClipInfo;
}.

Inductive EAiDetectionState := IN_PROGRESS | FINISHED | CANCELED_BY_USER | ERROR.

#[global] Instance EAiDetectionState_eq_dec : EqDecision EAiDetectionState.
Proof. solve_decision. Defined.

(** [IHighlightedStream].  [s_type] and [s_progress] are the nested
    [state] object; [abortController] records whether the token is set. *)
Record IHighlightedStream := mkStream {
  s_id : string;
  s_type : EAiDetectionState;
  s_progress : Z;
  s_date : string;
  s_title : string;
  s_game : string;
  abortController : bool;
  s_path : string;
}.

Record ITempRecordingInfo := mkTempRecording {
  recordingPath : option string;
  tr_source : option string;
}.

(** Stream records are objects that the caller keeps mutating after it has
    handed them to the store, so the store holds references. *)
Definition ref := nat.

Record IHighlighterState := mkState {
  clips : dict TClip;
  transition : ITransitionInfo;
  video : IVideoInfo;
  audio : IAudioInfo;
  st_export : IExportInfo;
  uploads : list IUploadInfo;
  dismissedTutorial : bool;
  st_error : string;
  useAiHighlighter : bool;
  highlightedStreams : list ref;
  highlightedStreamsDictionary : gmap string ref;
  updaterProgress : Z;
  isUpdaterRunning : bool;
  highlighterVersion : string;
  tempRecordingInfo : ITempRecordingInfo;
}.

Definition defaultState : IHighlighterState :=
  {| clips := [];
     transition := mkTransition "fade" 1;
     video := mkVideo (mkVideoClip "" None) (mkVideoClip "" None);
     audio := mkAudio false "" 50;
     st_export := mkExportInfo false 0 0 AudioMix false "" "highlighter-preview.mp4"
                 false None 30 1080 "medium";
     uploads := [];
     dismissedTutorial := false;
     st_error := "";
     useAiHighlighter := false;
     highlightedStreams := [];
     highlightedStreamsDictionary := ∅;
     updaterProgress := 0;
     isUpdaterRunning := false;
     highlighterVersion := "";
     tempRecordingInfo := mkTempRecording None None |}.

(** ** The world: persisted state and what lives next to it *)

(** Only the two views that [removeClip] navigates to. *)
Inductive EHighlighterView := STREAM | SETTINGS.

(** The in-memory [RenderingClip] of a path, as far as the service reads
    and writes it. *)
Record RenderingClip := mkRenderingClip {
  rc_startTrim : option Z;
  rc_endTrim : option Z;
  rc_deleted : bool;
  rc_duration : option Z;
  rc_scrubJpg : option string;
}.

(** What is left to run of an [async] call that nobody awaited. *)
Inductive Task :=
  | RemoveClipResume (removePath : string) (streamId : option string) (clip : TClip)
      (unlinked : bool)
  | LoadClipsResume (clipsToLoad : list TClip) (streamInfoId : option string).

(** A call of [startRendering]. *)
Record RenderJob := mkRenderJob {
  isPreview : bool;
  job_clips : list (string * option Z * option Z);
  job_width : Z;
  job_height : Z;
  job_streamId : option string;
}.

Record World := mkWorld {
  state : IHighlighterState;
  objects : gmap ref IHighlightedStream;
  renderingClips : gmap string RenderingClip;
  files : gset string;
  sprites : gset string;
  pending : list Task;
  navigations : list EHighlighterView;
  renderJobs : list RenderJob;
  cancelFunction : option EUploadPlatform;
}.

Definition with_state (f : IHighlighterState -> IHighlighterState) (w : World) : World :=
  mkWorld (f (state w)) (objects w) (renderingClips w) (files w) (sprites w) (pending w)
          (navigations w) (renderJobs w) (cancelFunction w).

Definition with_objects (f : gmap ref IHighlightedStream -> gmap ref IHighlightedStream)
    (w : World) : World :=
  mkWorld (state w) (f (objects w)) (renderingClips w) (files w) (sprites w) (pending w)
          (navigations w) (renderJobs w) (cancelFunction w).

Definition with_renderingClips
    (f : gmap string RenderingClip -> gmap string RenderingClip) (w : World) : World :=
  mkWorld (state w) (objects w) (f (renderingClips w)) (files w) (sprites w) (pending w)
          (navigations w) (renderJobs w) (cancelFunction w).

Definition with_files (f : gset string -> gset string) (w : World) : World :=
  mkWorld (state w) (objects w) (renderingClips w) (f (files w)) (sprites w) (pending w)
          (navigations w) (renderJobs w) (cancelFunction w).

Definition with_sprites (f : gset string -> gset string) (w : World) : World :=
  mkWorld (state w) (objects w) (renderingClips w) (files w) (f (sprites w)) (pending w)
          (navigations w) (renderJobs w) (cancelFunction w).

Definition with_pending (f : list Task -> list Task) (w : World) : World :=
  mkWorld (state w) (objects w) (renderingClips w) (files w) (sprites w) (f (pending w))
          (navigations w) (renderJobs w) (cancelFunction w).

Definition with_navigations (f : list EHighlighterView -> list EHighlighterView)
    (w : World) : World :=
  mkWorld (state w) (objects w) (renderingClips w) (files w) (sprites w) (pending w)
          (f (navigations w)) (renderJobs w) (cancelFunction w).

Definition with_renderJobs (f : list RenderJob -> list RenderJob) (w : World) : World :=
  mkWorld (state w) (objects w) (renderingClips w) (files w) (sprites w) (pending w)
          (navigations w) (f (renderJobs w)) (cancelFunction w).

Definition with_cancelFunction (c : option EUploadPlatform) (w : World) : World :=
  mkWorld (state w) (objects w) (renderingClips w) (files w) (sprites w) (pending w)
          (navigations w) (renderJobs w) c.

Definition with_clips (f : dict TClip -> dict TClip) (s : IHighlighterState)
    : IHighlighterState :=
  mkState (f (clips s)) (transition s) (video s) (audio s) (st_export s) (uploads s)
          (dismissedTutorial s) (st_error s) (useAiHighlighter s) (highlightedStreams s)
          (highlightedStreamsDictionary s) (updaterProgress s) (isUpdaterRunning s)
          (highlighterVersion s) (tempRecordingInfo s).

Definition with_transition (f : ITransitionInfo -> ITransitionInfo) (s : IHighlighterState)
    : IHighlighterState :=
  mkState (clips s) (f (transition s)) (video s) (audio s) (st_export s) (uploads s)
          (dismissedTutorial s) (st_error s) (useAiHighlighter s) (highlightedStreams s)
          (highlightedStreamsDictionary s) (updaterProgress s) (isUpdaterRunning s)
          (highlighterVersion s) (tempRecordingInfo s).

Definition with_video (f : IVideoInfo -> IVideoInfo) (s : IHighlighterState)
    : IHighlighterState :=
  mkState (clips s) (transition s) (f (video s)) (audio s) (st_export s) (uploads s)
          (dismissedTutorial s) (st_error s) (useAiHighlighter s) (highlightedStreams s)
          (highlightedStreamsDictionary s) (updaterProgress s) (isUpdaterRunning s)
          (highlighterVersion s) (tempRecordingInfo s).

Definition with_audio (f : IAudioInfo -> IAudioInfo) (s : IHighlighterState)
    : IHighlighterState :=
  mkState (clips s) (transition s) (video s) (f (audio s)) (st_export s) (uploads s)
          (dismissedTutorial s) (st_error s) (useAiHighlighter s) (highlightedStreams s)
          (highlightedStreamsDictionary s) (updaterProgress s) (isUpdaterRunning s)
          (highlighterVersion s) (tempRecordingInfo s).

Definition with_export (f : IExportInfo -> IExportInfo) (s : IHighlighterState)
    : IHighlighterState :=
  mkState (clips s) (transition s) (video s) (audio s) (f (st_export s)) (uploads s)
          (dismissedTutorial s) (st_error s) (useAiHighlighter s) (highlightedStreams s)
          (highlightedStreamsDictionary s) (updaterProgress s) (isUpdaterRunning s)
          (highlighterVersion s) (tempRecordingInfo s).

Definition with_uploads (f : list IUploadInfo -> list IUploadInfo) (s : IHighlighterState)
    : IHighlighterState :=
  mkState (clips s) (transition s) (video s) (audio s) (st_export s) (f (uploads s))
          (dismissedTutorial s) (st_error s) (useAiHighlighter s) (highlightedStreams s)
          (highlightedStreamsDictionary s) (updaterProgress s) (isUpdaterRunning s)
          (highlighterVersion s) (tempRecordingInfo s).

Definition with_dictionary (f : gmap string ref -> gmap string ref) (s : IHighlighterState)
    : IHighlighterState :=
  mkState (clips s) (transition s) (video s) (audio s) (st_export s) (uploads s)
          (dismissedTutorial s) (st_error s) (useAiHighlighter s) (highlightedStreams s)
          (f (highlightedStreamsDictionary s)) (updaterProgress s) (isUpdaterRunning s)
          (highlighterVersion s) (tempRecordingInfo s).

(** The remaining scalar properties, set as a group. *)
Definition with_scalars (dt : bool) (e : string) (ai : bool) (up : Z) (ur : bool)
    (hv : string) (tr : ITempRecordingInfo) (s : IHighlighterState) : IHighlighterState :=
  mkState (clips s) (transition s) (video s) (audio s) (st_export s) (uploads s)
          dt e ai (highlightedStreams s) (highlightedStreamsDictionary s) up ur hv tr.

Definition set_exported (b : bool) (e : IExportInfo) : IExportInfo :=
  mkExportInfo (exporting e) (currentFrame e) (totalFrames e) (step e) (cancelRequested e)
               (file e) (previewFile e) b (error e) (fps e) (resolution e) (preset e).

(** ** Mutations *)

Definition ADD_CLIP (clip : TClip) (w : World) : World :=
  with_state (fun s =>
    with_export (set_exported false) (with_clips (dict_set (path clip) clip) s)) w.

Definition UPDATE_CLIP (clip : TClipPatch) (w : World) : World :=
  with_state (fun s =>
    with_export (set_exported false)
      (with_clips
         (dict_set (p_path clip)
            (merge_clip (default (bare_clip (p_path clip)) (dict_get (p_path clip) (clips s)))
                        clip)) s)) w.

Definition REMOVE_CLIP (clipPath : string) (w : World) : World :=
  with_state (fun s =>
    with_export (set_exported false) (with_clips (dict_delete clipPath) s)) w.

(** [{...state.export, exported: false, ...exportInfo}]. *)
Definition merge_export (old : IExportInfo) (p : IExportInfoPatch) : IExportInfo :=
  {| exporting := over (p_exporting p) (exporting old);
     currentFrame := over (p_currentFrame p) (currentFrame old);
     totalFrames := over (p_totalFrames p) (totalFrames old);
     step := over (p_step p) (step old);
     cancelRequested := over (p_cancelRequested p) (cancelRequested old);
     file := over (p_file p) (file old);
     previewFile := over (p_previewFile p) (previewFile old);
     exported := over (p_exported p) false;
     error := over (p_error p) (error old);
     fps := over (p_fps p) (fps old);
     resolution := over (p_resolution p) (resolution old);
     preset := over (p_preset p) (preset old) |}.

Definition SET_EXPORT_INFO (exportInfo : IExportInfoPatch) (w : World) : World :=
  with_state (with_export (fun e => merge_export e exportInfo)) w.

(** The record [SET_UPLOAD_INFO] starts from for a platform it has not
    seen. *)
Definition newUpload (pf : EUploadPlatform) : IUploadInfo :=
  mkUploadInfo pf false 0 0 false None false.

Fixpoint set_upload (q : IUploadInfoPatch) (us : list IUploadInfo) : list IUploadInfo :=
  match us with
  | [] => [merge_upload (newUpload (q_platform q)) q]
  | u :: us' =>
      if decide (platform u = q_platform q) then merge_upload u q :: us'
      else u :: set_upload q us'
  end.

Definition SET_UPLOAD_INFO (uploadInfo : IUploadInfoPatch) (w : World) : World :=
  with_state (with_uploads (set_upload uploadInfo)) w.

Definition CLEAR_UPLOAD (w : World) : World :=
  with_state (with_uploads (fun _ => [])) w.

Definition SET_TRANSITION_INFO (transitionInfo : ITransitionInfoPatch) (w : World) : World :=
  with_state (fun s =>
    with_export (set_exported false)
      (with_transition (fun t =>
         mkTransition (over (p_t_type transitionInfo) (t_type t))
                      (over (p_t_duration transitionInfo) (t_duration t))) s)) w.

Definition SET_AUDIO_INFO (audioInfo : IAudioInfoPatch) (w : World) : World :=
  with_state (fun s =>
    with_export (set_exported false)
      (with_audio (fun a =>
         mkAudio (over (p_musicEnabled audioInfo) (musicEnabled a))
                 (over (p_musicPath audioInfo) (musicPath a))
                 (over (p_musicVolume audioInfo) (musicVolume a))) s)) w.

Definition SET_VIDEO_INFO (videoInfo : IVideoInfoPatch) (w : World) : World :=
  with_state (fun s =>
    with_export (set_exported false)
      (with_video (fun v =>
         mkVideo (over (p_intro videoInfo) (intro v))
                 (over (p_outro videoInfo) (outro v))) s)) w.

Definition DISMISS_TUTORIAL (w : World) : World :=
  with_state (fun s =>
    with_scalars true (st_error s) (useAiHighlighter s) (updaterProgress s)
                 (isUpdaterRunning s) (highlighterVersion s) (tempRecordingInfo s) s) w.

Definition SET_ERROR (e : string) (w : World) : World :=
  with_state (fun s =>
    with_scalars (dismissedTutorial s) e (useAiHighlighter s) (updaterProgress s)
                 (isUpdaterRunning s) (highlighterVersion s) (tempRecordingInfo s) s) w.

Definition SET_USE_AI_HIGHLIGHTER (b : bool) (w : World) : World :=
  with_state (fun s =>
    with_scalars (dismissedTutorial s) (st_error s) b (updaterProgress s)
                 (isUpdaterRunning s) (highlighterVersion s) (tempRecordingInfo s) s) w.

(** [Vue.set(dictionary, streamInfo.id, streamInfo)]: the dictionary gets
    the object itself.  A reference that holds no object has no [id] to
    file it under. *)
Definition ADD_HIGHLIGHTED_STREAM (streamInfo : ref) (w : World) : World :=
  match objects w !! streamInfo with
  | Some o => with_state (with_dictionary (<[s_id o := streamInfo]>)) w
  | None => w
  end.

Definition UPDATE_HIGHLIGHTED_STREAM (updatedStreamInfo : ref) (w : World) : World :=
  match objects w !! updatedStreamInfo with
  | Some o => with_state (with_dictionary (<[s_id o := updatedStreamInfo]>)) w
  | None => w
  end.

Definition REMOVE_HIGHLIGHTED_STREAM (id : string) (w : World) : World :=
  with_state (with_dictionary (delete id)) w.

Definition SET_UPDATER_PROGRESS (progress : Z) (w : World) : World :=
  with_state (fun s =>
    with_scalars (dismissedTutorial s) (st_error s) (useAiHighlighter s) progress
                 (isUpdaterRunning s) (highlighterVersion s) (tempRecordingInfo s) s) w.

Definition SET_UPDATER_STATE (isRunning : bool) (w : World) : World :=
  with_state (fun s =>
    with_scalars (dismissedTutorial s) (st_error s) (useAiHighlighter s) (updaterProgress s)
                 isRunning (highlighterVersion s) (tempRecordingInfo s) s) w.

Definition SET_HIGHLIGHTER_VERSION (version : string) (w : World) : World :=
  with_state (fun s =>
    with_scalars (dismissedTutorial s) (st_error s) (useAiHighlighter s) (updaterProgress s)
                 (isUpdaterRunning s) version (tempRecordingInfo s) s) w.

Definition SET_TEMP_RECORDING_INFO (info : ITempRecordingInfo) (w : World) : World :=
  with_state (fun s =>
    with_scalars (dismissedTutorial s) (st_error s) (useAiHighlighter s) (updaterProgress s)
                 (isUpdaterRunning s) (highlighterVersion s) info s) w.

(** The command set: one constructor per [@mutation()] method. *)
Inductive Mutation :=
  | M_ADD_CLIP (clip : TClip)
  | M_UPDATE_CLIP (clip : TClipPatch)
  | M_REMOVE_CLIP (clipPath : string)
  | M_SET_EXPORT_INFO (exportInfo : IExportInfoPatch)
  | M_SET_UPLOAD_INFO (uploadInfo : IUploadInfoPatch)
  | M_CLEAR_UPLOAD
  | M_SET_TRANSITION_INFO (transitionInfo : ITransitionInfoPatch)
  | M_SET_AUDIO_INFO (audioInfo : IAudioInfoPatch)
  | M_SET_VIDEO_INFO (videoInfo : IVideoInfoPatch)
  | M_DISMISS_TUTORIAL
  | M_SET_ERROR (e : string)
  | M_SET_USE_AI_HIGHLIGHTER (b : bool)
  | M_ADD_HIGHLIGHTED_STREAM (streamInfo : ref)
  | M_UPDATE_HIGHLIGHTED_STREAM (streamInfo : ref)
  | M_REMOVE_HIGHLIGHTED_STREAM (id : string)
  | M_SET_UPDATER_PROGRESS (progress : Z)
  | M_SET_UPDATER_STATE (isRunning : bool)
  | M_SET_HIGHLIGHTER_VERSION (version : string)
  | M_SET_TEMP_RECORDING_INFO (info : ITempRecordingInfo).

Definition commit (m : Mutation) (w : World) : World :=
  match m with
  | M_ADD_CLIP clip => ADD_CLIP clip w
  | M_UPDATE_CLIP clip => UPDATE_CLIP clip w
  | M_REMOVE_CLIP p => REMOVE_CLIP p w
  | M_SET_EXPORT_INFO e => SET_EXPORT_INFO e w
  | M_SET_UPLOAD_INFO u => SET_UPLOAD_INFO u w
  | M_CLEAR_UPLOAD => CLEAR_UPLOAD w
  | M_SET_TRANSITION_INFO t => SET_TRANSITION_INFO t w
  | M_SET_AUDIO_INFO a => SET_AUDIO_INFO a w
  | M_SET_VIDEO_INFO v => SET_VIDEO_INFO v w
  | M_DISMISS_TUTORIAL => DISMISS_TUTORIAL w
  | M_SET_ERROR e => SET_ERROR e w
  | M_SET_USE_AI_HIGHLIGHTER b => SET_USE_AI_HIGHLIGHTER b w
  | M_ADD_HIGHLIGHTED_STREAM r => ADD_HIGHLIGHTED_STREAM r w
  | M_UPDATE_HIGHLIGHTED_STREAM r => UPDATE_HIGHLIGHTED_STREAM r w
  | M_REMOVE_HIGHLIGHTED_STREAM id => REMOVE_HIGHLIGHTED_STREAM id w
  | M_SET_UPDATER_PROGRESS p => SET_UPDATER_PROGRESS p w
  | M_SET_UPDATER_STATE b => SET_UPDATER_STATE b w
  | M_SET_HIGHLIGHTER_VERSION v => SET_HIGHLIGHTER_VERSION v w
  | M_SET_TEMP_RECORDING_INFO i => SET_TEMP_RECORDING_INFO i w
  end.

(** The state after a sequence of commits, oldest first. *)
Definition commits (ms : list Mutation) (w : World) : World :=
  foldl (fun acc m => commit m acc) w ms.

(** ** Views and the file system *)

(** Modelled from the spec: the [views] getters live in
    [highlighter-views.ts], which is not part of the sources at hand.  The
    ledger "owns the clip map" and [query] filters "the clips", so
    [views.clips] is the list of values of [state.clips]; the other getters
    used here read the property of the same name. *)
Definition views_clips (w : World) : list TClip := dict_values (clips (state w)).

Definition views_exportInfo (w : World) : IExportInfo := st_export (state w).

Definition views_uploadInfo (w : World) : list IUploadInfo := uploads (state w).

(** Modelled from the spec: [fileExists] comes from [file-utils.ts], which
    is not part of the sources at hand; it is the file system's "existence
    check". *)
Definition fileExists (w : World) (p : string) : bool := bool_decide (p ∈ files w).

(** A task that was started without [await] goes to the queue. *)
Definition spawn (r : World * option Task) : World :=
  match r.2 with
  | Some t => with_pending (fun q => q ++ [t]) r.1
  | None => r.1
  end.

(** ** Removing a clip *)

(** [removeScrubFile]: [fs.remove(clipPath)] is called at once; what
    follows its [await] only logs. *)
Definition removeScrubFile (clipPath : option string) (w : World) : World :=
  match truthy clipPath with
  | Some p => with_sprites (fun fs => fs ∖ {[p]}) w
  | None => w
  end.

(** [clip.streamInfo?.[id]]. *)
Definition assoc_of (id : string) (clip : TClip) : option TStreamInfo :=
  match streamInfo clip with
  | Some si => si !! id
  | None => None
  end.

(** Does some clip of the ledger still belong to stream [id]? *)
Definition stream_in_use (id : string) (w : World) : bool :=
  existsb (fun c => bool_decide (is_Some (assoc_of id c))) (views_clips w).

(** The last block of [removeClip]: streams that lost their last clip are
    dropped from the registry. *)
Definition removeClip_prune (clip : TClip) (streamId : option string) (w : World) : World :=
  match streamInfo clip, streamId with
  | None, None => w
  | _, _ =>
      let ids :=
        match truthy streamId with
        | Some sid => [sid]
        | None => elements (dom (default ∅ (streamInfo clip)))
        end in
      foldl (fun acc id =>
               if stream_in_use id acc then acc else REMOVE_HIGHLIGHTED_STREAM id acc)
            w ids
  end.

(** [removeClip] up to its first [await], [fs.unlink(removePath)]
    included: unlinking takes the file away when it is there and fails
    when it is not (directories are outside the model).  The second
    component is what is left to run once [fs.unlink] has settled, if the
    call got that far; it records whether the file was unlinked. *)
Definition removeClip_sync (removePath : string) (streamId : option string)
    (deleteClipFromSystem : bool) (w : World) : World * option Task :=
  match dict_get removePath (clips (state w)) with
  | None => (w, None)
  | Some clip =>
      let partial :=
        match truthy streamId, streamInfo clip with
        | Some sid, Some si =>
            if fileExists w removePath && bool_decide (1 < size si)
            then Some (sid, si) else None
        | _, _ => None
        end in
      match partial with
      | Some (sid, si) =>
          let w1 := UPDATE_CLIP (patch_streamInfo (path clip) (delete sid si)) w in
          (removeClip_prune clip streamId w1, None)
      | None =>
          let w1 := REMOVE_CLIP removePath w in
          let w2 := removeScrubFile (scrubSprite clip) w1 in
          let w3 := with_renderingClips (delete removePath) w2 in
          if deleteClipFromSystem
          then
            let unlinked := fileExists w3 removePath in
            (if unlinked then with_files (fun fs => fs ∖ {[removePath]}) w3 else w3,
             Some (RemoveClipResume removePath streamId clip unlinked))
          else (removeClip_prune clip streamId w3, None)
      end
  end.

(** ** Querying the ledger *)

(** [getClips]: the filter callback removes, as it goes, every clip whose
    file is gone. *)
Fixpoint getClips (clips : list TClip) (streamId : option string) (w : World)
    : list TClip * World :=
  match clips with
  | [] => ([], w)
  | clip :: rest =>
      if decide (path clip = "add") then getClips rest streamId w
      else if fileExists w (path clip) then
        let keep :=
          match truthy streamId with
          | Some sid => bool_decide (is_Some (assoc_of sid clip))
          | None => true
          end in
        let r := getClips rest streamId w in
        (if keep then clip :: r.1 else r.1, r.2)
      else getClips rest streamId (spawn (removeClip_sync (path clip) streamId true w))
  end.

Definition getClipsLoaded (clips : list TClip) (streamId : option string) (w : World)
    : bool * World :=
  let r := getClips clips streamId w in
  (forallb (fun c => default false (loaded c)) r.1, r.2).

(** [removeClip] once [fs.unlink] has settled.  When the unlinking failed
    the [try] block is left for the [catch]; the folder of the clip and the
    busy-file dialog are outside the model. *)
Definition removeClip_resume (removePath : string) (streamId : option string)
    (clip : TClip) (unlinked : bool) (w : World) : World :=
  let w1 :=
    if unlinked then
      let r := getClips (views_clips w) streamId w in
      if decide (length r.1 = 0) then
        with_navigations
          (fun n => n ++ [match truthy streamId with Some _ => STREAM | None => SETTINGS end])
          r.2
      else r.2
    else w in
  removeClip_prune clip streamId w1.

(** [await removeClip(...)]: the call run to its end. *)
Definition removeClip (removePath : string) (streamId : option string)
    (deleteClipFromSystem : bool) (w : World) : World :=
  let r := removeClip_sync removePath streamId deleteClipFromSystem w in
  match r.2 with
  | Some (RemoveClipResume p sid clip unlinked) => removeClip_resume p sid clip unlinked r.1
  | _ => r.1
  end.

(** ** Adding clips *)

(** An element of [newClips] of [addClips]. *)
Record INewClip := mkNewClip {
  nc_path : string;
  nc_startTime : option Z;
  nc_endTime : option Z;
}.

(** [INewClipData], an element of [newClips] of [addAiClips]. *)
Record INewClipData := mkNewClipData {
  nd_path : string;
  nd_aiClipInfo : IAiClipInfo;
  nd_startTime : Z;
  nd_endTime : Z;
  nd_startTrim : Z;
  nd_endTrim : Z;
}.

(** [orderPosition + 1] inside the association with [sid], for the clips
    that have one. *)
Definition bump_stream (sid : string) (w : World) (clip : TClip) : World :=
  match streamInfo clip with
  | Some si =>
      match si !! sid with
      | Some a =>
          UPDATE_CLIP
            (patch_streamInfo (path clip)
               (<[sid := set_orderPosition (orderPosition a + 1) a]> si)) w
      | None => w
      end
  | None => w
  end.

(** [globalOrderPosition + 1]. *)
Definition bump_global (w : World) (clip : TClip) : World :=
  UPDATE_CLIP
    (patch_globalOrderPosition (path clip)
       ((fun n => (n + 1)%Z) <$> globalOrderPosition clip)) w.

(** The body of the [forEach] of [addClips]. *)
Definition addClips_step (clipData : INewClip) (index : nat)
    (streamId : option string) (source : TSource) (w : World) : World :=
  let cur := getClips (views_clips w) streamId w in
  let currentClips := cur.1 in
  let all := getClips (views_clips cur.2) None cur.2 in
  let allClips := all.1 in
  let getHighestGlobalOrderPosition := Z.of_nat (length allClips) in
  let r : World * gmap string TStreamInfo :=
    if decide (source = Manual) then
      match truthy streamId with
      | Some sid =>
          let wa := foldl (bump_stream sid) all.2 currentClips in
          let wb := foldl bump_global wa allClips in
          (wb, {[sid := mkStreamInfo (0 + Z.of_nat index) None None]})
      | None => (foldl bump_global all.2 currentClips, ∅)
      end
    else
      match truthy streamId with
      | Some sid =>
          (all.2,
           {[sid := mkStreamInfo (Z.of_nat index + Z.of_nat (length currentClips) + 1)
                      (nc_startTime clipData) (nc_endTime clipData)]})
      | None => (all.2, ∅)
      end in
  let newStreamInfo := r.2 in
  match dict_get (nc_path clipData) (clips (state r.1)) with
  | Some existing =>
      UPDATE_CLIP
        (patch_streamInfo (nc_path clipData)
           (newStreamInfo ∪ default ∅ (streamInfo existing))) r.1
  | None =>
      ADD_CLIP
        {| path := nc_path clipData;
           loaded := Some false;
           enabled := Some true;
           startTrim := Some 0%Z;
           endTrim := Some 0%Z;
           deleted := Some false;
           source := Some source;
           globalOrderPosition :=
             Some (if decide (source = Manual) then (0 + Z.of_nat index)%Z
                   else (Z.of_nat index + getHighestGlobalOrderPosition + 1)%Z);
           streamInfo := match streamId with Some _ => Some newStreamInfo | None => None end;
           scrubSprite := None;
           duration := None;
           aiInfo := None |} r.1
  end.

Fixpoint addClips_from (index : nat) (newClips : list INewClip)
    (streamId : option string) (source : TSource) (w : World) : World :=
  match newClips with
  | [] => w
  | clipData :: rest =>
      addClips_from (S index) rest streamId source
        (addClips_step clipData index streamId source w)
  end.

Definition addClips (newClips : list INewClip) (streamId : option string)
    (source : TSource) (w : World) : World :=
  addClips_from 0 newClips streamId source w.

(** [a.streamInfo?.[id]?.initialStartTime || 0]. *)
Definition startTimeOf (id : string) (clip : TClip) : Z :=
  default 0%Z (assoc_of id clip ≫= initialStartTime).

(** The [forEach] of [sortStreamClipsByStartTime]: the clip's [streamInfo]
    is set to the object that has the one key [id]. *)
Fixpoint renumber (id : string) (index : nat) (sortedClips : list TClip) (w : World)
    : World :=
  match sortedClips with
  | [] => w
  | clip :: rest =>
      let old := assoc_of id clip in
      renumber id (S index) rest
        (UPDATE_CLIP
           (patch_streamInfo (path clip)
              {[id := mkStreamInfo (Z.of_nat index)
                        (old ≫= initialStartTime) (old ≫= initialEndTime)]}) w)
  end.

Definition sortStreamClipsByStartTime (clips : list TClip) (id : string) (w : World)
    : World :=
  let r := getClips clips (Some id) w in
  let sortedClips :=
    js_sort (fun a b => (startTimeOf id a - startTimeOf id b)%Z) r.1 in
  renumber id 0 sortedClips r.2.

(** The [forEach] of [addAiClips]. *)
Fixpoint addAiClips_from (index : nat) (newClips : list INewClipData) (id : string)
    (currentHighestOrderPosition getHighestGlobalOrderPosition : Z) (w : World) : World :=
  match newClips with
  | [] => w
  | clip :: rest =>
      addAiClips_from (S index) rest id currentHighestOrderPosition
        getHighestGlobalOrderPosition
        (match dict_get (nd_path clip) (clips (state w)) with
         | Some _ => w
         | None =>
             ADD_CLIP
               {| path := nd_path clip;
                  loaded := Some false;
                  enabled := Some true;
                  startTrim := Some (nd_startTrim clip);
                  endTrim := Some (nd_endTrim clip);
                  deleted := Some false;
                  source := Some AiClip;
                  globalOrderPosition :=
                    Some (Z.of_nat index + getHighestGlobalOrderPosition
                          + (if decide (getHighestGlobalOrderPosition = 0) then 0 else 1))%Z;
                  streamInfo :=
                    Some {[id :=
                      mkStreamInfo
                        (Z.of_nat index + currentHighestOrderPosition
                         + (if decide (currentHighestOrderPosition = 0) then 0 else 1))%Z
                        (Some (nd_startTime clip)) (Some (nd_endTime clip))]};
                  scrubSprite := None;
                  duration := None;
                  aiInfo := Some (nd_aiClipInfo clip) |} w
         end)
  end.

(** [addAiClips] up to the call of [loadClips]. *)
Definition addAiClips_ingest (newClips : list INewClipData) (id : string) (w : World)
    : World :=
  let cur := getClips (views_clips w) (Some id) w in
  let all := getClips (views_clips cur.2) None cur.2 in
  let w1 :=
    addAiClips_from 0 newClips id (Z.of_nat (length cur.1)) (Z.of_nat (length all.1))
      all.2 in
  sortStreamClipsByStartTime (views_clips w1) id w1.

(** ** Loading, exporting *)

(** How a call that may throw ends, with the world it leaves. *)
Inductive Outcome :=
  | Returned (w : World)
  | Threw (w : World).

Definition world_of (o : Outcome) : World :=
  match o with
  | Returned w => w
  | Threw w => w
  end.

Inductive EOrientation := HORIZONTAL | VERTICAL.

(** An element of the render list: a [RenderingClip] that is shared with
    [this.renderingClips], or a fresh one made for the intro or outro. *)
Record RenderItem := mkRenderItem {
  ri_path : string;
  ri_shared : bool;
  ri_startTrim : option Z;
  ri_endTrim : option Z;
  ri_deleted : bool;
}.

Definition unsupportedFormat : string :=
  "One or more clips could not be imported because they were not recorded in a supported file format.".

Definition noClipSelected : string :=
  "Please select at least one clip to export a video".

Section Service.

(** What the service asks of its collaborators, whose code is not part of
    the sources at hand:
    - [supportedFileType p]: the extension of [p] is one of
      [SUPPORTED_FILE_TYPES];
    - [init p]: what [RenderingClip.init()] finds for the file [p]
      (duration, path of the scrub sprite, deleted), [None] when it
      rejects;
    - [reset p]: whether [RenderingClip.reset()] flags the clip deleted,
      [None] when it rejects. *)
Variable supportedFileType : string -> bool.
Variable init : string -> option (option Z * option string * bool).
Variable reset : string -> option bool.

(** Modelled from the spec: [RenderingClip] lives in
    [rendering/rendering-clip.ts], which is not part of the sources at
    hand.  The Media Probe "returns duration and produces a thumbnail-sprite
    artifact, or fails": when [init()] resolves with a frame source, the
    sprite that [frameSource.scrubJpg] names has been written. *)
Definition probed (scrub : option string) (w : World) : World :=
  match truthy scrub with
  | Some s => with_sprites (fun fs => fs ∪ {[s]}) w
  | None => w
  end.

(** The [for] loop of [loadClips]; [false] when it returned from inside
    the loop. *)
Fixpoint loadClips_scan (clipsToLoad : list TClip) (streamInfoId : option string)
    (w : World) : World * bool :=
  match clipsToLoad with
  | [] => (w, true)
  | clip :: rest =>
      if fileExists w (path clip) then
        let w1 :=
          if supportedFileType (path clip) then w
          else SET_ERROR unsupportedFormat
                 (spawn (removeClip_sync (path clip) streamInfoId true w)) in
        let w2 :=
          with_renderingClips
            (fun m => match m !! path clip with
                      | Some _ => m
                      | None => <[path clip := mkRenderingClip None None false None None]> m
                      end) w1 in
        loadClips_scan rest streamInfoId w2
      else (spawn (removeClip_sync (path clip) streamInfoId true w), false)
  end.

(** Modelled from the spec: [pmap] comes from [util/pmap], which is not
    part of the sources at hand.  It runs the units of a "bounded worker
    pool" whose "completion order ... is unspecified" and applies each
    unit's state update atomically; the units are taken in list order and
    the first rejection rejects the whole call. *)
Fixpoint loadClips_hydrate (items : list TClip) (w : World) : Outcome :=
  match items with
  | [] => Returned w
  | c :: rest =>
      match renderingClips w !! path c, init (path c) with
      | Some rc, Some (d, scrub, del) =>
          let rc' := mkRenderingClip (rc_startTrim rc) (rc_endTrim rc) del d scrub in
          let w1 := with_renderingClips (<[path c := rc']>) (probed scrub w) in
          loadClips_hydrate rest
            (UPDATE_CLIP
               (mkPatch (path c) (Some (Some true)) None None None (Some (Some del))
                        None None None (Some scrub) (Some d) None) w1)
      | _, _ => Threw w
      end
  end.

(** [loadClips] after [await this.ensureScrubDirectory()]. *)
Definition loadClips_resume (clipsToLoad : list TClip) (streamInfoId : option string)
    (w : World) : Outcome :=
  let r := loadClips_scan clipsToLoad streamInfoId w in
  if r.2 then
    loadClips_hydrate
      (List.filter (fun c => negb (default false (loaded c))) clipsToLoad) r.1
  else Returned r.1.

(** [await loadClips(streamInfoId)]. *)
Definition loadClips (streamInfoId : option string) (w : World) : Outcome :=
  let r := getClips (views_clips w) streamInfoId w in
  loadClips_resume r.1 streamInfoId r.2.

Definition hasUnloadedClips (streamId : option string) (w : World) : bool :=
  negb (forallb (fun clip => default false (loaded clip))
          (List.filter
             (fun c =>
                if default false (enabled c) then
                  match truthy streamId with
                  | None => true
                  | Some sid => bool_decide (is_Some (assoc_of sid c))
                  end
                else false)
             (views_clips w))).

(** The [map] callback of [generateRenderingClips]: the trims go to the
    shared [RenderingClip]; a path without one makes the property write
    throw. *)
Fixpoint take_renderingClips (cs : list TClip) (w : World)
    : option (list RenderItem * World) :=
  match cs with
  | [] => Some ([], w)
  | c :: rest =>
      match renderingClips w !! path c with
      | None => None
      | Some rc =>
          let rc' := mkRenderingClip (startTrim c) (endTrim c) (rc_deleted rc)
                       (rc_duration rc) (rc_scrubJpg rc) in
          match take_renderingClips rest (with_renderingClips (<[path c := rc']>) w) with
          | Some (items, w') =>
              Some (mkRenderItem (path c) true (startTrim c) (endTrim c) (rc_deleted rc)
                      :: items, w')
          | None => None
          end
      end
  end.

Definition generateRenderingClips (streamId : option string) (orientation : EOrientation)
    (w : World) : option (list RenderItem * World) :=
  let selected : list TClip * World :=
    match truthy streamId with
    | Some sid =>
        let r := getClips (views_clips w) streamId w in
        (js_sort (fun a b =>
                    (default 0 (orderPosition <$> assoc_of sid a)
                     - default 0 (orderPosition <$> assoc_of sid b))%Z)
                 (List.filter
                    (fun c => default false (enabled c)
                              && bool_decide (is_Some (assoc_of sid c))) r.1),
         r.2)
    | None =>
        (js_sort (fun a b =>
                    match globalOrderPosition a, globalOrderPosition b with
                    | Some x, Some y => (x - y)%Z
                    | _, _ => 0%Z
                    end)
                 (List.filter (fun c => default false (enabled c)) (views_clips w)),
         w)
    end in
  match take_renderingClips selected.1 selected.2 with
  | None => None
  | Some (items, w1) =>
      let horizontal := match orientation with VERTICAL => false | HORIZONTAL => true end in
      let extra (p : string) (w : World) : option (list RenderItem * World) :=
        if bool_decide (p ≠ "") && horizontal then
          match init p with
          | Some (_, scrub, del) =>
              Some ([mkRenderItem p false (Some 0%Z) (Some 0%Z) del], probed scrub w)
          | None => None
          end
        else Some ([], w) in
      match extra (v_path (intro (video (state w1)))) w1 with
      | Some (i, w2) =>
          match extra (v_path (outro (video (state w2)))) w2 with
          | Some (o, w3) => Some (i ++ items ++ o, w3)
          | None => None
          end
      | None => None
      end
  end.

(** Width and height of [generateExportOptions]; the vertical filter of
    [vertical-export.ts] "flips width and height". *)
Definition generateExportOptions (preview : bool) (orientation : EOrientation)
    (w : World) : Z * Z :=
  let wh :=
    if preview then (1280 / 4, 720 / 4)%Z
    else if decide (resolution (views_exportInfo w) = 720%Z) then (1280, 720)%Z
         else (1920, 1080)%Z in
  match orientation with
  | VERTICAL => (wh.2, wh.1)
  | HORIZONTAL => wh
  end.

(** "Reset all clips": the clips that are deleted, from their [init] or from
    this [reset], are kept out of the render list and are flagged in the
    ledger. *)
Fixpoint reset_all (items : list RenderItem) (w : World)
    : option (list RenderItem * World) :=
  match items with
  | [] => Some ([], w)
  | c :: rest =>
      match reset (ri_path c) with
      | None => None
      | Some flagged =>
          let del := ri_deleted c || flagged in
          let w1 :=
            if del then
              UPDATE_CLIP (patch_deleted (ri_path c) true)
                (if ri_shared c then
                   with_renderingClips
                     (alter (fun rc => mkRenderingClip (rc_startTrim rc) (rc_endTrim rc)
                                         true (rc_duration rc) (rc_scrubJpg rc))
                            (ri_path c)) w
                 else w)
            else w in
          match reset_all rest w1 with
          | Some (kept, w2) => Some (if del then kept else c :: kept, w2)
          | None => None
          end
      end
  end.

(** [export(preview, streamId, orientation)]. *)
Definition export (preview : bool) (streamId : option string)
    (orientation : EOrientation) (w : World) : Outcome :=
  let w0 := with_renderingClips (fun _ => ∅) w in
  match loadClips streamId w0 with
  | Threw w1 => Threw w1
  | Returned w1 =>
      if hasUnloadedClips streamId w1 then Returned w1
      else if exporting (views_exportInfo w1) then Returned w1
      else
        let w2 :=
          SET_EXPORT_INFO
            (mkExportPatch (Some true) (Some 0%Z) None (Some AudioMix) (Some false)
                           None None None (Some None) None None None) w1 in
        match generateRenderingClips streamId orientation w2 with
        | None => Threw w2
        | Some (items, w3) =>
            let wh := generateExportOptions preview orientation w3 in
            match reset_all items w3 with
            | None => Threw w3
            | Some ([], w4) =>
                Returned
                  (SET_EXPORT_INFO
                     (mkExportPatch (Some false) None None None None None None
                                    (Some false) (Some (Some noClipSelected))
                                    None None None) w4)
            | Some (kept, w4) =>
                Returned
                  (with_renderJobs
                     (fun js =>
                        js ++ [mkRenderJob preview
                                 ((fun c => (ri_path c, ri_startTrim c, ri_endTrim c)) <$>
                                      kept)
                                 wh.1 wh.2 streamId]) w4)
            end
        end
  end.

(** [addAiClips] when it is called without [await]: it stops inside
    [loadClips], at [await this.ensureScrubDirectory()]. *)
Definition addAiClips_sync (newClips : list INewClipData) (id : string) (w : World)
    : World :=
  let w1 := addAiClips_ingest newClips id w in
  let r := getClips (views_clips w1) (Some id) w1 in
  with_pending (fun q => q ++ [LoadClipsResume r.1 (Some id)]) r.2.

(** [await addAiClips(...)]. *)
Definition addAiClips (newClips : list INewClipData) (id : string) (w : World) : Outcome :=
  loadClips (Some id) (addAiClips_ingest newClips id w).

(** One queued continuation, run to its end. *)
Definition run_task (t : Task) (w : World) : World :=
  match t with
  | RemoveClipResume p sid clip unlinked => removeClip_resume p sid clip unlinked w
  | LoadClipsResume cs sid => world_of (loadClips_resume cs sid w)
  end.

End Service.

(** ** Uploads *)

(** [uploadYoutube] up to [await complete].  [youtubeLinked] is
    [userService.state.auth?.platforms.youtube]. *)
Definition uploadYoutube_start (youtubeLinked : bool) (w : World) : Outcome :=
  if negb youtubeLinked then Threw w
  else if negb (exported (views_exportInfo w)) then Threw w
  else if existsb uploading (views_uploadInfo w) then Threw w
  else
    Returned
      (with_cancelFunction (Some YOUTUBE)
         (SET_UPLOAD_INFO
            (mkUploadPatch YOUTUBE (Some true) None None (Some false) None (Some false)) w)).

(** The progress callback handed to the uploader. *)
Definition upload_progress (pf : EUploadPlatform) (uploadedB totalB : Z) (w : World) : World :=
  SET_UPLOAD_INFO (mkUploadPatch pf None (Some uploadedB) (Some totalB) None None None) w.

(** [uploadYoutube] once [complete] has settled: [Some id] when it
    resolved. *)
Definition uploadYoutube_finish (result : option string) (w : World) : World :=
  let w1 :=
    match result with
    | Some _ => w
    | None =>
        if existsb u_cancelRequested (views_uploadInfo w) then w
        else SET_UPLOAD_INFO
               (mkUploadPatch YOUTUBE None None None None None (Some true)) w
    end in
  SET_UPLOAD_INFO
    (mkUploadPatch YOUTUBE (Some false) None None (Some false) (Some result) None)
    (with_cancelFunction None w1).

(** The error callback that [uploadStorage] hands to [uploadFile]. *)
Definition upload_error (pf : EUploadPlatform) (w : World) : World :=
  SET_UPLOAD_INFO (mkUploadPatch pf None None None None None (Some true)) w.

(** [uploadStorage] up to [await ...uploadFile(...)]: nothing is checked
    before the first [SET_UPLOAD_INFO]. *)
Definition uploadStorage_start (pf : EUploadPlatform) (w : World) : Outcome :=
  Returned
    (SET_UPLOAD_INFO
       (mkUploadPatch pf (Some true) None None (Some false) None (Some false)) w).

(** [uploadStorage] once [uploadFile] has settled, up to [await complete]:
    when [uploadFile] rejects so does [uploadStorage], with the record as
    it is; when it resolves, its [cancel] becomes the cancel function. *)
Definition uploadStorage_handed (pf : EUploadPlatform) (resolved : bool) (w : World)
    : Outcome :=
  if resolved then Returned (with_cancelFunction (Some pf) w) else Threw w.

(** [uploadStorage] once [complete] has settled: [Some id] when it
    resolved with [{ id }]. *)
Definition uploadStorage_finish (pf : EUploadPlatform) (result : option string) (w : World)
    : World :=
  let w1 :=
    match result with
    | Some _ => w
    | None =>
        if existsb u_cancelRequested (views_uploadInfo w) then w
        else SET_UPLOAD_INFO
               (mkUploadPatch pf (Some false) None None None None (Some true)) w
    end in
  SET_UPLOAD_INFO
    (mkUploadPatch pf (Some false) None None (Some false) (Some (truthy result)) None)
    (with_cancelFunction None w1).

Definition cancelUpload (pf : EUploadPlatform) (w : World) : World :=
  match cancelFunction w with
  | Some _ =>
      if existsb (fun u => bool_decide (platform u = pf) && uploading u) (views_uploadInfo w)
      then SET_UPLOAD_INFO (mkUploadPatch pf None None None (Some true) None None) w
      else w
  | None => w
  end.

(** The uploads that are active for a platform. *)
Definition active_uploads (pf : EUploadPlatform) (w : World) : list IUploadInfo :=
  List.filter (fun u => bool_decide (platform u = pf) && uploading u) (views_uploadInfo w).

(** ** The incremental-results callback of the detection *)

Definition set_type (t : EAiDetectionState) (o : IHighlightedStream) : IHighlightedStream :=
  mkStream (s_id o) t (s_progress o) (s_date o) (s_title o) (s_game o)
           (abortController o) (s_path o).

(** What a reader of the store finds as the detection state of a stream:
    [views.highlightedStreamsDictionary[id].state.type]. *)
Definition detection_state (id : string) (w : World) : option EAiDetectionState :=
  match highlightedStreamsDictionary (state w) !! id with
  | Some r => s_type <$> objects w !! r
  | None => None
  end.

Definition in_ledger (p : string) (w : World) : bool :=
  bool_decide (is_Some (dict_get p (clips (state w)))).

(** [renderHighlights], statement by statement: the worlds that the
    callback goes through, oldest first, when [cutHighlightClips] resolves
    with [clipData].  [setStreamInfo] is the stream object that
    [detectAndClipAiHighlights] made and put into the store, [id] is
    [streamInfo.id].  The worlds are: after the first [updateStream]; after
    the cut; after [setStreamInfo.state.type = FINISHED], which writes to
    the object that the store holds; after the second [updateStream]; after
    [addAiClips], which nobody awaits.

    Modelled from the spec: [cutHighlightClips] comes from
    [cut-highlight-clips.ts], which is not part of the sources at hand; it
    "cuts the indicated segments into clip files", so when it resolves the
    files of [clipData] exist. *)
Definition renderHighlights (setStreamInfo : ref) (id : string)
    (clipData : list INewClipData) (w : World) : list World :=
  let w1 := UPDATE_HIGHLIGHTED_STREAM setStreamInfo w in
  let w2 := with_files (fun fs => fs ∪ list_to_set (nd_path <$> clipData)) w1 in
  let w3 := with_objects (alter (set_type FINISHED) setStreamInfo) w2 in
  let w4 := UPDATE_HIGHLIGHTED_STREAM setStreamInfo w3 in
  let w5 := addAiClips_sync clipData id w4 in
  [w1; w2; w3; w4; w5].

(** ** Vocabulary of the properties *)

(** The world the service starts in, over a file system [fs]. *)
Definition initialWorld (fs : gset string) : World :=
  mkWorld defaultState ∅ ∅ fs ∅ [] [] [] None.

(** The mutations of the clip set and of the transition, audio and video
    settings. *)
Definition changes_export_input (m : Mutation) : bool :=
  match m with
  | M_ADD_CLIP _ | M_UPDATE_CLIP _ | M_REMOVE_CLIP _
  | M_SET_TRANSITION_INFO _ | M_SET_AUDIO_INFO _ | M_SET_VIDEO_INFO _ => true
  | _ => false
  end.

(** The commit that a finished export makes. *)
Definition sets_exported (m : Mutation) : bool :=
  match m with
  | M_SET_EXPORT_INFO p => bool_decide (p_exported p = Some true)
  | _ => false
  end.

(** What an exported video is made from. *)
Definition export_input (w : World)
    : dict TClip * ITransitionInfo * IAudioInfo * IVideoInfo :=
  (clips (state w), transition (state w), audio (state w), video (state w)).

(** The positions of the ledger, in the order of [views.clips]. *)
Definition globalPositions (w : World) : list (option Z) :=
  globalOrderPosition <$> views_clips w.

(** The clips of stream [id] with their position in the stream, in the
    order of [views.clips]. *)
Definition streamPositions (id : string) (w : World) : list (string * Z) :=
  omap (fun c => (fun a => (path c, orderPosition a)) <$> assoc_of id c) (views_clips w).

(** The start times of the clips of stream [id], by ascending position in
    the stream. *)
Definition streamOrder (id : string) (w : World) : list (string * option Z) :=
  (fun c => (path c, assoc_of id c ≫= initialStartTime))
    <$> js_sort (fun a b => (default 0 (orderPosition <$> assoc_of id a)
                             - default 0 (orderPosition <$> assoc_of id b))%Z)
          (List.filter (fun c => bool_decide (is_Some (assoc_of id c))) (views_clips w)).

(** A clip as the scenarios hand it to [addClips] and [addAiClips]. *)
Definition replayClip (p : string) (startT endT : Z) : INewClip :=
  mkNewClip p (Some startT) (Some endT).

Definition aiClip (p : string) (startT endT : Z) : INewClipData :=
  mkNewClipData p (mkAiInfo [] 0 None) startT endT 0 0.

(** The world in which one upload of platform [pf] is active, with its
    cancellation already requested. *)
Definition uploadingWorld (pf : EUploadPlatform) : World :=
  with_cancelFunction (Some pf)
    (with_state (with_uploads (fun _ => [mkUploadInfo pf true 10 100 true None false]))
                (initialWorld ∅)).

(** What querying, removing and loading leave alone: the [exporting] flag,
    the jobs handed to the rendering engine and the stream objects. *)
Definition bystanders (w : World)
    : bool * list RenderJob * gmap ref IHighlightedStream :=
  (exporting (views_exportInfo w), renderJobs w, objects w).

(** Every entry of the ledger sits under its own path. *)
Definition wf_ledger (w : World) : Prop :=
  Forall (fun kv => path kv.2 = kv.1) (clips (state w)).

(** Collaborators for the worked examples: every extension is supported,
    every probe finds ten units of video, no reset flags a clip. *)
Definition anyFileType (p : string) : bool := true.

Definition probeOk (p : string) : option (option Z * option string * bool) :=
  Some (Some 10%Z, Some (p +:+ ".jpg"), false).

Definition resetOk (p : string) : option bool := Some false.

(** [SET_EXPORT_INFO({ exporting: true })]. *)
Definition markExporting (w : World) : World :=
  SET_EXPORT_INFO
    (mkExportPatch (Some true) None None None None None None None None None None None) w.

(** The ledger after one manual import of ["a.mp4"]. *)
Definition oneClipWorld : World :=
  addClips [mkNewClip "a.mp4" None None] None Manual (initialWorld {["a.mp4"]}).

(** The record of [clip] is gone from the ledger, its [RenderingClip] is
    discarded and its scrub sprite is deleted. *)
Definition fully_removed (clip : TClip) (w : World) : Prop :=
  dict_get (path clip) (clips (state w)) = None
  /\ renderingClips w !! path clip = None
  /\ forall s, truthy (scrubSprite clip) = Some s -> s ∉ sprites w.

(** What a later step of a removal cannot undo: a path that is out of the
    ledger or out of [renderingClips] stays out, a sprite that is deleted
    stays deleted. *)
Definition removal_stable (w w' : World) : Prop :=
  wf_ledger w ->
  wf_ledger w'
  /\ (forall q, dict_get q (clips (state w)) = None -> dict_get q (clips (state w')) = None)
  /\ (forall q, renderingClips w !! q = None -> renderingClips w' !! q = None)
  /\ (forall s, s ∉ sprites w -> s ∉ sprites w').

(** The stream registry as a reader finds it, and the file system. *)
Definition registry (w : World)
    : gmap string ref * gmap ref IHighlightedStream * gset string :=
  (highlightedStreamsDictionary (state w), objects w, files w).

(** [detectAndClipAiHighlights] up to the call of the detector: the new
    stream object [o] is made at the reference [r] and is added to the
    store. *)
Definition detection_begin (r : ref) (o : IHighlightedStream) (w : World) : World :=
  ADD_HIGHLIGHTED_STREAM r (with_objects (<[r := o]>) w).

(** A detection of stream ["S"] under way on the recording
    ["rec.mp4"]. *)
Definition detectingWorld : World :=
  detection_begin 0 (mkStream "S" IN_PROGRESS 0 "2026" "stream" "unset" true "rec.mp4")
    (initialWorld {["rec.mp4"]}).

(** ** Vocabulary of the ordering properties *)

(** The stream filter of [getClips]. *)
Definition in_query (streamId : option string) (clip : TClip) : bool :=
  match truthy streamId with
  | Some sid => bool_decide (is_Some (assoc_of sid clip))
  | None => true
  end.

(** A ledger that a query leaves as it is: every record sits under its own
    path, no path occurs twice, no record is the ['add'] placeholder and
    every file exists. *)
Definition healthy (w : World) : Prop :=
  wf_ledger w
  /\ NoDup (dict_keys (clips (state w)))
  /\ Forall (fun c => path c <> "add" /\ fileExists w (path c) = true) (views_clips w).

(** No clip of the ledger is flagged deleted. *)
Definition none_deleted (w : World) : Prop :=
  Forall (fun c => deleted c = Some false) (views_clips w).

(** The positions [l] are the numbers [0 .. length l - 1], each once. *)
Definition dense (l : list (option Z)) : Prop :=
  l ≡ₚ Some <$> seqZ 0 (Z.of_nat (length l)).

(** What [bump_global] stores for a clip: the record as it is now in the
    ledger, with the position that the caller read plus one. *)
Definition bumped_global (snapshot current : TClip) : TClip :=
  merge_clip current
    (patch_globalOrderPosition (path snapshot)
       ((fun n => (n + 1)%Z) <$> globalOrderPosition snapshot)).

(** What [bump_stream] makes of a clip. *)
Definition bumped_stream (sid : string) (clip : TClip) : TClip :=
  match streamInfo clip with
  | Some si =>
      match si !! sid with
      | Some a =>
          merge_clip clip
            (patch_streamInfo (path clip)
               (<[sid := set_orderPosition (orderPosition a + 1) a]> si))
      | None => clip
      end
  | None => clip
  end.

(** Manual imports, one clip a call. *)
Definition manual_inserts (calls : list (INewClip * option string)) (w : World) : World :=
  foldl (fun acc call => addClips [call.1] call.2 Manual acc) w calls.

(** The record that [addClips] adds for a new replay-buffer clip. *)
Definition replay_record (clipData : INewClip) (streamId : option string)
    (globalPos streamPos : Z) : TClip :=
  {| path := nc_path clipData;
     loaded := Some false;
     enabled := Some true;
     startTrim := Some 0%Z;
     endTrim := Some 0%Z;
     deleted := Some false;
     source := Some ReplayBuffer;
     globalOrderPosition := Some globalPos;
     streamInfo :=
       match streamId with
       | Some _ =>
           Some match truthy streamId with
                | Some sid =>
                    {[sid := mkStreamInfo streamPos (nc_startTime clipData)
                               (nc_endTime clipData)]}
                | None => ∅
                end
       | None => None
       end;
     scrubSprite := None;
     duration := None;
     aiInfo := None |}.

(** The records of a batch of new replay-buffer clips: the clip at [index]
    finds [n] clips in the ledger, [m] of them in the query. *)
Fixpoint replay_entries (index n m : nat) (newClips : list INewClip)
    (streamId : option string) : dict TClip :=
  match newClips with
  | [] => []
  | clipData :: rest =>
      (nc_path clipData,
       replay_record clipData streamId
         (Z.of_nat index + Z.of_nat n + 1) (Z.of_nat index + Z.of_nat m + 1))
      :: replay_entries (S index) (S n) (S m) rest streamId
  end.

(** The record that [addClips] adds for a new manual clip, at [index] of
    its batch. *)
Definition manual_record (clipData : INewClip) (streamId : option string) (index : nat)
    : TClip :=
  {| path := nc_path clipData;
     loaded := Some false;
     enabled := Some true;
     startTrim := Some 0%Z;
     endTrim := Some 0%Z;
     deleted := Some false;
     source := Some Manual;
     globalOrderPosition := Some (0 + Z.of_nat index)%Z;
     streamInfo :=
       match streamId with
       | Some _ =>
           Some match truthy streamId with
                | Some sid => {[sid := mkStreamInfo (0 + Z.of_nat index) None None]}
                | None => ∅
                end
       | None => None
       end;
     scrubSprite := None;
     duration := None;
     aiInfo := None |}.

(** What a manual import makes of a clip that is already in the ledger. *)
Definition shifted (streamId : option string) (clip : TClip) : TClip :=
  bumped_global clip
    (match truthy streamId with
     | Some sid => bumped_stream sid clip
     | None => clip
     end).

(** ** More of the service *)

(** [getUploadInfo]: [uploadInfo.find(u => u.platform === platform)]. *)
Definition getUploadInfo (uploadInfo : list IUploadInfo) (pf : EUploadPlatform)
    : option IUploadInfo :=
  List.find (fun u => bool_decide (platform u = pf)) uploadInfo.

(** [dismissError]. *)
Definition dismissError (w : World) : World :=
  let w1 :=
    match truthy (error (st_export (state w))) with
    | Some _ =>
        SET_EXPORT_INFO
          (mkExportPatch None None None None None None None None (Some None) None None None) w
    | None => w
    end in
  let w2 :=
    foldl (fun acc u =>
             SET_UPLOAD_INFO
               (mkUploadPatch (platform u) None None None None None (Some false)) acc)
          w1 (List.filter u_error (uploads (state w1))) in
  if decide (st_error (state w2) = "") then w2 else SET_ERROR "" w2.

(** The setters of the export settings. *)
Definition resetExportedState (w : World) : World :=
  SET_EXPORT_INFO
    (mkExportPatch None None None None None None None (Some false) None None None None) w.

Definition setExportFile (f : string) (w : World) : World :=
  SET_EXPORT_INFO
    (mkExportPatch None None None None None (Some f) None None None None None None) w.

Definition setFps (n : Z) (w : World) : World :=
  SET_EXPORT_INFO
    (mkExportPatch None None None None None None None None None (Some n) None None) w.

Definition setResolution (n : Z) (w : World) : World :=
  SET_EXPORT_INFO
    (mkExportPatch None None None None None None None None None None (Some n) None) w.

Definition setPreset (p : string) (w : World) : World :=
  SET_EXPORT_INFO
    (mkExportPatch None None None None None None None None None None None (Some p)) w.

Definition cancelExport (w : World) : World :=
  SET_EXPORT_INFO
    (mkExportPatch None None None None (Some true) None None None None None None None) w.

(** [setCurrentFrame], the body under [@throttle(100)]: the throttle only
    decides which calls run. *)
Definition setCurrentFrame (frame : Z) (w : World) : World :=
  if exported (views_exportInfo w) then w
  else SET_EXPORT_INFO
         (mkExportPatch None (Some frame) None None None None None None None None None None) w.

(** The setters of one property of a clip. *)
Definition enableClip (p : string) (b : bool) (w : World) : World :=
  UPDATE_CLIP (patch_enabled p b) w.

Definition disableClip (p : string) (w : World) : World :=
  UPDATE_CLIP (patch_enabled p false) w.

Definition setStartTrim (p : string) (trim : Z) (w : World) : World :=
  UPDATE_CLIP (patch_startTrim p trim) w.

Definition setEndTrim (p : string) (trim : Z) (w : World) : World :=
  UPDATE_CLIP (patch_endTrim p trim) w.

(** [enableOnlySpecificClips]. *)
Definition enableOnlySpecificClips (clips : list TClip) (streamId : option string)
    (w : World) : World :=
  let w1 := foldl (fun acc clip => UPDATE_CLIP (patch_enabled (path clip) false) acc) w clips in
  let r := getClips clips streamId w1 in
  foldl (fun acc clip => UPDATE_CLIP (patch_enabled (path clip) true) acc) r.2 r.1.


(** The handler of [replayBufferFileWrite].  [streamInfoId] is
    [streamInfo?.id] and [elapsed] is [moment().diff(aiRecordingStartTime,
    'seconds')]; [REPLAY_BUFFER_DURATION] is 20. *)
Definition replayBufferFileWrite (clipPath : string) (streamInfoId : option string)
    (elapsed : Z) (w : World) : World :=
  let streamId := truthy streamInfoId in
  let endTime := match streamId with Some _ => Some elapsed | None => None end in
  let startTime :=
    Z.max 0 (match endTime with
             | Some e => if decide (e = 0%Z) then 0%Z else (e - 20)%Z
             | None => 0%Z
             end) in
  addClips [mkNewClip clipPath (Some startTime) endTime] streamId ReplayBuffer w.

(** [migrateHighlightedStreamsToDictionary]: the legacy array is turned
    into the dictionary when the array has elements and the dictionary has
    no key.  An element of the array that holds no object is a [null]
    stream.  The dictionary is always an object ([defaultState] has [{}]),
    so nothing in the [try] block throws and the [catch] is not reached. *)
Definition migrateHighlightedStreamsToDictionary (w : World) : World :=
  match highlightedStreams (state w) with
  | [] => w
  | streams =>
      if decide (highlightedStreamsDictionary (state w) = ∅) then
        with_state
          (with_dictionary
             (fun _ =>
                foldl (fun dict r =>
                         match objects w !! r with
                         | Some stream =>
                             if decide (s_id stream = "") then dict
                             else <[s_id stream := r]> dict
                         | None => dict
                         end) ∅ streams)) w
      else w
  end.

(** Modelled from the spec: [views.highlightedStreams] is a getter of
    [highlighter-views.ts], which is not part of the sources at hand; the
    registry is "keyed by an opaque id", so the getter lists the values of
    the dictionary.  The order of the list plays no part in what follows. *)
Definition views_highlightedStreams (w : World) : list IHighlightedStream :=
  omap (fun kv => objects w !! kv.2) (map_to_list (highlightedStreamsDictionary (state w))).

(** The statement of [init] that ends the detections that were running
    when the application was closed: each gets a new object,
    [{...stream, state: {type: CANCELED_BY_USER, progress: 0}}]. *)
Definition cancelDetection (w : World) (stream : IHighlightedStream) : World :=
  let r := fresh (dom (objects w)) in
  UPDATE_HIGHLIGHTED_STREAM r
    (with_objects
       (<[r := mkStream (s_id stream) CANCELED_BY_USER 0 (s_date stream) (s_title stream)
                 (s_game stream) (abortController stream) (s_path stream)]>) w).

Definition cancelRunningDetections (w : World) : World :=
  foldl cancelDetection w
    (List.filter (fun stream => bool_decide (s_type stream = IN_PROGRESS))
                 (views_highlightedStreams w)).

(** [{ path, loaded }]. *)
Definition patch_loaded (p : string) (b : bool) : TClipPatch :=
  mkPatch p (Some (Some b)) None None None None None None None None None None.

(** [init], once [super.init()] has loaded the persisted state.
    [videosPath] is [path.join(remote.app.getPath('videos'), 'Output.mp4')],
    [None] when fetching it throws.  The persisted [aiInfo] is modelled in
    its current shape only, so the rewrite of the legacy [moments] property
    has nothing to do; making the updater and subscribing to the streaming
    service leave the state alone. *)
Definition init (videosPath : option string) (w : World) : World :=
  let w1 := migrateHighlightedStreamsToDictionary w in
  let w2 :=
    foldl (fun acc c =>
             if fileExists acc (path c) then acc
             else spawn (removeClip_sync (path c) None true acc))
          w1 (views_clips w1) in
  let w3 :=
    if exporting (views_exportInfo w2) then
      SET_EXPORT_INFO
        (mkExportPatch (Some false) None None None (Some false) None None None (Some None)
                       None None None) w2
    else w2 in
  let w4 := cancelRunningDetections w3 in
  let w5 := foldl (fun acc c => UPDATE_CLIP (patch_loaded (path c) false) acc) w4
                  (views_clips w4) in
  match videosPath with
  | Some f => setExportFile f w5
  | None => w5
  end.

(** ** Vocabulary of the further properties *)

(** What an uploader calls back with while an upload is in flight: a
    progress report or, from [uploadFile], an error. *)
Inductive UploadEvent :=
  | Progress (uploadedB totalB : Z)
  | Failure.

Definition upload_event (pf : EUploadPlatform) (w : World) (e : UploadEvent) : World :=
  match e with
  | Progress uploadedB totalB => upload_progress pf uploadedB totalB w
  | Failure => upload_error pf w
  end.

Definition is_failure (e : UploadEvent) : bool :=
  match e with
  | Failure => true
  | Progress _ _ => false
  end.



(** The scrub sprite that a [scrubSprite] property names, that of a clip
    and those of a list of clips, as sets of paths. *)
Definition sprite_at (scrub : option string) : gset string :=
  match truthy scrub with
  | Some s => {[s]}
  | None => ∅
  end.

Definition sprite_of (c : TClip) : gset string := sprite_at (scrubSprite c).

Definition sprites_of (cs : list TClip) : gset string := ⋃ (sprite_of <$> cs).

(** Every key of the stream dictionary holds a stream object whose [id] is
    the key. *)
Definition registry_keyed (w : World) : Prop :=
  map_Forall (fun id r => s_id <$> objects w !! r = Some id)
             (highlightedStreamsDictionary (state w)).

(** A clip with its [enabled] and its [loaded] property set. *)
Definition set_enabled (b : bool) (c : TClip) : TClip :=
  merge_clip c (patch_enabled (path c) b).

Definition set_loaded (b : bool) (c : TClip) : TClip :=
  merge_clip c (patch_loaded (path c) b).

(** The test of [removeClip] for dropping one association and keeping the
    record. *)
Definition only_detaches (removePath : string) (streamId : option string) (clip : TClip)
    (w : World) : bool :=
  match truthy streamId, streamInfo clip with
  | Some _, Some si => fileExists w removePath && bool_decide (1 < size si)
  | _, _ => false
  end.

(** The streams that [removeClip] looks at in its last block: the given
    stream, or the streams of the clip. *)
Definition pruned_ids (streamId : option string) (clip : TClip) : list string :=
  match truthy streamId with
  | Some sid => [sid]
  | None => elements (dom (default ∅ (streamInfo clip)))
  end.

(** What the load pass stores for a clip once [RenderingClip.init()] has
    found [probe] for its file. *)
Definition hydrated (probe : option Z * option string * bool) (c : TClip) : TClip :=
  merge_clip c
    (mkPatch (path c) (Some (Some true)) None None None (Some (Some probe.2))
             None None None (Some probe.1.2) (Some probe.1.1) None).

(** The clips that [generateRenderingClips] selects, in the order in which
    it hands them over: the enabled clips, of the stream by their position
    in the stream, or of the ledger by their global position. *)
Definition selection (streamId : option string) (cs : list TClip) : list TClip :=
  match truthy streamId with
  | Some sid =>
      js_sort (fun a b =>
                 (default 0 (orderPosition <$> assoc_of sid a)
                  - default 0 (orderPosition <$> assoc_of sid b))%Z)
              (List.filter
                 (fun c => default false (enabled c) && bool_decide (is_Some (assoc_of sid c)))
                 (List.filter (in_query streamId) cs))
  | None =>
      js_sort (fun a b =>
                 match globalOrderPosition a, globalOrderPosition b with
                 | Some x, Some y => (x - y)%Z
                 | _, _ => 0%Z
                 end)
              (List.filter (fun c => default false (enabled c)) cs)
  end.

(** No [RenderingClip] is flagged deleted. *)
Definition none_flagged (w : World) : Prop :=
  map_Forall (fun _ rc => rc_deleted rc = false) (renderingClips w).

(** What the load pass makes of a clip of the ledger, given what the probe
    of its file finds. *)
Definition loaded_by (init : string -> option (option Z * option string * bool))
    (streamId : option string) (c : TClip) : TClip :=
  if in_query streamId c && negb (default false (loaded c))
  then match init (path c) with
       | Some probe => hydrated probe c
       | None => c
       end
  else c.

(** * Properties *)

(** ** Dictionaries *)

Section DictFacts.
Context {V : Type}.
Implicit Types (d : dict V) (k : string) (v : V).

Lemma dict_get_set d k k' v :
    dict_get k' (dict_set k v d) = if decide (k' = k) then Some v else dict_get k' d.
Proof.
    induction d as [|[k0 v0] d IH]; simpl.
    - destruct (decide (k' = k)); reflexivity.
    - destruct (decide (k = k0)) as [->|Hk]; simpl.
      + destruct (decide (k' = k0)); reflexivity.
      + destruct (decide (k' = k0)) as [->|Hk'].
        * destruct (decide (k0 = k)); congruence.
        * apply IH.
Qed.

Lemma dict_get_delete d k k' :
    dict_get k' (dict_delete k d) = if decide (k' = k) then None else dict_get k' d.
Proof.
    induction d as [|[k0 v0] d IH]; simpl.
    - destruct (decide (k' = k)); reflexivity.
    - destruct (decide (k = k0)) as [->|Hk]; simpl.
      + rewrite IH. destruct (decide (k' = k0)); reflexivity.
      + destruct (decide (k' = k0)) as [->|Hk'].
        * destruct (decide (k0 = k)); congruence.
        * apply IH.
Qed.

Lemma dict_get_None d k : dict_get k d = None <-> k ∉ dict_keys d.
Proof.
    induction d as [|[k0 v0] d IH]; simpl.
    - split; [intros _; apply not_elem_of_nil | reflexivity].
    - rewrite not_elem_of_cons. destruct (decide (k = k0)) as [->|Hk].
      + split; [discriminate | intros [? _]; congruence].
      + rewrite IH. tauto.
Qed.

Lemma dict_get_Some_elem d k v : dict_get k d = Some v -> (k, v) ∈ d.
Proof.
    induction d as [|[k0 v0] d IH]; simpl; [discriminate|].
    destruct (decide (k = k0)) as [->|Hk].
    - intros [= ->]. apply elem_of_cons. left. reflexivity.
    - intros H. apply elem_of_cons. right. apply IH, H.
Qed.

Lemma dict_values_elem d v : v ∈ dict_values d <-> exists k, (k, v) ∈ d.
Proof.
    unfold dict_values. rewrite list_elem_of_fmap. split.
    - intros [[k v'] [-> H]]. exists k. exact H.
    - intros [k H]. exists (k, v). split; [reflexivity | exact H].
Qed.

  (** A new key goes to the end. *)
Lemma dict_set_fresh d k v : k ∉ dict_keys d -> dict_set k v d = d ++ [(k, v)].
Proof.
    induction d as [|[k0 v0] d IH]; simpl; [reflexivity|].
    rewrite not_elem_of_cons. intros [Hk Hd].
    destruct (decide (k = k0)); [congruence|]. rewrite IH by exact Hd. reflexivity.
Qed.

  (** The first occurrence of a key is the one that is read and written. *)
Lemma dict_get_middle d1 d2 k v :
    k ∉ dict_keys d1 -> dict_get k (d1 ++ (k, v) :: d2) = Some v.
Proof.
    induction d1 as [|[k0 v0] d1 IH]; simpl.
    - intros _. destruct (decide (k = k)); congruence.
    - rewrite not_elem_of_cons. intros [Hk Hd].
      destruct (decide (k = k0)); [congruence | apply IH, Hd].
Qed.

Lemma dict_set_middle d1 d2 k v v' :
    k ∉ dict_keys d1 -> dict_set k v' (d1 ++ (k, v) :: d2) = d1 ++ (k, v') :: d2.
Proof.
    induction d1 as [|[k0 v0] d1 IH]; simpl.
    - intros _. destruct (decide (k = k)); congruence.
    - rewrite not_elem_of_cons. intros [Hk Hd].
      destruct (decide (k = k0)); [congruence|]. rewrite IH by exact Hd. reflexivity.
Qed.

Lemma dict_set_Forall (P : string * V -> Prop) d k v :
  Forall P d -> P (k, v) -> Forall P (dict_set k v d).
Proof.
  intros Hd Hkv. induction d as [|[k0 v0] d IH]; simpl.
  - constructor; [exact Hkv | constructor].
  - inversion Hd as [|? ? H0 Hd']; subst.
    destruct (decide (k = k0)); constructor; auto.
Qed.

Lemma dict_delete_Forall (P : string * V -> Prop) d k :
  Forall P d -> Forall P (dict_delete k d).
Proof.
  intros Hd. induction d as [|[k0 v0] d IH]; simpl; [constructor|].
  inversion Hd as [|? ? H0 Hd']; subst.
  destruct (decide (k = k0)); [auto | constructor; auto].
Qed.

Lemma dict_keys_app d1 d2 : dict_keys (d1 ++ d2) = dict_keys d1 ++ dict_keys d2.
Proof. apply fmap_app. Qed.

Lemma dict_values_app d1 d2 : dict_values (d1 ++ d2) = dict_values d1 ++ dict_values d2.
Proof. apply fmap_app. Qed.
End DictFacts.

(** ** The [exported] flag (C10) *)

Lemma commit_changes_export_input m w :
  changes_export_input m = true -> exported (views_exportInfo (commit m w)) = false.
Proof. destruct m; simpl; intros H; try discriminate; reflexivity. Qed.

Lemma commit_SET_EXPORT_INFO_exported p w :
  exported (views_exportInfo (commit (M_SET_EXPORT_INFO p) w)) = true ->
  p_exported p = Some true.
Proof.
  simpl. destruct (p_exported p) as [[]|]; simpl; intros H; congruence.
Qed.

Lemma commit_other m w :
  changes_export_input m = false -> (forall p, m <> M_SET_EXPORT_INFO p) ->
  export_input (commit m w) = export_input w
  /\ exported (views_exportInfo (commit m w)) = exported (views_exportInfo w).
Proof.
  intros Hc Hp. destruct m; simpl in Hc; try discriminate; simpl.
  - exfalso. eapply Hp. reflexivity.
  - split; reflexivity.
  - split; reflexivity.
  - split; reflexivity.
  - split; reflexivity.
  - split; reflexivity.
  - unfold ADD_HIGHLIGHTED_STREAM. destruct (objects w !! streamInfo0); split; reflexivity.
  - unfold UPDATE_HIGHLIGHTED_STREAM. destruct (objects w !! streamInfo0); split; reflexivity.
  - split; reflexivity.
  - split; reflexivity.
  - split; reflexivity.
  - split; reflexivity.
  - split; reflexivity.
Qed.

Lemma commits_snoc ms m w : commits (ms ++ [m]) w = commit m (commits ms w).
Proof. unfold commits. rewrite foldl_app. reflexivity. Qed.

(** C10.  Each commit that adds, updates or removes a clip, or that changes
    the transition, audio or video settings, leaves [exported] false.  So
    whenever [exported] is read true after a sequence of commits, the
    sequence splits at the point where the flag came to be true (the start,
    or a [SET_EXPORT_INFO] with [exported: true]), none of those commits
    comes after that point, and the clip set and the three settings are what
    they were at that point. *)
Theorem exported_only_while_inputs_unchanged (m0 : Mutation) (ms : list Mutation) (w : World) :
  (changes_export_input m0 = true ->
   exported (views_exportInfo (commit m0 w)) = false)
  /\ (exported (views_exportInfo (commits ms w)) = true ->
      exists pre post,
        ms = pre ++ post
        /\ (pre = [] /\ exported (views_exportInfo w) = true
            \/ exists pre' m, pre = pre' ++ [m] /\ sets_exported m = true)
        /\ Forall (fun m => changes_export_input m = false) post
        /\ export_input (commits ms w) = export_input (commits pre w)).
Proof.
  split; [apply commit_changes_export_input|].
  clear m0. induction ms as [|m ms IH] using rev_ind; intros Hex.
  - exists [], []. repeat split; auto.
  - rewrite commits_snoc in Hex.
    destruct (changes_export_input m) eqn:Hc.
    { rewrite commit_changes_export_input in Hex by exact Hc. discriminate. }
    destruct (sets_exported m) eqn:Hs.
    { exists (ms ++ [m]), []. rewrite app_nil_r. repeat split; auto.
      right. exists ms, m. auto. }
    assert (Hp : forall p, m <> M_SET_EXPORT_INFO p).
    { intros p ->. apply commit_SET_EXPORT_INFO_exported in Hex.
      simpl in Hs. rewrite Hex in Hs. rewrite bool_decide_eq_false in Hs. congruence. }
    destruct (commit_other m (commits ms w) Hc Hp) as [Hin Hsame].
    rewrite Hsame in Hex. destruct (IH Hex) as (pre & post & -> & Hpre & Hpost & Heq).
    exists pre, (post ++ [m]). rewrite app_assoc. repeat split; auto.
    + apply Forall_app. split; [exact Hpost | constructor; [exact Hc | constructor]].
    + rewrite commits_snoc, Hin. exact Heq.
Qed.

Lemma exported_only_while_inputs_unchanged_witness :
  let w := initialWorld ∅ in
  let done := mkExportPatch (Some false) None None None None None None (Some true)
                            None None None None in
  let ms := [M_ADD_CLIP (bare_clip "a"); M_SET_EXPORT_INFO done; M_SET_ERROR "late"] in
  exported (views_exportInfo (commit (M_REMOVE_CLIP "a") w)) = false
  /\ exists pre post,
       ms = pre ++ post
       /\ (pre = [] /\ exported (views_exportInfo w) = true
           \/ exists pre' m, pre = pre' ++ [m] /\ sets_exported m = true)
       /\ Forall (fun m => changes_export_input m = false) post
       /\ export_input (commits ms w) = export_input (commits pre w).
Proof.
  intros w done ms.
  destruct (exported_only_while_inputs_unchanged (M_REMOVE_CLIP "a") ms w) as [H1 H2].
  split; [apply H1; reflexivity | apply H2; reflexivity].
Defined.

(** ** Uploads (C9) *)

(** [uploadYoutube] turns a call down, before it commits anything, as soon
    as an upload of any platform is active. *)
Lemma uploadYoutube_start_rejects_while_uploading (youtubeLinked : bool) (w : World) :
  existsb uploading (views_uploadInfo w) = true ->
  uploadYoutube_start youtubeLinked w = Threw w.
Proof.
  intros H. unfold uploadYoutube_start.
  destruct youtubeLinked; simpl; [|reflexivity].
  destruct (exported (views_exportInfo w)); simpl; [|reflexivity].
  rewrite H. reflexivity.
Qed.

(** [uploadStorage] never turns a call down. *)
Lemma uploadStorage_start_never_rejects (pf : EUploadPlatform) (w : World) :
  exists w', uploadStorage_start pf w = Returned w'
             /\ existsb uploading (views_uploadInfo w') = true.
Proof.
  eexists. split; [reflexivity|].
  unfold views_uploadInfo, SET_UPLOAD_INFO. simpl.
  induction (uploads (state w)) as [|u us IH]; simpl.
  - reflexivity.
  - destruct (decide (platform u = pf)); simpl; [reflexivity|].
    rewrite IH. apply orb_true_r.
Qed.

(** C9, at the failing input.  An upload of the platform ["crossclip"] is
    active and its cancellation has been requested.  A second
    [uploadStorage] for the same platform is not rejected: it returns,
    after it has overwritten the record of the running upload (the
    cancellation request is lost).  [uploadYoutube] in the same situation
    throws and leaves the state as it was. *)
Theorem uploadStorage_second_upload_not_rejected :
  let w := uploadingWorld "crossclip" in
  active_uploads "crossclip" w = [mkUploadInfo "crossclip" true 10 100 true None false]
  /\ (exists w', uploadStorage_start "crossclip" w = Returned w'
                 /\ views_uploadInfo w'
                    = [mkUploadInfo "crossclip" true 10 100 false None false])
  /\ uploadYoutube_start true (SET_EXPORT_INFO
                                 (mkExportPatch None None None None None None None
                                                (Some true) None None None None)
                                 (uploadingWorld YOUTUBE))
     = Threw (SET_EXPORT_INFO
                (mkExportPatch None None None None None None None
                               (Some true) None None None None)
                (uploadingWorld YOUTUBE)).
Proof.
  split; [reflexivity|]. split.
  - eexists. split; reflexivity.
  - reflexivity.
Qed.

(** ** Reordering a stream (C4, C5) *)

(** C5, at the failing input.  The clip ["c"] belongs to the streams
    ["S"] and ["T"].  After [sortStreamClipsByStartTime] for ["S"] its
    association with ["T"] is gone: the update stores a [streamInfo] that
    has the one key ["S"].  The other properties of the clip are
    untouched. *)
Theorem sortStreamClipsByStartTime_drops_other_streams :
  let w := addClips [replayClip "c" 7 27] (Some "T") ReplayBuffer
             (addClips [replayClip "c" 5 25] (Some "S") ReplayBuffer
                (initialWorld {["c"]})) in
  let w' := sortStreamClipsByStartTime (views_clips w) "S" w in
  (assoc_of "T" <$> dict_get "c" (clips (state w)))
    = Some (Some (mkStreamInfo 1 (Some 7%Z) (Some 27%Z)))
  /\ (assoc_of "T" <$> dict_get "c" (clips (state w'))) = Some None
  /\ (assoc_of "S" <$> dict_get "c" (clips (state w')))
     = Some (Some (mkStreamInfo 0 (Some 5%Z) (Some 25%Z)))
  /\ ((fun c => (path c, enabled c, startTrim c, endTrim c, globalOrderPosition c, source c))
        <$> dict_get "c" (clips (state w')))
     = ((fun c => (path c, enabled c, startTrim c, endTrim c, globalOrderPosition c, source c))
        <$> dict_get "c" (clips (state w))).
Proof. vm_compute. repeat split; reflexivity. Qed.

(** The scenario of C4: two replay-buffer clips of stream ["S"] that start
    at 5 and 15, one call each, as the replay-buffer handler makes them. *)
Lemma scenario_replay_positions :
  let w := addClips [replayClip "r15" 15 35] (Some "S") ReplayBuffer
             (addClips [replayClip "r5" 5 25] (Some "S") ReplayBuffer
                (initialWorld {["r5"; "r15"; "a2"; "a30"]})) in
  streamPositions "S" w = [("r5", 1%Z); ("r15", 2%Z)]
  /\ streamPositions "S" w <> [("r5", 0%Z); ("r15", 1%Z)].
Proof. vm_compute. split; [reflexivity | discriminate]. Qed.

(** C4, as the code has it.  The two replay-buffer clips get the positions
    1 and 2 in the stream (1 and 3 when they come in one call).  After the
    AI clips that start at 2 and 30 have been added with [addAiClips], the
    four clips have the positions 0, 1, 2, 3 in ascending start time
    2, 5, 15, 30. *)
Theorem scenario_reorder_by_start_time :
  let w0 := initialWorld {["r5"; "r15"; "a2"; "a30"]} in
  let w1 := addClips [replayClip "r15" 15 35] (Some "S") ReplayBuffer
              (addClips [replayClip "r5" 5 25] (Some "S") ReplayBuffer w0) in
  let w1' := addClips [replayClip "r5" 5 25; replayClip "r15" 15 35] (Some "S")
               ReplayBuffer w0 in
  let w2 := addAiClips_ingest [aiClip "a2" 2 12; aiClip "a30" 30 40] "S" w1 in
  let w2' := addAiClips_ingest [aiClip "a2" 2 12; aiClip "a30" 30 40] "S" w1' in
  streamPositions "S" w1 = [("r5", 1%Z); ("r15", 2%Z)]
  /\ streamPositions "S" w1' = [("r5", 1%Z); ("r15", 3%Z)]
  /\ streamPositions "S" w2 = [("r5", 1%Z); ("r15", 2%Z); ("a2", 0%Z); ("a30", 3%Z)]
  /\ streamOrder "S" w2
     = [("a2", Some 2%Z); ("r5", Some 5%Z); ("r15", Some 15%Z); ("a30", Some 30%Z)]
  /\ streamPositions "S" w2' = streamPositions "S" w2.
Proof. vm_compute. repeat split; reflexivity. Qed.

(** ** The guards of [export] (C8) *)

Lemma removeClip_prune_bystanders clip sid w :
  bystanders (removeClip_prune clip sid w) = bystanders w.
Proof.
  unfold removeClip_prune.
  assert (H : forall ids w0,
             bystanders
               (foldl (fun acc id =>
                         if stream_in_use id acc then acc
                         else REMOVE_HIGHLIGHTED_STREAM id acc) w0 ids)
             = bystanders w0).
  { induction ids as [|id ids IH]; intros w0; simpl; [reflexivity|].
    rewrite IH. destruct (stream_in_use id w0); reflexivity. }
  destruct (streamInfo clip), sid; try apply H. reflexivity.
Qed.

Lemma removeClip_sync_bystanders p sid del w :
  bystanders (spawn (removeClip_sync p sid del w)) = bystanders w.
Proof.
  unfold removeClip_sync.
  destruct (dict_get p (clips (state w))) as [clip|]; [|reflexivity].
  destruct (match truthy sid, streamInfo clip with
            | Some sid0, Some si =>
                if fileExists w p && bool_decide (1 < size si)
                then Some (sid0, si) else None
            | _, _ => None
            end) as [[sid0 si]|].
  - unfold spawn; simpl. rewrite removeClip_prune_bystanders. reflexivity.
  - destruct del; unfold spawn; simpl.
    + unfold removeScrubFile.
      destruct (truthy (scrubSprite clip)); simpl;
        destruct (fileExists _ p); reflexivity.
    + rewrite removeClip_prune_bystanders.
      unfold removeScrubFile. destruct (truthy (scrubSprite clip)); reflexivity.
Qed.

Lemma getClips_bystanders cs sid w :
  bystanders (getClips cs sid w).2 = bystanders w.
Proof.
  revert w. induction cs as [|c cs IH]; intros w; simpl; [reflexivity|].
  destruct (decide (path c = "add")); [apply IH|].
  destruct (fileExists w (path c)); simpl; [apply IH|].
  rewrite IH. apply removeClip_sync_bystanders.
Qed.

Section ExportGuards.
Variable supportedFileType : string -> bool.
Variable init : string -> option (option Z * option string * bool).
Variable reset : string -> option bool.

Lemma loadClips_scan_bystanders cs sid w :
  bystanders (loadClips_scan supportedFileType cs sid w).1 = bystanders w.
Proof.
  revert w. induction cs as [|c cs IH]; intros w; simpl; [reflexivity|].
  destruct (fileExists w (path c)); simpl.
  - rewrite IH. destruct (supportedFileType (path c)); [reflexivity|].
    transitivity (bystanders (spawn (removeClip_sync (path c) sid true w)));
      [reflexivity | apply removeClip_sync_bystanders].
  - apply removeClip_sync_bystanders.
Qed.

Lemma loadClips_hydrate_bystanders items w :
  bystanders (world_of (loadClips_hydrate init items w)) = bystanders w.
Proof.
  revert w. induction items as [|c items IH]; intros w; simpl; [reflexivity|].
  destruct (renderingClips w !! path c) as [rc|]; [|reflexivity].
  destruct (init (path c)) as [[[d scrub] del]|]; [|reflexivity].
  rewrite IH. unfold probed. destruct (truthy scrub); reflexivity.
Qed.

Lemma loadClips_bystanders sid w :
  bystanders (world_of (loadClips supportedFileType init sid w))
  = bystanders w.
Proof.
  unfold loadClips, loadClips_resume.
  destruct (loadClips_scan supportedFileType (getClips (views_clips w) sid w).1 sid
              (getClips (views_clips w) sid w).2) as [w1 b] eqn:Hscan.
  assert (H1 : bystanders w1 = bystanders w).
  { change w1 with (w1, b).1. rewrite <- Hscan, loadClips_scan_bystanders.
    apply getClips_bystanders. }
  simpl. destruct b; simpl; [|exact H1].
  rewrite loadClips_hydrate_bystanders. exact H1.
Qed.

(** C8, as the code has it.  When the load pass of [export] completes and
    either an export was already running at the call or some target clip is
    still not loaded, [export] returns without throwing, the [exporting]
    flag keeps the value it had at the call (true in the first case) and no
    job is handed to the rendering engine. *)
Theorem export_guarded (preview : bool) (streamId : option string)
    (orientation : EOrientation) (w w1 : World) :
  loadClips supportedFileType init streamId (with_renderingClips (fun _ => ∅) w)
    = Returned w1 ->
  exporting (views_exportInfo w) = true \/ hasUnloadedClips streamId w1 = true ->
  export supportedFileType init reset preview streamId orientation w = Returned w1
  /\ exporting (views_exportInfo w1) = exporting (views_exportInfo w)
  /\ renderJobs w1 = renderJobs w.
Proof.
  intros Hload Hguard.
  pose proof (loadClips_bystanders streamId (with_renderingClips (fun _ => ∅) w)) as Hview.
  rewrite Hload in Hview. injection Hview as Hexp Hjobs _.
  split; [|split; [exact Hexp | exact Hjobs]].
  unfold export. rewrite Hload.
  destruct (hasUnloadedClips streamId w1); [reflexivity|].
  destruct Hguard as [Hrun|Hun]; [|discriminate].
  unfold views_exportInfo in *. simpl in Hexp. rewrite Hexp, Hrun. reflexivity.
Qed.
End ExportGuards.

Lemma export_guarded_witness :
  let w := markExporting oneClipWorld in
  let w1 := world_of (loadClips anyFileType probeOk None
                        (with_renderingClips (fun _ => ∅) w)) in
  export anyFileType probeOk resetOk false None HORIZONTAL w = Returned w1
  /\ exporting (views_exportInfo w1) = exporting (views_exportInfo w)
  /\ renderJobs w1 = renderJobs w.
Proof.
  intros w w1.
  apply (export_guarded anyFileType probeOk resetOk false None HORIZONTAL w w1).
  - vm_compute. reflexivity.
  - left. reflexivity.
Defined.

(** Without a guard in the way the same call hands a job to the rendering
    engine and leaves [exporting] true. *)
Example export_dispatches :
  let w' := world_of (export anyFileType probeOk resetOk false None HORIZONTAL oneClipWorld) in
  exporting (views_exportInfo w') = true
  /\ job_clips <$> renderJobs w' = [[("a.mp4", Some 0%Z, Some 0%Z)]].
Proof. vm_compute. split; reflexivity. Qed.

(** The other guard: a record that the load pass cannot load (here the
    ['add'] placeholder, which the query skips) stops the export, and
    [exporting] stays false. *)
Example export_with_unloaded_clip :
  let w := addClips [mkNewClip "add" None None] None Manual (initialWorld ∅) in
  let w' := world_of (export anyFileType probeOk resetOk false None HORIZONTAL w) in
  hasUnloadedClips None w' = true
  /\ exporting (views_exportInfo w') = false
  /\ renderJobs w' = [].
Proof. vm_compute. repeat split; reflexivity. Qed.

(** C8 as it is worded fails when an export is already running: the call
    returns and dispatches nothing, but [exporting] is true afterwards, as
    it was before. *)
Lemma export_while_exporting_leaves_exporting_true :
  let w := markExporting oneClipWorld in
  exists w',
    export anyFileType probeOk resetOk false None HORIZONTAL w = Returned w'
    /\ exporting (views_exportInfo w) = true
    /\ exporting (views_exportInfo w') <> false
    /\ renderJobs w' = [].
Proof.
  eexists. split; [vm_compute; reflexivity|].
  vm_compute. repeat split; [discriminate].
Qed.

(** ** Querying heals the ledger (C7) *)

Lemma removeClip_prune_files clip sid w : files (removeClip_prune clip sid w) = files w.
Proof.
  unfold removeClip_prune.
  assert (H : forall ids w0,
             files (foldl (fun acc id =>
                             if stream_in_use id acc then acc
                             else REMOVE_HIGHLIGHTED_STREAM id acc) w0 ids)
             = files w0).
  { induction ids as [|id ids IH]; intros w0; simpl; [reflexivity|].
    rewrite IH. destruct (stream_in_use id w0); reflexivity. }
  destruct (streamInfo clip), sid; try apply H. reflexivity.
Qed.

Lemma removeScrubFile_files s w : files (removeScrubFile s w) = files w.
Proof. unfold removeScrubFile. destruct (truthy s); reflexivity. Qed.

(** The one file that [removeClip] unlinks before it is suspended is the
    file of the clip, when it takes the whole record out and is asked to
    delete from the system. *)
Lemma removeClip_sync_files p sid del w :
  files (spawn (removeClip_sync p sid del w)) = files w
  \/ files (spawn (removeClip_sync p sid del w)) = files w ∖ {[p]}.
Proof.
  unfold removeClip_sync.
  destruct (dict_get p (clips (state w))) as [clip|]; [|left; reflexivity].
  destruct (match truthy sid, streamInfo clip with
            | Some sid0, Some si =>
                if fileExists w p && bool_decide (1 < size si)
                then Some (sid0, si) else None
            | _, _ => None
            end) as [[sid0 si]|].
  - left. unfold spawn; simpl. rewrite removeClip_prune_files. reflexivity.
  - destruct del; unfold spawn; simpl.
    + destruct (fileExists _ p); [right | left]; simpl;
        rewrite removeScrubFile_files; reflexivity.
    + left. rewrite removeClip_prune_files. simpl.
      rewrite removeScrubFile_files. reflexivity.
Qed.

(** Unlinking a file that is not there changes nothing. *)
Lemma removeClip_sync_files_missing p sid del w :
  fileExists w p = false ->
  files (spawn (removeClip_sync p sid del w)) = files w.
Proof.
  intros Hgone.
  destruct (removeClip_sync_files p sid del w) as [H|H]; rewrite H; [reflexivity|].
  apply bool_decide_eq_false in Hgone.
  apply difference_disjoint_L, disjoint_singleton_r. exact Hgone.
Qed.

Lemma removeScrubFile_fileExists s w p :
  fileExists (removeScrubFile s w) p = fileExists w p.
Proof. unfold fileExists. rewrite removeScrubFile_files. reflexivity. Qed.

(** What [removeClip] does up to its [await] for a clip whose file is
    gone. *)
Lemma removeClip_sync_gone p sid clip w :
  fileExists w p = false ->
  dict_get p (clips (state w)) = Some clip ->
  removeClip_sync p sid true w
  = (with_renderingClips (delete p) (removeScrubFile (scrubSprite clip) (REMOVE_CLIP p w)),
     Some (RemoveClipResume p sid clip false)).
Proof.
  intros Hgone Hp. unfold removeClip_sync. rewrite Hp, Hgone. simpl.
  replace (match truthy sid, streamInfo clip with
           | Some sid0, Some si => None
           | _, _ => None
           end) with (@None (string * gmap string TStreamInfo))
    by (destruct (truthy sid), (streamInfo clip); reflexivity).
  replace (fileExists (with_renderingClips (delete p)
                         (removeScrubFile (scrubSprite clip) (REMOVE_CLIP p w))) p)
    with false; [reflexivity|].
  symmetry. unfold fileExists in *. simpl. rewrite removeScrubFile_files. exact Hgone.
Qed.

Lemma getClips_files cs sid w : files (getClips cs sid w).2 = files w.
Proof.
  revert w. induction cs as [|c cs IH]; intros w; simpl; [reflexivity|].
  destruct (decide (path c = "add")); [apply IH|].
  destruct (fileExists w (path c)) eqn:Hex; simpl; [apply IH|].
  rewrite IH. apply removeClip_sync_files_missing. exact Hex.
Qed.

(** A removal for a file that is gone takes the whole record out. *)
Lemma removeClip_sync_missing p sid w q :
  fileExists w p = false ->
  dict_get q (clips (state (spawn (removeClip_sync p sid true w))))
  = if decide (q = p) then None else dict_get q (clips (state w)).
Proof.
  intros Hgone.
  destruct (dict_get p (clips (state w))) as [clip|] eqn:Hp.
  - rewrite (removeClip_sync_gone p sid clip w Hgone Hp).
    unfold spawn, removeScrubFile; simpl.
    destruct (truthy (scrubSprite clip)); simpl; apply dict_get_delete.
  - unfold removeClip_sync. rewrite Hp.
    unfold spawn; simpl. destruct (decide (q = p)) as [->|]; [exact Hp | reflexivity].
Qed.

(** [getClips] only ever takes records out. *)
Lemma getClips_ledger_shrinks cs sid w q c :
  dict_get q (clips (state (getClips cs sid w).2)) = Some c ->
  dict_get q (clips (state w)) = Some c.
Proof.
  revert w. induction cs as [|c0 cs IH]; intros w; simpl; [auto|].
  destruct (decide (path c0 = "add")); [apply IH|].
  destruct (fileExists w (path c0)) eqn:Hex; simpl; [apply IH|].
  intros H. apply IH in H. rewrite removeClip_sync_missing in H by exact Hex.
  destruct (decide (q = path c0)); [discriminate | exact H].
Qed.

Lemma getClips_removes_missing cs sid w c :
  c ∈ cs -> path c <> "add" -> fileExists w (path c) = false ->
  dict_get (path c) (clips (state (getClips cs sid w).2)) = None.
Proof.
  revert w. induction cs as [|c0 cs IH]; intros w Hin Hadd Hgone; simpl.
  - apply elem_of_nil in Hin. destruct Hin.
  - apply elem_of_cons in Hin.
    destruct (decide (path c0 = "add")) as [Hc0|Hc0].
    + destruct Hin as [->|Hin]; [congruence | apply IH; assumption].
    + destruct (fileExists w (path c0)) eqn:Hex; simpl.
      * destruct Hin as [->|Hin]; [congruence | apply IH; assumption].
      * set (w' := spawn (removeClip_sync (path c0) sid true w)).
        assert (Hgone' : fileExists w' (path c) = false).
        { unfold fileExists, w'. rewrite removeClip_sync_files_missing by exact Hex.
          exact Hgone. }
        destruct Hin as [->|Hin]; [|apply IH; assumption].
        destruct (dict_get (path c0) (clips (state (getClips cs sid w').2))) as [c1|] eqn:Hq;
          [|reflexivity].
        apply getClips_ledger_shrinks in Hq. unfold w' in Hq.
        rewrite removeClip_sync_missing in Hq by exact Hex.
        destruct (decide (path c0 = path c0)); congruence.
Qed.

Lemma getClips_returns_existing cs sid w :
  Forall (fun c => fileExists w (path c) = true) (getClips cs sid w).1.
Proof.
  revert w. induction cs as [|c0 cs IH]; intros w; simpl; [constructor|].
  destruct (decide (path c0 = "add")); [apply IH|].
  destruct (fileExists w (path c0)) eqn:Hex; simpl.
  - destruct (match truthy sid with
              | Some sid0 => bool_decide (is_Some (assoc_of sid0 c0))
              | None => true
              end); [constructor; [exact Hex | apply IH] | apply IH].
  - eapply Forall_impl; [apply IH|]. intros c Hc. simpl in Hc.
    unfold fileExists in Hc |- *.
    rewrite removeClip_sync_files_missing in Hc by exact Hex. exact Hc.
Qed.

(** The filter of [getClips] skips the ['add'] placeholder: it does not
    return it and does not take it out of the ledger. *)
Lemma getClips_skips_add cs sid w :
  Forall (fun c => path c <> "add") (getClips cs sid w).1
  /\ dict_get "add" (clips (state (getClips cs sid w).2)) = dict_get "add" (clips (state w)).
Proof.
  revert w. induction cs as [|c cs IH]; intros w; simpl; [split; [constructor | reflexivity]|].
  destruct (decide (path c = "add")) as [Hc|Hc]; [apply IH|].
  destruct (fileExists w (path c)) eqn:Hex; simpl.
  - destruct (IH w) as (Hret & Hadd). split; [|exact Hadd].
    destruct (match truthy sid with
              | Some sid0 => bool_decide (is_Some (assoc_of sid0 c))
              | None => true
              end); [constructor; assumption | exact Hret].
  - destruct (IH (spawn (removeClip_sync (path c) sid true w))) as (Hret & Hadd).
    split; [exact Hret|]. rewrite Hadd, removeClip_sync_missing by exact Hex.
    destruct (decide ("add" = path c)); [congruence | reflexivity].
Qed.

(** C7, as the code has it.  Take a ledger whose records sit under their
    own paths.  [getClips] on the clips of the ledger never returns a clip
    whose file is gone, and when it returns every clip that is still in the
    ledger has its file, save a record under the path ['add'].  That record
    the filter skips before it looks at the file system: no returned clip
    has the path ['add'], and what the ledger holds under ['add'] is what
    it held before the call. *)
Theorem getClips_self_healing (streamId : option string) (w : World) :
  wf_ledger w ->
  let r := getClips (views_clips w) streamId w in
  Forall (fun c => fileExists r.2 (path c) = true) r.1
  /\ (forall p, p <> "add" -> in_ledger p r.2 = true -> fileExists r.2 p = true)
  /\ Forall (fun c => path c <> "add") r.1
  /\ dict_get "add" (clips (state r.2)) = dict_get "add" (clips (state w)).
Proof.
  intros Hwf r. split; [|split; [|apply getClips_skips_add]].
  - eapply Forall_impl; [apply getClips_returns_existing|]. intros c Hc. simpl in Hc.
    unfold fileExists in *. unfold r. rewrite getClips_files. exact Hc.
  - intros p Hadd Hin. unfold in_ledger in Hin. apply bool_decide_eq_true in Hin.
    destruct Hin as [c Hc].
    destruct (fileExists r.2 p) eqn:Hex; [reflexivity|].
    pose proof (getClips_ledger_shrinks _ _ _ _ _ Hc) as Hw.
    apply dict_get_Some_elem in Hw.
    assert (Hp : path c = p).
    { unfold wf_ledger in Hwf. rewrite Forall_forall in Hwf. apply (Hwf _ Hw). }
    assert (Hv : c ∈ views_clips w).
    { apply dict_values_elem. exists p. exact Hw. }
    assert (Hgone : fileExists w (path c) = false).
    { rewrite Hp. unfold fileExists in *. unfold r in Hex. rewrite getClips_files in Hex.
      exact Hex. }
    pose proof (getClips_removes_missing _ streamId _ _ Hv ltac:(congruence) Hgone) as Hnone.
    rewrite Hp in Hnone. unfold r in Hc. congruence.
Qed.

Lemma getClips_self_healing_witness :
  let w := with_files (fun _ => {["kept.mp4"]})
             (addClips [mkNewClip "kept.mp4" None None; mkNewClip "gone.mp4" None None;
                        mkNewClip "add" None None]
                None Manual (initialWorld {["kept.mp4"; "gone.mp4"]})) in
  let r := getClips (views_clips w) None w in
  Forall (fun c => fileExists r.2 (path c) = true) r.1
  /\ (forall p, p <> "add" -> in_ledger p r.2 = true -> fileExists r.2 p = true)
  /\ Forall (fun c => path c <> "add") r.1
  /\ dict_get "add" (clips (state r.2)) = dict_get "add" (clips (state w)).
Proof.
  intros w. apply (getClips_self_healing None w).
  vm_compute. repeat constructor.
Defined.

(** C7 as it is worded fails on a ledger that holds a record under
    ['add']: no file of that name exists, the query does not return the
    record, and the record is still in the ledger when the query is
    done. *)
Lemma getClips_keeps_add_placeholder :
  let w := addClips [mkNewClip "add" None None] None Manual (initialWorld ∅) in
  let r := getClips (views_clips w) None w in
  r.1 = [] /\ fileExists r.2 "add" = false /\ in_ledger "add" r.2 = true.
Proof. vm_compute. repeat split; reflexivity. Qed.

(** ** Removing a clip (C6) *)

Lemma removal_stable_refl w : removal_stable w w.
Proof. intros Hwf. repeat split; auto. Qed.

Lemma removal_stable_trans w1 w2 w3 :
  removal_stable w1 w2 -> removal_stable w2 w3 -> removal_stable w1 w3.
Proof.
  intros H12 H23 Hwf. destruct (H12 Hwf) as (Hwf2 & A1 & B1 & C1).
  destruct (H23 Hwf2) as (Hwf3 & A2 & B2 & C2). repeat split; auto.
Qed.

Lemma removeClip_prune_ledger clip sid w :
  clips (state (removeClip_prune clip sid w)) = clips (state w)
  /\ renderingClips (removeClip_prune clip sid w) = renderingClips w
  /\ sprites (removeClip_prune clip sid w) = sprites w.
Proof.
  unfold removeClip_prune.
  assert (H : forall ids w0,
             let w' := foldl (fun acc id =>
                                if stream_in_use id acc then acc
                                else REMOVE_HIGHLIGHTED_STREAM id acc) w0 ids in
             clips (state w') = clips (state w0)
             /\ renderingClips w' = renderingClips w0 /\ sprites w' = sprites w0).
  { induction ids as [|id ids IH]; intros w0; simpl; [auto|].
    destruct (IH (if stream_in_use id w0 then w0 else REMOVE_HIGHLIGHTED_STREAM id w0))
      as (-> & -> & ->).
    destruct (stream_in_use id w0); auto. }
  destruct (streamInfo clip), sid; try apply H. auto.
Qed.

Lemma removal_stable_prune clip sid w : removal_stable w (removeClip_prune clip sid w).
Proof.
  destruct (removeClip_prune_ledger clip sid w) as (Hc & Hr & Hp).
  unfold removal_stable, wf_ledger. rewrite Hc, Hr, Hp. auto.
Qed.

Lemma wf_ledger_get w p clip :
  wf_ledger w -> dict_get p (clips (state w)) = Some clip -> path clip = p.
Proof.
  intros Hwf Hp. apply dict_get_Some_elem in Hp.
  unfold wf_ledger in Hwf. rewrite Forall_forall in Hwf. apply (Hwf _ Hp).
Qed.

Lemma removal_stable_REMOVE_CLIP p w : removal_stable w (REMOVE_CLIP p w).
Proof.
  intros Hwf. repeat split; simpl; auto.
  - apply dict_delete_Forall, Hwf.
  - intros q Hq. rewrite dict_get_delete. destruct (decide (q = p)); auto.
Qed.

Lemma removal_stable_removeScrubFile s w : removal_stable w (removeScrubFile s w).
Proof.
  intros Hwf. unfold removeScrubFile.
  destruct (truthy s); (split; [exact Hwf|]); (split; [auto|]); (split; [auto|]); [|auto].
  intros t Ht. simpl. intros Hin. apply elem_of_difference in Hin as [Hin _]. auto.
Qed.

Lemma removal_stable_sync p sid del w :
  removal_stable w (spawn (removeClip_sync p sid del w)).
Proof.
  unfold removeClip_sync.
  destruct (dict_get p (clips (state w))) as [clip|] eqn:Hp; [|apply removal_stable_refl].
  destruct (match truthy sid, streamInfo clip with
            | Some sid0, Some si =>
                if fileExists w p && bool_decide (1 < size si)
                then Some (sid0, si) else None
            | _, _ => None
            end) as [[sid0 si]|].
  - unfold spawn; simpl. eapply removal_stable_trans; [|apply removal_stable_prune].
    intros Hwf. pose proof (wf_ledger_get _ _ _ Hwf Hp) as Hpath.
    repeat split; simpl; auto.
    + apply dict_set_Forall; [exact Hwf | reflexivity].
    + intros q Hq. rewrite dict_get_set.
      destruct (decide (q = path clip)) as [->|]; [congruence | exact Hq].
  - assert (H3 : removal_stable w
                   (with_renderingClips (delete p)
                      (removeScrubFile (scrubSprite clip) (REMOVE_CLIP p w)))).
    { eapply removal_stable_trans; [apply removal_stable_REMOVE_CLIP|].
      eapply removal_stable_trans; [apply removal_stable_removeScrubFile|].
      intros Hwf. split; [exact Hwf|]. split; [auto|]. split; [|auto].
      intros q Hq. simpl. rewrite lookup_delete. destruct (decide (p = q)); auto. }
    destruct del; unfold spawn; simpl.
    + eapply removal_stable_trans; [exact H3|].
      intros Hwf. destruct (fileExists _ p); (split; [exact Hwf | auto]).
    + eapply removal_stable_trans; [exact H3 | apply removal_stable_prune].
Qed.

Lemma removal_stable_getClips cs sid w : removal_stable w (getClips cs sid w).2.
Proof.
  revert w. induction cs as [|c cs IH]; intros w; simpl; [apply removal_stable_refl|].
  destruct (decide (path c = "add")); [apply IH|].
  destruct (fileExists w (path c)); simpl; [apply IH|].
  eapply removal_stable_trans; [apply removal_stable_sync | apply IH].
Qed.

Lemma removal_stable_resume p sid clip unlinked w :
  removal_stable w (removeClip_resume p sid clip unlinked w).
Proof.
  unfold removeClip_resume.
  eapply removal_stable_trans; [|apply removal_stable_prune].
  destruct unlinked; [|apply removal_stable_refl].
  destruct (decide (length (getClips (views_clips w) sid w).1 = 0)).
  - eapply removal_stable_trans; [apply removal_stable_getClips|].
    intros Hwf; split; [exact Hwf | auto].
  - apply removal_stable_getClips.
Qed.

Lemma fully_removed_stable clip w w' :
  wf_ledger w -> removal_stable w w' -> fully_removed clip w -> fully_removed clip w'.
Proof.
  intros Hwf Hst (Hl & Hr & Hp). destruct (Hst Hwf) as (_ & A & B & C).
  repeat split; auto.
Qed.

(** The branch of [removeClip] that takes the record out, run to its end. *)
Lemma removeClip_full p sid del clip w :
  wf_ledger w ->
  dict_get p (clips (state w)) = Some clip ->
  match truthy sid, streamInfo clip with
  | Some sid0, Some si =>
      if fileExists w p && bool_decide (1 < size si) then Some (sid0, si) else None
  | _, _ => None
  end = None ->
  fully_removed clip (removeClip p sid del w).
Proof.
  intros Hwf Hp Hpartial.
  pose proof (wf_ledger_get _ _ _ Hwf Hp) as Hpath.
  set (w3 := with_renderingClips (delete p)
               (removeScrubFile (scrubSprite clip) (REMOVE_CLIP p w))).
  assert (Hwf3 : wf_ledger w3).
  { unfold w3, wf_ledger, removeScrubFile. destruct (truthy (scrubSprite clip)); simpl;
      apply dict_delete_Forall, Hwf. }
  assert (H3 : fully_removed clip w3).
  { unfold fully_removed. rewrite Hpath. split; [|split].
    - unfold w3, removeScrubFile. destruct (truthy (scrubSprite clip)); simpl;
        rewrite dict_get_delete; destruct (decide (p = p)); congruence.
    - unfold w3; simpl. apply lookup_delete_eq.
    - intros s Hs. unfold w3, removeScrubFile. rewrite Hs. simpl.
      intros Hin. apply elem_of_difference in Hin as [_ Hin].
      apply Hin, elem_of_singleton. reflexivity. }
  unfold removeClip, removeClip_sync. rewrite Hp, Hpartial. fold w3.
  destruct del; simpl.
  - eapply fully_removed_stable; [| apply removal_stable_resume |].
    + destruct (fileExists w3 p); exact Hwf3.
    + destruct (fileExists w3 p); exact H3.
  - eapply fully_removed_stable; [exact Hwf3 | apply removal_stable_prune | exact H3].
Qed.

(** C6.  Take a clip of the ledger.  If its file exists and it belongs to
    exactly the streams [A] and [B], [removeClip(path, A)] leaves its record
    in the ledger, with [B] as its one association and nothing else
    changed.  [removeClip] without a stream id, and [removeClip(path, A)]
    for a clip that belongs to [A] alone, take the record out of the
    ledger, discard its [RenderingClip] and delete its scrub sprite: when
    the call is done the ledger has no record under the path, there is no
    [RenderingClip] for it and the sprite that the record named is not in
    the scrub sprite directory.  A stream id is a non-empty string. *)
Theorem removeClip_by_association (removePath A B : string) (a b : TStreamInfo)
    (deleteClipFromSystem : bool) (clip : TClip) (w : World) :
  wf_ledger w ->
  dict_get removePath (clips (state w)) = Some clip ->
  A <> "" ->
  (fileExists w removePath = true -> A <> B ->
   streamInfo clip = Some (<[A := a]> {[B := b]}) ->
   dict_get removePath
     (clips (state (removeClip removePath (Some A) deleteClipFromSystem w)))
   = Some {| path := path clip;
             loaded := loaded clip;
             enabled := enabled clip;
             startTrim := startTrim clip;
             endTrim := endTrim clip;
             deleted := deleted clip;
             source := source clip;
             globalOrderPosition := globalOrderPosition clip;
             streamInfo := Some {[B := b]};
             scrubSprite := scrubSprite clip;
             duration := duration clip;
             aiInfo := aiInfo clip |})
  /\ fully_removed clip (removeClip removePath None deleteClipFromSystem w)
  /\ (streamInfo clip = Some {[A := a]} ->
      fully_removed clip (removeClip removePath (Some A) deleteClipFromSystem w)).
Proof.
  intros Hwf Hp HA.
  pose proof (wf_ledger_get _ _ _ Hwf Hp) as Hpath.
  assert (HtA : truthy (Some A) = Some A).
  { simpl. destruct (decide (A = "")); congruence. }
  split; [|split].
  - intros Hex HAB Hsi.
    assert (Hsize : size (<[A := a]> ({[B := b]} : gmap string TStreamInfo)) = 2).
    { rewrite map_size_insert_None by (apply lookup_singleton_ne; congruence).
      rewrite map_size_singleton. reflexivity. }
    unfold removeClip, removeClip_sync. rewrite Hp, HtA, Hsi, Hex, Hsize. simpl.
    destruct (removeClip_prune_ledger clip (Some A)
                (UPDATE_CLIP
                   (patch_streamInfo (path clip) (delete A (<[A := a]> {[B := b]}))) w))
      as (-> & _ & _).
    simpl. rewrite dict_get_set, Hpath.
    destruct (decide (removePath = removePath)); [|congruence].
    rewrite Hp. simpl. unfold merge_clip; simpl.
    rewrite delete_insert_eq, delete_singleton_ne by congruence. reflexivity.
  - apply removeClip_full; [exact Hwf | exact Hp | reflexivity].
  - intros Hsi. apply removeClip_full; [exact Hwf | exact Hp |].
    rewrite HtA, Hsi, map_size_singleton.
    destruct (fileExists w removePath); reflexivity.
Qed.

Lemma removeClip_by_association_witness :
  let w := world_of
             (loadClips anyFileType probeOk None
                (addClips [replayClip "c" 7 27] (Some "T") ReplayBuffer
                   (addClips [replayClip "c" 5 25; replayClip "d" 9 29] (Some "S")
                      ReplayBuffer (initialWorld {["c"; "d"]})))) in
  let sT := mkStreamInfo 1 (Some 7%Z) (Some 27%Z) in
  let sS := mkStreamInfo 1 (Some 5%Z) (Some 25%Z) in
  let sD := mkStreamInfo 3 (Some 9%Z) (Some 29%Z) in
  let c := mkClip "c" (Some true) (Some true) (Some 0%Z) (Some 0%Z) (Some false)
             (Some ReplayBuffer) (Some 1%Z) (Some (<["T" := sT]> {["S" := sS]}))
             (Some "c.jpg") (Some 10%Z) None in
  let d := mkClip "d" (Some true) (Some true) (Some 0%Z) (Some 0%Z) (Some false)
             (Some ReplayBuffer) (Some 3%Z) (Some {["S" := sD]})
             (Some "d.jpg") (Some 10%Z) None in
  (sprites w = {["c.jpg"; "d.jpg"]}
   /\ is_Some (renderingClips w !! "c") /\ is_Some (renderingClips w !! "d"))
  /\ dict_get "c" (clips (state (removeClip "c" (Some "T") true w)))
     = Some (mkClip "c" (Some true) (Some true) (Some 0%Z) (Some 0%Z) (Some false)
               (Some ReplayBuffer) (Some 1%Z) (Some {["S" := sS]})
               (Some "c.jpg") (Some 10%Z) None)
  /\ fully_removed c (removeClip "c" None true w)
  /\ fully_removed d (removeClip "d" (Some "S") false w).
Proof.
  intros w sT sS sD c d.
  assert (Hwf : wf_ledger w) by (vm_compute; repeat constructor).
  destruct (removeClip_by_association "c" "T" "S" sT sS true c w Hwf) as (H1 & H2 & _);
    [vm_compute; reflexivity | discriminate |].
  destruct (removeClip_by_association "d" "S" "T" sD sS false d w Hwf) as (_ & _ & H3);
    [vm_compute; reflexivity | discriminate |].
  split; [|split; [|split]].
  - split; [vm_compute; reflexivity|].
    split; apply (bool_decide_unpack _); vm_compute; exact I.
  - apply H1; [vm_compute; reflexivity | discriminate | reflexivity].
  - exact H2.
  - apply H3. reflexivity.
Defined.

(** ** The detection callback (C2) *)

Lemma removeClip_sync_missing_registry p sid w :
  fileExists w p = false ->
  registry (spawn (removeClip_sync p sid true w)) = registry w.
Proof.
  intros Hgone.
  destruct (dict_get p (clips (state w))) as [clip|] eqn:Hp.
  - rewrite (removeClip_sync_gone p sid clip w Hgone Hp).
    unfold spawn, removeScrubFile; simpl.
    destruct (truthy (scrubSprite clip)); reflexivity.
  - unfold removeClip_sync. rewrite Hp. reflexivity.
Qed.

Lemma getClips_registry cs sid w : registry (getClips cs sid w).2 = registry w.
Proof.
  revert w. induction cs as [|c cs IH]; intros w; simpl; [reflexivity|].
  destruct (decide (path c = "add")); [apply IH|].
  destruct (fileExists w (path c)) eqn:Hex; simpl; [apply IH|].
  rewrite IH. apply removeClip_sync_missing_registry, Hex.
Qed.

(** A path whose file exists is neither added nor removed by a query. *)
Lemma getClips_keeps_existing cs sid w p :
  fileExists w p = true ->
  dict_get p (clips (state (getClips cs sid w).2)) = dict_get p (clips (state w)).
Proof.
  revert w. induction cs as [|c cs IH]; intros w Hp; simpl; [reflexivity|].
  destruct (decide (path c = "add")); [apply IH, Hp|].
  destruct (fileExists w (path c)) eqn:Hex; simpl; [apply IH, Hp|].
  rewrite IH.
  - rewrite removeClip_sync_missing by exact Hex.
    destruct (decide (p = path c)) as [->|]; [congruence | reflexivity].
  - unfold fileExists in Hp |- *. rewrite removeClip_sync_files_missing by exact Hex.
    exact Hp.
Qed.

Lemma addAiClips_from_registry index newClips id m n w :
  registry (addAiClips_from index newClips id m n w) = registry w.
Proof.
  revert index w. induction newClips as [|c cs IH]; intros index w; simpl; [reflexivity|].
  rewrite IH. destruct (dict_get (nd_path c) (clips (state w))); reflexivity.
Qed.

Lemma addAiClips_from_in_ledger index newClips id m n w p :
  in_ledger p w = true \/ p ∈ nd_path <$> newClips ->
  in_ledger p (addAiClips_from index newClips id m n w) = true.
Proof.
  revert index w. induction newClips as [|c cs IH]; intros index w H; simpl.
  - destruct H as [H|H]; [exact H|]. apply elem_of_nil in H. destruct H.
  - apply IH.
    destruct (decide (p = nd_path c)) as [->|Hne].
    + left. unfold in_ledger. apply bool_decide_eq_true.
      destruct (dict_get (nd_path c) (clips (state w))) as [c0|] eqn:Hc; simpl.
      * rewrite Hc. eauto.
      * rewrite dict_get_set. destruct (decide (nd_path c = nd_path c)); [eauto | congruence].
    + destruct H as [H|H].
      * left. destruct (dict_get (nd_path c) (clips (state w))); [exact H|].
        unfold in_ledger in *. simpl. rewrite dict_get_set.
        destruct (decide (p = nd_path c)); [congruence | exact H].
      * right. rewrite fmap_cons in H. apply elem_of_cons in H.
        destruct H as [H|H]; [congruence | exact H].
Qed.

Lemma renumber_registry id index cs w :
  registry (renumber id index cs w) = registry w.
Proof.
  revert index w. induction cs as [|c cs IH]; intros index w; simpl; [reflexivity|].
  rewrite IH. reflexivity.
Qed.

Lemma renumber_in_ledger id index cs w p :
  in_ledger p w = true -> in_ledger p (renumber id index cs w) = true.
Proof.
  revert index w. induction cs as [|c cs IH]; intros index w H; simpl; [exact H|].
  apply IH. unfold in_ledger in *. simpl. rewrite dict_get_set.
  destruct (decide (p = path c)); [apply bool_decide_eq_true; eauto | exact H].
Qed.

Lemma getClips_in_ledger cs sid w p :
  fileExists w p = true -> in_ledger p w = true -> in_ledger p (getClips cs sid w).2 = true.
Proof.
  intros Hex H. unfold in_ledger in *. rewrite getClips_keeps_existing by exact Hex. exact H.
Qed.

Lemma getClips_fileExists cs sid w p :
  fileExists (getClips cs sid w).2 p = fileExists w p.
Proof. unfold fileExists. rewrite getClips_files. reflexivity. Qed.

Lemma addAiClips_ingest_registry newClips id w :
  registry (addAiClips_ingest newClips id w) = registry w.
Proof.
  unfold addAiClips_ingest, sortStreamClipsByStartTime.
  rewrite renumber_registry, getClips_registry, addAiClips_from_registry,
    !getClips_registry. reflexivity.
Qed.

Lemma registry_fileExists w w' p : registry w' = registry w -> fileExists w' p = fileExists w p.
Proof. intros H. injection H as _ _ H. unfold fileExists. rewrite H. reflexivity. Qed.

Lemma registry_detection_state w w' id :
  registry w' = registry w -> detection_state id w' = detection_state id w.
Proof.
  intros H. injection H as Hd Ho _. unfold detection_state. rewrite Hd, Ho. reflexivity.
Qed.

Lemma addAiClips_ingest_in_ledger newClips id w p :
  fileExists w p = true -> p ∈ nd_path <$> newClips ->
  in_ledger p (addAiClips_ingest newClips id w) = true.
Proof.
  intros Hex Hin. unfold addAiClips_ingest, sortStreamClipsByStartTime.
  set (cur := getClips (views_clips w) (Some id) w).
  set (all := getClips (views_clips cur.2) None cur.2).
  set (w1 := addAiClips_from 0 newClips id (Z.of_nat (length cur.1))
               (Z.of_nat (length all.1)) all.2).
  assert (Hreg : registry w1 = registry w).
  { unfold w1, all, cur. rewrite addAiClips_from_registry, !getClips_registry. reflexivity. }
  apply renumber_in_ledger, getClips_in_ledger.
  - rewrite (registry_fileExists _ _ _ Hreg). exact Hex.
  - apply addAiClips_from_in_ledger. right. exact Hin.
Qed.

Lemma detection_state_update r o w :
  objects w !! r = Some o ->
  detection_state (s_id o) (UPDATE_HIGHLIGHTED_STREAM r w) = Some (s_type o).
Proof.
  intros H. unfold UPDATE_HIGHLIGHTED_STREAM. rewrite H.
  unfold detection_state; simpl. rewrite lookup_insert_eq, H. reflexivity.
Qed.

(** The five worlds of the callback. *)
Lemma renderHighlights_states (r : ref) (o : IHighlightedStream)
    (clipData : list INewClipData) (w : World) :
  objects w !! r = Some o ->
  exists w1 w2 w3 w4 w5,
    renderHighlights r (s_id o) clipData w = [w1; w2; w3; w4; w5]
    /\ clips (state w1) = clips (state w)
    /\ clips (state w2) = clips (state w)
    /\ (detection_state (s_id o) w3 = Some FINISHED /\ clips (state w3) = clips (state w))
    /\ detection_state (s_id o) w4 = Some FINISHED
    /\ detection_state (s_id o) w5 = Some FINISHED
    /\ forall c, c ∈ clipData -> in_ledger (nd_path c) w5 = true.
Proof.
  intros Hobject.
  set (w1 := UPDATE_HIGHLIGHTED_STREAM r w).
  set (w2 := with_files (fun fs => fs ∪ list_to_set (nd_path <$> clipData)) w1).
  set (w3 := with_objects (alter (set_type FINISHED) r) w2).
  set (w4 := UPDATE_HIGHLIGHTED_STREAM r w3).
  set (w5 := addAiClips_sync clipData (s_id o) w4).
  exists w1, w2, w3, w4, w5.
  assert (H1 : w1 = with_state (with_dictionary (<[s_id o := r]>)) w).
  { unfold w1, UPDATE_HIGHLIGHTED_STREAM. rewrite Hobject. reflexivity. }
  assert (Ho3 : objects w3 !! r = Some (set_type FINISHED o)).
  { unfold w3, w2. rewrite H1. simpl. rewrite lookup_alter_eq, Hobject. reflexivity. }
  assert (H4s : detection_state (s_id o) w4 = Some FINISHED).
  { exact (detection_state_update r (set_type FINISHED o) w3 Ho3). }
  assert (H4f : forall c, c ∈ clipData -> fileExists w4 (nd_path c) = true).
  { intros c Hc. unfold fileExists. apply bool_decide_eq_true.
    unfold w4, UPDATE_HIGHLIGHTED_STREAM. rewrite Ho3. unfold w3, w2. rewrite H1. simpl.
    apply elem_of_union. right. apply elem_of_list_to_set.
    apply list_elem_of_fmap. exists c. split; [reflexivity | exact Hc]. }
  split; [reflexivity|].
  split; [rewrite H1; reflexivity|].
  split; [unfold w2; rewrite H1; reflexivity|].
  split.
  { split; [|unfold w3, w2; rewrite H1; reflexivity].
    unfold detection_state. unfold w3, w2. rewrite H1. simpl.
    rewrite lookup_insert_eq, lookup_alter_eq, Hobject. reflexivity. }
  split; [exact H4s|].
  unfold w5, addAiClips_sync.
  set (wi := addAiClips_ingest clipData (s_id o) w4).
  assert (Hreg : registry (getClips (views_clips wi) (Some (s_id o)) wi).2 = registry w4).
  { rewrite getClips_registry. apply addAiClips_ingest_registry. }
  split.
  - rewrite <- H4s. apply registry_detection_state. exact Hreg.
  - intros c Hc. unfold in_ledger; simpl. apply getClips_in_ledger.
    + unfold wi. rewrite (registry_fileExists _ _ _ (addAiClips_ingest_registry _ _ _)).
      apply H4f, Hc.
    + apply addAiClips_ingest_in_ledger; [apply H4f, Hc|].
      apply list_elem_of_fmap. exists c. split; [reflexivity | exact Hc].
Qed.

(** C2, as the code has it.  The callback marks the stream [FINISHED]
    first and ingests the clips right after: a reader can find the stream
    [FINISHED] while the ledger is still what it was before the callback; no
    reader finds a clip that the callback brought in without the stream
    being [FINISHED]; and when the callback has run up to the first [await]
    of [addAiClips], the stream is [FINISHED] and every clip of the callback
    is in the ledger. *)
Theorem renderHighlights_finished_then_ingested (setStreamInfo : ref)
    (o : IHighlightedStream) (clipData : list INewClipData) (w : World) :
  objects w !! setStreamInfo = Some o ->
  let id := s_id o in
  let trace := renderHighlights setStreamInfo id clipData w in
  (exists w', w' ∈ trace /\ detection_state id w' = Some FINISHED
              /\ clips (state w') = clips (state w))
  /\ (forall w' c, w' ∈ trace -> c ∈ clipData ->
        in_ledger (nd_path c) w = false -> in_ledger (nd_path c) w' = true ->
        detection_state id w' = Some FINISHED)
  /\ (exists w', last trace = Some w' /\ detection_state id w' = Some FINISHED
                 /\ forall c, c ∈ clipData -> in_ledger (nd_path c) w' = true).
Proof.
  intros Hobject id trace. subst trace id.
  destruct (renderHighlights_states setStreamInfo o clipData w Hobject)
    as (w1 & w2 & w3 & w4 & w5 & -> & Hc1 & Hc2 & (H3s & H3c) & H4s & H5s & H5c).
  split; [|split].
  - exists w3. split; [|split; [exact H3s | exact H3c]].
    rewrite !elem_of_cons. auto.
  - intros w' c Hw' Hc Hnew Hin. rewrite !elem_of_cons, elem_of_nil in Hw'.
    assert (Hold : forall w0, clips (state w0) = clips (state w) ->
                              in_ledger (nd_path c) w0 = false).
    { intros w0 Hw0. unfold in_ledger in *. rewrite Hw0. exact Hnew. }
    destruct Hw' as [->|[->|[->|[->|[->|[]]]]]].
    + rewrite (Hold _ Hc1) in Hin. discriminate.
    + rewrite (Hold _ Hc2) in Hin. discriminate.
    + exact H3s.
    + exact H4s.
    + exact H5s.
  - exists w5. split; [reflexivity|]. split; [exact H5s | exact H5c].
Qed.

Lemma renderHighlights_finished_then_ingested_witness :
  let o := mkStream "S" IN_PROGRESS 0 "2026" "stream" "unset" true "rec.mp4" in
  let trace := renderHighlights 0 "S" [aiClip "a2" 2 12; aiClip "a30" 30 40] detectingWorld in
  (exists w', w' ∈ trace /\ detection_state "S" w' = Some FINISHED
              /\ clips (state w') = clips (state detectingWorld))
  /\ (forall w' c, w' ∈ trace -> c ∈ [aiClip "a2" 2 12; aiClip "a30" 30 40] ->
        in_ledger (nd_path c) detectingWorld = false -> in_ledger (nd_path c) w' = true ->
        detection_state "S" w' = Some FINISHED)
  /\ (exists w', last trace = Some w' /\ detection_state "S" w' = Some FINISHED
                 /\ forall c, c ∈ [aiClip "a2" 2 12; aiClip "a30" 30 40] ->
                              in_ledger (nd_path c) w' = true).
Proof.
  intros o trace.
  apply (renderHighlights_finished_then_ingested 0 o
           [aiClip "a2" 2 12; aiClip "a30" 30 40] detectingWorld).
  reflexivity.
Defined.

(** C2 as it is worded fails: while the callback runs, the store goes
    through a state in which the stream ["S"] reads [FINISHED] and the clip
    that the callback is about to ingest is not in the ledger. *)
Lemma renderHighlights_finished_before_clips_present :
  detection_state "S" detectingWorld = Some IN_PROGRESS
  /\ exists w', w' ∈ renderHighlights 0 "S" [aiClip "a2" 2 12] detectingWorld
                /\ detection_state "S" w' = Some FINISHED
                /\ in_ledger "a2" w' = false.
Proof.
  split; [reflexivity|].
  eexists. split; [|split].
  - unfold renderHighlights. rewrite !elem_of_cons. right. right. right. left. reflexivity.
  - vm_compute. reflexivity.
  - vm_compute. reflexivity.
Qed.

(** ** Ordering positions (C1, C3) *)

Lemma getClips_healthy cs sid w :
  Forall (fun c => path c <> "add" /\ fileExists w (path c) = true) cs ->
  getClips cs sid w = (List.filter (in_query sid) cs, w).
Proof.
  induction cs as [|c cs IH]; intros H; simpl; [reflexivity|].
  inversion H as [|? ? [Hadd Hex] Hcs]; subst.
  destruct (decide (path c = "add")); [contradiction|].
  rewrite Hex, (IH Hcs). simpl. unfold in_query.
  destruct (match truthy sid with
            | Some sid0 => bool_decide (is_Some (assoc_of sid0 c))
            | None => true
            end); reflexivity.
Qed.

Lemma filter_in_query_None cs : List.filter (in_query None) cs = cs.
Proof. induction cs as [|c cs IH]; simpl; [reflexivity | rewrite IH; reflexivity]. Qed.

(** [bump_stream] passes over the clips that are not of the stream, as the
    filter of the query does. *)
Lemma foldl_bump_stream_filter sid cs w :
  foldl (bump_stream sid) w (List.filter (in_query (Some sid)) cs)
  = foldl (bump_stream sid) w cs.
Proof.
  revert w. induction cs as [|c cs IH]; intros w; simpl; [reflexivity|].
  unfold in_query at 1. destruct (truthy (Some sid)) as [s|] eqn:Hs.
  - assert (s = sid) as ->.
    { simpl in Hs. destruct (decide (sid = "")); congruence. }
    destruct (bool_decide (is_Some (assoc_of sid c))) eqn:Ha; simpl; [apply IH|].
    rewrite IH. f_equal. unfold bump_stream.
    apply bool_decide_eq_false in Ha. unfold assoc_of in Ha.
    destruct (streamInfo c) as [si|]; [|reflexivity].
    destruct (si !! sid); [|reflexivity]. exfalso. apply Ha. eauto.
  - simpl. apply IH.
Qed.

Lemma foldl_bump_stream sid d1 d2 w :
  clips (state w) = d1 ++ d2 ->
  Forall (fun kv => path kv.2 = kv.1) d2 ->
  NoDup (dict_keys (d1 ++ d2)) ->
  clips (state (foldl (bump_stream sid) w (dict_values d2)))
  = d1 ++ ((fun kv => (kv.1, bumped_stream sid kv.2)) <$> d2).
Proof.
  revert d1 w. induction d2 as [|[k c] d2 IH]; intros d1 w Hw Hwf Hnd; simpl.
  - rewrite Hw. reflexivity.
  - inversion Hwf as [|? ? Hk Hwf']; subst. simpl in Hk.
    assert (Hfresh : k ∉ dict_keys d1).
    { rewrite dict_keys_app in Hnd. apply NoDup_app in Hnd as (_ & Hdis & _).
      intros Hin. apply (Hdis _ Hin). simpl. apply elem_of_cons. left. reflexivity. }
    rewrite (IH (d1 ++ [(k, bumped_stream sid c)])).
    + rewrite <- app_assoc. reflexivity.
    + unfold bump_stream, bumped_stream.
      destruct (streamInfo c) as [si|];
        [|rewrite Hw, <- app_assoc; reflexivity].
      destruct (si !! sid) as [a|];
        [|rewrite Hw, <- app_assoc; reflexivity].
      simpl. rewrite Hw, Hk, dict_get_middle by exact Hfresh. simpl.
      rewrite dict_set_middle by exact Hfresh.
      rewrite <- app_assoc. reflexivity.
    + exact Hwf'.
    + rewrite <- app_assoc. simpl.
      rewrite !dict_keys_app in *. simpl in *. exact Hnd.
Qed.

Lemma foldl_bump_global (g : TClip -> TClip) d1 d2 w :
  clips (state w) = d1 ++ ((fun kv => (kv.1, g kv.2)) <$> d2) ->
  Forall (fun kv => path kv.2 = kv.1) d2 ->
  NoDup (dict_keys (d1 ++ d2)) ->
  clips (state (foldl bump_global w (dict_values d2)))
  = d1 ++ ((fun kv => (kv.1, bumped_global kv.2 (g kv.2))) <$> d2).
Proof.
  revert d1 w. induction d2 as [|[k c] d2 IH]; intros d1 w Hw Hwf Hnd; simpl.
  - rewrite Hw. reflexivity.
  - inversion Hwf as [|? ? Hk Hwf']; subst. simpl in Hk.
    assert (Hfresh : k ∉ dict_keys d1).
    { rewrite dict_keys_app in Hnd. apply NoDup_app in Hnd as (_ & Hdis & _).
      intros Hin. apply (Hdis _ Hin). simpl. apply elem_of_cons. left. reflexivity. }
    rewrite (IH (d1 ++ [(k, bumped_global c (g c))])).
    + rewrite <- app_assoc. reflexivity.
    + unfold bump_global, bumped_global. simpl.
      rewrite Hw, Hk. simpl. rewrite dict_get_middle by exact Hfresh. simpl.
      rewrite dict_set_middle by exact Hfresh.
      rewrite <- app_assoc. reflexivity.
    + exact Hwf'.
    + rewrite <- app_assoc. simpl.
      rewrite !dict_keys_app in *. simpl in *. exact Hnd.
Qed.

Lemma foldl_bump_global_files cs w : files (foldl bump_global w cs) = files w.
Proof.
  revert w. induction cs as [|c cs IH]; intros w; simpl; [reflexivity|].
  rewrite IH. reflexivity.
Qed.

Lemma foldl_bump_stream_files sid cs w : files (foldl (bump_stream sid) w cs) = files w.
Proof.
  revert w. induction cs as [|c cs IH]; intros w; simpl; [reflexivity|].
  rewrite IH. unfold bump_stream.
  destruct (streamInfo c) as [si|]; [|reflexivity].
  destruct (si !! sid); reflexivity.
Qed.

(** One manual import of a new clip into a healthy ledger: every record is
    shifted, the new record goes to the end. *)
Lemma addClips_step_manual clipData index sid w :
  healthy w ->
  nc_path clipData ∉ dict_keys (clips (state w)) ->
  clips (state (addClips_step clipData index sid Manual w))
  = ((fun kv => (kv.1, shifted sid kv.2)) <$> clips (state w))
    ++ [(nc_path clipData, manual_record clipData sid index)]
  /\ files (addClips_step clipData index sid Manual w) = files w.
Proof.
  intros (Hwf & Hnd & Hall) Hfresh.
  unfold addClips_step.
  rewrite (getClips_healthy _ sid w Hall). simpl.
  rewrite (getClips_healthy _ None w Hall). simpl.
  rewrite filter_in_query_None.
  destruct (decide (Manual = Manual)) as [_|]; [|congruence].
  assert (Hshift :
    exists wb,
      (match truthy sid with
       | Some sid0 =>
           (foldl bump_global
              (foldl (bump_stream sid0) w (List.filter (in_query sid) (views_clips w)))
              (views_clips w),
            {[sid0 := mkStreamInfo (0 + Z.of_nat index) None None]})
       | None =>
           (foldl bump_global w (List.filter (in_query sid) (views_clips w)),
            (∅ : gmap string TStreamInfo))
       end).1 = wb
      /\ clips (state wb) = (fun kv => (kv.1, shifted sid kv.2)) <$> clips (state w)
      /\ files wb = files w).
  { unfold shifted, in_query. destruct (truthy sid) as [s|] eqn:Hs; simpl.
    - eexists. split; [reflexivity|].
      assert (Hq : forall cs, List.filter
                     (fun clip => bool_decide (is_Some (assoc_of s clip))) cs
                   = List.filter (in_query (Some s)) cs).
      { intros cs. apply List.filter_ext. intros c. unfold in_query.
        assert (truthy (Some s) = Some s) as ->; [|reflexivity].
        destruct sid as [x|]; simpl in Hs; [|discriminate].
        destruct (decide (x = "")); [discriminate|]. injection Hs as ->.
        simpl. destruct (decide (s = "")); congruence. }
      rewrite Hq, foldl_bump_stream_filter.
      split; [|rewrite foldl_bump_global_files, foldl_bump_stream_files; reflexivity].
      apply (foldl_bump_global (bumped_stream s) [] (clips (state w))); [|exact Hwf|exact Hnd].
      apply (foldl_bump_stream s [] (clips (state w)) w); [reflexivity|exact Hwf|exact Hnd].
    - eexists. split; [reflexivity|].
      assert (Hall' : forall cs : list TClip, List.filter (fun _ => true) cs = cs).
      { induction cs as [|c cs IH]; simpl; [reflexivity | rewrite IH; reflexivity]. }
      rewrite Hall'.
      split; [|apply foldl_bump_global_files].
      apply (foldl_bump_global (fun c => c) [] (clips (state w))); [|exact Hwf|exact Hnd].
      simpl. generalize (clips (state w)). intros d.
      induction d as [|[k c] d IH]; simpl; [reflexivity | f_equal; exact IH]. }
  destruct Hshift as (wb & Hwb & Hclips & Hfiles).
  assert (Hnone : dict_get (nc_path clipData) (clips (state wb)) = None).
  { apply dict_get_None. rewrite Hclips. unfold dict_keys. rewrite <- list_fmap_compose.
    exact Hfresh. }
  match goal with
  | |- context [dict_get _ (clips (state ?r.1))] => replace r.1 with wb
  end.
  rewrite Hnone. simpl. split; [|exact Hfiles].
  rewrite dict_set_fresh by (apply dict_get_None; exact Hnone).
  rewrite Hclips. f_equal. f_equal. f_equal. unfold manual_record.
  destruct (truthy sid); reflexivity.
Qed.

Lemma shifted_fields sid c :
  path (shifted sid c) = path c
  /\ globalOrderPosition (shifted sid c)
     = (fun n => (n + 1)%Z) <$> globalOrderPosition c
  /\ deleted (shifted sid c) = deleted c.
Proof.
  unfold shifted, bumped_global. simpl. repeat split.
  destruct (truthy sid) as [s|]; [|reflexivity].
  unfold bumped_stream. destruct (streamInfo c) as [si|]; [|reflexivity].
  destruct (si !! s); reflexivity.
Qed.

Lemma addClips_single clipData sid source w :
  addClips [clipData] sid source w = addClips_step clipData 0 sid source w.
Proof. reflexivity. Qed.

Lemma manual_insert_views clipData sid w :
  healthy w ->
  nc_path clipData ∉ dict_keys (clips (state w)) ->
  views_clips (addClips [clipData] sid Manual w)
  = (shifted sid <$> views_clips w) ++ [manual_record clipData sid 0]
  /\ dict_keys (clips (state (addClips [clipData] sid Manual w)))
     = dict_keys (clips (state w)) ++ [nc_path clipData]
  /\ files (addClips [clipData] sid Manual w) = files w.
Proof.
  intros Hh Hfresh. rewrite addClips_single.
  destruct (addClips_step_manual clipData 0 sid w Hh Hfresh) as (Hc & Hf).
  unfold views_clips, dict_values, dict_keys. rewrite Hc, !fmap_app, <- !list_fmap_compose.
  split; [reflexivity | split; [reflexivity | exact Hf]].
Qed.

Lemma manual_insert_healthy clipData sid w :
  healthy w ->
  nc_path clipData ∉ dict_keys (clips (state w)) ->
  nc_path clipData <> "add" ->
  fileExists w (nc_path clipData) = true ->
  healthy (addClips [clipData] sid Manual w).
Proof.
  intros Hh Hfresh Hadd Hex.
  destruct (manual_insert_views clipData sid w Hh Hfresh) as (Hv & Hk & Hf).
  destruct Hh as (Hwf & Hnd & Hall).
  rewrite addClips_single in *.
  destruct (addClips_step_manual clipData 0 sid w (conj Hwf (conj Hnd Hall)) Hfresh)
    as (Hc & _).
  split; [|split].
  - unfold wf_ledger. rewrite Hc. apply Forall_app. split.
    + apply Forall_fmap. eapply Forall_impl; [exact Hwf|].
      intros [k c] Hkc. simpl in *. exact Hkc.
    + constructor; [reflexivity | constructor].
  - rewrite Hk. apply NoDup_app. split; [exact Hnd|]. split.
    + intros x Hx Hx'. apply list_elem_of_singleton in Hx'. subst x. contradiction.
    + apply NoDup_singleton.
  - rewrite Hv. apply Forall_app. split.
    + apply Forall_fmap. eapply Forall_impl; [exact Hall|].
      intros c (Hc1 & Hc2). simpl. unfold fileExists in *. rewrite Hf.
      split; assumption.
    + constructor; [|constructor]. simpl. unfold fileExists in *. rewrite Hf.
      split; assumption.
Qed.

Lemma dense_shift (l : list (option Z)) :
  dense l -> dense (((fun o : option Z => (fun n => (n + 1)%Z) <$> o) <$> l) ++ [Some 0%Z]).
Proof.
  unfold dense. intros Hl.
  rewrite length_app, length_fmap. simpl.
  replace (length l + 1) with (S (length l)) by lia.
  rewrite seqZ_cons by lia.
  replace (Z.pred (Z.of_nat (S (length l)))) with (Z.of_nat (length l)) by lia.
  rewrite fmap_cons. rewrite <- Permutation_cons_append. constructor.
  rewrite Hl at 1. rewrite <- list_fmap_compose.
  change (Z.succ 0) with (1 + 0)%Z. rewrite <- fmap_add_seqZ, <- list_fmap_compose.
  erewrite list_fmap_ext; [reflexivity|].
  intros i x _. simpl. f_equal. lia.
Qed.

Lemma manual_inserts_snoc calls call w :
  manual_inserts (calls ++ [call]) w
  = addClips [call.1] call.2 Manual (manual_inserts calls w).
Proof. unfold manual_inserts. rewrite foldl_app. reflexivity. Qed.

(** What a sequence of single manual imports keeps true. *)
Lemma manual_inserts_invariant calls w :
  healthy w -> none_deleted w -> dense (globalPositions w) ->
  NoDup (dict_keys (clips (state w)) ++ ((fun call => nc_path call.1) <$> calls)) ->
  Forall (fun call => nc_path call.1 <> "add" /\ fileExists w (nc_path call.1) = true)
         calls ->
  let w' := manual_inserts calls w in
  healthy w' /\ none_deleted w' /\ dense (globalPositions w')
  /\ dict_keys (clips (state w'))
     = dict_keys (clips (state w)) ++ ((fun call => nc_path call.1) <$> calls)
  /\ files w' = files w.
Proof.
  intros Hh Hdel Hdense. induction calls as [|call calls IH] using rev_ind; intros Hnd Hall.
  - simpl. rewrite app_nil_r. auto.
  - rewrite fmap_app, app_assoc in Hnd. simpl in Hnd.
    apply Forall_app in Hall as (Hall & Hcall).
    inversion Hcall as [|? ? (Hadd & Hex) _]; subst.
    pose proof Hnd as Hnd'. apply NoDup_app in Hnd' as (Hnd0 & Hdis & _).
    destruct (IH Hnd0 Hall) as (Hh' & Hdel' & Hdense' & Hkeys & Hfiles).
    rewrite manual_inserts_snoc. cbv zeta.
    set (w1 := manual_inserts calls w) in *.
    assert (Hfresh : nc_path call.1 ∉ dict_keys (clips (state w1))).
    { rewrite Hkeys. intros Hin. apply (Hdis _ Hin).
      apply list_elem_of_singleton. reflexivity. }
    assert (Hex1 : fileExists w1 (nc_path call.1) = true).
    { unfold fileExists in *. rewrite Hfiles. exact Hex. }
    destruct (manual_insert_views call.1 call.2 w1 Hh' Hfresh) as (Hv & Hk & Hf).
    split; [apply manual_insert_healthy; assumption|].
    split; [|split; [|split]].
    + unfold none_deleted. rewrite Hv. apply Forall_app. split.
      * apply Forall_fmap. eapply Forall_impl; [exact Hdel'|].
        intros c Hc. unfold compose. destruct (shifted_fields call.2 c) as (_ & _ & Hd).
        rewrite Hd. exact Hc.
      * constructor; [reflexivity | constructor].
    + unfold globalPositions. rewrite Hv, fmap_app, <- list_fmap_compose. simpl.
      erewrite list_fmap_ext with (g := (fun o : option Z => (fun n => (n + 1)%Z) <$> o)
                                          ∘ globalOrderPosition);
        [|intros i c _; apply shifted_fields].
      rewrite list_fmap_compose. apply dense_shift. exact Hdense'.
    + rewrite Hk, Hkeys, fmap_app, app_assoc. reflexivity.
    + rewrite Hf. exact Hfiles.
Qed.

(** What manual imports do keep, when each call brings one new clip.
    Start from a healthy ledger whose positions are dense and in which no
    clip is flagged deleted (the empty ledger is one).  After any sequence
    of manual imports of one new clip each -- with or without a stream id,
    the paths new, pairwise different, different from ['add'] and with
    their files in place -- the [globalOrderPosition] values are again the
    numbers [0 .. N-1], each once, over clips none of which is flagged
    deleted, and the clip that was imported last has position 0
    ([manual_insert_views] has the step: every record shifted by one, the
    new record at 0). *)
Theorem manual_inserts_dense (calls : list (INewClip * option string)) (w : World) :
  healthy w -> none_deleted w -> dense (globalPositions w) ->
  NoDup (dict_keys (clips (state w)) ++ ((fun call => nc_path call.1) <$> calls)) ->
  Forall (fun call => nc_path call.1 <> "add" /\ fileExists w (nc_path call.1) = true)
         calls ->
  let w' := manual_inserts calls w in
  dense (globalPositions w')
  /\ none_deleted w'
  /\ length (views_clips w') = length (views_clips w) + length calls
  /\ forall call, last calls = Some call ->
       exists c, last (views_clips w') = Some c
                 /\ path c = nc_path call.1
                 /\ globalOrderPosition c = Some 0%Z.
Proof.
  intros Hh Hdel Hdense Hnd Hall w'.
  destruct (manual_inserts_invariant calls w Hh Hdel Hdense Hnd Hall)
    as (_ & Hdel' & Hdense' & Hkeys & _).
  split; [exact Hdense'|]. split; [exact Hdel'|]. split.
  - apply (f_equal length) in Hkeys.
    unfold dict_keys, views_clips, dict_values in *.
    rewrite length_app, !length_fmap in Hkeys. rewrite !length_fmap. exact Hkeys.
  - intros call Hlast. apply last_Some in Hlast as (calls' & ->).
    rewrite fmap_app, app_assoc in Hnd. simpl in Hnd.
    apply Forall_app in Hall as (Hall & _).
    pose proof Hnd as Hnd'. apply NoDup_app in Hnd' as (Hnd0 & Hdis & _).
    destruct (manual_inserts_invariant calls' w Hh Hdel Hdense Hnd0 Hall)
      as (Hh1 & _ & _ & Hkeys1 & _).
    unfold w'. rewrite manual_inserts_snoc.
    assert (Hfresh : nc_path call.1 ∉ dict_keys (clips (state (manual_inserts calls' w)))).
    { rewrite Hkeys1. intros Hin. apply (Hdis _ Hin).
      apply list_elem_of_singleton. reflexivity. }
    destruct (manual_insert_views call.1 call.2 _ Hh1 Hfresh) as (Hv & _ & _).
    rewrite Hv, last_snoc. eexists. split; [reflexivity|]. split; reflexivity.
Qed.

Lemma manual_inserts_dense_witness :
  let calls := [(mkNewClip "a.mp4" None None, None);
                (mkNewClip "b.mp4" None None, Some "S");
                (mkNewClip "c.mp4" None None, Some "S")] in
  let w' := manual_inserts calls (initialWorld {["a.mp4"; "b.mp4"; "c.mp4"]}) in
  dense (globalPositions w')
  /\ none_deleted w'
  /\ length (views_clips w') = 0 + 3
  /\ forall call, last calls = Some call ->
       exists c, last (views_clips w') = Some c
                 /\ path c = nc_path call.1
                 /\ globalOrderPosition c = Some 0%Z.
Proof.
  intros calls.
  apply (manual_inserts_dense calls (initialWorld {["a.mp4"; "b.mp4"; "c.mp4"]})).
  - repeat split; constructor.
  - constructor.
  - unfold dense. reflexivity.
  - vm_compute. repeat constructor; rewrite ?elem_of_cons, ?elem_of_nil; intuition discriminate.
  - repeat constructor; try discriminate; vm_compute; reflexivity.
Defined.

(** C1 does not hold of the code.  [addClips] shifts the clips of the
    ledger once for every element of the batch, the elements that the same
    call has just added included, and gives the element at [index] the
    position [0 + index]: one manual import of two new clips into the empty
    ledger leaves both at position 1, so the positions are not the numbers
    0 and 1 and the clip that was imported last is not at position 0.  The
    positions also collide when a path is imported a second time (the one
    clip moves to position 1) and when the path ['add'] is imported (that
    record is never shifted and shares position 0 with the next import). *)
Lemma manual_batch_positions_collide :
  let w0 := initialWorld {["a.mp4"; "b.mp4"]} in
  let a := mkNewClip "a.mp4" None None in
  let b := mkNewClip "b.mp4" None None in
  let w' := addClips [a; b] None Manual w0 in
  (globalPositions w' = [Some 1%Z; Some 1%Z]
   /\ ~ dense (globalPositions w')
   /\ (globalOrderPosition <$> last (views_clips w')) <> Some (Some 0%Z))
  /\ globalPositions (addClips [a] None Manual (addClips [a] None Manual w0)) = [Some 1%Z]
  /\ globalPositions (addClips [b] None Manual
                        (addClips [mkNewClip "add" None None] None Manual w0))
     = [Some 0%Z; Some 0%Z].
Proof.
  split; [|split; vm_compute; reflexivity].
  split; [vm_compute; reflexivity|]. split.
  - replace (globalPositions _) with [Some 1%Z; Some 1%Z] by (vm_compute; reflexivity).
    unfold dense. simpl. intros H.
    assert (Hin : Some 0%Z ∈ [Some 1%Z; Some 1%Z]).
    { rewrite H. vm_compute. apply elem_of_cons. left. reflexivity. }
    rewrite !elem_of_cons, elem_of_nil in Hin. intuition discriminate.
  - vm_compute. discriminate.
Qed.

(** One replay-buffer clip added to a healthy ledger: nothing that is
    there changes, the new record goes to the end. *)
Lemma addClips_step_replay clipData index sid w :
  healthy w ->
  nc_path clipData ∉ dict_keys (clips (state w)) ->
  clips (state (addClips_step clipData index sid ReplayBuffer w))
  = clips (state w)
    ++ [(nc_path clipData,
         replay_record clipData sid
           (Z.of_nat index + Z.of_nat (length (views_clips w)) + 1)
           (Z.of_nat index
            + Z.of_nat (length (List.filter (in_query sid) (views_clips w))) + 1))]
  /\ files (addClips_step clipData index sid ReplayBuffer w) = files w.
Proof.
  intros (Hwf & Hnd & Hall) Hfresh.
  unfold addClips_step.
  rewrite (getClips_healthy _ sid w Hall). simpl.
  rewrite (getClips_healthy _ None w Hall). simpl.
  rewrite filter_in_query_None.
  destruct (decide (ReplayBuffer = Manual)) as [|_]; [congruence|].
  apply dict_get_None in Hfresh.
  unfold replay_record.
  destruct (truthy sid) as [s|] eqn:Hs; simpl; rewrite Hfresh; simpl;
    (split; [|reflexivity]);
    (rewrite dict_set_fresh by (apply dict_get_None; exact Hfresh));
    reflexivity.
Qed.

Lemma replay_record_in_query clipData sid g s :
  in_query sid (replay_record clipData sid g s) = true.
Proof.
  unfold in_query, replay_record, assoc_of. simpl.
  destruct sid as [x|]; simpl; [|reflexivity].
  destruct (decide (x = "")); [reflexivity|].
  apply bool_decide_eq_true. rewrite lookup_singleton_eq. eauto.
Qed.

Lemma addClips_from_replay newClips index sid w :
  healthy w ->
  NoDup (dict_keys (clips (state w)) ++ (nc_path <$> newClips)) ->
  Forall (fun c => nc_path c <> "add" /\ fileExists w (nc_path c) = true) newClips ->
  clips (state (addClips_from index newClips sid ReplayBuffer w))
  = clips (state w)
    ++ replay_entries index (length (views_clips w))
         (length (List.filter (in_query sid) (views_clips w))) newClips sid.
Proof.
  revert index w. induction newClips as [|c cs IH]; intros index w Hh Hnd Hall; simpl.
  - rewrite app_nil_r. reflexivity.
  - inversion Hall as [|? ? (Hadd & Hex) Hall']; subst.
    assert (Hfresh : nc_path c ∉ dict_keys (clips (state w))).
    { apply NoDup_app in Hnd as (_ & Hdis & _). intros Hin. apply (Hdis _ Hin).
      rewrite fmap_cons. apply elem_of_cons. left. reflexivity. }
    destruct (addClips_step_replay c index sid w Hh Hfresh) as (Hc & Hf).
    set (w1 := addClips_step c index sid ReplayBuffer w) in *.
    assert (Hv1 : views_clips w1 = views_clips w ++ [replay_record c sid
                    (Z.of_nat index + Z.of_nat (length (views_clips w)) + 1)
                    (Z.of_nat index
                     + Z.of_nat (length (List.filter (in_query sid) (views_clips w))) + 1)]).
    { unfold views_clips, dict_values. rewrite Hc, fmap_app. reflexivity. }
    assert (Hk1 : dict_keys (clips (state w1)) = dict_keys (clips (state w)) ++ [nc_path c]).
    { unfold dict_keys. rewrite Hc, fmap_app. reflexivity. }
    assert (Hh1 : healthy w1).
    { destruct Hh as (Hwf & Hnd0 & Hall0). split; [|split].
      - unfold wf_ledger. rewrite Hc. apply Forall_app. split; [exact Hwf|].
        constructor; [reflexivity | constructor].
      - rewrite Hk1. apply NoDup_app. split; [exact Hnd0|]. split.
        + intros x Hx Hx'. apply list_elem_of_singleton in Hx'. subst x. contradiction.
        + apply NoDup_singleton.
      - rewrite Hv1. apply Forall_app. split.
        + eapply Forall_impl; [exact Hall0|]. intros c0 (H1 & H2).
          unfold fileExists in *. rewrite Hf. split; assumption.
        + constructor; [|constructor]. simpl. unfold fileExists in *. rewrite Hf.
          split; assumption. }
    rewrite IH.
    + rewrite Hc, Hv1, <- app_assoc. simpl.
      rewrite List.filter_app, !length_app. simpl.
      rewrite replay_record_in_query. simpl.
      replace (length (views_clips w) + 1) with (S (length (views_clips w))) by lia.
      replace (length (List.filter (in_query sid) (views_clips w)) + 1)
        with (S (length (List.filter (in_query sid) (views_clips w)))) by lia.
      reflexivity.
    + exact Hh1.
    + rewrite Hk1, <- app_assoc. simpl. rewrite fmap_cons in Hnd. exact Hnd.
    + eapply Forall_impl; [exact Hall'|]. intros c0 (H1 & H2).
      unfold fileExists in *. rewrite Hf. split; assumption.
Qed.

Lemma replay_entries_global index n m newClips sid :
  globalOrderPosition <$> dict_values (replay_entries index n m newClips sid)
  = imap (fun i _ => Some (Z.of_nat index + Z.of_nat n + 1 + 2 * Z.of_nat i)%Z) newClips.
Proof.
  unfold dict_values.
  revert index n m. induction newClips as [|c cs IH]; intros index n m; [reflexivity|].
  simpl replay_entries. rewrite !fmap_cons, imap_cons, IH.
  f_equal; [simpl; f_equal; lia|].
  apply imap_ext. intros i x _. simpl. f_equal. lia.
Qed.

Lemma replay_entries_stream index n m newClips sid s :
  truthy sid = Some s ->
  omap (fun c => (fun a => (path c, orderPosition a)) <$> assoc_of s c)
       (dict_values (replay_entries index n m newClips sid))
  = imap (fun i c => (nc_path c, Z.of_nat index + Z.of_nat m + 1 + 2 * Z.of_nat i)%Z)
         newClips.
Proof.
  intros Hs. unfold dict_values.
  revert index n m. induction newClips as [|c cs IH]; intros index n m; [reflexivity|].
  simpl replay_entries. rewrite fmap_cons, imap_cons. cbn [omap list_omap snd].
  rewrite IH.
  replace (assoc_of s (replay_record c sid (Z.of_nat index + Z.of_nat n + 1)
                         (Z.of_nat index + Z.of_nat m + 1)))
    with (Some (mkStreamInfo (Z.of_nat index + Z.of_nat m + 1)
                  (nc_startTime c) (nc_endTime c))).
  - simpl. f_equal; [f_equal; lia|].
    apply imap_ext. intros i x0 _. simpl. f_equal. lia.
  - unfold assoc_of, replay_record. simpl. rewrite Hs.
    destruct sid as [x|]; [|discriminate]. rewrite lookup_singleton_eq. reflexivity.
Qed.

Lemma streamPositions_length s sid cs :
  truthy sid = Some s ->
  length (omap (fun c => (fun a => (path c, orderPosition a)) <$> assoc_of s c) cs)
  = length (List.filter (in_query sid) cs).
Proof.
  intros Hs. induction cs as [|c cs IH]; [reflexivity|].
  cbn [omap list_omap List.filter]. unfold in_query at 1. rewrite Hs.
  destruct (assoc_of s c) as [a|] eqn:Ha.
  - rewrite bool_decide_eq_true_2 by eauto. simpl. rewrite IH. reflexivity.
  - rewrite bool_decide_eq_false_2 by (intros [? ?]; discriminate). exact IH.
Qed.

Lemma replay_entries_length index n m newClips sid :
  length (replay_entries index n m newClips sid) = length newClips.
Proof.
  revert index n m. induction newClips as [|c cs IH]; intros index n m; simpl;
    [reflexivity | rewrite IH; reflexivity].
Qed.

(** A replay-buffer import into a healthy ledger appends its records. *)
Lemma addClips_replay_views newClips sid w :
  healthy w ->
  NoDup (dict_keys (clips (state w)) ++ (nc_path <$> newClips)) ->
  Forall (fun c => nc_path c <> "add" /\ fileExists w (nc_path c) = true) newClips ->
  views_clips (addClips newClips sid ReplayBuffer w)
  = views_clips w
    ++ dict_values
         (replay_entries 0 (length (views_clips w))
            (length (List.filter (in_query sid) (views_clips w))) newClips sid).
Proof.
  intros Hh Hnd Hall.
  pose proof (addClips_from_replay newClips 0 sid w Hh Hnd Hall) as Hc.
  unfold addClips, views_clips, dict_values in *. rewrite Hc, fmap_app. reflexivity.
Qed.

Lemma zip_imap_paths (b : Z) (cs : list INewClip) :
  imap (fun i c => (nc_path c, (b + 2 * Z.of_nat i)%Z)) cs
  = zip (nc_path <$> cs) (imap (fun i _ => (b + 2 * Z.of_nat i)%Z) cs).
Proof.
  revert b. induction cs as [|c cs IH]; intros b; [reflexivity|].
  rewrite fmap_cons, !imap_cons. cbn [zip_with]. f_equal.
  rewrite (imap_ext _ (fun i c0 => (nc_path c0, (b + 2 + 2 * Z.of_nat i)%Z)))
    by (intros i x _; simpl; f_equal; lia).
  rewrite (imap_ext (_ ∘ S) (fun i _ => (b + 2 + 2 * Z.of_nat i)%Z))
    by (intros i x _; simpl; lia).
  apply IH.
Qed.

(** The positions after a replay-buffer import into a healthy ledger of
    [N] clips, [M] of them in the stream: the clip at index [i] of the batch
    gets the global position [N + 1 + 2 i] and the stream position
    [M + 1 + 2 i]. *)
Lemma addClips_replay_positions newClips streamId w :
  healthy w ->
  NoDup (dict_keys (clips (state w)) ++ (nc_path <$> newClips)) ->
  Forall (fun c => nc_path c <> "add" /\ fileExists w (nc_path c) = true) newClips ->
  let w' := addClips newClips streamId ReplayBuffer w in
  globalPositions w'
  = globalPositions w
    ++ (Some <$> imap (fun i _ =>
                         (Z.of_nat (length (views_clips w)) + 1 + 2 * Z.of_nat i)%Z)
                      newClips)
  /\ forall sid, truthy streamId = Some sid ->
       streamPositions sid w'
       = streamPositions sid w
         ++ zip (nc_path <$> newClips)
                (imap (fun i _ =>
                         (Z.of_nat (length (streamPositions sid w)) + 1 + 2 * Z.of_nat i)%Z)
                      newClips).
Proof.
  intros Hh Hnd Hall w'.
  pose proof (addClips_replay_views newClips streamId w Hh Hnd Hall) as Hv.
  fold w' in Hv. split.
  - unfold globalPositions. rewrite Hv, fmap_app, replay_entries_global, fmap_imap.
    reflexivity.
  - intros sid Hs. unfold streamPositions. rewrite Hv, omap_app.
    rewrite (replay_entries_stream _ _ _ _ _ _ Hs).
    rewrite (streamPositions_length sid streamId _ Hs).
    f_equal.
    rewrite <- (zip_imap_paths
                  (Z.of_nat (length (List.filter (in_query streamId) (views_clips w))) + 1)).
    apply imap_ext. intros i c _. simpl. f_equal.
Qed.

(** Positions that go up in steps of two are strictly increasing. *)
Lemma imap_steps_sorted {A : Type} (b : Z) (l : list A) :
  StronglySorted Z.lt (imap (fun i _ => (b + 2 * Z.of_nat i)%Z) l).
Proof.
  revert b. induction l as [|x l IH]; intros b; [constructor|].
  rewrite imap_cons. constructor.
  - rewrite (imap_ext _ (fun i _ => (b + 2 + 2 * Z.of_nat i)%Z))
      by (intros i y _; simpl; lia).
    apply IH.
  - apply Forall_forall. intros z Hz.
    apply elem_of_lookup_imap in Hz as (i & y & -> & _). simpl. lia.
Qed.

Lemma dense_bound (l : list (option Z)) (a : Z) :
  dense l -> Some a ∈ l -> (0 <= a < Z.of_nat (length l))%Z.
Proof.
  unfold dense. intros Hl Ha. rewrite Hl in Ha.
  apply list_elem_of_fmap in Ha as (x & Hx & Hin). injection Hx as <-.
  apply elem_of_seqZ in Hin. lia.
Qed.

(** C3, as the code has it.  Take a healthy ledger whose global positions
    are dense [0 .. N-1] and, when a stream id is given, whose positions in
    that stream are dense [0 .. M-1].  A replay-buffer import of new clips
    (paths new, pairwise different, different from ['add'], files in place)
    leaves the positions that are there as they are and appends the new
    clips after the current maximum in arrival order: the clip at index [i]
    of the call gets the global position [N + 1 + 2 i] and the position
    [M + 1 + 2 i] in the stream, so the new positions are strictly
    increasing and each is greater than every position that was there.
    They do not start right after the maximum: no clip has the global
    position [N], no clip of the stream has the position [M], and once a
    clip has been imported neither the global positions nor the positions
    in the stream are dense any more. *)
Theorem replay_inserts_appended (newClips : list INewClip) (streamId : option string)
    (w : World) :
  healthy w ->
  NoDup (dict_keys (clips (state w)) ++ (nc_path <$> newClips)) ->
  Forall (fun c => nc_path c <> "add" /\ fileExists w (nc_path c) = true) newClips ->
  dense (globalPositions w) ->
  (forall sid, truthy streamId = Some sid ->
               dense ((fun pa => Some pa.2) <$> streamPositions sid w)) ->
  let w' := addClips newClips streamId ReplayBuffer w in
  let N := Z.of_nat (length (globalPositions w)) in
  let gs := imap (fun i _ => (N + 1 + 2 * Z.of_nat i)%Z) newClips in
  globalPositions w' = globalPositions w ++ (Some <$> gs)
  /\ StronglySorted Z.lt gs
  /\ Forall (fun g => forall a, Some a ∈ globalPositions w -> (a < g)%Z) gs
  /\ (Some N ∉ globalPositions w')
  /\ (newClips <> [] -> ~ dense (globalPositions w'))
  /\ forall sid, truthy streamId = Some sid ->
       let M := Z.of_nat (length (streamPositions sid w)) in
       let ss := imap (fun i _ => (M + 1 + 2 * Z.of_nat i)%Z) newClips in
       streamPositions sid w' = streamPositions sid w ++ zip (nc_path <$> newClips) ss
       /\ StronglySorted Z.lt ss
       /\ Forall (fun s => forall pa, pa ∈ streamPositions sid w -> (pa.2 < s)%Z) ss
       /\ (M ∉ snd <$> streamPositions sid w')
       /\ (newClips <> [] ->
           ~ dense ((fun pa => Some pa.2) <$> streamPositions sid w')).
Proof.
  intros Hh Hnd Hall Hdense Hsdense w' N gs.
  destruct (addClips_replay_positions newClips streamId w Hh Hnd Hall) as (Hg & Hs).
  fold w' in Hg, Hs.
  assert (Hlen : length (globalPositions w) = length (views_clips w)).
  { unfold globalPositions. apply length_fmap. }
  rewrite <- Hlen in Hg. fold N gs in Hg.
  assert (Hskip : Some N ∉ globalPositions w').
  { rewrite Hg. intros Hin. apply elem_of_app in Hin as [Hin|Hin].
    - pose proof (dense_bound _ _ Hdense Hin) as Hb. unfold N in Hb. lia.
    - apply list_elem_of_fmap in Hin as (x & Hx & Hin). injection Hx as <-.
      apply elem_of_lookup_imap in Hin as (i & c & Hx & _). lia. }
  split; [exact Hg|].
  split; [apply imap_steps_sorted|].
  split.
  { apply Forall_forall. intros g Hin a Ha.
    apply elem_of_lookup_imap in Hin as (i & c & -> & _).
    pose proof (dense_bound _ _ Hdense Ha) as Hb. unfold N. lia. }
  split; [exact Hskip|].
  split.
  { intros Hne Hdense'. apply Hskip. unfold dense in Hdense'. rewrite Hdense'.
    apply list_elem_of_fmap. exists N. split; [reflexivity|].
    apply elem_of_seqZ. rewrite Hg, length_app, length_fmap. unfold gs.
    rewrite length_imap. destruct newClips; [congruence|]. unfold N. simpl. lia. }
  intros sid Hsid M ss.
  pose proof (Hs sid Hsid) as Hs'. fold M ss in Hs'.
  assert (Hsskip : M ∉ snd <$> streamPositions sid w').
  { rewrite Hs', fmap_app. intros Hin. apply elem_of_app in Hin as [Hin|Hin].
    - apply list_elem_of_fmap in Hin as (pa & Hx & Hin).
      assert (Hpa' : Some pa.2 ∈ (fun pa => Some pa.2) <$> streamPositions sid w).
      { apply list_elem_of_fmap. exists pa. split; [reflexivity | exact Hin]. }
      pose proof (dense_bound _ _ (Hsdense sid Hsid) Hpa') as Hb.
      rewrite length_fmap in Hb. unfold M in Hx. lia.
    - rewrite snd_zip in Hin
        by (unfold ss; rewrite length_imap, length_fmap; reflexivity).
      apply elem_of_lookup_imap in Hin as (i & c & Hx & _). lia. }
  split; [exact Hs'|].
  split; [apply imap_steps_sorted|].
  split.
  { apply Forall_forall. intros s Hin pa Hpa.
    apply elem_of_lookup_imap in Hin as (i & c & -> & _).
    assert (Hpa' : Some pa.2 ∈ (fun pa => Some pa.2) <$> streamPositions sid w).
    { apply list_elem_of_fmap. exists pa. split; [reflexivity | exact Hpa]. }
    pose proof (dense_bound _ _ (Hsdense sid Hsid) Hpa') as Hb.
    rewrite length_fmap in Hb. unfold M. lia. }
  split; [exact Hsskip|].
  intros Hne Hdense'. apply Hsskip.
  assert (Hin : Some M ∈ (fun pa : string * Z => Some pa.2) <$> streamPositions sid w').
  { unfold dense in Hdense'. rewrite Hdense'.
    apply list_elem_of_fmap. exists M. split; [reflexivity|].
    apply elem_of_seqZ. rewrite length_fmap, Hs', length_app, length_zip_with.
    unfold ss. rewrite length_imap, length_fmap.
    destruct newClips; [congruence|]. unfold M. simpl. lia. }
  apply list_elem_of_fmap in Hin as (pa & Hx & Hin). injection Hx as ->.
  apply list_elem_of_fmap. exists pa. split; [reflexivity | exact Hin].
Qed.

Lemma replay_inserts_appended_witness :
  let w := manual_inserts [(mkNewClip "m.mp4" None None, Some "S")]
             (initialWorld {["m.mp4"; "r1.mp4"; "r2.mp4"]}) in
  let newClips := [replayClip "r1.mp4" 30 50; replayClip "r2.mp4" 60 80] in
  let w' := addClips newClips (Some "S") ReplayBuffer w in
  globalPositions w = [Some 0%Z]
  /\ globalPositions w' = [Some 0%Z; Some 2%Z; Some 4%Z]
  /\ (Some 1%Z ∉ globalPositions w')
  /\ ~ dense (globalPositions w')
  /\ streamPositions "S" w = [("m.mp4", 0%Z)]
  /\ streamPositions "S" w' = [("m.mp4", 0%Z); ("r1.mp4", 2%Z); ("r2.mp4", 4%Z)]
  /\ (1%Z ∉ snd <$> streamPositions "S" w')
  /\ ~ dense ((fun pa => Some pa.2) <$> streamPositions "S" w').
Proof.
  intros w newClips w'.
  destruct (replay_inserts_appended newClips (Some "S") w)
    as (Hg & _ & _ & Hskip & Hnd & Hs).
  - split; [|split].
    + vm_compute. repeat constructor.
    + vm_compute. repeat constructor; rewrite ?elem_of_cons, ?elem_of_nil; intuition discriminate.
    + vm_compute. repeat constructor; discriminate.
  - vm_compute. repeat constructor; rewrite ?elem_of_cons, ?elem_of_nil; intuition discriminate.
  - repeat constructor; try discriminate; vm_compute; reflexivity.
  - unfold dense. vm_compute. reflexivity.
  - intros sid Hsid. injection Hsid as <-. unfold dense. vm_compute. reflexivity.
  - destruct (Hs "S" eq_refl) as (Hs1 & _ & _ & Hsskip & Hsnd).
    split; [vm_compute; reflexivity|].
    split; [exact Hg|].
    split; [exact Hskip|].
    split; [apply Hnd; discriminate|].
    split; [vm_compute; reflexivity|].
    split; [exact Hs1|].
    split; [exact Hsskip | apply Hsnd; discriminate].
Defined.

(** C3 as it is worded fails already on the empty ledger: the one
    replay-buffer clip gets the global position 1 and the stream position
    1, so neither the global nor the stream positions are the numbers from
    0 on; a batch of two gets 1 and 3.  On the dense ledger of one manual
    clip the replay-buffer clip gets position 2, and 1 is left out. *)
Lemma replay_insert_skips_position :
  let w := initialWorld {["m.mp4"; "r1.mp4"; "r2.mp4"]} in
  let w1 := addClips [replayClip "r1.mp4" 0 20] (Some "S") ReplayBuffer w in
  let w2 := addClips [replayClip "r1.mp4" 0 20; replayClip "r2.mp4" 30 50] (Some "S")
              ReplayBuffer w in
  let wm := manual_inserts [(mkNewClip "m.mp4" None None, None)] w in
  (dense (globalPositions w)
   /\ globalPositions w1 = [Some 1%Z]
   /\ streamPositions "S" w1 = [("r1.mp4", 1%Z)]
   /\ ~ dense (globalPositions w1))
  /\ (globalPositions w2 = [Some 1%Z; Some 3%Z]
      /\ streamPositions "S" w2 = [("r1.mp4", 1%Z); ("r2.mp4", 3%Z)])
  /\ (globalPositions wm = [Some 0%Z]
      /\ globalPositions (addClips [replayClip "r1.mp4" 0 20] (Some "S") ReplayBuffer wm)
         = [Some 0%Z; Some 2%Z]).
Proof.
  split; [|split; split; vm_compute; reflexivity].
  split; [unfold dense; reflexivity|].
  split; [vm_compute; reflexivity|].
  split; [vm_compute; reflexivity|].
  replace (globalPositions _) with [Some 1%Z] by (vm_compute; reflexivity).
  unfold dense. simpl. intros H. apply Permutation_singleton_l in H. discriminate.
Qed.

(** * Further properties of the service *)

(** ** The upload records *)

Lemma getUploadInfo_set_upload q us :
  getUploadInfo (set_upload q us) (q_platform q)
  = Some (merge_upload (default (newUpload (q_platform q)) (getUploadInfo us (q_platform q))) q).
Proof.
  unfold getUploadInfo. induction us as [|u us IH]; simpl.
  - rewrite bool_decide_eq_true_2 by reflexivity. reflexivity.
  - destruct (decide (platform u = q_platform q)) as [e|n]; simpl.
    + rewrite !bool_decide_eq_true_2 by (reflexivity || exact e). reflexivity.
    + rewrite bool_decide_eq_false_2 by exact n. exact IH.
Qed.

Lemma getUploadInfo_set_upload_other q us pf :
  pf <> q_platform q ->
  getUploadInfo (set_upload q us) pf = getUploadInfo us pf.
Proof.
  intros Hne. unfold getUploadInfo. induction us as [|u us IH]; simpl.
  - rewrite bool_decide_eq_false_2 by (intros e; apply Hne; symmetry; exact e). reflexivity.
  - destruct (decide (platform u = q_platform q)) as [e|n]; simpl.
    + rewrite !bool_decide_eq_false_2; [reflexivity| |]; intros e'; apply Hne; congruence.
    + destruct (bool_decide (platform u = pf)); [reflexivity|exact IH].
Qed.

Lemma set_upload_platforms q us :
  platform <$> set_upload q us
  = if bool_decide (q_platform q ∈ platform <$> us) then platform <$> us
    else (platform <$> us) ++ [q_platform q].
Proof.
  induction us as [|u us IH].
  - reflexivity.
  - cbn [set_upload]. rewrite !fmap_cons.
    destruct (decide (platform u = q_platform q)) as [e|n].
    + rewrite fmap_cons. cbn [platform merge_upload].
      rewrite bool_decide_eq_true_2 by (rewrite e; left). rewrite e. reflexivity.
    + rewrite fmap_cons, IH.
      destruct (bool_decide (q_platform q ∈ platform <$> us)) eqn:Hin.
      * apply bool_decide_eq_true_1 in Hin.
        rewrite bool_decide_eq_true_2 by (right; exact Hin). reflexivity.
      * apply bool_decide_eq_false_1 in Hin.
        rewrite bool_decide_eq_false_2; [reflexivity|].
        intros H. apply elem_of_cons in H as [H|H]; [apply n; symmetry; exact H|exact (Hin H)].
Qed.

Lemma set_upload_NoDup q us :
  NoDup (platform <$> us) -> NoDup (platform <$> set_upload q us).
Proof.
  intros Hnd. rewrite set_upload_platforms.
  destruct (bool_decide (q_platform q ∈ platform <$> us)) eqn:Hin; [exact Hnd|].
  apply bool_decide_eq_false_1 in Hin.
  apply NoDup_app. split; [exact Hnd|]. split.
  - intros x Hx Hx'. apply list_elem_of_singleton in Hx'. subst x. exact (Hin Hx).
  - apply NoDup_singleton.
Qed.

(** X1. [SET_UPLOAD_INFO] keeps one record per platform: platforms that
    were distinct stay distinct, the record of the platform of the patch is
    the old record (the defaults, for a platform without one) overlaid with
    the patch, and the records of the other platforms are as they were. *)
Theorem SET_UPLOAD_INFO_one_record_per_platform (uploadInfo : IUploadInfoPatch) (w : World) :
  NoDup (platform <$> views_uploadInfo w) ->
  NoDup (platform <$> views_uploadInfo (SET_UPLOAD_INFO uploadInfo w))
  /\ getUploadInfo (views_uploadInfo (SET_UPLOAD_INFO uploadInfo w)) (q_platform uploadInfo)
     = Some (merge_upload
               (default (newUpload (q_platform uploadInfo))
                        (getUploadInfo (views_uploadInfo w) (q_platform uploadInfo)))
               uploadInfo)
  /\ forall pf, pf <> q_platform uploadInfo ->
       getUploadInfo (views_uploadInfo (SET_UPLOAD_INFO uploadInfo w)) pf
       = getUploadInfo (views_uploadInfo w) pf.
Proof.
  intros Hnd. unfold views_uploadInfo, SET_UPLOAD_INFO. simpl.
  split; [apply set_upload_NoDup; exact Hnd|].
  split; [apply getUploadInfo_set_upload|].
  intros pf Hne. apply getUploadInfo_set_upload_other. exact Hne.
Qed.

Lemma SET_UPLOAD_INFO_one_record_per_platform_witness :
  let w := uploadingWorld "youtube" in
  let q := mkUploadPatch "crossclip" (Some true) None None None None None in
  NoDup (platform <$> views_uploadInfo (SET_UPLOAD_INFO q w))
  /\ getUploadInfo (views_uploadInfo (SET_UPLOAD_INFO q w)) "crossclip"
     = Some (mkUploadInfo "crossclip" true 0 0 false None false)
  /\ forall pf, pf <> "crossclip" ->
       getUploadInfo (views_uploadInfo (SET_UPLOAD_INFO q w)) pf
       = getUploadInfo (views_uploadInfo w) pf.
Proof.
  intros w q. apply (SET_UPLOAD_INFO_one_record_per_platform q w).
  apply (bool_decide_unpack _). vm_compute. exact I.
Defined.

(** A run of patches for one platform. *)
Lemma set_uploads_head pf u us qs :
  platform u = pf ->
  Forall (fun q => q_platform q = pf) qs ->
  foldl (fun acc q => set_upload q acc) (u :: us) qs = foldl merge_upload u qs :: us
  /\ platform (foldl merge_upload u qs) = pf.
Proof.
  revert u. induction qs as [|q qs IH]; intros u Hu Hqs; [split; [reflexivity|exact Hu]|].
  apply Forall_cons in Hqs as [Hq Hqs]. cbn [foldl set_upload].
  rewrite decide_True by congruence. apply IH; [exact Hq|exact Hqs].
Qed.

Lemma set_uploads_skip pf u us qs :
  platform u <> pf ->
  Forall (fun q => q_platform q = pf) qs ->
  foldl (fun acc q => set_upload q acc) (u :: us) qs
  = u :: foldl (fun acc q => set_upload q acc) us qs.
Proof.
  intros Hu. revert us. induction qs as [|q qs IH]; intros us Hqs; [reflexivity|].
  apply Forall_cons in Hqs as [Hq Hqs]. cbn [foldl set_upload].
  rewrite decide_False by congruence. apply IH. exact Hqs.
Qed.

Lemma foldl_merge_upload_snoc u qs q :
  foldl merge_upload u (qs ++ [q]) = merge_upload (foldl merge_upload u qs) q.
Proof. rewrite foldl_app. reflexivity. Qed.

(** Once the last patch of the run says [uploading: false], nothing is
    uploading if nothing was before the run. *)
Lemma set_uploads_idle pf qs qf us :
  Forall (fun q => q_platform q = pf) qs ->
  q_platform qf = pf -> q_uploading qf = Some false ->
  existsb uploading us = false ->
  existsb uploading (foldl (fun acc q => set_upload q acc) us (qs ++ [qf])) = false.
Proof.
  intros Hqs Hqf Hup. assert (Hall : Forall (fun q => q_platform q = pf) (qs ++ [qf])).
  { apply Forall_app. split; [exact Hqs|]. apply Forall_singleton. exact Hqf. }
  induction us as [|u us IH]; intros Hidle.
  - destruct qs as [|q qs].
    + cbn. rewrite Hup. reflexivity.
    + cbn [app foldl set_upload]. apply Forall_cons in Hall as [Hq Hall].
      destruct (set_uploads_head pf (merge_upload (newUpload (q_platform q)) q) []
                  (qs ++ [qf])) as [-> _]; [exact Hq|exact Hall|].
      rewrite foldl_merge_upload_snoc. cbn. rewrite Hup. reflexivity.
  - cbn [existsb] in Hidle. apply orb_false_iff in Hidle as [Hu Hidle].
    destruct (decide (platform u = pf)) as [e|n].
    + destruct (set_uploads_head pf u us (qs ++ [qf])) as [-> _]; [exact e|exact Hall|].
      rewrite foldl_merge_upload_snoc. cbn. rewrite Hup. exact Hidle.
    + rewrite (set_uploads_skip pf) by (exact n || exact Hall).
      cbn [existsb]. rewrite Hu. apply IH. exact Hidle.
Qed.

Lemma getUploadInfo_existsb (f : IUploadInfo -> bool) us pf u :
  getUploadInfo us pf = Some u -> f u = true -> existsb f us = true.
Proof.
  unfold getUploadInfo. intros Hfind Hf. apply find_some in Hfind as [Hin _].
  apply existsb_exists. exists u. split; [exact Hin|exact Hf].
Qed.

Lemma getUploadInfo_platform us pf u : getUploadInfo us pf = Some u -> platform u = pf.
Proof.
  unfold getUploadInfo. intros Hfind. apply find_some in Hfind as [_ H].
  apply bool_decide_eq_true_1 in H. exact H.
Qed.

(** The progress reports of an upload, on the records. *)
Lemma upload_progress_uploads pf ps w :
  views_uploadInfo (foldl (fun acc p => upload_progress pf p.1 p.2 acc) w ps)
  = foldl (fun acc q => set_upload q acc) (views_uploadInfo w)
      ((fun p : Z * Z => mkUploadPatch pf None (Some p.1) (Some p.2) None None None) <$> ps).
Proof.
  revert w. induction ps as [|p ps IH]; intros w; [reflexivity|].
  cbn [foldl fmap list_fmap]. rewrite IH. reflexivity.
Qed.

Lemma upload_progress_rest pf ps w :
  let w' := foldl (fun acc p => upload_progress pf p.1 p.2 acc) w ps in
  views_exportInfo w' = views_exportInfo w /\ cancelFunction w' = cancelFunction w.
Proof.
  revert w. induction ps as [|p ps IH]; intros w; [split; reflexivity|].
  cbn [foldl]. destruct (IH (upload_progress pf p.1 p.2 w)) as [-> ->]. split; reflexivity.
Qed.

Lemma progress_patches_platform pf (ps : list (Z * Z)) :
  Forall (fun q => q_platform q = pf)
    ((fun p : Z * Z => mkUploadPatch pf None (Some p.1) (Some p.2) None None None) <$> ps).
Proof. apply Forall_fmap, Forall_forall. intros p _. reflexivity. Qed.

(** The record of a platform through a run of patches for it. *)
Lemma getUploadInfo_set_uploads pf qs us :
  Forall (fun q => q_platform q = pf) qs -> qs <> [] ->
  getUploadInfo (foldl (fun acc q => set_upload q acc) us qs) pf
  = Some (foldl merge_upload (default (newUpload pf) (getUploadInfo us pf)) qs).
Proof.
  intros Hqs Hne. revert us. induction qs as [|q qs IH]; intros us; [congruence|].
  apply Forall_cons in Hqs as [Hq Hqs]. cbn [foldl].
  destruct qs as [|q' qs].
  - cbn [foldl]. subst pf. apply getUploadInfo_set_upload.
  - rewrite IH by (exact Hqs || congruence). subst pf.
    rewrite getUploadInfo_set_upload. reflexivity.
Qed.

Lemma uploadYoutube_start_Returned linked w w1 :
  uploadYoutube_start linked w = Returned w1 ->
  linked = true
  /\ exported (views_exportInfo w) = true
  /\ existsb uploading (views_uploadInfo w) = false
  /\ w1 = with_cancelFunction (Some YOUTUBE)
            (SET_UPLOAD_INFO
               (mkUploadPatch YOUTUBE (Some true) None None (Some false) None (Some false)) w).
Proof.
  unfold uploadYoutube_start. destruct linked; [|discriminate]. cbn [negb].
  destruct (exported (views_exportInfo w)); [|discriminate]. cbn [negb].
  destruct (existsb uploading (views_uploadInfo w)); [discriminate|].
  intros H. injection H as <-. repeat split; reflexivity.
Qed.

(** The records while an upload that started with the patch [q0] reports
    its progress. *)
Lemma uploads_in_flight pf q0 ps w :
  views_uploadInfo
    (foldl (fun acc p => upload_progress pf p.1 p.2 acc)
       (with_cancelFunction (Some pf) (SET_UPLOAD_INFO q0 w)) ps)
  = foldl (fun acc q => set_upload q acc) (views_uploadInfo w)
      (q0 :: ((fun p : Z * Z => mkUploadPatch pf None (Some p.1) (Some p.2) None None None)
                <$> ps)).
Proof. rewrite upload_progress_uploads. reflexivity. Qed.

Lemma foldl_merge_upload_uploading u qs :
  Forall (fun q => q_uploading q = None) qs ->
  uploading (foldl merge_upload u qs) = uploading u.
Proof.
  revert u. induction qs as [|q qs IH]; intros u Hqs; [reflexivity|].
  apply Forall_cons in Hqs as [Hq Hqs]. cbn [foldl]. rewrite IH by exact Hqs.
  cbn. rewrite Hq. reflexivity.
Qed.

Lemma progress_patches_uploading pf (ps : list (Z * Z)) :
  Forall (fun q => q_uploading q = None)
    ((fun p : Z * Z => mkUploadPatch pf None (Some p.1) (Some p.2) None None None) <$> ps).
Proof. apply Forall_fmap, Forall_forall. intros p _. reflexivity. Qed.

(** An upload that has started is listed as uploading until it
    finishes. *)
Lemma uploads_in_flight_uploading pf q0 ps w :
  q_platform q0 = pf -> q_uploading q0 = Some true ->
  exists u,
    getUploadInfo
      (views_uploadInfo
         (foldl (fun acc p => upload_progress pf p.1 p.2 acc)
            (with_cancelFunction (Some pf) (SET_UPLOAD_INFO q0 w)) ps)) pf = Some u
    /\ uploading u = true.
Proof.
  intros Hpf Hup. rewrite uploads_in_flight.
  rewrite (getUploadInfo_set_uploads pf).
  - eexists. split; [reflexivity|]. cbn [foldl].
    rewrite foldl_merge_upload_uploading by apply progress_patches_uploading.
    cbn. rewrite Hup. reflexivity.
  - apply Forall_cons. split; [exact Hpf|apply progress_patches_platform].
  - discriminate.
Qed.

Lemma set_upload_snoc q us qs :
  set_upload q (foldl (fun acc q => set_upload q acc) us qs)
  = foldl (fun acc q => set_upload q acc) us (qs ++ [q]).
Proof. rewrite foldl_app. reflexivity. Qed.

(** X2. While an upload to YouTube is in flight, whatever progress it has
    reported, a second [uploadYoutube] throws and leaves the state as it
    is; once the first has finished, with a result or with a failure, the
    next [uploadYoutube] is let through. *)
Theorem uploadYoutube_one_at_a_time (linked linked' : bool) (progress : list (Z * Z))
    (result : option string) (w w1 : World) :
  uploadYoutube_start linked w = Returned w1 ->
  let w2 := foldl (fun acc p => upload_progress YOUTUBE p.1 p.2 acc) w1 progress in
  uploadYoutube_start linked' w2 = Threw w2
  /\ exists w3, uploadYoutube_start true (uploadYoutube_finish result w2) = Returned w3.
Proof.
  intros Hstart w2. apply uploadYoutube_start_Returned in Hstart as (_ & Hexp & Hidle & ->).
  destruct (upload_progress_rest YOUTUBE progress
              (with_cancelFunction (Some YOUTUBE)
                 (SET_UPLOAD_INFO
                    (mkUploadPatch YOUTUBE (Some true) None None (Some false) None
                                   (Some false)) w))) as [Hexp2 _].
  fold w2 in Hexp2.
  assert (Hups := uploads_in_flight YOUTUBE
                    (mkUploadPatch YOUTUBE (Some true) None None (Some false) None (Some false))
                    progress w).
  fold w2 in Hups.
  destruct (uploads_in_flight_uploading YOUTUBE
              (mkUploadPatch YOUTUBE (Some true) None None (Some false) None (Some false))
              progress w eq_refl eq_refl) as (u & Hu & Huploading).
  fold w2 in Hu.
  split.
  - unfold uploadYoutube_start. destruct linked'; [|reflexivity]. cbn [negb].
    rewrite Hexp2. change (exported (views_exportInfo (SET_UPLOAD_INFO _ w)))
      with (exported (views_exportInfo w)).
    cbn. change (exported (st_export (state w))) with (exported (views_exportInfo w)).
    rewrite Hexp. cbn [negb].
    rewrite (getUploadInfo_existsb uploading _ _ _ Hu Huploading). reflexivity.
  - eexists. unfold uploadYoutube_start. cbn [negb].
    assert (Hexp3 : exported (views_exportInfo (uploadYoutube_finish result w2)) = true).
    { transitivity (exported (views_exportInfo w2)).
      - unfold uploadYoutube_finish. destruct result; [reflexivity|].
        destruct (existsb u_cancelRequested (views_uploadInfo w2)); reflexivity.
      - rewrite Hexp2. exact Hexp. }
    rewrite Hexp3. cbn [negb].
    assert (Hidle3 : existsb uploading (views_uploadInfo (uploadYoutube_finish result w2))
                     = false).
    { set (qf := mkUploadPatch YOUTUBE (Some false) None None (Some false) (Some result) None).
      set (qe := mkUploadPatch YOUTUBE None None None None None (Some true)).
      assert (Hrun : Forall (fun q => q_platform q = YOUTUBE)
                       (mkUploadPatch YOUTUBE (Some true) None None (Some false) None
                                      (Some false)
                        :: ((fun p : Z * Z =>
                               mkUploadPatch YOUTUBE None (Some p.1) (Some p.2) None None None)
                              <$> progress))).
      { apply Forall_cons. split; [reflexivity|apply progress_patches_platform]. }
      assert (Hcase :
        views_uploadInfo (uploadYoutube_finish result w2)
        = set_upload qf (views_uploadInfo w2)
        \/ views_uploadInfo (uploadYoutube_finish result w2)
           = set_upload qf (set_upload qe (views_uploadInfo w2))).
      { unfold uploadYoutube_finish. destruct result; [left; reflexivity|].
        destruct (existsb u_cancelRequested (views_uploadInfo w2));
          [left; reflexivity|right; reflexivity]. }
      destruct Hcase as [-> | ->]; rewrite Hups.
      - rewrite set_upload_snoc.
        apply (set_uploads_idle YOUTUBE); [exact Hrun|reflexivity|reflexivity|exact Hidle].
      - rewrite !set_upload_snoc.
        apply (set_uploads_idle YOUTUBE); [|reflexivity|reflexivity|exact Hidle].
        apply Forall_app. split; [exact Hrun|]. apply Forall_singleton. reflexivity. }
    rewrite Hidle3. reflexivity.
Qed.

Lemma uploadYoutube_one_at_a_time_witness :
  let w := with_state (with_export (set_exported true)) (initialWorld ∅) in
  let w1 := with_cancelFunction (Some YOUTUBE)
              (SET_UPLOAD_INFO
                 (mkUploadPatch YOUTUBE (Some true) None None (Some false) None (Some false))
                 w) in
  let w2 := foldl (fun acc p => upload_progress YOUTUBE p.1 p.2 acc) w1
              [(10, 100); (100, 100)]%Z in
  uploadYoutube_start true w2 = Threw w2
  /\ exists w3, uploadYoutube_start true (uploadYoutube_finish (Some "v1") w2) = Returned w3.
Proof.
  intros w w1.
  apply (uploadYoutube_one_at_a_time true true [(10, 100); (100, 100)]%Z (Some "v1") w w1).
  vm_compute. reflexivity.
Defined.

(** The record of a platform after [cancelUpload] for it, while its upload
    is in flight. *)
Lemma cancelUpload_in_flight pf w u :
  cancelFunction w = Some pf ->
  getUploadInfo (views_uploadInfo w) pf = Some u -> uploading u = true ->
  cancelUpload pf w
  = SET_UPLOAD_INFO (mkUploadPatch pf None None None (Some true) None None) w.
Proof.
  intros Hc Hu Hup. unfold cancelUpload. rewrite Hc.
  rewrite (getUploadInfo_existsb _ _ _ _ Hu); [reflexivity|].
  rewrite (getUploadInfo_platform _ _ _ Hu), bool_decide_eq_true_2 by reflexivity.
  exact Hup.
Qed.

Lemma cancel_requested_after_cancel pf w :
  existsb u_cancelRequested
    (views_uploadInfo
       (SET_UPLOAD_INFO (mkUploadPatch pf None None None (Some true) None None) w)) = true.
Proof.
  apply (getUploadInfo_existsb _ _ pf
           (merge_upload (default (newUpload pf) (getUploadInfo (views_uploadInfo w) pf))
                         (mkUploadPatch pf None None None (Some true) None None))).
  - apply (getUploadInfo_set_upload (mkUploadPatch pf None None None (Some true) None None)).
  - reflexivity.
Qed.

Lemma foldl_merge_upload_progress pf u (ps : list (Z * Z)) :
  let u' := foldl merge_upload u
              ((fun p : Z * Z => mkUploadPatch pf None (Some p.1) (Some p.2) None None None)
                 <$> ps) in
  uploading u' = uploading u /\ u_cancelRequested u' = u_cancelRequested u
  /\ u_error u' = u_error u /\ videoId u' = videoId u.
Proof.
  revert u. induction ps as [|p ps IH]; intros u; [repeat split|].
  cbn [fmap list_fmap foldl].
  destruct (IH (merge_upload u
                  (mkUploadPatch pf None (Some p.1) (Some p.2) None None None)))
    as (-> & -> & -> & ->).
  repeat split.
Qed.

(** The record of a platform while its upload is in flight. *)
Lemma upload_in_flight pf ps w :
  let w2 := foldl (fun acc p => upload_progress pf p.1 p.2 acc)
              (with_cancelFunction (Some pf)
                 (SET_UPLOAD_INFO
                    (mkUploadPatch pf (Some true) None None (Some false) None (Some false)) w))
              ps in
  cancelFunction w2 = Some pf
  /\ exists u, getUploadInfo (views_uploadInfo w2) pf = Some u
       /\ uploading u = true /\ u_cancelRequested u = false /\ u_error u = false.
Proof.
  intros w2. split.
  - unfold w2. destruct (upload_progress_rest pf ps
      (with_cancelFunction (Some pf)
         (SET_UPLOAD_INFO
            (mkUploadPatch pf (Some true) None None (Some false) None (Some false)) w)))
      as [_ ->]. reflexivity.
  - unfold w2. rewrite uploads_in_flight, (getUploadInfo_set_uploads pf).
    + eexists. split; [reflexivity|]. cbn [foldl].
      match goal with
      | |- context [foldl merge_upload ?u0 _] =>
          destruct (foldl_merge_upload_progress pf u0 ps) as (-> & -> & -> & _)
      end.
      repeat split.
    + apply Forall_cons. split; [reflexivity|apply progress_patches_platform].
    + discriminate.
Qed.

(** What is left of a cancelled upload once its transfer has failed. *)
Lemma cancelled_upload_finish pf qf w2 u :
  q_platform qf = pf -> q_uploading qf = Some false -> q_cancelRequested qf = Some false ->
  q_videoId qf = Some None -> q_error qf = None ->
  getUploadInfo (views_uploadInfo w2) pf = Some u -> u_error u = false ->
  exists u',
    getUploadInfo
      (views_uploadInfo
         (SET_UPLOAD_INFO qf
            (with_cancelFunction None
               (SET_UPLOAD_INFO (mkUploadPatch pf None None None (Some true) None None) w2))))
      pf = Some u'
    /\ uploading u' = false /\ u_cancelRequested u' = false /\ u_error u' = false
    /\ videoId u' = None.
Proof.
  intros Hpf Hup Hcr Hvid Herr Hu He. subst pf. eexists. split.
  - unfold views_uploadInfo, SET_UPLOAD_INFO. cbn [state with_state with_cancelFunction
      uploads with_uploads]. apply getUploadInfo_set_upload.
  - cbn [merge_upload uploading u_cancelRequested u_error videoId].
    rewrite Hup, Hcr, Hvid, Herr. cbn [over].
    change (uploads (state w2)) with (views_uploadInfo w2).
    rewrite (getUploadInfo_set_upload
               (mkUploadPatch (q_platform qf) None None None (Some true) None None)).
    cbn. change (uploads (state w2)) with (views_uploadInfo w2). rewrite Hu. cbn.
    repeat split. exact He.
Qed.

Lemma getUploadInfo_SET_UPLOAD_INFO pf q w u :
  q_platform q = pf ->
  getUploadInfo (views_uploadInfo w) pf = Some u ->
  getUploadInfo (views_uploadInfo (SET_UPLOAD_INFO q w)) pf = Some (merge_upload u q).
Proof.
  intros <- Hu. unfold views_uploadInfo, SET_UPLOAD_INFO in *.
  cbn [state with_state uploads with_uploads].
  rewrite getUploadInfo_set_upload, Hu. reflexivity.
Qed.

(** The record of a platform through the callbacks of its upload: they
    leave [uploading], [cancelRequested] and the video id alone, and the
    error flag is raised by the error callback only. *)
Lemma upload_events_record pf evs w u :
  getUploadInfo (views_uploadInfo w) pf = Some u ->
  let w' := foldl (upload_event pf) w evs in
  cancelFunction w' = cancelFunction w
  /\ exists u',
       getUploadInfo (views_uploadInfo w') pf = Some u'
       /\ uploading u' = uploading u /\ u_cancelRequested u' = u_cancelRequested u
       /\ videoId u' = videoId u
       /\ u_error u' = u_error u || existsb is_failure evs.
Proof.
  revert w u. induction evs as [|e evs IH]; intros w u Hu.
  - cbn. split; [reflexivity|]. exists u. rewrite orb_false_r. repeat split. exact Hu.
  - cbn [foldl existsb].
    assert (Hstep : exists u1,
               getUploadInfo (views_uploadInfo (upload_event pf w e)) pf = Some u1
               /\ cancelFunction (upload_event pf w e) = cancelFunction w
               /\ uploading u1 = uploading u /\ u_cancelRequested u1 = u_cancelRequested u
               /\ videoId u1 = videoId u /\ u_error u1 = u_error u || is_failure e).
    { destruct e as [a b|]; cbn [upload_event is_failure].
      - eexists. split.
        + apply (getUploadInfo_SET_UPLOAD_INFO pf
                   (mkUploadPatch pf None (Some a) (Some b) None None None) w u eq_refl Hu).
        + cbn. rewrite orb_false_r. repeat split.
      - eexists. split.
        + apply (getUploadInfo_SET_UPLOAD_INFO pf
                   (mkUploadPatch pf None None None None None (Some true)) w u eq_refl Hu).
        + cbn. rewrite orb_true_r. repeat split. }
    destruct Hstep as (u1 & Hu1 & Hc1 & Hup1 & Hcr1 & Hv1 & He1).
    destruct (IH _ _ Hu1) as (Hc & u' & Hu' & Hup & Hcr & Hv & He).
    split; [rewrite Hc; exact Hc1|].
    exists u'. split; [exact Hu'|].
    rewrite Hup, Hcr, Hv, He, Hup1, Hcr1, Hv1, He1, orb_assoc. repeat split.
Qed.

(** What the finish of an upload leaves of the record of a platform whose
    cancellation was requested, when the transfer has failed. *)
Lemma cancelled_upload_settles pf qf w u :
  q_platform qf = pf -> q_uploading qf = Some false -> q_cancelRequested qf = Some false ->
  q_videoId qf = Some None -> q_error qf = None ->
  getUploadInfo (views_uploadInfo w) pf = Some u ->
  exists u',
    getUploadInfo (views_uploadInfo (SET_UPLOAD_INFO qf (with_cancelFunction None w))) pf
    = Some u'
    /\ uploading u' = false /\ u_cancelRequested u' = false /\ videoId u' = None
    /\ u_error u' = u_error u.
Proof.
  intros Hpf Hup Hcr Hvid Herr Hu. eexists. split.
  - apply (getUploadInfo_SET_UPLOAD_INFO pf qf (with_cancelFunction None w) u Hpf Hu).
  - cbn [merge_upload uploading u_cancelRequested u_error videoId].
    rewrite Hup, Hcr, Hvid, Herr. repeat split.
Qed.

(** X3. An upload that is cancelled while it is in flight and then fails
    gets no error flag from the finish of [uploadStorage] or of
    [uploadYoutube]: the record of the platform ends with [uploading] and
    [cancelRequested] false and without a video id, and the cancel function
    is cleared.  For [uploadYoutube] the error flag ends false.  For
    [uploadStorage], which hands [uploadFile] an error callback, it ends
    true exactly when that callback was called while the upload was in
    flight, before or after the cancellation. *)
Theorem cancelled_upload_gets_no_error_from_the_finish (pf : EUploadPlatform)
    (linked : bool) (early before after : list UploadEvent) (progress : list (Z * Z))
    (w wy : World) :
  (let w1 := foldl (upload_event pf) (world_of (uploadStorage_start pf w)) early in
   let w2 := foldl (upload_event pf) (world_of (uploadStorage_handed pf true w1)) before in
   let w3 := foldl (upload_event pf) (cancelUpload pf w2) after in
   let w4 := uploadStorage_finish pf None w3 in
   cancelFunction w4 = None
   /\ exists u, getUploadInfo (views_uploadInfo w4) pf = Some u
        /\ uploading u = false /\ u_cancelRequested u = false /\ videoId u = None
        /\ u_error u = existsb is_failure (early ++ before ++ after))
  /\ (uploadYoutube_start linked w = Returned wy ->
      let w2 := foldl (fun acc p => upload_progress YOUTUBE p.1 p.2 acc) wy progress in
      let w3 := uploadYoutube_finish None (cancelUpload YOUTUBE w2) in
      cancelFunction w3 = None
      /\ exists u, getUploadInfo (views_uploadInfo w3) YOUTUBE = Some u
           /\ uploading u = false /\ u_cancelRequested u = false /\ u_error u = false
           /\ videoId u = None).
Proof.
  split.
  - intros w1 w2 w3 w4.
    set (q0 := mkUploadPatch pf (Some true) None None (Some false) None (Some false)).
    assert (H0 : getUploadInfo (views_uploadInfo (world_of (uploadStorage_start pf w))) pf
                 = Some (merge_upload
                           (default (newUpload pf) (getUploadInfo (views_uploadInfo w) pf))
                           q0)).
    { apply (getUploadInfo_set_upload q0). }
    destruct (upload_events_record pf early _ _ H0) as (_ & u1 & Hu1 & Hup1 & Hcr1 & _ & He1).
    fold w1 in Hu1. cbn in Hup1, Hcr1, He1.
    assert (Hh : getUploadInfo
                   (views_uploadInfo (world_of (uploadStorage_handed pf true w1))) pf
                 = Some u1) by exact Hu1.
    destruct (upload_events_record pf before _ _ Hh) as (Hc2 & u2 & Hu2 & Hup2 & Hcr2 & _ & He2).
    fold w2 in Hc2, Hu2. cbn in Hc2.
    assert (Hcancel : cancelUpload pf w2
                      = SET_UPLOAD_INFO
                          (mkUploadPatch pf None None None (Some true) None None) w2).
    { apply (cancelUpload_in_flight pf w2 u2 Hc2 Hu2). rewrite Hup2. exact Hup1. }
    assert (Hu2c : getUploadInfo (views_uploadInfo (cancelUpload pf w2)) pf
                   = Some (merge_upload u2
                             (mkUploadPatch pf None None None (Some true) None None))).
    { rewrite Hcancel.
      apply (getUploadInfo_SET_UPLOAD_INFO pf
               (mkUploadPatch pf None None None (Some true) None None) w2 u2 eq_refl Hu2). }
    destruct (upload_events_record pf after _ _ Hu2c) as (_ & u3 & Hu3 & _ & Hcr3 & _ & He3).
    fold w3 in Hu3. cbn in Hcr3, He3.
    unfold w4, uploadStorage_finish.
    rewrite (getUploadInfo_existsb u_cancelRequested _ pf u3 Hu3 Hcr3).
    split; [reflexivity|].
    destruct (cancelled_upload_settles pf
                (mkUploadPatch pf (Some false) None None (Some false) (Some None) None)
                w3 u3) as (u4 & Hu4 & Hup4 & Hcr4 & Hv4 & He4); try reflexivity; [exact Hu3|].
    exists u4. split; [exact Hu4|]. split; [exact Hup4|]. split; [exact Hcr4|].
    split; [exact Hv4|].
    rewrite He4, He3, He2, He1, !existsb_app, !orb_assoc. reflexivity.
  - intros Hstart w2 w3.
    apply uploadYoutube_start_Returned in Hstart as (_ & _ & _ & ->).
    destruct (upload_in_flight YOUTUBE progress w) as (Hc & u & Hu & Hup & _ & He).
    fold w2 in Hc, Hu. unfold w3.
    rewrite (cancelUpload_in_flight YOUTUBE w2 u Hc Hu Hup).
    unfold uploadYoutube_finish. rewrite cancel_requested_after_cancel.
    split; [reflexivity|].
    apply (cancelled_upload_finish YOUTUBE _ w2 u); try reflexivity; assumption.
Qed.

Lemma cancelled_upload_gets_no_error_from_the_finish_witness :
  let w := with_state (with_export (set_exported true)) (initialWorld ∅) in
  let wy := with_cancelFunction (Some YOUTUBE)
              (SET_UPLOAD_INFO
                 (mkUploadPatch YOUTUBE (Some true) None None (Some false) None (Some false))
                 w) in
  let w2 := foldl (fun acc p => upload_progress YOUTUBE p.1 p.2 acc) wy [(10, 100)%Z] in
  let w3 := uploadYoutube_finish None (cancelUpload YOUTUBE w2) in
  let s2 := foldl (upload_event "crossclip")
              (world_of (uploadStorage_handed "crossclip" true
                           (world_of (uploadStorage_start "crossclip" w))))
              [Progress 10 100] in
  let s3 := foldl (upload_event "crossclip") (cancelUpload "crossclip" s2) [Failure] in
  let s4 := uploadStorage_finish "crossclip" None s3 in
  (cancelFunction w3 = None
   /\ exists u, getUploadInfo (views_uploadInfo w3) YOUTUBE = Some u
        /\ uploading u = false /\ u_cancelRequested u = false /\ u_error u = false
        /\ videoId u = None)
  /\ cancelFunction s4 = None
  /\ exists u, getUploadInfo (views_uploadInfo s4) "crossclip" = Some u
       /\ uploading u = false /\ u_cancelRequested u = false /\ videoId u = None
       /\ u_error u = true.
Proof.
  intros w wy.
  destruct (cancelled_upload_gets_no_error_from_the_finish YOUTUBE true [] [] []
              [(10, 100)%Z] w wy) as [_ H].
  destruct (cancelled_upload_gets_no_error_from_the_finish "crossclip" true []
              [Progress 10 100] [Failure] [] w wy) as [H' _].
  split; [apply H; vm_compute; reflexivity | exact H'].
Defined.

(** X4. However the transfer ended, when [uploadStorage] or [uploadYoutube]
    finish the cancel function is cleared and the record of the platform is
    not uploading, has no cancel request and holds the id of the result
    ([null] without one); the records of the other platforms are as they
    were.  The error flag is raised exactly when the transfer failed while
    no record, of any platform, had [cancelRequested]. *)
Theorem upload_finish_outcome (pf : EUploadPlatform) (result : option string) (w : World) :
  let failed :=
    match result with
    | Some _ => false
    | None => negb (existsb u_cancelRequested (views_uploadInfo w))
    end in
  let ended (pf0 : EUploadPlatform) (id : option string) :=
    let old := default (newUpload pf0) (getUploadInfo (views_uploadInfo w) pf0) in
    mkUploadInfo pf0 false (uploadedBytes old) (totalBytes old) false id
                 (u_error old || failed) in
  (let w' := uploadStorage_finish pf result w in
   cancelFunction w' = None
   /\ getUploadInfo (views_uploadInfo w') pf = Some (ended pf (truthy result))
   /\ forall pf', pf' <> pf ->
        getUploadInfo (views_uploadInfo w') pf' = getUploadInfo (views_uploadInfo w) pf')
  /\ (let w' := uploadYoutube_finish result w in
      cancelFunction w' = None
      /\ getUploadInfo (views_uploadInfo w') YOUTUBE = Some (ended YOUTUBE result)
      /\ forall pf', pf' <> YOUTUBE ->
           getUploadInfo (views_uploadInfo w') pf' = getUploadInfo (views_uploadInfo w) pf').
Proof.
  intros failed ended. split.
  - intros w'. split; [reflexivity|]. unfold w', uploadStorage_finish, ended, failed.
    destruct result as [id|]; [|destruct (existsb u_cancelRequested (views_uploadInfo w))].
    + split.
      * unfold views_uploadInfo, SET_UPLOAD_INFO. cbn [state with_state with_cancelFunction
          uploads with_uploads].
        rewrite (getUploadInfo_set_upload
                   (mkUploadPatch pf (Some false) None None (Some false)
                                  (Some (truthy (Some id))) None)).
        cbn. rewrite orb_false_r. reflexivity.
      * intros pf' Hne. unfold views_uploadInfo, SET_UPLOAD_INFO. cbn [state with_state
          with_cancelFunction uploads with_uploads].
        apply getUploadInfo_set_upload_other. exact Hne.
    + split.
      * unfold views_uploadInfo, SET_UPLOAD_INFO. cbn [state with_state with_cancelFunction
          uploads with_uploads].
        rewrite (getUploadInfo_set_upload
                   (mkUploadPatch pf (Some false) None None (Some false)
                                  (Some (truthy None)) None)).
        cbn. rewrite orb_false_r. reflexivity.
      * intros pf' Hne. unfold views_uploadInfo, SET_UPLOAD_INFO. cbn [state with_state
          with_cancelFunction uploads with_uploads].
        apply getUploadInfo_set_upload_other. exact Hne.
    + split.
      * unfold views_uploadInfo, SET_UPLOAD_INFO. cbn [state with_state with_cancelFunction
          uploads with_uploads].
        rewrite (getUploadInfo_set_upload
                   (mkUploadPatch pf (Some false) None None (Some false)
                                  (Some (truthy None)) None)).
        cbn [q_platform].
        rewrite (getUploadInfo_set_upload
                   (mkUploadPatch pf (Some false) None None None None (Some true))).
        cbn. rewrite orb_true_r. reflexivity.
      * intros pf' Hne. unfold views_uploadInfo, SET_UPLOAD_INFO. cbn [state with_state
          with_cancelFunction uploads with_uploads].
        rewrite !getUploadInfo_set_upload_other by exact Hne. reflexivity.
  - intros w'. split; [reflexivity|]. unfold w', uploadYoutube_finish, ended, failed.
    destruct result as [id|]; [|destruct (existsb u_cancelRequested (views_uploadInfo w))].
    + split.
      * unfold views_uploadInfo, SET_UPLOAD_INFO. cbn [state with_state with_cancelFunction
          uploads with_uploads].
        rewrite (getUploadInfo_set_upload
                   (mkUploadPatch YOUTUBE (Some false) None None (Some false)
                                  (Some (Some id)) None)).
        cbn. rewrite orb_false_r. reflexivity.
      * intros pf' Hne. unfold views_uploadInfo, SET_UPLOAD_INFO. cbn [state with_state
          with_cancelFunction uploads with_uploads].
        apply getUploadInfo_set_upload_other. exact Hne.
    + split.
      * unfold views_uploadInfo, SET_UPLOAD_INFO. cbn [state with_state with_cancelFunction
          uploads with_uploads].
        rewrite (getUploadInfo_set_upload
                   (mkUploadPatch YOUTUBE (Some false) None None (Some false)
                                  (Some None) None)).
        cbn. rewrite orb_false_r. reflexivity.
      * intros pf' Hne. unfold views_uploadInfo, SET_UPLOAD_INFO. cbn [state with_state
          with_cancelFunction uploads with_uploads].
        apply getUploadInfo_set_upload_other. exact Hne.
    + split.
      * unfold views_uploadInfo, SET_UPLOAD_INFO. cbn [state with_state with_cancelFunction
          uploads with_uploads].
        rewrite (getUploadInfo_set_upload
                   (mkUploadPatch YOUTUBE (Some false) None None (Some false)
                                  (Some None) None)).
        cbn [q_platform].
        rewrite (getUploadInfo_set_upload
                   (mkUploadPatch YOUTUBE None None None None None (Some true))).
        cbn. rewrite orb_true_r. reflexivity.
      * intros pf' Hne. unfold views_uploadInfo, SET_UPLOAD_INFO. cbn [state with_state
          with_cancelFunction uploads with_uploads].
        rewrite !getUploadInfo_set_upload_other by exact Hne. reflexivity.
Qed.

(** ** Dismissing errors *)

Lemma set_upload_map q us :
  NoDup (platform <$> us) -> q_platform q ∈ platform <$> us ->
  set_upload q us
  = (fun u => if decide (platform u = q_platform q) then merge_upload u q else u) <$> us.
Proof.
  induction us as [|u us IH]; intros Hnd Hin; [inversion Hin|].
  rewrite fmap_cons in Hnd, Hin. apply NoDup_cons in Hnd as [Hnotin Hnd].
  cbn [set_upload]. rewrite fmap_cons.
  destruct (decide (platform u = q_platform q)) as [e|n].
  - f_equal. rewrite <- (list_fmap_id us) at 1. apply list_fmap_ext.
    intros i x Hx. destruct (decide (platform x = q_platform q)) as [e'|]; [|reflexivity].
    exfalso. apply Hnotin. rewrite e, <- e'. apply list_elem_of_fmap.
    exists x. split; [reflexivity|]. eapply list_elem_of_lookup_2. exact Hx.
  - f_equal. apply IH; [exact Hnd|].
    apply elem_of_cons in Hin as [Hin|Hin]; [exfalso; apply n; symmetry; exact Hin|exact Hin].
Qed.

(** The [forEach] of [dismissError] on the records: a record is cleared
    when its platform is among those the loop goes through. *)
Lemma dismiss_uploads l us :
  NoDup (platform <$> us) ->
  (forall u, u ∈ l -> platform u ∈ platform <$> us) ->
  foldl (fun acc u =>
           set_upload (mkUploadPatch (platform u) None None None None None (Some false)) acc)
        us l
  = (fun u => if bool_decide (platform u ∈ platform <$> l)
              then mkUploadInfo (platform u) (uploading u) (uploadedBytes u) (totalBytes u)
                                (u_cancelRequested u) (videoId u) false
              else u) <$> us.
Proof.
  revert us. induction l as [|a l IH]; intros us Hnd Hl.
  - cbn [foldl]. rewrite <- (list_fmap_id us) at 1. apply list_fmap_ext.
    intros i x _. rewrite bool_decide_eq_false_2; [reflexivity|]. intros H. inversion H.
  - cbn [foldl]. rewrite set_upload_map; [|exact Hnd|apply Hl; left].
    cbn [q_platform].
    assert (Hpf : platform <$>
                    ((fun u => if decide (platform u = platform a)
                               then merge_upload u
                                      (mkUploadPatch (platform a) None None None None None
                                                     (Some false))
                               else u) <$> us) = platform <$> us).
    { rewrite <- list_fmap_compose. apply list_fmap_ext. intros i x _. unfold compose.
      destruct (decide (platform x = platform a)) as [e|]; [symmetry; exact e|reflexivity]. }
    rewrite IH.
    + rewrite <- list_fmap_compose. apply list_fmap_ext. intros i x _. unfold compose.
      rewrite fmap_cons.
      destruct (decide (platform x = platform a)) as [e|n].
      * rewrite (bool_decide_eq_true_2 (_ ∈ _ :: _)) by (rewrite e; left).
        cbn [platform merge_upload uploading uploadedBytes totalBytes u_cancelRequested
               videoId over q_platform q_uploading q_uploadedBytes q_totalBytes
               q_cancelRequested q_videoId q_error u_error].
        rewrite e. destruct (bool_decide (platform a ∈ platform <$> l)); reflexivity.
      * destruct (bool_decide (platform x ∈ platform <$> l)) eqn:Hin.
        -- apply bool_decide_eq_true_1 in Hin.
           rewrite bool_decide_eq_true_2 by (right; exact Hin). reflexivity.
        -- apply bool_decide_eq_false_1 in Hin.
           rewrite bool_decide_eq_false_2; [reflexivity|].
           intros H. apply elem_of_cons in H as [H|H]; [exact (n H)|exact (Hin H)].
    + rewrite Hpf. exact Hnd.
    + intros u Hu. rewrite Hpf. apply Hl. right. exact Hu.
Qed.

Lemma dismiss_uploads_world l w :
  views_uploadInfo
    (foldl (fun acc u =>
              SET_UPLOAD_INFO
                (mkUploadPatch (platform u) None None None None None (Some false)) acc) w l)
  = foldl (fun acc u =>
             set_upload (mkUploadPatch (platform u) None None None None None (Some false)) acc)
          (views_uploadInfo w) l
  /\ views_exportInfo
       (foldl (fun acc u =>
                 SET_UPLOAD_INFO
                   (mkUploadPatch (platform u) None None None None None (Some false)) acc) w l)
     = views_exportInfo w
  /\ clips (state
       (foldl (fun acc u =>
                 SET_UPLOAD_INFO
                   (mkUploadPatch (platform u) None None None None None (Some false)) acc) w l))
     = clips (state w).
Proof.
  revert w. induction l as [|a l IH]; intros w; [repeat split|].
  cbn [foldl]. destruct (IH (SET_UPLOAD_INFO
    (mkUploadPatch (platform a) None None None None None (Some false)) w)) as (-> & -> & ->).
  repeat split.
Qed.

(** X5. After [dismissError] no error is left: the export has no error
    message, no upload record has its error flag, and the service's own
    error is the empty string.  The clips and everything else in the upload
    records are as they were.  The upload records must have distinct
    platforms, which [SET_UPLOAD_INFO] keeps. *)
Theorem dismissError_clears_every_error (w : World) :
  NoDup (platform <$> views_uploadInfo w) ->
  let w' := dismissError w in
  let rest (u : IUploadInfo) :=
    (platform u, uploading u, uploadedBytes u, totalBytes u, u_cancelRequested u, videoId u) in
  truthy (error (views_exportInfo w')) = None
  /\ Forall (fun u => u_error u = false) (views_uploadInfo w')
  /\ st_error (state w') = ""
  /\ rest <$> views_uploadInfo w' = rest <$> views_uploadInfo w
  /\ clips (state w') = clips (state w).
Proof.
  intros Hnd w' rest. unfold w', dismissError.
  set (w1 := match truthy (error (st_export (state w))) with
             | Some _ => _
             | None => w
             end).
  assert (H1 : views_uploadInfo w1 = views_uploadInfo w
               /\ clips (state w1) = clips (state w)
               /\ truthy (error (views_exportInfo w1)) = None).
  { unfold w1. destruct (truthy (error (st_export (state w)))) eqn:He;
      [repeat split|repeat split; exact He]. }
  destruct H1 as (Hu1 & Hc1 & He1).
  change (uploads (state w1)) with (views_uploadInfo w1).
  set (l := List.filter u_error (views_uploadInfo w1)).
  destruct (dismiss_uploads_world l w1) as (Hu2 & He2 & Hc2).
  set (w2 := foldl _ w1 l) in *.
  assert (Hl : forall u, u ∈ l -> platform u ∈ platform <$> views_uploadInfo w1).
  { intros u Hu. apply list_elem_of_fmap. exists u. split; [reflexivity|].
    apply list_elem_of_In. apply list_elem_of_In in Hu.
    apply filter_In in Hu as [Hu _]. exact Hu. }
  rewrite dismiss_uploads in Hu2; [|rewrite Hu1; exact Hnd|exact Hl].
  assert (Hfinal : forall w3, views_uploadInfo w3 = views_uploadInfo w2 ->
                     views_exportInfo w3 = views_exportInfo w2 ->
                     clips (state w3) = clips (state w2) ->
                     st_error (state w3) = "" ->
    truthy (error (views_exportInfo w3)) = None
    /\ Forall (fun u => u_error u = false) (views_uploadInfo w3)
    /\ st_error (state w3) = ""
    /\ rest <$> views_uploadInfo w3 = rest <$> views_uploadInfo w
    /\ clips (state w3) = clips (state w)).
  { intros w3 Hu3 He3 Hc3 Hs3. rewrite Hu3, He3, Hc3, Hu2, He2, Hc2, Hc1.
    split; [exact He1|]. split; [|split; [exact Hs3|split; [|reflexivity]]].
    - apply Forall_fmap, Forall_forall. intros u Hu. unfold compose.
      destruct (bool_decide (platform u ∈ platform <$> l)) eqn:Hin; [reflexivity|].
      destruct (u_error u) eqn:Herr; [|reflexivity].
      exfalso. apply bool_decide_eq_false_1 in Hin. apply Hin.
      apply list_elem_of_fmap. exists u. split; [reflexivity|].
      apply list_elem_of_In, filter_In. split; [apply list_elem_of_In; exact Hu|exact Herr].
    - rewrite <- Hu1, <- list_fmap_compose. apply list_fmap_ext. intros i u _.
      unfold compose. destruct (bool_decide (platform u ∈ platform <$> l)); reflexivity. }
  destruct (decide (st_error (state w2) = "")) as [e|n].
  - apply Hfinal; [reflexivity|reflexivity|reflexivity|exact e].
  - apply Hfinal; reflexivity.
Qed.

Lemma dismissError_clears_every_error_witness :
  let w := with_state
             (with_uploads (fun _ => [mkUploadInfo "youtube" false 5 10 false None true;
                                      mkUploadInfo "crossclip" true 1 10 false None false]))
             (SET_ERROR "boom"
                (SET_EXPORT_INFO
                   (mkExportPatch None None None None None None None None
                                  (Some (Some "failed")) None None None)
                   (initialWorld ∅))) in
  let w' := dismissError w in
  let rest (u : IUploadInfo) :=
    (platform u, uploading u, uploadedBytes u, totalBytes u, u_cancelRequested u, videoId u) in
  truthy (error (views_exportInfo w')) = None
  /\ Forall (fun u => u_error u = false) (views_uploadInfo w')
  /\ st_error (state w') = ""
  /\ rest <$> views_uploadInfo w' = rest <$> views_uploadInfo w
  /\ clips (state w') = clips (state w).
Proof.
  intros w. apply (dismissError_clears_every_error w).
  apply (bool_decide_unpack _). vm_compute. exact I.
Defined.

(** ** The frame counter of an export *)

Lemma setCurrentFrame_step frame w :
  exported (views_exportInfo (setCurrentFrame frame w)) = exported (views_exportInfo w)
  /\ export_input (setCurrentFrame frame w) = export_input w
  /\ (exported (views_exportInfo w) = true -> setCurrentFrame frame w = w)
  /\ (exported (views_exportInfo w) = false ->
      currentFrame (views_exportInfo (setCurrentFrame frame w)) = frame).
Proof.
  unfold setCurrentFrame. destruct (exported (views_exportInfo w)) eqn:Hexp.
  - rewrite Hexp. repeat split. discriminate.
  - repeat split. discriminate.
Qed.

Lemma last_cons_default {A : Type} (x : A) (l : list A) (d d' : A) :
  List.last (x :: l) d = List.last (x :: l) d'.
Proof.
  revert x. induction l as [|y l IH]; intros x; [reflexivity|].
  change (List.last (y :: l) d = List.last (y :: l) d'). apply IH.
Qed.

(** X6. The frame reports of the rendering engine never touch the
    [exported] flag nor what the video is made from: while the video is
    not exported they set [currentFrame], and once it is exported they
    change nothing at all. *)
Theorem setCurrentFrame_keeps_exported (frames : list Z) (w : World) :
  let w' := foldl (fun acc frame => setCurrentFrame frame acc) w frames in
  exported (views_exportInfo w') = exported (views_exportInfo w)
  /\ export_input w' = export_input w
  /\ (exported (views_exportInfo w) = true -> w' = w)
  /\ (exported (views_exportInfo w) = false ->
      currentFrame (views_exportInfo w')
      = List.last frames (currentFrame (views_exportInfo w))).
Proof.
  revert w. induction frames as [|f frames IH]; intros w; [repeat split; reflexivity|].
  cbn [foldl]. destruct (IH (setCurrentFrame f w)) as (IH1 & IH2 & IH3 & IH4).
  destruct (setCurrentFrame_step f w) as (S1 & S2 & S3 & S4).
  rewrite IH1, IH2, S1, S2. repeat split.
  - intros Hexp. rewrite S3 in IH3 |- * by exact Hexp. apply IH3. exact Hexp.
  - intros Hexp. rewrite IH4 by (rewrite S1; exact Hexp). rewrite S4 by exact Hexp.
    destruct frames as [|z frames]; [reflexivity|].
    change (List.last (z :: frames) f
            = List.last (z :: frames) (currentFrame (views_exportInfo w))).
    apply last_cons_default.
Qed.

Lemma setCurrentFrame_keeps_exported_witness :
  let w := initialWorld ∅ in
  let w' := foldl (fun acc frame => setCurrentFrame frame acc) w [1; 2; 3]%Z in
  currentFrame (views_exportInfo w') = 3%Z
  /\ (let wx := with_state (with_export (set_exported true)) w in
      foldl (fun acc frame => setCurrentFrame frame acc) wx [1; 2; 3]%Z = wx).
Proof.
  intros w w'. split.
  - destruct (setCurrentFrame_keeps_exported [1; 2; 3]%Z w) as (_ & _ & _ & H).
    apply H. reflexivity.
  - intros wx.
    destruct (setCurrentFrame_keeps_exported [1; 2; 3]%Z wx) as (_ & _ & H & _).
    apply H. reflexivity.
Defined.

(** ** The ledger is keyed by path *)

Section DictKeys.
Context {V : Type}.
Implicit Types (d : dict V) (k : string) (v : V).

Lemma dict_keys_set d k v :
  dict_keys (dict_set k v d)
  = if bool_decide (k ∈ dict_keys d) then dict_keys d else dict_keys d ++ [k].
Proof.
  unfold dict_keys. induction d as [|[k' v'] d IH].
  - reflexivity.
  - cbn [dict_set]. destruct (decide (k = k')) as [->|n].
    + rewrite !fmap_cons. cbn [fst].
      rewrite bool_decide_eq_true_2 by left. reflexivity.
    + rewrite !fmap_cons, IH. cbn [fst].
      destruct (bool_decide (k ∈ fst <$> d)) eqn:Hin.
      * apply bool_decide_eq_true_1 in Hin.
        rewrite bool_decide_eq_true_2 by (right; exact Hin). reflexivity.
      * apply bool_decide_eq_false_1 in Hin.
        rewrite bool_decide_eq_false_2; [reflexivity|].
        intros H. apply elem_of_cons in H as [H|H]; [exact (n H)|exact (Hin H)].
Qed.

Lemma dict_set_NoDup d k v : NoDup (dict_keys d) -> NoDup (dict_keys (dict_set k v d)).
Proof.
  intros Hnd. rewrite dict_keys_set.
  destruct (bool_decide (k ∈ dict_keys d)) eqn:Hin; [exact Hnd|].
  apply bool_decide_eq_false_1 in Hin. apply NoDup_app. split; [exact Hnd|]. split.
  - intros x Hx Hx'. apply list_elem_of_singleton in Hx'. subst x. exact (Hin Hx).
  - apply NoDup_singleton.
Qed.

Lemma dict_keys_delete d k k' : k' ∈ dict_keys (dict_delete k d) -> k' ∈ dict_keys d.
Proof.
  unfold dict_keys. induction d as [|[k0 v0] d IH]; [auto|].
  cbn [dict_delete]. destruct (decide (k = k0)).
  - intros H. rewrite fmap_cons. right. exact (IH H).
  - rewrite !fmap_cons. intros H. apply elem_of_cons in H as [H|H]; [rewrite H; left|].
    right. exact (IH H).
Qed.

Lemma dict_delete_NoDup d k : NoDup (dict_keys d) -> NoDup (dict_keys (dict_delete k d)).
Proof.
  unfold dict_keys. induction d as [|[k0 v0] d IH]; [auto|].
  rewrite fmap_cons. intros Hnd. apply NoDup_cons in Hnd as [Hnotin Hnd].
  cbn [dict_delete]. destruct (decide (k = k0)); [exact (IH Hnd)|].
  rewrite fmap_cons. apply NoDup_cons. split; [|exact (IH Hnd)].
  intros H. apply Hnotin. exact (dict_keys_delete d k _ H).
Qed.

Lemma dict_get_elem d k v : NoDup (dict_keys d) -> (k, v) ∈ d -> dict_get k d = Some v.
Proof.
  unfold dict_keys. induction d as [|[k0 v0] d IH]; intros Hnd Hin; [inversion Hin|].
  rewrite fmap_cons in Hnd. apply NoDup_cons in Hnd as [Hnotin Hnd].
  cbn [dict_get]. apply elem_of_cons in Hin as [Hin|Hin].
  - injection Hin as -> ->. rewrite decide_True by reflexivity. reflexivity.
  - destruct (decide (k = k0)) as [->|]; [|exact (IH Hnd Hin)].
    exfalso. apply Hnotin. apply list_elem_of_fmap. exists (k0, v). split; [reflexivity|exact Hin].
Qed.
End DictKeys.

Lemma commit_ledger m w :
  wf_ledger w /\ NoDup (dict_keys (clips (state w))) ->
  wf_ledger (commit m w) /\ NoDup (dict_keys (clips (state (commit m w)))).
Proof.
  intros [Hwf Hnd]. unfold wf_ledger in *.
  destruct m as [clip|clip|clipPath| | | | | | | | | |r|r| | | | |]; cbn [commit];
    try (split; [exact Hwf|exact Hnd]).
  - split; [apply dict_set_Forall; [exact Hwf|reflexivity]|apply dict_set_NoDup; exact Hnd].
  - split; [apply dict_set_Forall; [exact Hwf|reflexivity]|apply dict_set_NoDup; exact Hnd].
  - split; [apply dict_delete_Forall; exact Hwf|apply dict_delete_NoDup; exact Hnd].
  - unfold ADD_HIGHLIGHTED_STREAM. destruct (objects w !! r); split; assumption.
  - unfold UPDATE_HIGHLIGHTED_STREAM. destruct (objects w !! r); split; assumption.
Qed.

Lemma commits_ledger ms w :
  wf_ledger w /\ NoDup (dict_keys (clips (state w))) ->
  wf_ledger (commits ms w) /\ NoDup (dict_keys (clips (state (commits ms w)))).
Proof.
  revert w. unfold commits. induction ms as [|m ms IH]; intros w H; [exact H|].
  cbn [foldl]. apply IH, commit_ledger, H.
Qed.

(** The clips of a ledger that is keyed by path. *)
Lemma keyed_ledger_views w :
  wf_ledger w -> NoDup (dict_keys (clips (state w))) ->
  NoDup (path <$> views_clips w)
  /\ forall c, c ∈ views_clips w <-> dict_get (path c) (clips (state w)) = Some c.
Proof.
  intros Hwf Hnd.
  assert (Hkeys : path <$> views_clips w = dict_keys (clips (state w))).
  { unfold views_clips, dict_values, dict_keys. rewrite <- list_fmap_compose.
    apply Forall_fmap_ext_1. eapply Forall_impl; [exact Hwf|].
    intros [k c] H. exact H. }
  split; [rewrite Hkeys; exact Hnd|].
  intros c. split.
  - intros Hin. apply dict_values_elem in Hin as [k Hk].
    assert (Hp : path c = k).
    { unfold wf_ledger in Hwf. rewrite Forall_forall in Hwf. exact (Hwf _ Hk). }
    rewrite Hp. apply dict_get_elem; assumption.
  - intros Hget. apply dict_values_elem. exists (path c).
    apply dict_get_Some_elem. exact Hget.
Qed.

(** X7. Whatever mutations are committed, the ledger stays keyed by path:
    [views.clips] never lists a path twice, and a clip is listed exactly
    when it is the record found under its own path. *)
Theorem ledger_keyed_by_path (ms : list Mutation) (w : World) :
  wf_ledger w -> NoDup (dict_keys (clips (state w))) ->
  let w' := commits ms w in
  NoDup (path <$> views_clips w')
  /\ forall c, c ∈ views_clips w' <-> dict_get (path c) (clips (state w')) = Some c.
Proof.
  intros Hwf Hnd w'.
  destruct (commits_ledger ms w (conj Hwf Hnd)) as [Hwf' Hnd'].
  apply keyed_ledger_views; assumption.
Qed.

Lemma ledger_keyed_by_path_witness :
  let ms := [M_ADD_CLIP (bare_clip "a"); M_UPDATE_CLIP (patch_enabled "b" true);
             M_ADD_CLIP (bare_clip "a"); M_REMOVE_CLIP "b";
             M_UPDATE_CLIP (patch_startTrim "a" 3)] in
  let w' := commits ms (initialWorld ∅) in
  NoDup (path <$> views_clips w')
  /\ forall c, c ∈ views_clips w' <-> dict_get (path c) (clips (state w')) = Some c.
Proof.
  intros ms. apply (ledger_keyed_by_path ms (initialWorld ∅)).
  - constructor.
  - constructor.
Defined.

(** ** Querying twice *)

Lemma removeClip_sync_absent p sid del w :
  dict_get p (clips (state w)) = None -> spawn (removeClip_sync p sid del w) = w.
Proof. intros H. unfold removeClip_sync. rewrite H. reflexivity. Qed.

(** The clips that [getClips] returns do not depend on the removals it
    makes on its way. *)
Lemma getClips_fst cs sid w :
  (getClips cs sid w).1
  = List.filter (fun c => negb (bool_decide (path c = "add"))
                          && fileExists w (path c) && in_query sid c) cs.
Proof.
  revert w. induction cs as [|c cs IH]; intros w; [reflexivity|].
  cbn [getClips List.filter]. destruct (decide (path c = "add")) as [e|n].
  - rewrite bool_decide_eq_true_2 by exact e. apply IH.
  - rewrite bool_decide_eq_false_2 by exact n. cbn [negb andb].
    destruct (fileExists w (path c)) eqn:Hex.
    + cbn [fst andb]. rewrite IH. unfold in_query.
      destruct (match truthy sid with
                | Some sid0 => bool_decide (is_Some (assoc_of sid0 c))
                | None => true
                end); reflexivity.
    + cbn [andb]. rewrite IH. apply filter_ext. intros c'.
      unfold fileExists. rewrite removeClip_sync_files_missing by exact Hex. reflexivity.
Qed.

(** A query finds nothing to remove when every clip without a file is
    already out of the ledger. *)
Lemma getClips_snd_settled cs sid w :
  (forall c, c ∈ cs -> path c <> "add" -> fileExists w (path c) = false ->
             dict_get (path c) (clips (state w)) = None) ->
  (getClips cs sid w).2 = w.
Proof.
  induction cs as [|c cs IH]; intros H; [reflexivity|].
  cbn [getClips]. destruct (decide (path c = "add")) as [e|n].
  - apply IH. intros c' Hc'. apply H. right. exact Hc'.
  - destruct (fileExists w (path c)) eqn:Hex.
    + cbn [snd]. apply IH. intros c' Hc'. apply H. right. exact Hc'.
    + rewrite removeClip_sync_absent by (apply H; [left|exact n|exact Hex]).
      apply IH. intros c' Hc'. apply H. right. exact Hc'.
Qed.

(** X8. [getClips] returns exactly the given clips that are not the
    ['add'] placeholder, whose file exists and that pass the stream filter,
    in their order; asking again straight away returns the same clips and
    changes nothing more. *)
Theorem getClips_idempotent (clips : list TClip) (streamId : option string) (w : World) :
  let r := getClips clips streamId w in
  r.1 = List.filter (fun c => negb (bool_decide (path c = "add"))
                              && fileExists w (path c) && in_query streamId c) clips
  /\ getClips clips streamId r.2 = r.
Proof.
  intros r. split; [apply getClips_fst|].
  apply injective_projections.
  - unfold r. rewrite !getClips_fst. apply filter_ext. intros c.
    unfold fileExists. rewrite getClips_files. reflexivity.
  - apply getClips_snd_settled. intros c Hc Hadd Hgone.
    apply getClips_removes_missing; [exact Hc|exact Hadd|].
    unfold fileExists in *. unfold r in Hgone. rewrite getClips_files in Hgone. exact Hgone.
Qed.

(** ** Clips from the replay buffer *)

Lemma getClips_keeps_absent cs sid w q :
  dict_get q (clips (state w)) = None ->
  dict_get q (clips (state (getClips cs sid w).2)) = None.
Proof.
  intros H. destruct (dict_get q (clips (state (getClips cs sid w).2))) as [c|] eqn:Hq;
    [|reflexivity].
  apply getClips_ledger_shrinks in Hq. congruence.
Qed.

(** X9. A clip that the replay buffer writes while a stream is being
    recorded is filed under that stream with the time window of the
    buffer: the window ends at the seconds elapsed since the recording
    started and starts twenty seconds earlier, or at 0 as long as fewer
    than twenty seconds have elapsed.  Without a stream a new clip is
    stored with no stream association. *)
Theorem replay_clip_window (clipPath sid : string) (streamInfoId : option string)
    (elapsed : Z) (w : World) :
  (sid <> "" ->
   exists c a,
     dict_get clipPath
       (clips (state (replayBufferFileWrite clipPath (Some sid) elapsed w))) = Some c
     /\ assoc_of sid c = Some a
     /\ initialEndTime a = Some elapsed
     /\ initialStartTime a = Some (if (elapsed <? 20)%Z then 0%Z else (elapsed - 20)%Z))
  /\ (truthy streamInfoId = None -> dict_get clipPath (clips (state w)) = None ->
      exists c,
        dict_get clipPath
          (clips (state (replayBufferFileWrite clipPath streamInfoId elapsed w))) = Some c
        /\ streamInfo c = None /\ source c = Some ReplayBuffer).
Proof.
  split.
  - intros Hsid.
    unfold replayBufferFileWrite, addClips, addClips_from, addClips_step.
    assert (Ht : truthy (Some sid) = Some sid).
    { unfold truthy. rewrite decide_False by exact Hsid. reflexivity. }
    rewrite !Ht. destruct (decide (ReplayBuffer = Manual)) as [|_]; [congruence|].
    cbn [fst snd nc_path].
    set (w1 := (getClips _ None _).2).
    set (a := mkStreamInfo _ _ _).
    assert (Ha : initialEndTime a = Some elapsed
                 /\ initialStartTime a
                    = Some (if (elapsed <? 20)%Z then 0%Z else (elapsed - 20)%Z)).
    { unfold a. cbn. split; [reflexivity|]. f_equal.
      destruct (elapsed <? 20)%Z eqn:Hlt;
        [apply Z.ltb_lt in Hlt | apply Z.ltb_ge in Hlt];
        destruct (decide (elapsed = 0%Z)); lia. }
    destruct Ha as (Hend & Hstart).
    destruct (dict_get clipPath (clips (state w1))) as [existing|] eqn:Hp.
    + eexists _, a. split; [|split; [|split; [exact Hend|exact Hstart]]].
      * unfold UPDATE_CLIP. cbn [state with_state clips with_export with_clips p_path
          patch_streamInfo]. rewrite dict_get_set, decide_True by reflexivity. reflexivity.
      * unfold assoc_of. cbn. apply lookup_union_Some_l. apply lookup_singleton_eq.
    + eexists _, a. split; [|split; [|split; [exact Hend|exact Hstart]]].
      * unfold ADD_CLIP. cbn [state with_state clips with_export with_clips path].
        rewrite dict_get_set, decide_True by reflexivity. reflexivity.
      * unfold assoc_of. cbn. apply lookup_singleton_eq.
  - intros Ht Hp.
    unfold replayBufferFileWrite, addClips, addClips_from, addClips_step.
    rewrite !Ht. destruct (decide (ReplayBuffer = Manual)) as [|_]; [congruence|].
    cbn [fst snd nc_path].
    cbn [truthy fst snd].
    set (w0 := (getClips (views_clips w) None w).2).
    set (w1 := (getClips _ None w0).2).
    assert (Hp1 : dict_get clipPath (clips (state w1)) = None).
    { apply getClips_keeps_absent, getClips_keeps_absent, Hp. }
    rewrite Hp1.
    eexists. split.
    + unfold ADD_CLIP. cbn [state with_state clips with_export with_clips path].
      rewrite dict_get_set, decide_True by reflexivity. reflexivity.
    + split; reflexivity.
Qed.

Lemma replay_clip_window_witness :
  (exists c a,
     dict_get "r1.mp4"
       (clips (state (replayBufferFileWrite "r1.mp4" (Some "S") 45 (initialWorld ∅)))) = Some c
     /\ assoc_of "S" c = Some a
     /\ initialEndTime a = Some 45%Z /\ initialStartTime a = Some 25%Z)
  /\ (exists c a,
        dict_get "r0.mp4"
          (clips (state (replayBufferFileWrite "r0.mp4" (Some "S") 12 (initialWorld ∅))))
        = Some c
        /\ assoc_of "S" c = Some a
        /\ initialEndTime a = Some 12%Z /\ initialStartTime a = Some 0%Z)
  /\ exists c,
       dict_get "r1.mp4"
         (clips (state (replayBufferFileWrite "r1.mp4" None 45 (initialWorld ∅)))) = Some c
       /\ streamInfo c = None /\ source c = Some ReplayBuffer.
Proof.
  destruct (replay_clip_window "r1.mp4" "S" None 45 (initialWorld ∅)) as [H1 H2].
  destruct (replay_clip_window "r0.mp4" "S" None 12 (initialWorld ∅)) as [H3 _].
  split; [apply H1; discriminate|].
  split; [apply H3; discriminate | apply H2; reflexivity].
Defined.

(** ** Setting one property of a clip *)

Lemma UPDATE_CLIP_get pt w q :
  dict_get q (clips (state (UPDATE_CLIP pt w)))
  = if decide (q = p_path pt)
    then Some (merge_clip (default (bare_clip (p_path pt))
                                   (dict_get (p_path pt) (clips (state w)))) pt)
    else dict_get q (clips (state w)).
Proof. unfold UPDATE_CLIP. cbn. apply dict_get_set. Qed.

Lemma UPDATE_CLIP_keys pt w :
  dict_keys (clips (state (UPDATE_CLIP pt w)))
  = if bool_decide (p_path pt ∈ dict_keys (clips (state w)))
    then dict_keys (clips (state w))
    else dict_keys (clips (state w)) ++ [p_path pt].
Proof. unfold UPDATE_CLIP. cbn. apply dict_keys_set. Qed.

Lemma UPDATE_CLIP_present pt w c :
  dict_get (p_path pt) (clips (state w)) = Some c ->
  dict_keys (clips (state (UPDATE_CLIP pt w))) = dict_keys (clips (state w))
  /\ dict_get (p_path pt) (clips (state (UPDATE_CLIP pt w))) = Some (merge_clip c pt)
  /\ forall q, q <> p_path pt ->
       dict_get q (clips (state (UPDATE_CLIP pt w))) = dict_get q (clips (state w)).
Proof.
  intros Hc. split; [|split].
  - rewrite UPDATE_CLIP_keys, bool_decide_eq_true_2; [reflexivity|].
    destruct (decide (p_path pt ∈ dict_keys (clips (state w)))) as [|n]; [assumption|].
    apply dict_get_None in n. congruence.
  - rewrite UPDATE_CLIP_get, decide_True by reflexivity. rewrite Hc. reflexivity.
  - intros q Hq. rewrite UPDATE_CLIP_get, decide_False by exact Hq. reflexivity.
Qed.

Lemma UPDATE_CLIP_absent pt w :
  dict_get (p_path pt) (clips (state w)) = None ->
  views_clips (UPDATE_CLIP pt w)
  = views_clips w ++ [merge_clip (bare_clip (p_path pt)) pt].
Proof.
  intros Hc. unfold views_clips, UPDATE_CLIP.
  cbn [state with_state clips with_export with_clips]. rewrite Hc.
  rewrite dict_set_fresh by (apply dict_get_None; exact Hc).
  rewrite dict_values_app. reflexivity.
Qed.

(** X10. [enableClip], [disableClip], [setStartTrim] and [setEndTrim] on a
    clip of the ledger set the one property they name: the rest of the
    record, its positions and stream associations among it, the other
    records and the order of the ledger are as they were. *)
Theorem clip_setters_touch_one_field (p : string) (b : bool) (t : Z) (c : TClip)
    (w : World) :
  dict_get p (clips (state w)) = Some c ->
  let unchanged_but (w' : World) (c' : TClip) :=
    dict_get p (clips (state w')) = Some c'
    /\ dict_keys (clips (state w')) = dict_keys (clips (state w))
    /\ forall q, q <> p -> dict_get q (clips (state w')) = dict_get q (clips (state w)) in
  unchanged_but (enableClip p b w)
    (mkClip p (loaded c) (Some b) (startTrim c) (endTrim c) (deleted c) (source c)
            (globalOrderPosition c) (streamInfo c) (scrubSprite c) (duration c) (aiInfo c))
  /\ unchanged_but (disableClip p w)
       (mkClip p (loaded c) (Some false) (startTrim c) (endTrim c) (deleted c) (source c)
               (globalOrderPosition c) (streamInfo c) (scrubSprite c) (duration c) (aiInfo c))
  /\ unchanged_but (setStartTrim p t w)
       (mkClip p (loaded c) (enabled c) (Some t) (endTrim c) (deleted c) (source c)
               (globalOrderPosition c) (streamInfo c) (scrubSprite c) (duration c) (aiInfo c))
  /\ unchanged_but (setEndTrim p t w)
       (mkClip p (loaded c) (enabled c) (startTrim c) (Some t) (deleted c) (source c)
               (globalOrderPosition c) (streamInfo c) (scrubSprite c) (duration c) (aiInfo c)).
Proof.
  intros Hc unchanged_but. unfold unchanged_but, enableClip, disableClip, setStartTrim,
    setEndTrim.
  repeat split;
    match goal with
    | |- context [UPDATE_CLIP ?pt w] =>
        destruct (UPDATE_CLIP_present pt w c Hc) as (Hk & Hg & Ho)
    end;
    try exact Hg; try exact Hk; try exact Ho.
Qed.

Lemma clip_setters_touch_one_field_witness :
  let w := addClips [mkNewClip "a.mp4" None None; mkNewClip "b.mp4" None None] None Manual
             (initialWorld {["a.mp4"; "b.mp4"]}) in
  dict_get "a.mp4" (clips (state (setEndTrim "a.mp4" 7 w)))
  = Some (mkClip "a.mp4" (Some false) (Some true) (Some 0%Z) (Some 7%Z) (Some false)
            (Some Manual) (Some 1%Z) None None None None)
  /\ dict_keys (clips (state (setEndTrim "a.mp4" 7 w))) = dict_keys (clips (state w))
  /\ forall q, q <> "a.mp4" ->
       dict_get q (clips (state (setEndTrim "a.mp4" 7 w))) = dict_get q (clips (state w)).
Proof.
  intros w.
  destruct (clip_setters_touch_one_field "a.mp4" true 7
              (mkClip "a.mp4" (Some false) (Some true) (Some 0%Z) (Some 0%Z) (Some false)
                 (Some Manual) (Some 1%Z) None None None None) w) as (_ & _ & _ & H).
  - vm_compute. reflexivity.
  - exact H.
Defined.

(** X11. The same four setters on a path that is not in the ledger do not
    fail and do not ignore the call: they append a record that has nothing
    but the path and the property, so it has no position, no source and is
    neither loaded nor, for the trims, enabled. *)
Theorem clip_setters_on_unknown_path (p : string) (b : bool) (t : Z) (w : World) :
  dict_get p (clips (state w)) = None ->
  views_clips (enableClip p b w)
  = views_clips w ++ [mkClip p None (Some b) None None None None None None None None None]
  /\ views_clips (disableClip p w)
     = views_clips w
       ++ [mkClip p None (Some false) None None None None None None None None None]
  /\ views_clips (setStartTrim p t w)
     = views_clips w ++ [mkClip p None None (Some t) None None None None None None None None]
  /\ views_clips (setEndTrim p t w)
     = views_clips w ++ [mkClip p None None None (Some t) None None None None None None None].
Proof.
  intros Hc. unfold enableClip, disableClip, setStartTrim, setEndTrim.
  repeat split; apply UPDATE_CLIP_absent; exact Hc.
Qed.

Lemma clip_setters_on_unknown_path_witness :
  views_clips (setStartTrim "ghost.mp4" 4 (initialWorld ∅))
  = [mkClip "ghost.mp4" None None (Some 4%Z) None None None None None None None None].
Proof.
  destruct (clip_setters_on_unknown_path "ghost.mp4" true 4 (initialWorld ∅))
    as (_ & _ & H & _); [reflexivity|exact H].
Defined.

(** ** Removing a stream *)

Lemma removeScrubFile_sprites c w :
  sprites (removeScrubFile (scrubSprite c) w) = sprites w ∖ sprite_of c.
Proof.
  unfold removeScrubFile, sprite_of, sprite_at.
  destruct (truthy (scrubSprite c)); [reflexivity|].
  symmetry. apply difference_empty_L.
Qed.

Lemma removeClip_prune_sprites clip sid w :
  sprites (removeClip_prune clip sid w) = sprites w.
Proof. apply removeClip_prune_ledger. Qed.




Lemma in_query_Some sid c :
  sid <> "" -> in_query (Some sid) c = bool_decide (is_Some (assoc_of sid c)).
Proof.
  intros Hsid. unfold in_query, truthy. rewrite decide_False by exact Hsid. reflexivity.
Qed.



(** A ledger that is given in full is healthy by computation. *)
Ltac concrete_healthy :=
  split; [|split];
  [ vm_compute; repeat constructor
  | vm_compute; repeat constructor; rewrite ?elem_of_cons, ?elem_of_nil; intuition discriminate
  | vm_compute; repeat constructor; discriminate ].


(** ** Enabling a selection of clips *)

Lemma foldl_enable b cs w :
  let w' := foldl (fun acc clip => UPDATE_CLIP (patch_enabled (path clip) b) acc) w cs in
  (forall q, dict_get q (clips (state w'))
             = if bool_decide (q ∈ path <$> cs)
               then Some (merge_clip (default (bare_clip q) (dict_get q (clips (state w))))
                                     (patch_enabled q b))
               else dict_get q (clips (state w)))
  /\ files w' = files w.
Proof.
  revert w. induction cs as [|c cs IH]; intros w.
  - cbn. split; [|reflexivity]. intros q. reflexivity.
  - cbn [foldl]. destruct (IH (UPDATE_CLIP (patch_enabled (path c) b) w)) as [IH1 IH2].
    split; [|rewrite IH2; reflexivity].
    intros q. rewrite IH1, fmap_cons, UPDATE_CLIP_get. cbn [p_path patch_enabled].
    destruct (decide (q = path c)) as [->|n].
    + rewrite (bool_decide_eq_true_2 (_ ∈ _ :: _)) by left.
      destruct (bool_decide (path c ∈ path <$> cs)); reflexivity.
    + destruct (bool_decide (q ∈ path <$> cs)) eqn:Hin.
      * apply bool_decide_eq_true_1 in Hin.
        rewrite bool_decide_eq_true_2 by (right; exact Hin). reflexivity.
      * apply bool_decide_eq_false_1 in Hin.
        rewrite bool_decide_eq_false_2; [reflexivity|].
        intros H. apply elem_of_cons in H as [H|H]; [exact (n H)|exact (Hin H)].
Qed.

Lemma NoDup_fmap_filter {A B : Type} (f : A -> B) (P : A -> bool) (l : list A) :
  NoDup (f <$> l) -> NoDup (f <$> List.filter P l).
Proof.
  induction l as [|x l IH]; [constructor|].
  rewrite fmap_cons. intros Hnd. apply NoDup_cons in Hnd as [Hn Hnd].
  cbn [List.filter]. destruct (P x); [|exact (IH Hnd)].
  rewrite fmap_cons. apply NoDup_cons. split; [|exact (IH Hnd)].
  intros H. apply Hn. apply list_elem_of_fmap in H as (y & -> & Hy).
  apply list_elem_of_fmap. exists y. split; [reflexivity|].
  apply list_elem_of_In in Hy. apply filter_In in Hy as [Hy _].
  apply list_elem_of_In. exact Hy.
Qed.

(** X13. [enableOnlySpecificClips(clips, streamId)] leaves each of the
    given clips enabled exactly when it passes the stream filter: with a
    stream id, when it belongs to that stream; without one, always.  Only
    [enabled] changes, and the clips that were not given are untouched.
    The given clips are records of the ledger whose files exist. *)
Theorem enableOnlySpecificClips_selects (cs : list TClip) (streamId : option string)
    (w : World) :
  Forall (fun c => path c <> "add" /\ fileExists w (path c) = true) cs ->
  (forall c, c ∈ cs -> dict_get (path c) (clips (state w)) = Some c) ->
  let w' := enableOnlySpecificClips cs streamId w in
  (forall c, c ∈ cs ->
     dict_get (path c) (clips (state w')) = Some (set_enabled (in_query streamId c) c))
  /\ (forall q, q ∉ path <$> cs ->
        dict_get q (clips (state w')) = dict_get q (clips (state w))).
Proof.
  intros Hall Hin w'. unfold w', enableOnlySpecificClips.
  destruct (foldl_enable false cs w) as [H1 Hf1].
  set (w1 := foldl _ w cs) in *.
  rewrite (getClips_healthy cs streamId w1)
    by (eapply Forall_impl; [exact Hall|]; intros c [Ha Hb]; split; [exact Ha|];
        unfold fileExists in *; rewrite Hf1; exact Hb).
  cbn [fst snd].
  destruct (foldl_enable true (List.filter (in_query streamId) cs) w1) as [H2 _].
  assert (Hsel : forall c, c ∈ cs ->
            bool_decide (path c ∈ path <$> List.filter (in_query streamId) cs)
            = in_query streamId c).
  { intros c Hc. destruct (in_query streamId c) eqn:Hq.
    - apply bool_decide_eq_true_2, list_elem_of_fmap. exists c. split; [reflexivity|].
      apply list_elem_of_In, filter_In. split; [apply list_elem_of_In; exact Hc|exact Hq].
    - apply bool_decide_eq_false_2. intros H.
      apply list_elem_of_fmap in H as (c' & Hp & Hc').
      apply list_elem_of_In, filter_In in Hc' as [Hc' Hq'].
      apply list_elem_of_In in Hc'.
      assert (c' = c); [|congruence].
      apply Hin in Hc, Hc'. rewrite Hp in Hc. congruence. }
  split.
  - intros c Hc. rewrite H2, H1, (Hsel c Hc).
    rewrite bool_decide_eq_true_2
      by (apply list_elem_of_fmap; exists c; split; [reflexivity|exact Hc]).
    rewrite (Hin c Hc). destruct (in_query streamId c); reflexivity.
  - intros q Hq. rewrite H2, H1.
    rewrite (bool_decide_eq_false_2 (q ∈ path <$> cs)) by exact Hq.
    rewrite bool_decide_eq_false_2; [reflexivity|].
    intros H. apply Hq. apply list_elem_of_fmap in H as (c' & -> & Hc').
    apply list_elem_of_fmap. exists c'. split; [reflexivity|].
    apply list_elem_of_In, filter_In in Hc' as [Hc' _]. apply list_elem_of_In. exact Hc'.
Qed.

Lemma enableOnlySpecificClips_selects_witness :
  let w := addClips [replayClip "c" 7 27] (Some "T") ReplayBuffer
             (addClips [replayClip "c" 5 25; replayClip "d" 9 29] (Some "S") ReplayBuffer
                (initialWorld {["c"; "d"]})) in
  let w' := enableOnlySpecificClips (views_clips w) (Some "T") w in
  (forall c, c ∈ views_clips w ->
     dict_get (path c) (clips (state w')) = Some (set_enabled (in_query (Some "T") c) c))
  /\ (forall q, q ∉ path <$> views_clips w ->
        dict_get q (clips (state w')) = dict_get q (clips (state w))).
Proof.
  intros w. apply (enableOnlySpecificClips_selects (views_clips w) (Some "T") w).
  - vm_compute. repeat constructor; discriminate.
  - intros c Hc. apply (keyed_ledger_views w); [| |exact Hc].
    + vm_compute. repeat constructor.
    + vm_compute. repeat constructor; rewrite ?elem_of_cons, ?elem_of_nil;
        intuition discriminate.
Defined.

(** ** The migration of the stream list *)

Lemma migrate_fold (objs : gmap ref IHighlightedStream) (streams : list ref)
    (acc : gmap string ref) :
  let step := fun (dict : gmap string ref) (r : ref) =>
                match objs !! r with
                | Some stream =>
                    if decide (s_id stream = "") then dict else <[s_id stream := r]> dict
                | None => dict
                end in
  (forall id r, foldl step acc streams !! id = Some r ->
     acc !! id = Some r
     \/ (id <> "" /\ r ∈ streams /\ s_id <$> objs !! r = Some id))
  /\ (forall id, is_Some (acc !! id) -> is_Some (foldl step acc streams !! id))
  /\ (forall r o, r ∈ streams -> objs !! r = Some o -> s_id o <> "" ->
        is_Some (foldl step acc streams !! s_id o)).
Proof.
  intros step. revert acc. induction streams as [|r0 streams IH]; intros acc.
  - cbn. split; [auto|]. split; [auto|]. intros r o Hr. inversion Hr.
  - cbn [foldl]. destruct (IH (step acc r0)) as (IH1 & IH2 & IH3).
    split; [|split].
    + intros id r Hid. apply IH1 in Hid as [Hid|(Hne & Hr & Ho)].
      * unfold step in Hid. destruct (objs !! r0) as [o|] eqn:Ho0; [|left; exact Hid].
        destruct (decide (s_id o = "")) as [|Hne]; [left; exact Hid|].
        apply lookup_insert_Some in Hid as [[<- <-]|[_ Hid]]; [|left; exact Hid].
        right. split; [exact Hne|]. split; [left|]. rewrite Ho0. reflexivity.
      * right. split; [exact Hne|]. split; [right; exact Hr|exact Ho].
    + intros id Hid. apply IH2. unfold step. destruct (objs !! r0) as [o|]; [|exact Hid].
      destruct (decide (s_id o = "")); [exact Hid|].
      destruct (decide (s_id o = id)) as [->|Hdiff].
      * rewrite lookup_insert_eq. eauto.
      * rewrite lookup_insert_ne by exact Hdiff. exact Hid.
    + intros r o Hr Ho Hne. apply elem_of_cons in Hr as [->|Hr]; [|eapply IH3; eassumption].
      apply IH2. unfold step. rewrite Ho, decide_False by exact Hne.
      rewrite lookup_insert_eq. eauto.
Qed.

(** No mutation touches the legacy stream list or the stream objects. *)
Lemma commits_legacy ms w :
  highlightedStreams (state (commits ms w)) = highlightedStreams (state w)
  /\ objects (commits ms w) = objects w.
Proof.
  unfold commits. revert w. induction ms as [|m ms IH]; intros w; [split; reflexivity|].
  cbn [foldl]. destruct (IH (commit m w)) as [-> ->].
  destruct m; cbn [commit]; try (split; reflexivity);
    unfold ADD_HIGHLIGHTED_STREAM, UPDATE_HIGHLIGHTED_STREAM;
    match goal with
    | |- context [objects w !! ?r] => destruct (objects w !! r)
    end; split; reflexivity.
Qed.

(** What the migration makes of an empty dictionary. *)
Lemma migrate_empty w :
  highlightedStreamsDictionary (state w) = ∅ ->
  highlightedStreamsDictionary (state (migrateHighlightedStreamsToDictionary w))
  = foldl (fun dict r =>
             match objects w !! r with
             | Some stream =>
                 if decide (s_id stream = "") then dict else <[s_id stream := r]> dict
             | None => dict
             end) ∅ (highlightedStreams (state w)).
Proof.
  intros He. unfold migrateHighlightedStreamsToDictionary.
  destruct (highlightedStreams (state w)) as [|r0 streams]; [exact He|].
  rewrite decide_True by exact He. reflexivity.
Qed.

(** X14. The migration of the legacy stream list is guarded by the
    dictionary alone.  It never touches a dictionary that has a key, and
    migrating twice in a row changes nothing.  When it runs, every key of
    the new dictionary is the non-empty id of the stream it holds, which
    comes from the list, and every stream of the list with a non-empty id
    is found under its id; clips and stream objects are as they were.  It
    does not run once only: neither the migration nor any mutation clears
    the legacy list, so whenever the mutations that follow leave the
    dictionary empty, as the removal of every stream does, the next
    migration builds the dictionary of the first one again. *)
Theorem migration_guarded_by_the_dictionary (ms : list Mutation) (w : World) :
  let w' := migrateHighlightedStreamsToDictionary w in
  migrateHighlightedStreamsToDictionary w' = w'
  /\ clips (state w') = clips (state w) /\ objects w' = objects w
  /\ (highlightedStreamsDictionary (state w) <> ∅ -> w' = w)
  /\ (highlightedStreamsDictionary (state w) = ∅ ->
      (forall id r, highlightedStreamsDictionary (state w') !! id = Some r ->
         id <> "" /\ r ∈ highlightedStreams (state w)
         /\ s_id <$> objects w !! r = Some id)
      /\ (forall r o, r ∈ highlightedStreams (state w) -> objects w !! r = Some o ->
            s_id o <> "" ->
            is_Some (highlightedStreamsDictionary (state w') !! s_id o)))
  /\ highlightedStreams (state (commits ms w')) = highlightedStreams (state w)
  /\ (highlightedStreamsDictionary (state w) = ∅ ->
      highlightedStreamsDictionary (state (commits ms w')) = ∅ ->
      highlightedStreamsDictionary
        (state (migrateHighlightedStreamsToDictionary (commits ms w')))
      = highlightedStreamsDictionary (state w')).
Proof.
  intros w'.
  assert (Hlegacy : highlightedStreams (state w') = highlightedStreams (state w)
                    /\ objects w' = objects w).
  { unfold w', migrateHighlightedStreamsToDictionary.
    destruct (highlightedStreams (state w)) as [|r0 streams] eqn:Hs;
      [rewrite Hs; split; reflexivity|].
    destruct (decide (highlightedStreamsDictionary (state w) = ∅));
      [|rewrite Hs; split; reflexivity].
    cbn [state with_state with_dictionary highlightedStreams objects].
    rewrite Hs. split; reflexivity. }
  destruct Hlegacy as [Hl Ho].
  destruct (commits_legacy ms w') as [Hcl Hco].
  assert (Hfirst : migrateHighlightedStreamsToDictionary w' = w'
    /\ clips (state w') = clips (state w) /\ objects w' = objects w
    /\ (highlightedStreamsDictionary (state w) <> ∅ -> w' = w)
    /\ (highlightedStreamsDictionary (state w) = ∅ ->
        (forall id r, highlightedStreamsDictionary (state w') !! id = Some r ->
           id <> "" /\ r ∈ highlightedStreams (state w)
           /\ s_id <$> objects w !! r = Some id)
        /\ (forall r o, r ∈ highlightedStreams (state w) -> objects w !! r = Some o ->
              s_id o <> "" ->
              is_Some (highlightedStreamsDictionary (state w') !! s_id o)))).
  { clear Hl Ho Hcl Hco. unfold w', migrateHighlightedStreamsToDictionary.
    destruct (highlightedStreams (state w)) as [|r0 streams] eqn:Hs.
    - rewrite Hs. split; [reflexivity|]. split; [reflexivity|]. split; [reflexivity|].
      split; [reflexivity|]. intros He. rewrite He. split.
      + intros id r H. rewrite lookup_empty in H. discriminate.
      + intros r o Hr. inversion Hr.
    - destruct (decide (highlightedStreamsDictionary (state w) = ∅)) as [He|Hne].
      + cbn [state with_state with_dictionary highlightedStreams
               highlightedStreamsDictionary objects clips].
        rewrite Hs. split.
        * destruct (decide (foldl _ ∅ (r0 :: streams) = ∅)); reflexivity.
        * split; [reflexivity|]. split; [reflexivity|]. split; [congruence|].
          intros _. destruct (migrate_fold (objects w) (r0 :: streams) ∅) as (H1 & _ & H3).
          split.
          -- intros id r H. apply H1 in H as [H|H];
               [rewrite lookup_empty in H; discriminate|].
             exact H.
          -- exact H3.
      + rewrite Hs, decide_False by exact Hne.
        split; [reflexivity|]. split; [reflexivity|]. split; [reflexivity|].
        split; [reflexivity|]. intros He. congruence. }
  destruct Hfirst as (H1 & H2 & H3 & H4 & H5).
  split; [exact H1|]. split; [exact H2|]. split; [exact H3|]. split; [exact H4|].
  split; [exact H5|]. split; [rewrite Hcl; exact Hl|].
  intros He He2. rewrite (migrate_empty _ He2), Hcl, Hco, Hl, Ho.
  unfold w'. rewrite (migrate_empty _ He). reflexivity.
Qed.

Lemma migration_guarded_by_the_dictionary_witness :
  let legacy :=
    with_objects (fun _ => {[ 0 := mkStream "S" FINISHED 100 "2026" "one" "unset" false "a";
                              1 := mkStream "" FINISHED 100 "2026" "two" "unset" false "b";
                              2 := mkStream "T" IN_PROGRESS 40 "2026" "three" "unset" true "c" ]})
      (with_state
         (fun s => mkState (clips s) (transition s) (video s) (audio s) (st_export s)
                     (uploads s) (dismissedTutorial s) (st_error s) (useAiHighlighter s)
                     [0; 1; 2; 3] (highlightedStreamsDictionary s) (updaterProgress s)
                     (isUpdaterRunning s) (highlighterVersion s) (tempRecordingInfo s))
         (initialWorld ∅)) in
  let w' := migrateHighlightedStreamsToDictionary legacy in
  let removed := commits [M_REMOVE_HIGHLIGHTED_STREAM "S"; M_REMOVE_HIGHLIGHTED_STREAM "T"]
                   w' in
  highlightedStreamsDictionary (state w') = {[ "S" := 0; "T" := 2 ]}
  /\ (forall id r, highlightedStreamsDictionary (state w') !! id = Some r ->
        id <> "" /\ r ∈ highlightedStreams (state legacy)
        /\ s_id <$> objects legacy !! r = Some id)
  /\ migrateHighlightedStreamsToDictionary w' = w'
  /\ highlightedStreamsDictionary (state removed) = ∅
  /\ highlightedStreamsDictionary (state (migrateHighlightedStreamsToDictionary removed))
     = {[ "S" := 0; "T" := 2 ]}.
Proof.
  intros legacy w' removed.
  destruct (migration_guarded_by_the_dictionary
              [M_REMOVE_HIGHLIGHTED_STREAM "S"; M_REMOVE_HIGHLIGHTED_STREAM "T"] legacy)
    as (H1 & _ & _ & _ & H2 & _ & H3).
  destruct H2 as [H2 _]; [reflexivity|].
  split; [vm_compute; reflexivity|]. split; [exact H2|]. split; [exact H1|].
  split; [vm_compute; reflexivity|].
  etransitivity; [apply H3; [reflexivity | vm_compute; reflexivity]|].
  vm_compute; reflexivity.
Defined.

(** ** Starting up *)

Section DictFilter.
Context {V : Type}.
Implicit Types (d : dict V) (k : string).

Lemma dict_delete_filter d k :
  dict_delete k d = List.filter (fun kv => negb (bool_decide (kv.1 = k))) d.
Proof.
  induction d as [|[k' v'] d IH]; [reflexivity|].
  cbn [dict_delete List.filter fst]. destruct (decide (k = k')) as [->|n].
  - rewrite bool_decide_eq_true_2 by reflexivity. exact IH.
  - rewrite bool_decide_eq_false_2 by (intros e; apply n; symmetry; exact e).
    cbn [negb]. rewrite IH. reflexivity.
Qed.

Lemma dict_delete_absent d k : dict_get k d = None -> dict_delete k d = d.
Proof.
  induction d as [|[k' v'] d IH]; [reflexivity|].
  cbn [dict_get dict_delete]. destruct (decide (k = k')); [discriminate|].
  intros H. rewrite (IH H). reflexivity.
Qed.
End DictFilter.

Lemma filter_filter {A : Type} (f g : A -> bool) (l : list A) :
  List.filter f (List.filter g l) = List.filter (fun x => g x && f x) l.
Proof.
  induction l as [|x l IH]; [reflexivity|].
  cbn [List.filter]. destruct (g x); cbn [andb List.filter]; [|exact IH].
  destruct (f x); rewrite IH; reflexivity.
Qed.

(** A removal without a stream id of a clip whose file is gone, up to its
    first [await]. *)
Lemma removeClip_sync_whole p w :
  fileExists w p = false ->
  let w' := spawn (removeClip_sync p None true w) in
  clips (state w') = dict_delete p (clips (state w))
  /\ files w' = files w
  /\ objects w' = objects w
  /\ highlightedStreamsDictionary (state w') = highlightedStreamsDictionary (state w)
  /\ exporting (views_exportInfo w') = exporting (views_exportInfo w).
Proof.
  intros Hgone. destruct (dict_get p (clips (state w))) as [c|] eqn:Hp.
  - rewrite (removeClip_sync_gone p None c w Hgone Hp).
    unfold spawn, removeScrubFile. cbn [fst snd].
    destruct (truthy (scrubSprite c)); repeat split.
  - unfold removeClip_sync. rewrite Hp.
    unfold spawn. cbn [fst snd]. rewrite dict_delete_absent by exact Hp. repeat split.
Qed.

Lemma removeClip_sync_whole_sprites p c w :
  fileExists w p = false -> dict_get p (clips (state w)) = Some c ->
  sprites (spawn (removeClip_sync p None true w)) = sprites w ∖ sprite_of c.
Proof.
  intros Hgone Hp. rewrite (removeClip_sync_gone p None c w Hgone Hp).
  unfold spawn. cbn [fst snd sprites with_pending with_renderingClips].
  rewrite removeScrubFile_sprites. reflexivity.
Qed.

(** The loop of [init] that drops the clips whose file is gone. *)
Lemma init_prune cs w :
  let w' := foldl (fun acc c =>
                     if fileExists acc (path c) then acc
                     else spawn (removeClip_sync (path c) None true acc)) w cs in
  clips (state w')
  = List.filter
      (fun kv => negb (bool_decide
                         (kv.1 ∈ path <$> List.filter
                                            (fun c => negb (fileExists w (path c))) cs)))
      (clips (state w))
  /\ files w' = files w
  /\ objects w' = objects w
  /\ highlightedStreamsDictionary (state w') = highlightedStreamsDictionary (state w)
  /\ exporting (views_exportInfo w') = exporting (views_exportInfo w).
Proof.
  revert w. induction cs as [|c cs IH]; intros w.
  - cbn. repeat split. induction (clips (state w)) as [|kv d IHd]; [reflexivity|].
    cbn. rewrite <- IHd. reflexivity.
  - cbn [foldl List.filter]. destruct (fileExists w (path c)) eqn:Hex; cbn [negb].
    + apply IH.
    + destruct (removeClip_sync_whole (path c) w Hex) as (Hc & Hf & Ho & Hd & He).
      set (w1 := spawn (removeClip_sync (path c) None true w)) in *.
      destruct (IH w1) as (IH1 & IH2 & IH3 & IH4 & IH5).
      rewrite IH1, IH2, IH3, IH4, IH5, Hc, Hf, Ho, Hd, He. repeat split.
      rewrite dict_delete_filter, filter_filter. apply filter_ext. intros kv.
      rewrite fmap_cons.
      assert (Hfs : List.filter (fun c0 => negb (fileExists w1 (path c0))) cs
                    = List.filter (fun c0 => negb (fileExists w (path c0))) cs).
      { apply filter_ext. intros c0. unfold fileExists. rewrite Hf. reflexivity. }
      rewrite Hfs.
      destruct (decide (kv.1 = path c)) as [e|n].
      * rewrite (bool_decide_eq_true_2 (kv.1 = path c)) by exact e.
        rewrite (bool_decide_eq_true_2 (_ ∈ _ :: _)) by (rewrite e; left). reflexivity.
      * rewrite (bool_decide_eq_false_2 (kv.1 = path c)) by exact n. cbn [negb andb].
        f_equal. apply bool_decide_ext. rewrite elem_of_cons. intuition.
Qed.

(** The sprites that the loop deletes are those of the clips that it
    drops. *)
Lemma init_prune_sprites cs w :
  NoDup (path <$> cs) ->
  (forall c, c ∈ cs -> dict_get (path c) (clips (state w)) = Some c) ->
  sprites (foldl (fun acc c =>
                    if fileExists acc (path c) then acc
                    else spawn (removeClip_sync (path c) None true acc)) w cs)
  = sprites w ∖ sprites_of (List.filter (fun c => negb (fileExists w (path c))) cs).
Proof.
  revert w. induction cs as [|c cs IH]; intros w Hnd Hcs.
  - cbn. symmetry. apply difference_empty_L.
  - rewrite fmap_cons in Hnd. apply NoDup_cons in Hnd as [Hnotin Hnd].
    cbn [foldl List.filter]. destruct (fileExists w (path c)) eqn:Hex; cbn [negb].
    + apply IH; [exact Hnd|]. intros c' Hc'. apply Hcs. right. exact Hc'.
    + destruct (removeClip_sync_whole (path c) w Hex) as (Hc & Hf & _).
      pose proof (removeClip_sync_whole_sprites (path c) c w Hex (Hcs c ltac:(left)))
        as Hsp.
      set (w1 := spawn (removeClip_sync (path c) None true w)) in *.
      rewrite IH.
      * assert (Hfs : List.filter (fun c0 => negb (fileExists w1 (path c0))) cs
                      = List.filter (fun c0 => negb (fileExists w (path c0))) cs).
        { apply filter_ext. intros c0. unfold fileExists. rewrite Hf. reflexivity. }
        rewrite Hfs, Hsp. unfold sprites_of. rewrite fmap_cons, union_list_cons.
        apply difference_difference_l_L.
      * exact Hnd.
      * intros c' Hc'. rewrite Hc, dict_get_delete.
        rewrite decide_False; [apply Hcs; right; exact Hc'|].
        intros e. apply Hnotin. rewrite <- e. apply list_elem_of_fmap.
        exists c'. split; [reflexivity | exact Hc'].
Qed.

Lemma foldl_UPDATE_CLIP_sprites (pt : TClip -> TClipPatch) cs w :
  sprites (foldl (fun acc c => UPDATE_CLIP (pt c) acc) w cs) = sprites w.
Proof.
  revert w. induction cs as [|c cs IH]; intros w; [reflexivity|].
  cbn [foldl]. rewrite IH. reflexivity.
Qed.

Lemma cancelRunningDetections_sprites w : sprites (cancelRunningDetections w) = sprites w.
Proof.
  unfold cancelRunningDetections.
  generalize (List.filter (fun stream => bool_decide (s_type stream = IN_PROGRESS))
                          (views_highlightedStreams w)).
  intros l. revert w. induction l as [|s l IH]; intros w; [reflexivity|].
  cbn [foldl]. rewrite IH. unfold cancelDetection, UPDATE_HIGHLIGHTED_STREAM.
  cbn [objects with_objects]. rewrite lookup_insert_eq. reflexivity.
Qed.

Lemma migrate_sprites w : sprites (migrateHighlightedStreamsToDictionary w) = sprites w.
Proof.
  unfold migrateHighlightedStreamsToDictionary.
  destruct (highlightedStreams (state w)); [reflexivity|].
  destruct (decide (highlightedStreamsDictionary (state w) = ∅)); reflexivity.
Qed.

(** A pass of [UPDATE_CLIP] over the clips of the ledger, one patch a
    clip. *)
Lemma foldl_UPDATE_CLIP (pt : TClip -> TClipPatch) d1 d2 w :
  clips (state w) = d1 ++ d2 ->
  Forall (fun kv => p_path (pt kv.2) = kv.1) d2 ->
  NoDup (dict_keys (d1 ++ d2)) ->
  let w' := foldl (fun acc c => UPDATE_CLIP (pt c) acc) w (dict_values d2) in
  clips (state w') = d1 ++ ((fun kv => (kv.1, merge_clip kv.2 (pt kv.2))) <$> d2)
  /\ files w' = files w /\ objects w' = objects w
  /\ highlightedStreamsDictionary (state w') = highlightedStreamsDictionary (state w)
  /\ exporting (views_exportInfo w') = exporting (views_exportInfo w).
Proof.
  revert d1 w. induction d2 as [|[k c] d2 IH]; intros d1 w Hw Hwf Hnd.
  - cbn. rewrite Hw. repeat split.
  - inversion Hwf as [|? ? Hk Hwf']; subst. cbn [snd fst] in Hk.
    assert (Hfresh : k ∉ dict_keys d1).
    { rewrite dict_keys_app in Hnd. apply NoDup_app in Hnd as (_ & Hdis & _).
      intros Hin. apply (Hdis _ Hin). left. }
    cbn [dict_values fmap list_fmap foldl snd].
    destruct (IH (d1 ++ [(k, merge_clip c (pt c))]) (UPDATE_CLIP (pt c) w))
      as (IH1 & IH2 & IH3 & IH4 & IH5).
    + unfold UPDATE_CLIP. cbn [state with_state clips with_export with_clips].
      rewrite Hw, Hk, dict_get_middle by exact Hfresh. cbn [default].
      rewrite dict_set_middle by exact Hfresh. rewrite <- app_assoc. reflexivity.
    + exact Hwf'.
    + rewrite <- app_assoc. cbn [app]. rewrite !dict_keys_app in *. exact Hnd.
    + unfold dict_values in IH1, IH2, IH3, IH4, IH5.
      rewrite IH1, IH2, IH3, IH4, IH5, <- app_assoc. repeat split.
Qed.

(** One interrupted detection is ended. *)
Lemma cancelDetection_state w stream :
  registry_keyed w ->
  let w' := cancelDetection w stream in
  registry_keyed w'
  /\ (forall id, detection_state id w'
                 = if decide (id = s_id stream) then Some CANCELED_BY_USER
                   else detection_state id w)
  /\ clips (state w') = clips (state w) /\ files w' = files w
  /\ views_exportInfo w' = views_exportInfo w.
Proof.
  intros Hk w'. unfold w', cancelDetection.
  set (r := fresh (dom (objects w))).
  set (o := mkStream (s_id stream) CANCELED_BY_USER 0 (s_date stream) (s_title stream)
              (s_game stream) (abortController stream) (s_path stream)).
  assert (Hfresh : objects w !! r = None).
  { apply not_elem_of_dom. apply is_fresh. }
  unfold UPDATE_HIGHLIGHTED_STREAM.
  cbn [objects with_objects]. rewrite lookup_insert_eq. cbn [s_id o].
  assert (Hother : forall id r', highlightedStreamsDictionary (state w) !! id = Some r' ->
                     r' <> r).
  { intros id r' Hr' ->. apply Hk in Hr'. cbn in Hr'. rewrite Hfresh in Hr'. discriminate. }
  split; [|split; [|repeat split]].
  - intros id r' Hr'. cbn in Hr' |- *.
    apply lookup_insert_Some in Hr' as [[<- <-]|[Hne Hr']].
    + rewrite lookup_insert_eq. reflexivity.
    + rewrite lookup_insert_ne by (intros e; exact (Hother id r' Hr' (eq_sym e))).
      apply Hk in Hr'. exact Hr'.
  - intros id. unfold detection_state.
    cbn [state with_state with_dictionary highlightedStreamsDictionary objects with_objects].
    destruct (decide (id = s_id stream)) as [->|Hne].
    + rewrite lookup_insert_eq, lookup_insert_eq. reflexivity.
    + rewrite lookup_insert_ne by (intros e; apply Hne; symmetry; exact e).
      destruct (highlightedStreamsDictionary (state w) !! id) as [r'|] eqn:Hr'; [|reflexivity].
      rewrite lookup_insert_ne by (intros e; exact (Hother id r' Hr' (eq_sym e))).
      reflexivity.
Qed.

Lemma cancelDetections_states streams w :
  registry_keyed w ->
  let w' := foldl cancelDetection w streams in
  (forall id, detection_state id w'
              = if bool_decide (id ∈ s_id <$> streams) then Some CANCELED_BY_USER
                else detection_state id w)
  /\ clips (state w') = clips (state w) /\ files w' = files w
  /\ views_exportInfo w' = views_exportInfo w.
Proof.
  revert w. induction streams as [|s streams IH]; intros w Hk.
  - cbn. repeat split.
  - cbn [foldl]. destruct (cancelDetection_state w s Hk) as (Hk1 & Hs & Hc & Hf & He).
    destruct (IH (cancelDetection w s) Hk1) as (IH1 & IH2 & IH3 & IH4).
    split; [|rewrite IH2, IH3, IH4; repeat split; assumption].
    intros id. rewrite IH1, Hs, fmap_cons.
    destruct (bool_decide (id ∈ s_id <$> streams)) eqn:Hin.
    + apply bool_decide_eq_true_1 in Hin.
      rewrite bool_decide_eq_true_2 by (right; exact Hin). reflexivity.
    + apply bool_decide_eq_false_1 in Hin.
      destruct (decide (id = s_id s)) as [->|Hne].
      * rewrite bool_decide_eq_true_2 by left. reflexivity.
      * rewrite bool_decide_eq_false_2; [reflexivity|].
        intros H. apply elem_of_cons in H as [H|H]; [exact (Hne H)|exact (Hin H)].
Qed.

(** The streams that [init] finds in progress are those whose detection
    state reads in progress. *)
Lemma in_progress_streams w id :
  registry_keyed w ->
  id ∈ s_id <$> List.filter (fun stream => bool_decide (s_type stream = IN_PROGRESS))
                            (views_highlightedStreams w)
  <-> detection_state id w = Some IN_PROGRESS.
Proof.
  intros Hk. unfold detection_state, views_highlightedStreams. split.
  - intros H. apply list_elem_of_fmap in H as (s & -> & Hs).
    apply list_elem_of_In, filter_In in Hs as [Hs Ht]. apply list_elem_of_In in Hs.
    apply bool_decide_eq_true_1 in Ht.
    apply list_elem_of_omap in Hs as ([k r] & Hkr & Hobj). cbn [snd] in Hobj.
    apply elem_of_map_to_list in Hkr. pose proof (Hk k r Hkr) as Hid. cbn in Hid.
    rewrite Hobj in Hid. injection Hid as <-. rewrite Hkr, Hobj. cbn. rewrite Ht. reflexivity.
  - intros H. destruct (highlightedStreamsDictionary (state w) !! id) as [r|] eqn:Hr;
      [|discriminate].
    destruct (objects w !! r) as [o|] eqn:Ho; [|discriminate].
    cbn in H. injection H as Ht.
    pose proof (Hk id r Hr) as Hid. cbn in Hid. rewrite Ho in Hid. injection Hid as Hid.
    apply list_elem_of_fmap. exists o. split; [symmetry; exact Hid|].
    apply list_elem_of_In, filter_In. split.
    + apply list_elem_of_In, list_elem_of_omap. exists (id, r). split; [|exact Ho].
      apply elem_of_map_to_list. exact Hr.
    + apply bool_decide_eq_true_2. exact Ht.
Qed.

Lemma cancelRunningDetections_states w :
  registry_keyed w ->
  let w' := cancelRunningDetections w in
  (forall id, detection_state id w'
              = match detection_state id w with
                | Some IN_PROGRESS => Some CANCELED_BY_USER
                | other => other
                end)
  /\ clips (state w') = clips (state w) /\ files w' = files w
  /\ views_exportInfo w' = views_exportInfo w.
Proof.
  intros Hk w'. unfold w', cancelRunningDetections.
  destruct (cancelDetections_states
              (List.filter (fun stream => bool_decide (s_type stream = IN_PROGRESS))
                           (views_highlightedStreams w)) w Hk) as (H1 & H2).
  split; [|exact H2]. intros id. rewrite H1.
  destruct (bool_decide (id ∈ _)) eqn:Hin.
  - apply bool_decide_eq_true_1, in_progress_streams in Hin; [|exact Hk].
    rewrite Hin. reflexivity.
  - apply bool_decide_eq_false_1 in Hin.
    destruct (detection_state id w) as [[| | |]|] eqn:Hd; try reflexivity.
    exfalso. apply Hin, in_progress_streams; [exact Hk|exact Hd].
Qed.

Lemma migrate_rest w :
  let w' := migrateHighlightedStreamsToDictionary w in
  clips (state w') = clips (state w) /\ files w' = files w /\ objects w' = objects w
  /\ views_exportInfo w' = views_exportInfo w
  /\ (registry_keyed w -> registry_keyed w').
Proof.
  unfold migrateHighlightedStreamsToDictionary.
  destruct (highlightedStreams (state w)) as [|r0 streams] eqn:Hs; [repeat split; auto|].
  destruct (decide (highlightedStreamsDictionary (state w) = ∅)); [|repeat split; auto].
  repeat split. intros _ id r Hr.
  cbn [state with_state with_dictionary highlightedStreamsDictionary objects] in Hr |- *.
  destruct (migrate_fold (objects w) (r0 :: streams) ∅) as (H1 & _ & _).
  apply H1 in Hr as [Hr|(_ & _ & Hr)]; [rewrite lookup_empty in Hr; discriminate|exact Hr].
Qed.

Lemma registry_keyed_ext w w' :
  highlightedStreamsDictionary (state w') = highlightedStreamsDictionary (state w) ->
  objects w' = objects w -> registry_keyed w -> registry_keyed w'.
Proof. unfold registry_keyed. intros -> ->. auto. Qed.

Lemma detection_state_ext w w' id :
  highlightedStreamsDictionary (state w') = highlightedStreamsDictionary (state w) ->
  objects w' = objects w -> detection_state id w' = detection_state id w.
Proof. unfold detection_state. intros -> ->. reflexivity. Qed.

(** X15. [init] leaves in the ledger exactly the clips whose file exists,
    in their order and each marked as not loaded, whatever was persisted.
    It deletes no clip file itself (the files of the clips that it drops
    are gone already); it does delete the scrub sprites that the dropped
    clips name, and no other sprite.  No export is running afterwards. *)
Theorem init_keeps_clips_with_files (videosPath : option string) (w : World) :
  wf_ledger w -> NoDup (dict_keys (clips (state w))) ->
  let w' := init videosPath w in
  views_clips w'
  = set_loaded false <$> List.filter (fun c => fileExists w (path c)) (views_clips w)
  /\ files w' = files w
  /\ sprites w'
     = sprites w ∖ sprites_of (List.filter (fun c => negb (fileExists w (path c)))
                                           (views_clips w))
  /\ exporting (views_exportInfo w') = false.
Proof.
  intros Hwf Hnd w'.
  assert (Hsprites : sprites w'
            = sprites w ∖ sprites_of (List.filter (fun c => negb (fileExists w (path c)))
                                                  (views_clips w))).
  { destruct (keyed_ledger_views w Hwf Hnd) as (Hndp & Hin).
    destruct (migrate_rest w) as (Hc1 & Hf1 & _).
    transitivity
      (sprites (foldl (fun acc c =>
                         if fileExists acc (path c) then acc
                         else spawn (removeClip_sync (path c) None true acc))
                      (migrateHighlightedStreamsToDictionary w)
                      (views_clips (migrateHighlightedStreamsToDictionary w)))).
    - unfold w', init.
      destruct videosPath; cbn [sprites setExportFile SET_EXPORT_INFO with_state];
        rewrite foldl_UPDATE_CLIP_sprites, cancelRunningDetections_sprites;
        match goal with
        | |- context [if ?b then _ else _] => destruct b
        end; reflexivity.
    - unfold views_clips in *. rewrite Hc1. rewrite init_prune_sprites.
      + rewrite migrate_sprites. f_equal. f_equal. apply filter_ext. intros c.
        unfold fileExists. rewrite Hf1. reflexivity.
      + exact Hndp.
      + intros c Hc. rewrite Hc1. apply Hin. exact Hc. }
  assert (Hrest : views_clips w'
            = set_loaded false
                <$> List.filter (fun c => fileExists w (path c)) (views_clips w)
            /\ files w' = files w /\ exporting (views_exportInfo w') = false);
    [|destruct Hrest as (H1 & H2 & H3); split; [exact H1|]; split; [exact H2|];
      split; [exact Hsprites | exact H3]].
  clear Hsprites. unfold w', init.
  destruct (migrate_rest w) as (Hc1 & Hf1 & _ & He1 & _).
  set (w1 := migrateHighlightedStreamsToDictionary w) in *.
  destruct (init_prune (views_clips w1) w1) as (Hc2 & Hf2 & _ & _ & He2).
  set (w2 := foldl _ w1 (views_clips w1)) in *.
  set (w3 := if exporting (views_exportInfo w2) then _ else w2).
  assert (H3 : clips (state w3) = clips (state w2) /\ files w3 = files w2
               /\ exporting (views_exportInfo w3) = false).
  { unfold w3. destruct (exporting (views_exportInfo w2)) eqn:He; repeat split. exact He. }
  destruct H3 as (Hc3 & Hf3 & He3).
  set (w4 := cancelRunningDetections w3).
  assert (H4 : clips (state w4) = clips (state w3) /\ files w4 = files w3
               /\ views_exportInfo w4 = views_exportInfo w3).
  { unfold w4, cancelRunningDetections.
    generalize (List.filter (fun stream => bool_decide (s_type stream = IN_PROGRESS))
                            (views_highlightedStreams w3)).
    intros l. generalize w3. induction l as [|s l IH]; intros w0; [repeat split|].
    cbn [foldl]. destruct (IH (cancelDetection w0 s)) as (-> & -> & ->).
    unfold cancelDetection, UPDATE_HIGHLIGHTED_STREAM. cbn [objects with_objects].
    rewrite lookup_insert_eq. repeat split. }
  destruct H4 as (Hc4 & Hf4 & He4).
  assert (Hd : clips (state w4)
               = List.filter (fun kv => fileExists w kv.1) (clips (state w))).
  { rewrite Hc4, Hc3, Hc2, Hc1. apply filter_ext_in. intros [k c] Hkc. cbn [fst].
    apply list_elem_of_In in Hkc.
    assert (Hp : path c = k).
    { unfold wf_ledger in Hwf. rewrite Forall_forall in Hwf. exact (Hwf _ Hkc). }
    destruct (fileExists w k) eqn:Hex.
    - apply negb_true_iff, bool_decide_eq_false_2. intros Hin.
      apply list_elem_of_fmap in Hin as (c' & Hk & Hc').
      apply list_elem_of_In, filter_In in Hc' as [_ Hgone].
      unfold fileExists in Hgone, Hex. rewrite Hf1, <- Hk, Hex in Hgone. discriminate.
    - apply negb_false_iff, bool_decide_eq_true_2, list_elem_of_fmap. exists c.
      split; [symmetry; exact Hp|]. apply list_elem_of_In, filter_In. split.
      + apply list_elem_of_In. unfold views_clips. rewrite Hc1. apply dict_values_elem.
        exists k. exact Hkc.
      + unfold fileExists in *. rewrite Hf1, Hp, Hex. reflexivity. }
  destruct (foldl_UPDATE_CLIP (fun c => patch_loaded (path c) false) [] (clips (state w4)) w4)
    as (Hc5 & Hf5 & _ & _ & He5).
  { reflexivity. }
  { rewrite Hd. apply Forall_forall. intros kv Hkv.
    apply list_elem_of_In, filter_In in Hkv as [Hkv _]. apply list_elem_of_In in Hkv.
    unfold wf_ledger in Hwf. rewrite Forall_forall in Hwf. exact (Hwf _ Hkv). }
  { rewrite Hd. cbn [app]. unfold dict_keys. apply NoDup_fmap_filter. exact Hnd. }
  change (dict_values (clips (state w4))) with (views_clips w4) in Hc5, Hf5, He5.
  set (w5 := foldl _ w4 (views_clips w4)) in *.
  assert (Hfinal : forall w6 : World,
            clips (state w6) = clips (state w5) -> files w6 = files w5 ->
            exporting (views_exportInfo w6) = exporting (views_exportInfo w5) ->
            views_clips w6
            = set_loaded false <$> List.filter (fun c => fileExists w (path c)) (views_clips w)
            /\ files w6 = files w /\ exporting (views_exportInfo w6) = false).
  { intros w6 Hc6 Hf6 He6. split; [|split].
    - unfold views_clips, dict_values. rewrite Hc6, Hc5, Hd. cbn [app].
      rewrite <- list_fmap_compose.
      clear -Hwf. unfold wf_ledger in Hwf.
      induction (clips (state w)) as [|[k c] d IH]; [reflexivity|].
      apply Forall_cons in Hwf as [Hk Hwf]. cbn [fst snd] in Hk.
      rewrite fmap_cons. cbn [List.filter fst snd]. rewrite Hk.
      destruct (fileExists w k); [rewrite !fmap_cons; f_equal|]; apply IH; exact Hwf.
    - rewrite Hf6, Hf5, Hf4, Hf3, Hf2, Hf1. reflexivity.
    - rewrite He6, He5, He4. exact He3. }
  destruct videosPath as [f|]; apply Hfinal; reflexivity.
Qed.

Lemma init_keeps_clips_with_files_witness :
  let w := with_files (fun _ => {["kept.mp4"]})
             (markExporting
                (world_of
                   (loadClips anyFileType probeOk None
                      (addClips [mkNewClip "kept.mp4" None None;
                                 mkNewClip "gone.mp4" None None]
                         None Manual (initialWorld {["kept.mp4"; "gone.mp4"]}))))) in
  let w' := init (Some "Output.mp4") w in
  sprites w = {["kept.mp4.jpg"; "gone.mp4.jpg"]}
  /\ path <$> views_clips w' = ["kept.mp4"]
  /\ loaded <$> views_clips w' = [Some false]
  /\ files w' = {["kept.mp4"]}
  /\ sprites w' = {["kept.mp4.jpg"]}
  /\ exporting (views_exportInfo w') = false.
Proof.
  intros w.
  destruct (init_keeps_clips_with_files (Some "Output.mp4") w) as (Hv & Hf & Hs & He).
  - vm_compute. repeat constructor.
  - vm_compute. repeat constructor; rewrite ?elem_of_cons, ?elem_of_nil; intuition discriminate.
  - split; [vm_compute; reflexivity|].
    split; [rewrite Hv; vm_compute; reflexivity|].
    split; [rewrite Hv; vm_compute; reflexivity|].
    split; [rewrite Hf; vm_compute; reflexivity|].
    split; [rewrite Hs; vm_compute; reflexivity | exact He].
Defined.

Lemma foldl_UPDATE_CLIP_registry (pt : TClip -> TClipPatch) cs w :
  registry (foldl (fun acc c => UPDATE_CLIP (pt c) acc) w cs) = registry w.
Proof.
  revert w. induction cs as [|c cs IH]; intros w; [reflexivity|].
  cbn [foldl]. rewrite IH. reflexivity.
Qed.

(** X16. [init] ends the detections that were in progress when the
    application was closed: after it, each of them reads as cancelled by
    the user, no stream is in progress, and every other stream has the
    state it had.  The dictionary holds each stream under its id. *)
Theorem init_cancels_interrupted_detections (videosPath : option string) (id : string)
    (w : World) :
  registry_keyed w ->
  detection_state id (init videosPath w)
  = match detection_state id (migrateHighlightedStreamsToDictionary w) with
    | Some IN_PROGRESS => Some CANCELED_BY_USER
    | other => other
    end
  /\ detection_state id (init videosPath w) <> Some IN_PROGRESS.
Proof.
  intros Hk.
  assert (Hmain : detection_state id (init videosPath w)
                  = match detection_state id (migrateHighlightedStreamsToDictionary w) with
                    | Some IN_PROGRESS => Some CANCELED_BY_USER
                    | other => other
                    end).
  { unfold init.
    destruct (migrate_rest w) as (_ & _ & _ & _ & Hk1). specialize (Hk1 Hk).
    set (w1 := migrateHighlightedStreamsToDictionary w) in *.
    destruct (init_prune (views_clips w1) w1) as (_ & _ & Ho2 & Hd2 & _).
    set (w2 := foldl _ w1 (views_clips w1)) in *.
    set (w3 := if exporting (views_exportInfo w2) then _ else w2).
    assert (H3 : highlightedStreamsDictionary (state w3) = highlightedStreamsDictionary (state w1)
                 /\ objects w3 = objects w1).
    { unfold w3. destruct (exporting (views_exportInfo w2)); cbn; rewrite Hd2, Ho2; split;
        reflexivity. }
    destruct H3 as (Hd3 & Ho3).
    destruct (cancelRunningDetections_states w3) as (H4 & _).
    { apply (registry_keyed_ext w1); assumption. }
    set (w4 := cancelRunningDetections w3) in *.
    pose proof (foldl_UPDATE_CLIP_registry (fun c => patch_loaded (path c) false)
                  (views_clips w4) w4) as H5.
    set (w5 := foldl _ w4 (views_clips w4)) in *.
    injection H5 as Hd5 Ho5 _.
    transitivity (detection_state id w4).
    - destruct videosPath; apply detection_state_ext; assumption.
    - rewrite H4. rewrite (detection_state_ext w1 w3) by assumption. reflexivity. }
  split; [exact Hmain|]. rewrite Hmain.
  destruct (detection_state id (migrateHighlightedStreamsToDictionary w)) as [[| | |]|];
    discriminate.
Qed.

Lemma init_cancels_interrupted_detections_witness :
  let w := detection_begin 1 (mkStream "T" FINISHED 100 "2026" "two" "unset" false "b.mp4")
             detectingWorld in
  detection_state "S" (init None w) = Some CANCELED_BY_USER
  /\ detection_state "T" (init None w) = Some FINISHED.
Proof.
  intros w.
  assert (Hk : registry_keyed w) by (apply (bool_decide_unpack _); vm_compute; exact I).
  destruct (init_cancels_interrupted_detections None "S" w Hk) as [-> _].
  destruct (init_cancels_interrupted_detections None "T" w Hk) as [-> _].
  split; vm_compute; reflexivity.
Defined.

(** ** What a removal does to the files and to the stream dictionary *)

Lemma removeClip_prune_dictionary clip sid w id :
  highlightedStreamsDictionary (state (removeClip_prune clip sid w)) !! id
  = if bool_decide (id ∈ pruned_ids sid clip) && negb (stream_in_use id w) then None
    else highlightedStreamsDictionary (state w) !! id.
Proof.
  assert (H : forall ids w0,
    clips (state w0) = clips (state w) ->
    highlightedStreamsDictionary
      (state (foldl (fun acc id0 =>
                       if stream_in_use id0 acc then acc
                       else REMOVE_HIGHLIGHTED_STREAM id0 acc) w0 ids)) !! id
    = if bool_decide (id ∈ ids) && negb (stream_in_use id w) then None
      else highlightedStreamsDictionary (state w0) !! id).
  { induction ids as [|id0 ids IH]; intros w0 Hc; [reflexivity|].
    cbn [foldl].
    assert (Huse : forall i, stream_in_use i w0 = stream_in_use i w).
    { intros i. unfold stream_in_use, views_clips. rewrite Hc. reflexivity. }
    rewrite IH by (destruct (stream_in_use id0 w0); exact Hc).
    destruct (decide (id = id0)) as [->|Hne].
    - rewrite (bool_decide_eq_true_2 (id0 ∈ id0 :: ids)) by left. cbn [andb].
      rewrite Huse. destruct (stream_in_use id0 w) eqn:Hu; cbn [negb].
      + rewrite andb_false_r. reflexivity.
      + cbn. rewrite lookup_delete_eq. destruct (bool_decide (id0 ∈ ids)); reflexivity.
    - assert (Hb : bool_decide (id ∈ id0 :: ids) = bool_decide (id ∈ ids)).
      { apply bool_decide_ext. rewrite elem_of_cons. intuition. }
      rewrite Hb. destruct (bool_decide (id ∈ ids) && negb (stream_in_use id w));
        [reflexivity|].
      destruct (stream_in_use id0 w0); [reflexivity|].
      cbn. apply lookup_delete_ne. intros e. apply Hne. symmetry. exact e. }
  unfold removeClip_prune, pruned_ids.
  destruct (streamInfo clip) as [si|] eqn:Hsi, sid as [s|]; try (apply H; reflexivity).
  cbn [truthy default]. rewrite dom_empty_L, elements_empty. reflexivity.
Qed.

Lemma stream_in_use_ext id w w' :
  clips (state w') = clips (state w) -> stream_in_use id w' = stream_in_use id w.
Proof. intros H. unfold stream_in_use, views_clips. rewrite H. reflexivity. Qed.

Lemma removeClip_prune_after clip sid w id :
  highlightedStreamsDictionary (state (removeClip_prune clip sid w)) !! id
  = if bool_decide (id ∈ pruned_ids sid clip)
       && negb (stream_in_use id (removeClip_prune clip sid w))
    then None
    else highlightedStreamsDictionary (state w) !! id.
Proof.
  rewrite removeClip_prune_dictionary.
  rewrite (stream_in_use_ext id w (removeClip_prune clip sid w)); [reflexivity|].
  apply removeClip_prune_ledger.
Qed.

(** X17. [removeClip], run to its end, prunes the stream dictionary by the
    removed clip alone: of the given stream, or without one of the streams
    the clip belonged to, those that are left with no clip in the ledger
    lose their entry; every other entry of the dictionary stays. *)
Theorem removeClip_prunes_orphaned_streams (removePath : string) (streamId : option string)
    (deleteClipFromSystem : bool) (clip : TClip) (id : string) (w : World) :
  dict_get removePath (clips (state w)) = Some clip ->
  let w' := removeClip removePath streamId deleteClipFromSystem w in
  highlightedStreamsDictionary (state w') !! id
  = if bool_decide (id ∈ pruned_ids streamId clip) && negb (stream_in_use id w') then None
    else highlightedStreamsDictionary (state w) !! id.
Proof.
  intros Hc w'. unfold w', removeClip, removeClip_sync. rewrite Hc.
  destruct (match truthy streamId, streamInfo clip with
            | Some sid, Some si =>
                if fileExists w removePath && bool_decide (1 < size si)
                then Some (sid, si) else None
            | _, _ => None
            end) as [[sid si]|].
  - cbn [fst snd]. rewrite removeClip_prune_after. reflexivity.
  - destruct deleteClipFromSystem; cbn [fst snd].
    + unfold removeClip_resume. rewrite removeClip_prune_after.
      match goal with
      | |- context [removeClip_prune clip streamId ?w1] =>
          assert (Hd : highlightedStreamsDictionary (state w1)
                       = highlightedStreamsDictionary (state w))
      end; [|rewrite Hd; reflexivity].
      unfold removeScrubFile.
      destruct (fileExists _ removePath).
      * match goal with
        | |- context [getClips ?cs ?s ?w0] =>
            pose proof (getClips_registry cs s w0) as Hr
        end.
        injection Hr as Hr _ _.
        destruct (decide (length _ = 0)); cbn [state with_navigations];
          rewrite Hr; destruct (truthy (scrubSprite clip)); reflexivity.
      * destruct (truthy (scrubSprite clip)); reflexivity.
    + rewrite removeClip_prune_after. unfold removeScrubFile.
      destruct (truthy (scrubSprite clip)); reflexivity.
Qed.

Lemma removeClip_prunes_orphaned_streams_witness :
  let w := addClips [replayClip "c.mp4" 5 25] (Some "S") ReplayBuffer
             (with_files (fun fs => fs ∪ {["c.mp4"]}) detectingWorld) in
  highlightedStreamsDictionary (state w) !! "S" = Some 0
  /\ highlightedStreamsDictionary (state (removeClip "c.mp4" (Some "S") true w)) !! "S" = None.
Proof.
  intros w. split; [vm_compute; reflexivity|].
  rewrite (removeClip_prunes_orphaned_streams "c.mp4" (Some "S") true
             (mkClip "c.mp4" (Some false) (Some true) (Some 0%Z) (Some 0%Z) (Some false)
                (Some ReplayBuffer) (Some 1%Z)
                (Some {["S" := mkStreamInfo 1 (Some 5%Z) (Some 25%Z)]}) None None None)
             "S" w).
  - vm_compute. reflexivity.
  - vm_compute. reflexivity.
Defined.

Lemma removeClip_sync_sprites p sid del w :
  sprites (spawn (removeClip_sync p sid del w)) ⊆ sprites w.
Proof.
  unfold removeClip_sync.
  destruct (dict_get p (clips (state w))) as [clip|]; [|reflexivity].
  destruct (match truthy sid, streamInfo clip with
            | Some sid0, Some si =>
                if fileExists w p && bool_decide (1 < size si)
                then Some (sid0, si) else None
            | _, _ => None
            end) as [[sid0 si]|].
  - unfold spawn; cbn [fst snd]. rewrite removeClip_prune_sprites. reflexivity.
  - assert (H3 : sprites (with_renderingClips (delete p)
                            (removeScrubFile (scrubSprite clip) (REMOVE_CLIP p w)))
                 ⊆ sprites w).
    { cbn [sprites with_renderingClips]. rewrite removeScrubFile_sprites.
      apply subseteq_difference_l. reflexivity. }
    destruct del; unfold spawn; cbn [fst snd].
    + destruct (fileExists _ p); exact H3.
    + rewrite removeClip_prune_sprites. exact H3.
Qed.

(** A query deletes sprites only. *)
Lemma getClips_sprites cs sid w : sprites (getClips cs sid w).2 ⊆ sprites w.
Proof.
  revert w. induction cs as [|c cs IH]; intros w; cbn [getClips]; [reflexivity|].
  destruct (decide (path c = "add")); [apply IH|].
  destruct (fileExists w (path c)); cbn [snd]; [apply IH|].
  etransitivity; [apply IH | apply removeClip_sync_sprites].
Qed.

(** The query that [removeClip] makes once it has unlinked the file of a
    clip of a healthy ledger: it finds the other clips of the query and
    has nothing to remove. *)
Lemma getClips_after_unlink p sid clip w :
  healthy w -> dict_get p (clips (state w)) = Some clip ->
  let wa := with_files (fun fs => fs ∖ {[p]})
              (with_renderingClips (delete p)
                 (removeScrubFile (scrubSprite clip) (REMOVE_CLIP p w))) in
  getClips (views_clips wa) sid wa
  = (List.filter (fun c => negb (bool_decide (path c = p)) && in_query sid c)
                 (views_clips w), wa).
Proof.
  intros (Hwf & Hnd & Hall) Hc wa.
  assert (Hc3 : clips (state wa) = dict_delete p (clips (state w))).
  { unfold wa, removeScrubFile. destruct (truthy (scrubSprite clip)); reflexivity. }
  assert (Hf3 : files wa = files w ∖ {[p]}).
  { unfold wa. cbn [files with_files with_renderingClips].
    rewrite removeScrubFile_files. reflexivity. }
  assert (Hva : views_clips wa
                = List.filter (fun c => negb (bool_decide (path c = p))) (views_clips w)).
  { unfold views_clips, dict_values. rewrite Hc3, dict_delete_filter.
    clear -Hwf. unfold wf_ledger in Hwf.
    induction (clips (state w)) as [|[k c] d IH]; [reflexivity|].
    apply Forall_cons in Hwf as [Hk Hwf]. cbn [fst snd] in Hk.
    rewrite fmap_cons. cbn [List.filter fst snd]. rewrite Hk.
    destruct (bool_decide (k = p)); cbn [negb];
      [|rewrite fmap_cons; f_equal]; apply IH; exact Hwf. }
  rewrite (getClips_healthy (views_clips wa) sid wa).
  - rewrite Hva, filter_filter. reflexivity.
  - rewrite Hva. apply Forall_forall. intros c Hcin.
    apply list_elem_of_In, filter_In in Hcin as [Hcin Hne]. apply list_elem_of_In in Hcin.
    rewrite Forall_forall in Hall. destruct (Hall c Hcin) as [Ha Hb].
    split; [exact Ha|]. apply negb_true_iff, bool_decide_eq_false_1 in Hne.
    unfold fileExists in *. apply bool_decide_eq_true_2.
    apply bool_decide_eq_true_1 in Hb. rewrite Hf3.
    apply elem_of_difference. split; [exact Hb|].
    intros H. apply elem_of_singleton in H. exact (Hne H).
Qed.

(** [removeClip] run to its end, when it takes the whole record out. *)
Lemma removeClip_whole_files p sid (del : bool) clip w :
  let w3 := with_renderingClips (delete p)
              (removeScrubFile (scrubSprite clip) (REMOVE_CLIP p w)) in
  let unlinked := fileExists w3 p in
  let w4 := if unlinked then with_files (fun fs => fs ∖ {[p]}) w3 else w3 in
  let w' := if del then removeClip_resume p sid clip unlinked w4
            else removeClip_prune clip sid w3 in
  files w' = (if del then files w ∖ {[p]} else files w)
  /\ sprites w' ⊆ sprites w ∖ sprite_of clip
  /\ (healthy w -> dict_get p (clips (state w)) = Some clip ->
      sprites w' = sprites w ∖ sprite_of clip).
Proof.
  intros w3.
  assert (H3 : files w3 = files w).
  { unfold w3. cbn [files with_renderingClips]. rewrite removeScrubFile_files.
    reflexivity. }
  assert (Hs3 : sprites w3 = sprites w ∖ sprite_of clip).
  { unfold w3. cbn [sprites with_renderingClips]. rewrite removeScrubFile_sprites.
    reflexivity. }
  cbv zeta. destruct del.
  - unfold removeClip_resume. rewrite removeClip_prune_files, removeClip_prune_sprites.
    destruct (fileExists w3 p) eqn:Hex.
    + split; [|split].
      * destruct (decide (length _ = 0)); cbn [files with_navigations];
          rewrite getClips_files; cbn [files with_files]; rewrite H3; reflexivity.
      * rewrite <- Hs3.
        destruct (decide (length _ = 0)); cbn [sprites with_navigations];
          (etransitivity; [apply getClips_sprites | reflexivity]).
      * intros Hh Hc. rewrite <- Hs3. unfold w3.
        rewrite (getClips_after_unlink p sid clip w Hh Hc).
        cbn [fst snd]. destruct (decide (length _ = 0)); reflexivity.
    + rewrite H3, Hs3. split; [|split; [reflexivity | intros _ _; reflexivity]].
      unfold fileExists in Hex. rewrite H3 in Hex.
      apply bool_decide_eq_false_1 in Hex. symmetry. apply difference_disjoint_L.
      apply disjoint_singleton_r. exact Hex.
  - rewrite removeClip_prune_files, removeClip_prune_sprites.
    split; [exact H3|]. rewrite Hs3. split; [reflexivity | intros _ _; reflexivity].
Qed.

(** X18. [removeClip], run to its end, deletes the file of the clip exactly
    when it takes the whole record out and [deleteClipFromSystem] is set,
    and it deletes no other clip file.  The scrub sprite of the clip is
    deleted whenever the whole record goes, with the flag on or off;
    dropping one association of a clip that has several deletes nothing.
    On a ledger whose files all exist no other sprite is deleted. *)
Theorem removeClip_deletes_file_only_on_full_removal (removePath : string)
    (streamId : option string) (deleteClipFromSystem : bool) (clip : TClip) (w : World) :
  dict_get removePath (clips (state w)) = Some clip ->
  let w' := removeClip removePath streamId deleteClipFromSystem w in
  let whole := negb (only_detaches removePath streamId clip w) in
  files w' = (if deleteClipFromSystem && whole then files w ∖ {[removePath]} else files w)
  /\ (if whole then sprites w' ⊆ sprites w ∖ sprite_of clip else sprites w' = sprites w)
  /\ (healthy w ->
      sprites w' = if whole then sprites w ∖ sprite_of clip else sprites w).
Proof.
  intros Hc w' whole.
  assert (Hpart : forall sid si,
            let w0 := removeClip_prune clip streamId
                        (UPDATE_CLIP (patch_streamInfo (path clip) (delete sid si)) w) in
            files w0 = files w /\ sprites w0 = sprites w).
  { intros sid si. cbn zeta. rewrite removeClip_prune_files, removeClip_prune_sprites.
    split; reflexivity. }
  unfold w', whole, removeClip, removeClip_sync, only_detaches. rewrite Hc.
  destruct (truthy streamId) as [sid|]; [destruct (streamInfo clip) as [si|]|].
  - destruct (fileExists w removePath && bool_decide (1 < size si)) eqn:Hp.
    + cbn [fst snd negb]. rewrite andb_false_r.
      destruct (Hpart sid si) as (Hf & Hs). rewrite Hf, Hs. auto.
    + cbn [negb]. rewrite andb_true_r.
      destruct (removeClip_whole_files removePath streamId deleteClipFromSystem clip w)
        as (Hf & Hs & Hh).
      destruct deleteClipFromSystem; cbn [fst snd]; (split; [exact Hf|]);
        (split; [exact Hs|]); intros Hhealthy; apply Hh; assumption.
  - cbn [negb]. rewrite andb_true_r.
    destruct (removeClip_whole_files removePath streamId deleteClipFromSystem clip w)
      as (Hf & Hs & Hh).
    destruct deleteClipFromSystem; cbn [fst snd]; (split; [exact Hf|]);
      (split; [exact Hs|]); intros Hhealthy; apply Hh; assumption.
  - cbn [negb]. rewrite andb_true_r.
    destruct (removeClip_whole_files removePath streamId deleteClipFromSystem clip w)
      as (Hf & Hs & Hh).
    destruct deleteClipFromSystem; cbn [fst snd]; (split; [exact Hf|]);
      (split; [exact Hs|]); intros Hhealthy; apply Hh; assumption.
Qed.

Lemma removeClip_deletes_file_only_on_full_removal_witness :
  let w := world_of
             (loadClips anyFileType probeOk None
                (addClips [replayClip "c" 7 27] (Some "T") ReplayBuffer
                   (addClips [replayClip "c" 5 25; replayClip "d" 9 29] (Some "S")
                      ReplayBuffer (initialWorld {["c"; "d"]})))) in
  (files w = {["c"; "d"]} /\ sprites w = {["c.jpg"; "d.jpg"]})
  /\ (files (removeClip "c" (Some "S") true w) = {["c"; "d"]}
      /\ sprites (removeClip "c" (Some "S") true w) = {["c.jpg"; "d.jpg"]})
  /\ (files (removeClip "d" (Some "S") true w) = {["c"]}
      /\ sprites (removeClip "d" (Some "S") true w) = {["c.jpg"]})
  /\ (files (removeClip "d" (Some "S") false w) = {["c"; "d"]}
      /\ sprites (removeClip "d" (Some "S") false w) = {["c.jpg"]}).
Proof.
  intros w.
  assert (Hh : healthy w) by concrete_healthy.
  set (c := mkClip "c" (Some true) (Some true) (Some 0%Z) (Some 0%Z) (Some false)
              (Some ReplayBuffer) (Some 1%Z)
              (Some (<["T" := mkStreamInfo 1 (Some 7%Z) (Some 27%Z)]>
                       {["S" := mkStreamInfo 1 (Some 5%Z) (Some 25%Z)]}))
              (Some "c.jpg") (Some 10%Z) None).
  set (d := mkClip "d" (Some true) (Some true) (Some 0%Z) (Some 0%Z) (Some false)
              (Some ReplayBuffer) (Some 3%Z)
              (Some {["S" := mkStreamInfo 3 (Some 9%Z) (Some 29%Z)]})
              (Some "d.jpg") (Some 10%Z) None).
  destruct (removeClip_deletes_file_only_on_full_removal "c" (Some "S") true c w)
    as (Hf1 & _ & Hs1); [vm_compute; reflexivity|].
  destruct (removeClip_deletes_file_only_on_full_removal "d" (Some "S") true d w)
    as (Hf2 & _ & Hs2); [vm_compute; reflexivity|].
  destruct (removeClip_deletes_file_only_on_full_removal "d" (Some "S") false d w)
    as (Hf3 & _ & Hs3); [vm_compute; reflexivity|].
  split; [split; vm_compute; reflexivity|].
  split; [split; [rewrite Hf1 | rewrite (Hs1 Hh)]; vm_compute; reflexivity|].
  split; [split; [rewrite Hf2 | rewrite (Hs2 Hh)]; vm_compute; reflexivity|].
  split; [rewrite Hf3 | rewrite (Hs3 Hh)]; vm_compute; reflexivity.
Defined.

(** ** Ranking the clips of a stream by start time *)

Section SortByKey.
Context {A : Type} (key : A -> Z).

Lemma sort_insert_Permutation x l :
  sort_insert (fun a b => (key a - key b)%Z) x l ≡ₚ x :: l.
Proof.
  induction l as [|y l IH]; [reflexivity|].
  cbn [sort_insert]. destruct (key x - key y <=? 0)%Z; [reflexivity|].
  rewrite IH. apply Permutation_swap.
Qed.

Lemma js_sort_Permutation l : js_sort (fun a b => (key a - key b)%Z) l ≡ₚ l.
Proof.
  induction l as [|x l IH]; [reflexivity|].
  cbn [js_sort]. rewrite sort_insert_Permutation, IH. reflexivity.
Qed.

Lemma sort_insert_sorted x l :
  StronglySorted (fun a b => (key a <= key b)%Z) l ->
  StronglySorted (fun a b => (key a <= key b)%Z)
                 (sort_insert (fun a b => (key a - key b)%Z) x l).
Proof.
  induction l as [|y l IH]; intros Hs.
  - repeat constructor.
  - cbn [sort_insert]. destruct (key x - key y <=? 0)%Z eqn:Hle.
    + apply Z.leb_le in Hle. constructor; [exact Hs|].
      apply StronglySorted_inv in Hs as [_ Hy].
      constructor; [lia|]. eapply Forall_impl; [exact Hy|]. intros z Hz. cbn in Hz. lia.
    + apply Z.leb_gt in Hle. apply StronglySorted_inv in Hs as [Hs Hy].
      constructor; [exact (IH Hs)|].
      rewrite sort_insert_Permutation. constructor; [lia|exact Hy].
Qed.

Lemma js_sort_sorted l :
  StronglySorted (fun a b => (key a <= key b)%Z) (js_sort (fun a b => (key a - key b)%Z) l).
Proof.
  induction l as [|x l IH]; [constructor|]. cbn [js_sort]. apply sort_insert_sorted, IH.
Qed.

(** The sort is stable: elements with the same key keep their order. *)
Lemma sort_insert_stable k x l :
  List.filter (fun a => (key a =? k)%Z) (sort_insert (fun a b => (key a - key b)%Z) x l)
  = List.filter (fun a => (key a =? k)%Z) (x :: l).
Proof.
  induction l as [|y l IH]; [reflexivity|].
  cbn [sort_insert]. destruct (key x - key y <=? 0)%Z eqn:Hle; [reflexivity|].
  apply Z.leb_gt in Hle. cbn [List.filter] in IH |- *. rewrite IH.
  destruct (key x =? k)%Z eqn:Hx, (key y =? k)%Z eqn:Hy; try reflexivity.
  apply Z.eqb_eq in Hx, Hy. lia.
Qed.

Lemma js_sort_stable k l :
  List.filter (fun a => (key a =? k)%Z) (js_sort (fun a b => (key a - key b)%Z) l)
  = List.filter (fun a => (key a =? k)%Z) l.
Proof.
  induction l as [|x l IH]; [reflexivity|].
  cbn [js_sort]. rewrite sort_insert_stable. cbn [List.filter]. rewrite IH. reflexivity.
Qed.
End SortByKey.

(** The [forEach] of [sortStreamClipsByStartTime], clip by clip. *)
Lemma renumber_get id cs index w :
  NoDup (path <$> cs) ->
  let w' := renumber id index cs w in
  (forall i c, cs !! i = Some c ->
     dict_get (path c) (clips (state w'))
     = Some (merge_clip
               (default (bare_clip (path c)) (dict_get (path c) (clips (state w))))
               (patch_streamInfo (path c)
                  {[id := mkStreamInfo (Z.of_nat (index + i))
                            (assoc_of id c ≫= initialStartTime)
                            (assoc_of id c ≫= initialEndTime)]})))
  /\ (forall q, q ∉ path <$> cs -> dict_get q (clips (state w')) = dict_get q (clips (state w))).
Proof.
  revert index w. induction cs as [|c0 cs IH]; intros index w Hnd.
  - cbn. split; [intros i c H; rewrite lookup_nil in H; discriminate|auto].
  - rewrite fmap_cons in Hnd. apply NoDup_cons in Hnd as [Hnotin Hnd].
    cbn [renumber].
    set (w1 := UPDATE_CLIP _ w).
    destruct (IH (S index) w1 Hnd) as [IH1 IH2]. split.
    + intros [|i] c Hc.
      * cbn in Hc. injection Hc as <-. rewrite IH2 by exact Hnotin.
        unfold w1. rewrite UPDATE_CLIP_get. cbn [p_path patch_streamInfo].
        rewrite decide_True by reflexivity. rewrite Nat.add_0_r. reflexivity.
      * cbn in Hc. rewrite (IH1 i c Hc).
        assert (Hne : path c <> path c0).
        { intros e. apply Hnotin. rewrite <- e. apply list_elem_of_fmap. exists c.
          split; [reflexivity|]. eapply list_elem_of_lookup_2. exact Hc. }
        unfold w1. rewrite UPDATE_CLIP_get. cbn [p_path patch_streamInfo].
        rewrite decide_False by exact Hne.
        replace (S index + i) with (index + S i) by lia. reflexivity.
    + intros q Hq. rewrite fmap_cons in Hq. apply not_elem_of_cons in Hq as [Hq0 Hq].
      rewrite IH2 by exact Hq. unfold w1. rewrite UPDATE_CLIP_get.
      cbn [p_path patch_streamInfo]. rewrite decide_False by exact Hq0. reflexivity.
Qed.

(** X19. [sortStreamClipsByStartTime] ranks the clips of the stream by
    their start time: the clips of the stream among the given ones are
    taken in ascending [initialStartTime] (a missing one counts as 0),
    clips with the same start time in the order they were given, and the
    clip at place [i] gets [orderPosition] [i], so the positions are
    [0 .. M-1]; the time window of each clip is kept and the clips outside
    the stream are untouched.  The given clips are records of the ledger
    with distinct paths whose files exist; a stream id is a non-empty
    string. *)
Theorem sortStreamClipsByStartTime_ranks (cs : list TClip) (id : string) (w : World) :
  id <> "" ->
  NoDup (path <$> cs) ->
  Forall (fun c => path c <> "add" /\ fileExists w (path c) = true) cs ->
  (forall c, c ∈ cs -> dict_get (path c) (clips (state w)) = Some c) ->
  let w' := sortStreamClipsByStartTime cs id w in
  let members := List.filter (in_query (Some id)) cs in
  exists ranked,
    ranked ≡ₚ members
    /\ StronglySorted (fun a b => (startTimeOf id a <= startTimeOf id b)%Z) ranked
    /\ (forall t, List.filter (fun c => (startTimeOf id c =? t)%Z) ranked
                  = List.filter (fun c => (startTimeOf id c =? t)%Z) members)
    /\ (forall i c, ranked !! i = Some c ->
          dict_get (path c) (clips (state w'))
          = Some (merge_clip c
                    (patch_streamInfo (path c)
                       {[id := mkStreamInfo (Z.of_nat i)
                                 (assoc_of id c ≫= initialStartTime)
                                 (assoc_of id c ≫= initialEndTime)]})))
    /\ (forall q, q ∉ path <$> members ->
          dict_get q (clips (state w')) = dict_get q (clips (state w))).
Proof.
  intros Hid Hnd Hall Hin w' members.
  unfold w', sortStreamClipsByStartTime.
  rewrite (getClips_healthy cs (Some id) w Hall). cbn [fst snd]. fold members.
  set (ranked := js_sort _ members).
  assert (Hperm : ranked ≡ₚ members) by apply (js_sort_Permutation (startTimeOf id)).
  assert (Hndr : NoDup (path <$> ranked)).
  { rewrite Hperm. apply NoDup_fmap_filter. exact Hnd. }
  destruct (renumber_get id ranked 0 w Hndr) as [H1 H2].
  exists ranked. split; [exact Hperm|]. split; [apply (js_sort_sorted (startTimeOf id))|].
  split; [intros t; apply (js_sort_stable (startTimeOf id))|]. split.
  - intros i c Hc. rewrite (H1 i c Hc). cbn [Nat.add].
    assert (Hcin : c ∈ cs).
    { apply list_elem_of_lookup_2 in Hc. rewrite Hperm in Hc.
      apply list_elem_of_In, filter_In in Hc as [Hc _]. apply list_elem_of_In. exact Hc. }
    rewrite (Hin c Hcin). reflexivity.
  - intros q Hq. apply H2. rewrite Hperm. exact Hq.
Qed.

Lemma sortStreamClipsByStartTime_ranks_witness :
  let w := addClips [replayClip "late.mp4" 50 70; replayClip "early.mp4" 5 25] (Some "S")
             ReplayBuffer (initialWorld {["late.mp4"; "early.mp4"]}) in
  let w' := sortStreamClipsByStartTime (views_clips w) "S" w in
  let members := List.filter (in_query (Some "S")) (views_clips w) in
  exists ranked,
    ranked ≡ₚ members
    /\ StronglySorted (fun a b => (startTimeOf "S" a <= startTimeOf "S" b)%Z) ranked
    /\ (forall t, List.filter (fun c => (startTimeOf "S" c =? t)%Z) ranked
                  = List.filter (fun c => (startTimeOf "S" c =? t)%Z) members)
    /\ (forall i c, ranked !! i = Some c ->
          dict_get (path c) (clips (state w'))
          = Some (merge_clip c
                    (patch_streamInfo (path c)
                       {["S" := mkStreamInfo (Z.of_nat i)
                                  (assoc_of "S" c ≫= initialStartTime)
                                  (assoc_of "S" c ≫= initialEndTime)]})))
    /\ (forall q, q ∉ path <$> members ->
          dict_get q (clips (state w')) = dict_get q (clips (state w))).
Proof.
  intros w.
  assert (Hwf : wf_ledger w) by (vm_compute; repeat constructor).
  assert (Hnd : NoDup (dict_keys (clips (state w))))
    by (vm_compute; repeat constructor; rewrite ?elem_of_cons, ?elem_of_nil;
        intuition discriminate).
  destruct (keyed_ledger_views w Hwf Hnd) as [Hndp Hin].
  apply (sortStreamClipsByStartTime_ranks (views_clips w) "S" w).
  - discriminate.
  - exact Hndp.
  - vm_compute. repeat constructor; discriminate.
  - intros c Hc. apply Hin. exact Hc.
Defined.

(** ** Loading the clips of a query *)

Section LoadFacts.
Variable supportedFileType : string -> bool.
Variable init : string -> option (option Z * option string * bool).

(** The scan of a list of clips that are all in order makes sure each has
    its [RenderingClip] and changes nothing else. *)
Lemma loadClips_scan_ok cs sid w :
  Forall (fun c => fileExists w (path c) = true /\ supportedFileType (path c) = true) cs ->
  exists w1,
    loadClips_scan supportedFileType cs sid w = (w1, true)
    /\ state w1 = state w /\ (files w1 = files w /\ sprites w1 = sprites w)
    /\ (forall c, c ∈ cs -> is_Some (renderingClips w1 !! path c))
    /\ (forall p, is_Some (renderingClips w !! p) -> is_Some (renderingClips w1 !! p)).
Proof.
  revert w. induction cs as [|c cs IH]; intros w Hall.
  - exists w. cbn. repeat split; auto. intros c Hc. inversion Hc.
  - apply Forall_cons in Hall as [[Hex Hsup] Hall].
    cbn [loadClips_scan]. rewrite Hex, Hsup.
    set (w2 := with_renderingClips _ w).
    assert (Hc2 : is_Some (renderingClips w2 !! path c)).
    { unfold w2. cbn. destruct (renderingClips w !! path c) eqn:Hrc;
        [rewrite Hrc; eauto|rewrite lookup_insert_eq; eauto]. }
    assert (Hmono : forall p, is_Some (renderingClips w !! p) ->
                      is_Some (renderingClips w2 !! p)).
    { intros p Hp. unfold w2. cbn. destruct (renderingClips w !! path c) eqn:Hrc;
        [exact Hp|].
      destruct (decide (path c = p)) as [->|Hne];
        [rewrite lookup_insert_eq; eauto|rewrite lookup_insert_ne by exact Hne; exact Hp]. }
    destruct (IH w2) as (w1 & Hscan & Hst & [Hf Hsp] & Hrcs & Hkeep); [exact Hall|].
    exists w1. split; [exact Hscan|]. split; [rewrite Hst; reflexivity|].
    split; [rewrite Hf, Hsp; split; reflexivity|]. split.
    + intros c' Hc'. apply elem_of_cons in Hc' as [->|Hc']; [apply Hkeep, Hc2|apply Hrcs, Hc'].
    + intros p Hp. apply Hkeep, Hmono, Hp.
Qed.

Lemma probed_sprites scrub w : sprites (probed scrub w) = sprites w ∪ sprite_at scrub.
Proof.
  unfold probed, sprite_at. destruct (truthy scrub); [reflexivity|].
  symmetry. apply (right_id_L ∅ (∪)).
Qed.

Lemma probed_rest scrub w :
  state (probed scrub w) = state w /\ files (probed scrub w) = files w
  /\ renderingClips (probed scrub w) = renderingClips w.
Proof. unfold probed. destruct (truthy scrub); repeat split. Qed.


Lemma UPDATE_CLIP_probed pt m scrub w :
  state (UPDATE_CLIP pt (with_renderingClips m (probed scrub w))) = state (UPDATE_CLIP pt w).
Proof. unfold probed. destruct (truthy scrub); reflexivity. Qed.

(** The hydration of clips that all have a [RenderingClip] and a file that
    can be probed. *)
Lemma loadClips_hydrate_ok items w :
  NoDup (path <$> items) ->
  (forall c, c ∈ items ->
     is_Some (renderingClips w !! path c) /\ is_Some (init (path c))) ->
  exists w',
    loadClips_hydrate init items w = Returned w'
    /\ (forall c probe, c ∈ items -> init (path c) = Some probe ->
          dict_get (path c) (clips (state w'))
          = Some (merge_clip
                    (default (bare_clip (path c)) (dict_get (path c) (clips (state w))))
                    (mkPatch (path c) (Some (Some true)) None None None
                             (Some (Some probe.2)) None None None (Some probe.1.2)
                             (Some probe.1.1) None)))
    /\ (forall q, q ∉ path <$> items ->
          dict_get q (clips (state w')) = dict_get q (clips (state w)))
    /\ files w' = files w
    /\ ((forall c, c ∈ items -> is_Some (dict_get (path c) (clips (state w)))) ->
        dict_keys (clips (state w')) = dict_keys (clips (state w)))
    /\ sprites w'
       = sprites w
         ∪ ⋃ ((fun c => default ∅ ((fun probe : option Z * option string * bool =>
                                       sprite_at probe.1.2) <$> init (path c)))
                <$> items).
Proof.
  revert w. induction items as [|c items IH]; intros w Hnd Hall.
  - exists w. cbn. repeat split; auto; [intros c probe Hc; inversion Hc|].
    symmetry. apply (right_id_L ∅ (∪)).
  - rewrite fmap_cons in Hnd. apply NoDup_cons in Hnd as [Hnotin Hnd].
    destruct (Hall c) as [[rc Hrc] [[[d scrub] del] Hinit]]; [left|].
    cbn [loadClips_hydrate]. rewrite Hrc, Hinit.
    set (pt := mkPatch (path c) (Some (Some true)) None None None (Some (Some del))
                       None None None (Some scrub) (Some d) None).
    set (w1 := UPDATE_CLIP pt _).
    assert (Hst1 : state w1 = state (UPDATE_CLIP pt w)) by apply UPDATE_CLIP_probed.
    assert (Hget1 : forall q, dict_get q (clips (state w1))
                              = dict_get q (clips (state (UPDATE_CLIP pt w)))).
    { intros q. rewrite Hst1. reflexivity. }
    assert (Hrc1 : forall q, renderingClips w1 !! q
                     = <[path c := mkRenderingClip (rc_startTrim rc) (rc_endTrim rc)
                                                   del d scrub]> (renderingClips w) !! q).
    { intros q. unfold w1. cbn [renderingClips UPDATE_CLIP with_state with_renderingClips].
      destruct (probed_rest scrub w) as (_ & _ & ->). reflexivity. }
    assert (Hf1 : files w1 = files w).
    { unfold w1. cbn [files UPDATE_CLIP with_state with_renderingClips].
      apply probed_rest. }
    assert (Hs1 : sprites w1 = sprites w ∪ sprite_at scrub).
    { unfold w1. cbn [sprites UPDATE_CLIP with_state with_renderingClips].
      apply probed_sprites. }
    destruct (IH w1) as (w' & Hh & Hget & Hother & Hf & Hkeys & Hsp); [exact Hnd| |].
    + intros c' Hc'. destruct (Hall c') as [Hrc' Hinit']; [right; exact Hc'|].
      split; [|exact Hinit']. rewrite Hrc1.
      destruct (decide (path c = path c')) as [e|Hne];
        [rewrite e, lookup_insert_eq; eauto|rewrite lookup_insert_ne by exact Hne; exact Hrc'].
    + exists w'. split; [exact Hh|]. split; [|split; [|split; [|split]]].
      * intros c' probe Hc' Hp. apply elem_of_cons in Hc' as [->|Hc'].
        -- rewrite Hother by exact Hnotin. rewrite Hget1, UPDATE_CLIP_get.
           cbn [p_path pt]. rewrite decide_True by reflexivity.
           rewrite Hinit in Hp. injection Hp as <-. reflexivity.
        -- rewrite (Hget c' probe Hc' Hp).
           assert (Hne : path c' <> path c).
           { intros e. apply Hnotin. rewrite <- e. apply list_elem_of_fmap.
             exists c'. split; [reflexivity|exact Hc']. }
           rewrite Hget1, UPDATE_CLIP_get. cbn [p_path pt].
           rewrite decide_False by exact Hne. reflexivity.
      * intros q Hq. rewrite fmap_cons in Hq. apply not_elem_of_cons in Hq as [Hq0 Hq].
        rewrite Hother by exact Hq. rewrite Hget1, UPDATE_CLIP_get. cbn [p_path pt].
        rewrite decide_False by exact Hq0. reflexivity.
      * rewrite Hf. exact Hf1.
      * intros Hpresent. rewrite Hkeys.
        -- rewrite Hst1, UPDATE_CLIP_keys. cbn [p_path pt].
           rewrite bool_decide_eq_true_2; [reflexivity|].
           destruct (Hpresent c) as [c0 Hc0]; [left|].
           destruct (decide (path c ∈ dict_keys (clips (state w)))) as [|Hn]; [assumption|].
           apply dict_get_None in Hn. congruence.
        -- intros c' Hc'. rewrite Hget1, UPDATE_CLIP_get. cbn [p_path pt].
           destruct (decide (path c' = path c)); [eauto|]. apply Hpresent. right. exact Hc'.
      * rewrite Hsp, Hs1, fmap_cons, union_list_cons, Hinit. cbn [fmap option_fmap
          option_map default fst snd]. rewrite (assoc_L (∪)). reflexivity.
Qed.

(** The load pass on a ledger that is in order. *)
Lemma loadClips_ok (streamInfoId : option string) (w : World) :
  healthy w ->
  (forall c, c ∈ views_clips w -> in_query streamInfoId c = true ->
     supportedFileType (path c) = true
     /\ (default false (loaded c) = false -> is_Some (init (path c)))) ->
  exists w',
    loadClips supportedFileType init streamInfoId w = Returned w'
    /\ (forall p c, dict_get p (clips (state w)) = Some c ->
          dict_get p (clips (state w'))
          = Some (if in_query streamInfoId c && negb (default false (loaded c))
                  then match init p with
                       | Some probe => hydrated probe c
                       | None => c
                       end
                  else c))
    /\ dict_keys (clips (state w')) = dict_keys (clips (state w))
    /\ files w' = files w
    /\ sprites w'
       = sprites w
         ∪ sprites_of
             (loaded_by init streamInfoId
                <$> List.filter (fun c => in_query streamInfoId c
                                          && negb (default false (loaded c)))
                                (views_clips w)).
Proof.
  intros (Hwf & Hnd & Hall) Hok.
  destruct (keyed_ledger_views w Hwf Hnd) as [Hndp Hin].
  unfold loadClips. rewrite (getClips_healthy (views_clips w) streamInfoId w Hall).
  cbn [fst snd]. unfold loadClips_resume.
  set (members := List.filter (in_query streamInfoId) (views_clips w)).
  assert (Hmem : forall c, c ∈ members <-> c ∈ views_clips w /\ in_query streamInfoId c = true).
  { intros c. unfold members. rewrite list_elem_of_In, filter_In, <- list_elem_of_In.
    reflexivity. }
  destruct (loadClips_scan_ok members streamInfoId w)
    as (w1 & Hscan & Hst & [Hf1 Hs1] & Hrcs & _).
  { apply Forall_forall. intros c Hc. apply Hmem in Hc as [Hc Hq]. split.
    - rewrite Forall_forall in Hall. apply (Hall c Hc).
    - apply (Hok c Hc Hq). }
  rewrite Hscan. cbn [fst snd].
  set (items := List.filter (fun c => negb (default false (loaded c))) members).
  assert (Hitems : forall c, c ∈ items
            <-> c ∈ views_clips w /\ in_query streamInfoId c = true
                /\ default false (loaded c) = false).
  { intros c. unfold items. rewrite list_elem_of_In, filter_In, <- list_elem_of_In, Hmem.
    rewrite negb_true_iff. tauto. }
  destruct (loadClips_hydrate_ok items w1) as (w' & Hh & Hget & Hother & Hf & Hkeys & Hsp).
  { unfold items, members. apply NoDup_fmap_filter, NoDup_fmap_filter. exact Hndp. }
  { intros c Hc. split.
    - apply Hrcs. unfold items in Hc. apply list_elem_of_In, filter_In in Hc as [Hc _].
      apply list_elem_of_In. exact Hc.
    - apply Hitems in Hc as (Hc & Hq & Hl). apply (Hok c Hc Hq). exact Hl. }
  exists w'. split; [exact Hh|]. rewrite Hst in Hget, Hother, Hkeys.
  split; [|split; [|split; [rewrite Hf; exact Hf1|]]].
  - intros p c Hp. pose proof (wf_ledger_get _ _ _ Hwf Hp) as Hpath.
    assert (Hcin : c ∈ views_clips w) by (apply Hin; rewrite Hpath; exact Hp).
    destruct (in_query streamInfoId c && negb (default false (loaded c))) eqn:Hsel.
    + apply andb_true_iff in Hsel as [Hq Hl]. apply negb_true_iff in Hl.
      assert (Hci : c ∈ items) by (apply Hitems; repeat split; assumption).
      destruct (Hok c Hcin Hq) as [_ Hprobe]. destruct (Hprobe Hl) as [probe Hpr].
      rewrite <- Hpath at 1. rewrite (Hget c probe Hci Hpr).
      rewrite Hpath, Hp. rewrite <- Hpath, Hpr. reflexivity.
    + rewrite Hother; [exact Hp|].
      intros Hpin. apply list_elem_of_fmap in Hpin as (c' & Hp' & Hc').
      apply Hitems in Hc' as (Hc' & Hq' & Hl').
      apply Hin in Hc'. rewrite <- Hp', Hp in Hc'. injection Hc' as ->.
      rewrite Hq', Hl' in Hsel. discriminate.
  - apply Hkeys. intros c Hc. apply Hitems in Hc as (Hc & _). apply Hin in Hc. eauto.
  - rewrite Hsp, Hs1. f_equal. unfold sprites_of. f_equal.
    replace (List.filter (fun c => in_query streamInfoId c
                                   && negb (default false (loaded c))) (views_clips w))
      with items by (unfold items, members; apply filter_filter).
    rewrite <- list_fmap_compose. apply list_fmap_ext. intros i c Hi.
    apply list_elem_of_lookup_2 in Hi. apply Hitems in Hi as (Hc & Hq & Hl).
    destruct (Hok c Hc Hq) as [_ Hprobe]. destruct (Hprobe Hl) as [probe Hpr].
    unfold compose, loaded_by. rewrite Hq, Hl, Hpr. reflexivity.
Qed.

Section DictPointwise.
Context {V : Type}.

Lemma dict_pointwise (f : string -> V -> V) (d d' : dict V) :
  NoDup (dict_keys d) -> dict_keys d' = dict_keys d ->
  (forall k v, dict_get k d = Some v -> dict_get k d' = Some (f k v)) ->
  d' = (fun kv => (kv.1, f kv.1 kv.2)) <$> d.
Proof.
  revert d'. induction d as [|[k v] d IH]; intros d' Hnd Hkeys Hget.
  - destruct d'; [reflexivity|discriminate].
  - destruct d' as [|[k' v'] d']; [discriminate|].
    unfold dict_keys in Hkeys, Hnd. rewrite !fmap_cons in Hkeys. rewrite fmap_cons in Hnd.
    cbn [fst] in Hkeys, Hnd. injection Hkeys as -> Hkeys.
    apply NoDup_cons in Hnd as [Hnotin Hnd].
    rewrite fmap_cons. cbn [fst snd]. f_equal.
    + specialize (Hget k v). cbn [dict_get] in Hget.
      rewrite !decide_True in Hget by reflexivity. specialize (Hget eq_refl).
      injection Hget as ->. reflexivity.
    + apply IH; [exact Hnd|exact Hkeys|].
      intros k2 v2 H2.
      assert (Hne : k2 <> k).
      { intros ->. apply Hnotin. apply dict_get_Some_elem in H2.
        apply list_elem_of_fmap. exists (k, v2). split; [reflexivity|exact H2]. }
      specialize (Hget k2 v2). cbn [dict_get] in Hget.
      rewrite !decide_False in Hget by exact Hne. exact (Hget H2).
Qed.
End DictPointwise.

(** X20. On a ledger whose files all exist, when every clip of the query
    has a supported file type and every one that is not loaded yet can be
    probed, [loadClips] returns and has loaded exactly the clips of the
    query that were not loaded: each gets [loaded], the duration, the
    scrub sprite and the deleted flag of its probe, and keeps its other
    properties; every other clip and the order of the ledger are as they
    were.  No clip file is touched, and the scrub sprite directory has
    gained the sprites that the loaded clips now name. *)
Theorem loadClips_loads_the_query (streamInfoId : option string) (w : World) :
  healthy w ->
  (forall c, c ∈ views_clips w -> in_query streamInfoId c = true ->
     supportedFileType (path c) = true
     /\ (default false (loaded c) = false -> is_Some (init (path c)))) ->
  exists w',
    loadClips supportedFileType init streamInfoId w = Returned w'
    /\ (forall p c, dict_get p (clips (state w)) = Some c ->
          dict_get p (clips (state w'))
          = Some (if in_query streamInfoId c && negb (default false (loaded c))
                  then match init p with
                       | Some probe => hydrated probe c
                       | None => c
                       end
                  else c))
    /\ dict_keys (clips (state w')) = dict_keys (clips (state w))
    /\ files w' = files w
    /\ sprites w'
       = sprites w
         ∪ sprites_of
             (loaded_by init streamInfoId
                <$> List.filter (fun c => in_query streamInfoId c
                                          && negb (default false (loaded c)))
                                (views_clips w)).
Proof. apply loadClips_ok. Qed.

(** X21. After such a load pass the first guard of [export] finds
    nothing to stop for: every clip that is enabled and belongs to the
    query is loaded. *)
Theorem loadClips_satisfies_the_export_guard (streamInfoId : option string) (w : World) :
  healthy w ->
  (forall c, c ∈ views_clips w -> in_query streamInfoId c = true ->
     supportedFileType (path c) = true
     /\ (default false (loaded c) = false -> is_Some (init (path c)))) ->
  exists w',
    loadClips supportedFileType init streamInfoId w = Returned w'
    /\ hasUnloadedClips streamInfoId w' = false.
Proof.
  intros Hh Hok.
  destruct (loadClips_ok streamInfoId w Hh Hok) as (w' & Hload & Hget & Hkeys & _).
  exists w'. split; [exact Hload|].
  destruct Hh as (Hwf & Hnd & _).
  set (f := fun (p : string) (c : TClip) =>
              if in_query streamInfoId c && negb (default false (loaded c))
              then match init p with
                   | Some probe => hydrated probe c
                   | None => c
                   end
              else c).
  assert (Hd : clips (state w') = (fun kv => (kv.1, f kv.1 kv.2)) <$> clips (state w)).
  { apply dict_pointwise; [exact Hnd|exact Hkeys|exact Hget]. }
  unfold hasUnloadedClips, views_clips, dict_values. rewrite Hd, <- list_fmap_compose.
  apply negb_false_iff, forallb_forall. intros c' Hc'.
  apply filter_In in Hc' as [Hc' Hsel]. apply list_elem_of_In, list_elem_of_fmap in Hc'.
  destruct Hc' as ([k c] & -> & Hkc). unfold compose in *. cbn [fst snd] in *.
  assert (Hp : path c = k).
  { unfold wf_ledger in Hwf. rewrite Forall_forall in Hwf. exact (Hwf _ Hkc). }
  assert (Hcin : c ∈ views_clips w) by (apply dict_values_elem; exists k; exact Hkc).
  assert (Hfields : enabled (f k c) = enabled c /\ streamInfo (f k c) = streamInfo c).
  { unfold f. destruct (in_query streamInfoId c && negb (default false (loaded c)));
      [|split; reflexivity].
    destruct (init k); split; reflexivity. }
  destruct Hfields as [Hen Hsi].
  assert (Hq : in_query streamInfoId c = true).
  { unfold in_query. rewrite Hen in Hsel. unfold assoc_of in Hsel. rewrite Hsi in Hsel.
    destruct (default false (enabled c)); [|discriminate].
    destruct (truthy streamInfoId); [exact Hsel|reflexivity]. }
  unfold f. rewrite Hq. cbn [andb].
  destruct (default false (loaded c)) eqn:Hl; cbn [negb]; [exact Hl|].
  destruct (Hok c Hcin Hq) as [_ Hprobe]. destruct (Hprobe Hl) as [probe Hpr].
  rewrite <- Hp, Hpr. reflexivity.
Qed.
End LoadFacts.

Lemma loadClips_loads_the_query_witness :
  let w := addClips [replayClip "c" 7 27] (Some "T") ReplayBuffer
             (addClips [replayClip "c" 5 25; replayClip "d" 9 29] (Some "S") ReplayBuffer
                (initialWorld {["c"; "d"]})) in
  exists w',
    loadClips anyFileType probeOk (Some "T") w = Returned w'
    /\ (forall p c, dict_get p (clips (state w)) = Some c ->
          dict_get p (clips (state w'))
          = Some (if in_query (Some "T") c && negb (default false (loaded c))
                  then match probeOk p with
                       | Some probe => hydrated probe c
                       | None => c
                       end
                  else c))
    /\ dict_keys (clips (state w')) = dict_keys (clips (state w))
    /\ files w' = {["c"; "d"]}
    /\ sprites w = ∅ /\ sprites w' = {["c.jpg"]}.
Proof.
  intros w.
  destruct (loadClips_loads_the_query anyFileType probeOk (Some "T") w)
    as (w' & Hload & Hget & Hkeys & Hf & Hs).
  - concrete_healthy.
  - intros c _ _. split; [reflexivity|]. intros _. unfold probeOk. eauto.
  - exists w'. split; [exact Hload|]. split; [exact Hget|]. split; [exact Hkeys|].
    split; [rewrite Hf; vm_compute; reflexivity|].
    split; [vm_compute; reflexivity|]. rewrite Hs. vm_compute. reflexivity.
Defined.

Lemma loadClips_satisfies_the_export_guard_witness :
  let w := addClips [replayClip "c" 7 27] (Some "T") ReplayBuffer
             (addClips [replayClip "c" 5 25; replayClip "d" 9 29] (Some "S") ReplayBuffer
                (initialWorld {["c"; "d"]})) in
  exists w',
    loadClips anyFileType probeOk (Some "S") w = Returned w'
    /\ hasUnloadedClips (Some "S") w' = false.
Proof.
  intros w. apply (loadClips_satisfies_the_export_guard anyFileType probeOk (Some "S") w).
  - concrete_healthy.
  - intros c _ _. split; [reflexivity|]. intros _. unfold probeOk. eauto.
Defined.

(** ** What an export hands to the rendering engine *)

Section ExportFacts.
Variable supportedFileType : string -> bool.
Variable init : string -> option (option Z * option string * bool).
Variable reset : string -> option bool.

Lemma take_renderingClips_bystanders cs w items w' :
  take_renderingClips cs w = Some (items, w') -> bystanders w' = bystanders w.
Proof.
  revert w items w'. induction cs as [|c cs IH]; intros w items w' H.
  - cbn in H. injection H as _ <-. reflexivity.
  - cbn [take_renderingClips] in H.
    destruct (renderingClips w !! path c) as [rc|]; [|discriminate].
    destruct (take_renderingClips cs _) as [[items0 w0]|] eqn:Ht; [|discriminate].
    injection H as _ <-. apply IH in Ht. rewrite Ht. reflexivity.
Qed.

Lemma probed_bystanders scrub w : bystanders (probed scrub w) = bystanders w.
Proof. unfold probed. destruct (truthy scrub); reflexivity. Qed.

Lemma generateRenderingClips_bystanders sid orientation w items w' :
  generateRenderingClips init sid orientation w = Some (items, w') ->
  bystanders w' = bystanders w.
Proof.
  unfold generateRenderingClips.
  set (selected := match truthy sid with Some _ => _ | None => _ end).
  assert (Hsel : bystanders selected.2 = bystanders w).
  { unfold selected. destruct (truthy sid); [apply getClips_bystanders|reflexivity]. }
  destruct (take_renderingClips selected.1 selected.2) as [[items0 w1]|] eqn:Ht;
    [|discriminate].
  apply take_renderingClips_bystanders in Ht.
  intros H.
  assert (Hextra : forall (horizontal : bool) p w0 r w0',
            (if bool_decide (p ≠ "") && horizontal
             then match init p with
                  | Some (_, scrub, del) =>
                      Some ([mkRenderItem p false (Some 0%Z) (Some 0%Z) del],
                            probed scrub w0)
                  | None => None
                  end
             else Some ([], w0)) = Some (r, w0') ->
            bystanders w0' = bystanders w0).
  { intros hz p w0 r w0' Hx. destruct (bool_decide (p ≠ "") && hz).
    - destruct (init p) as [[[? scrub] del]|]; [|discriminate].
      injection Hx as _ <-. apply probed_bystanders.
    - injection Hx as _ <-. reflexivity. }
  match type of H with
  | match ?x with _ => _ end = _ => destruct x as [[i w2]|] eqn:Hi; [|discriminate]
  end.
  match type of H with
  | match ?x with _ => _ end = _ => destruct x as [[o w3]|] eqn:Ho; [|discriminate]
  end.
  injection H as _ <-. apply Hextra in Hi, Ho. rewrite Ho, Hi, Ht. exact Hsel.
Qed.

Lemma reset_all_bystanders items w kept w' :
  reset_all reset items w = Some (kept, w') -> bystanders w' = bystanders w.
Proof.
  revert w kept w'. induction items as [|c items IH]; intros w kept w' H.
  - cbn in H. injection H as _ <-. reflexivity.
  - cbn [reset_all] in H. destruct (reset (ri_path c)) as [flagged|]; [|discriminate].
    destruct (reset_all reset items _) as [[kept0 w0]|] eqn:Hr; [|discriminate].
    injection H as _ <-. apply IH in Hr. rewrite Hr.
    destruct (ri_deleted c || flagged); [|reflexivity].
    destruct (ri_shared c); reflexivity.
Qed.

(** X22. A call of [export] hands the rendering engine at most one job, and
    never a job without clips.  When it returns, either no job was handed
    over, and then [exporting] is what it was at the call or it is false
    with the message that no clip is selected; or exactly one job was
    handed over, for the [preview] and the stream of the call, with at
    least one clip, no export was running at the call and [exporting] is
    now true.  When it throws, no job was handed over. *)
Theorem export_hands_over_at_most_one_job (preview : bool) (streamId : option string)
    (orientation : EOrientation) (w : World) :
  match export supportedFileType init reset preview streamId orientation w with
  | Threw w' => renderJobs w' = renderJobs w
  | Returned w' =>
      (renderJobs w' = renderJobs w
       /\ (exporting (views_exportInfo w') = exporting (views_exportInfo w)
           \/ (exporting (views_exportInfo w') = false
               /\ error (views_exportInfo w') = Some noClipSelected)))
      \/ (exists job,
            renderJobs w' = renderJobs w ++ [job]
            /\ job_clips job <> []
            /\ isPreview job = preview
            /\ job_streamId job = streamId
            /\ exporting (views_exportInfo w) = false
            /\ exporting (views_exportInfo w') = true)
  end.
Proof.
  unfold export.
  pose proof (loadClips_bystanders supportedFileType init streamId
                (with_renderingClips (fun _ => ∅) w)) as Hload.
  destruct (loadClips supportedFileType init streamId _) as [w1|w1];
    cbn [world_of] in Hload; injection Hload as He1 Hj1 _;
    [|exact Hj1].
  change (exporting (views_exportInfo w1) = exporting (views_exportInfo w)) in He1.
  change (renderJobs w1 = renderJobs w) in Hj1.
  destruct (hasUnloadedClips streamId w1); [left; split; [exact Hj1|left; exact He1]|].
  destruct (exporting (views_exportInfo w1)) eqn:Hexp;
    [left; split; [exact Hj1|left; rewrite Hexp; exact He1]|].
  set (w2 := SET_EXPORT_INFO _ w1).
  destruct (generateRenderingClips init streamId orientation w2) as [[items w3]|] eqn:Hgen;
    [|exact Hj1].
  apply generateRenderingClips_bystanders in Hgen. injection Hgen as He3 Hj3 _.
  destruct (reset_all reset items w3) as [[kept w4]|] eqn:Hreset;
    [|rewrite Hj3; exact Hj1].
  apply reset_all_bystanders in Hreset. injection Hreset as He4 Hj4 _.
  destruct kept as [|k kept].
  - left. split; [cbn; rewrite Hj4, Hj3; exact Hj1|]. right. split; reflexivity.
  - right. eexists. split; [cbn [renderJobs with_renderJobs]; rewrite Hj4, Hj3; cbn;
                            rewrite Hj1; reflexivity|].
    split; [discriminate|]. split; [reflexivity|]. split; [reflexivity|].
    split; [symmetry; exact He1|].
    transitivity (exporting (views_exportInfo w4)); [reflexivity|].
    rewrite He4. exact He3.
Qed.
End ExportFacts.

(** ** Uploading needs a current export *)

(** X23. Once the clips or the transition, audio or video settings have
    changed, the exported video is stale and [uploadYoutube] refuses it:
    straight after any such mutation the call throws and leaves the state
    as it is, whatever else holds.  The same goes for a change of the
    export settings, a cancellation and [resetExportedState]. *)
Theorem stale_export_cannot_be_uploaded (m : Mutation) (linked : bool) (f p : string)
    (n : Z) (w : World) :
  (changes_export_input m = true ->
   uploadYoutube_start linked (commit m w) = Threw (commit m w))
  /\ Forall (fun w' => uploadYoutube_start linked w' = Threw w')
       [setExportFile f w; setFps n w; setResolution n w; setPreset p w; cancelExport w;
        resetExportedState w].
Proof.
  split.
  - intros Hm. unfold uploadYoutube_start. destruct linked; [|reflexivity]. cbn [negb].
    rewrite (commit_changes_export_input m w Hm). reflexivity.
  - repeat constructor; unfold uploadYoutube_start; destruct linked; reflexivity.
Qed.

Lemma stale_export_cannot_be_uploaded_witness :
  let w := with_state (with_export (set_exported true)) (initialWorld ∅) in
  uploadYoutube_start true (commit (M_UPDATE_CLIP (patch_startTrim "a.mp4" 2)) w)
  = Threw (commit (M_UPDATE_CLIP (patch_startTrim "a.mp4" 2)) w).
Proof.
  intros w.
  destruct (stale_export_cannot_be_uploaded (M_UPDATE_CLIP (patch_startTrim "a.mp4" 2))
              true "" "" 0 w) as [H _].
  apply H. reflexivity.
Defined.

(** ** The stream dictionary is keyed by id *)

Lemma commit_registry_keyed m w :
  registry_keyed w -> registry_keyed (commit m w).
Proof.
  intros Hk.
  assert (Hobj : objects (commit m w) = objects w).
  { destruct m as [| | | | | | | | | | | |r|r| | | | |]; try reflexivity; cbn [commit].
    - unfold ADD_HIGHLIGHTED_STREAM. destruct (objects w !! r); reflexivity.
    - unfold UPDATE_HIGHLIGHTED_STREAM. destruct (objects w !! r); reflexivity. }
  unfold registry_keyed. rewrite Hobj.
  destruct m as [| | | | | | | | | | | |r|r|id| | | |]; try exact Hk; cbn [commit].
  - unfold ADD_HIGHLIGHTED_STREAM. destruct (objects w !! r) as [o|] eqn:Ho; [|exact Hk].
    cbn. apply map_Forall_insert_2; [rewrite Ho; reflexivity|exact Hk].
  - unfold UPDATE_HIGHLIGHTED_STREAM. destruct (objects w !! r) as [o|] eqn:Ho; [|exact Hk].
    cbn. apply map_Forall_insert_2; [rewrite Ho; reflexivity|exact Hk].
  - cbn. apply map_Forall_delete. exact Hk.
Qed.

(** X24. Whatever mutations are committed, the stream dictionary stays
    keyed by id: every key holds a stream object whose [id] is the key, so
    looking a stream up by its id never finds another stream. *)
Theorem registry_stays_keyed (ms : list Mutation) (w : World) :
  registry_keyed w ->
  forall id r, highlightedStreamsDictionary (state (commits ms w)) !! id = Some r ->
    exists o, objects (commits ms w) !! r = Some o /\ s_id o = id.
Proof.
  intros Hk.
  assert (Hk' : registry_keyed (commits ms w)).
  { revert w Hk. unfold commits. induction ms as [|m ms IH]; intros w Hk; [exact Hk|].
    cbn [foldl]. apply IH, commit_registry_keyed, Hk. }
  intros id r Hr. specialize (Hk' id r Hr). cbn in Hk'.
  destruct (objects (commits ms w) !! r) as [o|]; [|discriminate].
  exists o. split; [reflexivity|]. cbn in Hk'. congruence.
Qed.

Lemma registry_stays_keyed_witness :
  let ms := [M_ADD_HIGHLIGHTED_STREAM 0; M_REMOVE_HIGHLIGHTED_STREAM "T";
             M_UPDATE_HIGHLIGHTED_STREAM 0] in
  exists o, objects (commits ms detectingWorld) !! 0 = Some o /\ s_id o = "S".
Proof.
  intros ms. apply (registry_stays_keyed ms detectingWorld).
  - apply (bool_decide_unpack _). vm_compute. exact I.
  - vm_compute. reflexivity.
Defined.

(** ** Ingesting the clips of a detection *)

Lemma addAiClips_from_keeps index newClips id m n w p c :
  dict_get p (clips (state w)) = Some c ->
  dict_get p (clips (state (addAiClips_from index newClips id m n w))) = Some c.
Proof.
  revert index w. induction newClips as [|clip rest IH]; intros index w Hp; [exact Hp|].
  cbn [addAiClips_from]. apply IH.
  destruct (dict_get (nd_path clip) (clips (state w))) as [c0|] eqn:Hc0; [exact Hp|].
  unfold ADD_CLIP. cbn [state with_state clips with_export with_clips path].
  rewrite dict_get_set, decide_False by congruence. exact Hp.
Qed.

(** Removals, queries and additions keep the ledger keyed by path. *)
Lemma removeClip_sync_keyed p sid del w :
  wf_ledger w /\ NoDup (dict_keys (clips (state w))) ->
  wf_ledger (spawn (removeClip_sync p sid del w))
  /\ NoDup (dict_keys (clips (state (spawn (removeClip_sync p sid del w))))).
Proof.
  intros Hk. unfold removeClip_sync.
  destruct (dict_get p (clips (state w))) as [clip|]; [|exact Hk].
  destruct (match truthy sid, streamInfo clip with
            | Some sid0, Some si =>
                if fileExists w p && bool_decide (1 < size si) then Some (sid0, si) else None
            | _, _ => None
            end) as [[sid0 si]|].
  - unfold spawn. cbn [fst snd]. unfold wf_ledger.
    destruct (removeClip_prune_ledger clip sid
                (UPDATE_CLIP (patch_streamInfo (path clip) (delete sid0 si)) w)) as (-> & _ & _).
    apply (commit_ledger (M_UPDATE_CLIP (patch_streamInfo (path clip) (delete sid0 si))) w Hk).
  - pose proof (commit_ledger (M_REMOVE_CLIP p) w Hk) as Hk'. cbn [commit] in Hk'.
    destruct del; unfold spawn; cbn [fst snd]; unfold wf_ledger in *.
    + unfold removeScrubFile.
      destruct (truthy (scrubSprite clip)); destruct (fileExists _ p); exact Hk'.
    + match goal with
      | |- context [removeClip_prune clip sid ?w0] =>
          destruct (removeClip_prune_ledger clip sid w0) as (-> & _ & _)
      end.
      unfold removeScrubFile. destruct (truthy (scrubSprite clip)); exact Hk'.
Qed.

Lemma getClips_keyed cs sid w :
  wf_ledger w /\ NoDup (dict_keys (clips (state w))) ->
  wf_ledger (getClips cs sid w).2 /\ NoDup (dict_keys (clips (state (getClips cs sid w).2))).
Proof.
  revert w. induction cs as [|c cs IH]; intros w Hk; [exact Hk|].
  cbn [getClips]. destruct (decide (path c = "add")); [apply IH, Hk|].
  destruct (fileExists w (path c)); [cbn [snd]; apply IH, Hk|].
  apply IH, removeClip_sync_keyed, Hk.
Qed.

Lemma addAiClips_from_keyed index newClips id m n w :
  wf_ledger w /\ NoDup (dict_keys (clips (state w))) ->
  wf_ledger (addAiClips_from index newClips id m n w)
  /\ NoDup (dict_keys (clips (state (addAiClips_from index newClips id m n w)))).
Proof.
  revert index w. induction newClips as [|clip rest IH]; intros index w Hk; [exact Hk|].
  cbn [addAiClips_from]. apply IH.
  destruct (dict_get (nd_path clip) (clips (state w))); [exact Hk|].
  match goal with
  | |- context [ADD_CLIP ?c w] => exact (commit_ledger (M_ADD_CLIP c) w Hk)
  end.
Qed.

(** X25. [addAiClips] never overwrites a clip: a clip of the ledger whose
    file exists is still there after the clips of a detection have been
    ingested, whatever paths the batch holds, with every property but its
    stream associations as it was; a clip outside the stream is untouched
    altogether. *)
Theorem addAiClips_never_overwrites (newClips : list INewClipData) (id p : string)
    (c : TClip) (w : World) :
  wf_ledger w -> NoDup (dict_keys (clips (state w))) ->
  fileExists w p = true ->
  dict_get p (clips (state w)) = Some c ->
  exists c',
    dict_get p (clips (state (addAiClips_ingest newClips id w))) = Some c'
    /\ (path c', loaded c', enabled c', startTrim c', endTrim c', deleted c', source c',
        globalOrderPosition c', scrubSprite c', duration c', aiInfo c')
       = (path c, loaded c, enabled c, startTrim c, endTrim c, deleted c, source c,
          globalOrderPosition c, scrubSprite c, duration c, aiInfo c)
    /\ (assoc_of id c = None -> id <> "" -> c' = c).
Proof.
  intros Hwf Hnd Hex Hp. unfold addAiClips_ingest.
  set (cur := getClips (views_clips w) (Some id) w).
  set (all := getClips (views_clips cur.2) None cur.2).
  set (w1 := addAiClips_from 0 newClips id _ _ all.2).
  assert (Hfcur : files cur.2 = files w) by apply getClips_files.
  assert (Hfall : files all.2 = files w) by (unfold all; rewrite getClips_files; exact Hfcur).
  assert (Hf1 : files w1 = files w).
  { pose proof (addAiClips_from_registry 0 newClips id
                  (Z.of_nat (length cur.1)) (Z.of_nat (length all.1)) all.2) as Hr.
    injection Hr as _ _ Hr. unfold w1. rewrite Hr. exact Hfall. }
  assert (Hp1 : dict_get p (clips (state w1)) = Some c).
  { apply addAiClips_from_keeps. unfold all.
    rewrite getClips_keeps_existing by (unfold fileExists in *; rewrite Hfcur; exact Hex).
    unfold cur. rewrite getClips_keeps_existing by exact Hex. exact Hp. }
  assert (Hk1 : wf_ledger w1 /\ NoDup (dict_keys (clips (state w1)))).
  { apply addAiClips_from_keyed, getClips_keyed, getClips_keyed. split; assumption. }
  destruct Hk1 as [Hwf1 Hnd1].
  destruct (keyed_ledger_views w1 Hwf1 Hnd1) as [Hndp Hin].
  pose proof (wf_ledger_get _ _ _ Hwf Hp) as Hpath.
  unfold sortStreamClipsByStartTime.
  set (r := getClips (views_clips w1) (Some id) w1).
  assert (Hpr : dict_get p (clips (state r.2)) = Some c).
  { unfold r. rewrite getClips_keeps_existing
      by (unfold fileExists in *; rewrite Hf1; exact Hex). exact Hp1. }
  set (sorted := js_sort _ r.1).
  assert (Hperm : sorted ≡ₚ r.1) by apply (js_sort_Permutation (startTimeOf id)).
  assert (Hr1 : r.1 = List.filter (fun c0 => negb (bool_decide (path c0 = "add"))
                                     && fileExists w1 (path c0) && in_query (Some id) c0)
                        (views_clips w1)) by apply getClips_fst.
  assert (Hnds : NoDup (path <$> sorted)).
  { rewrite Hperm, Hr1. apply NoDup_fmap_filter. exact Hndp. }
  destruct (renumber_get id sorted 0 r.2 Hnds) as [H1 H2].
  destruct (decide (p ∈ path <$> sorted)) as [Hsel|Hsel].
  - apply list_elem_of_fmap in Hsel as (c0 & Hpc0 & Hc0).
    assert (Hc0in : c0 ∈ views_clips w1 /\ in_query (Some id) c0 = true).
    { rewrite Hperm, Hr1 in Hc0. apply list_elem_of_In, filter_In in Hc0 as [Hc0 Hq].
      apply list_elem_of_In in Hc0. split; [exact Hc0|].
      apply andb_true_iff in Hq as [_ Hq]. exact Hq. }
    destruct Hc0in as [Hc0in Hq0].
    assert (c0 = c) as ->.
    { apply Hin in Hc0in. rewrite <- Hpc0, Hp1 in Hc0in. congruence. }
    apply list_elem_of_lookup_1 in Hc0 as [i Hi].
    eexists. split; [rewrite Hpc0; apply (H1 i c Hi)|].
    rewrite <- Hpc0, Hpr. split; [reflexivity|].
    intros Hnone Hid. exfalso. rewrite in_query_Some in Hq0 by exact Hid.
    apply bool_decide_eq_true_1 in Hq0. rewrite Hnone in Hq0. destruct Hq0; discriminate.
  - exists c. split; [rewrite H2 by exact Hsel; exact Hpr|]. split; [reflexivity|auto].
Qed.

Lemma addAiClips_never_overwrites_witness :
  let w := addClips [replayClip "r.mp4" 5 25] (Some "S") ReplayBuffer
             (initialWorld {["r.mp4"; "ai.mp4"]}) in
  let c := mkClip "r.mp4" (Some false) (Some true) (Some 0%Z) (Some 0%Z) (Some false)
             (Some ReplayBuffer) (Some 1%Z)
             (Some {["S" := mkStreamInfo 1 (Some 5%Z) (Some 25%Z)]}) None None None in
  exists c',
    dict_get "r.mp4"
      (clips (state (addAiClips_ingest [aiClip "r.mp4" 1 2; aiClip "ai.mp4" 30 40] "S" w)))
    = Some c'
    /\ (path c', loaded c', enabled c', startTrim c', endTrim c', deleted c', source c',
        globalOrderPosition c', scrubSprite c', duration c', aiInfo c')
       = (path c, loaded c, enabled c, startTrim c, endTrim c, deleted c, source c,
          globalOrderPosition c, scrubSprite c, duration c, aiInfo c)
    /\ (assoc_of "S" c = None -> "S" <> "" -> c' = c).
Proof.
  intros w c.
  apply (addAiClips_never_overwrites [aiClip "r.mp4" 1 2; aiClip "ai.mp4" 30 40] "S" "r.mp4"
           c w).
  - vm_compute. repeat constructor.
  - vm_compute. repeat constructor; rewrite ?elem_of_cons, ?elem_of_nil; intuition discriminate.
  - vm_compute. reflexivity.
  - vm_compute. reflexivity.
Defined.

(** ** An export that goes through *)

Section SortMaps.
Context {A B : Type} (g : A -> B) (cmpA : A -> A -> Z) (cmpB : B -> B -> Z).
Hypothesis cmp_g : forall a b, cmpB (g a) (g b) = cmpA a b.


End SortMaps.


Section ExportRuns.
Variable supportedFileType : string -> bool.
Variable init : string -> option (option Z * option string * bool).
Variable reset : string -> option bool.





(** Every selected clip that has a [RenderingClip] gets its trims, and the
    render list has one item a clip. *)
Lemma take_renderingClips_all cs w :
  (forall c, c ∈ cs -> is_Some (renderingClips w !! path c)) ->
  none_flagged w ->
  exists w',
    take_renderingClips cs w
    = Some ((fun c => mkRenderItem (path c) true (startTrim c) (endTrim c) false) <$> cs, w')
    /\ state w' = state w /\ renderJobs w' = renderJobs w.
Proof.
  revert w. induction cs as [|c cs IH]; intros w Hrc Hflag.
  - exists w. repeat split.
  - destruct (Hrc c) as [rc Hc]; [left|].
    cbn [take_renderingClips]. rewrite Hc.
    pose proof (Hflag _ _ Hc) as Hdel. cbn in Hdel.
    set (w1 := with_renderingClips _ w).
    destruct (IH w1) as (w' & Ht & Hst & Hj).
    + intros c' Hc'. unfold w1. cbn.
      destruct (decide (path c = path c')) as [e|Hne];
        [rewrite e, lookup_insert_eq; eauto
        |rewrite lookup_insert_ne by exact Hne; apply Hrc; right; exact Hc'].
    + unfold none_flagged, w1. cbn. apply map_Forall_insert_2; [exact Hdel|exact Hflag].
    + exists w'. rewrite Ht, Hdel. repeat split; assumption.
Qed.



Lemma sort_insert_perm {A : Type} (cmp : A -> A -> Z) x l : sort_insert cmp x l ≡ₚ x :: l.
Proof.
  induction l as [|y l IH]; [reflexivity|].
  cbn [sort_insert]. destruct (cmp x y <=? 0)%Z; [reflexivity|].
  rewrite IH. apply Permutation_swap.
Qed.

Lemma js_sort_perm {A : Type} (cmp : A -> A -> Z) l : js_sort cmp l ≡ₚ l.
Proof.
  induction l as [|x l IH]; [reflexivity|].
  cbn [js_sort]. rewrite sort_insert_perm, IH. reflexivity.
Qed.

(** The selection is made of enabled clips of the query. *)
Lemma selection_subset sid cs c :
  c ∈ selection sid cs ->
  c ∈ cs /\ in_query sid c = true /\ default false (enabled c) = true.
Proof.
  unfold selection. destruct (truthy sid) as [s|] eqn:Hs; rewrite js_sort_perm;
    rewrite !list_elem_of_In, !filter_In.
  - intros [[Hc Hq] He]. apply andb_true_iff in He as [He _]. auto.
  - intros [Hc He]. unfold in_query. rewrite Hs. auto.
Qed.

(** What [generateRenderingClips] returns when every selected clip has its
    [RenderingClip] and there is neither an intro nor an outro. *)
Lemma generateRenderingClips_selection sid orientation w :
  Forall (fun c => path c <> "add" /\ fileExists w (path c) = true) (views_clips w) ->
  (forall c, c ∈ selection sid (views_clips w) -> is_Some (renderingClips w !! path c)) ->
  none_flagged w ->
  v_path (intro (video (state w))) = "" -> v_path (outro (video (state w))) = "" ->
  exists w',
    generateRenderingClips init sid orientation w
    = Some ((fun c => mkRenderItem (path c) true (startTrim c) (endTrim c) false)
              <$> selection sid (views_clips w), w')
    /\ state w' = state w /\ renderJobs w' = renderJobs w.
Proof.
  intros Hall Hrc Hflag Hintro Houtro. unfold generateRenderingClips.
  assert (Hsel : match truthy sid with
                 | Some sid0 =>
                     (js_sort (fun a b =>
                                 (default 0 (orderPosition <$> assoc_of sid0 a)
                                  - default 0 (orderPosition <$> assoc_of sid0 b))%Z)
                              (List.filter
                                 (fun c => default false (enabled c)
                                           && bool_decide (is_Some (assoc_of sid0 c)))
                                 (getClips (views_clips w) sid w).1),
                      (getClips (views_clips w) sid w).2)
                 | None =>
                     (js_sort (fun a b =>
                                 match globalOrderPosition a, globalOrderPosition b with
                                 | Some x, Some y => (x - y)%Z
                                 | _, _ => 0%Z
                                 end)
                              (List.filter (fun c => default false (enabled c))
                                           (views_clips w)),
                      w)
                 end = (selection sid (views_clips w), w)).
  { unfold selection. destruct (truthy sid); [|reflexivity].
    rewrite (getClips_healthy (views_clips w) sid w Hall). reflexivity. }
  cbv zeta. rewrite Hsel. cbn [fst snd].
  destruct (take_renderingClips_all (selection sid (views_clips w)) w Hrc Hflag)
    as (w' & Ht & Hst & Hj).
  rewrite Ht, Hst, Hintro. exists w'.
  rewrite (bool_decide_eq_false_2 ("" <> "")) by (intros H; apply H; reflexivity).
  cbn [andb]. rewrite Hst, Houtro.
  rewrite (bool_decide_eq_false_2 ("" <> "")) by (intros H; apply H; reflexivity).
  cbn [andb app]. rewrite app_nil_r. repeat split; assumption.
Qed.

End ExportRuns.


(** ** The order of the clips in a video *)

Lemma sort_insert_ext_in {A : Type} (cmp cmp' : A -> A -> Z) x l :
  (forall b, b ∈ l -> cmp x b = cmp' x b) -> sort_insert cmp x l = sort_insert cmp' x l.
Proof.
  induction l as [|y l IH]; intros H; [reflexivity|].
  cbn [sort_insert]. rewrite (H y) by left.
  destruct (cmp' x y <=? 0)%Z; [reflexivity|].
  rewrite IH by (intros b Hb; apply H; right; exact Hb). reflexivity.
Qed.

Lemma js_sort_ext_in {A : Type} (cmp cmp' : A -> A -> Z) l :
  (forall a b, a ∈ l -> b ∈ l -> cmp a b = cmp' a b) -> js_sort cmp l = js_sort cmp' l.
Proof.
  induction l as [|x l IH]; intros H; [reflexivity|].
  cbn [js_sort]. rewrite IH by (intros a b Ha Hb; apply H; right; assumption).
  apply sort_insert_ext_in. intros b Hb. rewrite js_sort_perm in Hb.
  apply H; [left|right; exact Hb].
Qed.

(** X27. What [generateRenderingClips] hands over, on a ledger whose files
    all exist and whose enabled clips of the query have their
    [RenderingClip], none flagged as deleted, with neither intro nor outro:
    it returns one item for each enabled clip of the query, with the
    clip's path and trims, and for no other clip, so a disabled clip is
    never part of the video.  With a stream id the items are in ascending
    [orderPosition] in the stream, clips at the same position in the order
    of the ledger; without one they are in ascending
    [globalOrderPosition], provided every clip has one. *)
Theorem generateRenderingClips_in_position_order
    (init : string -> option (option Z * option string * bool))
    (streamId : option string) (orientation : EOrientation) (w : World) :
  Forall (fun c => path c <> "add" /\ fileExists w (path c) = true) (views_clips w) ->
  (forall c, c ∈ views_clips w -> in_query streamId c = true ->
     default false (enabled c) = true -> is_Some (renderingClips w !! path c)) ->
  none_flagged w ->
  v_path (intro (video (state w))) = "" -> v_path (outro (video (state w))) = "" ->
  let chosen := List.filter (fun c => default false (enabled c) && in_query streamId c)
                            (views_clips w) in
  exists sel w',
    generateRenderingClips init streamId orientation w
    = Some ((fun c => mkRenderItem (path c) true (startTrim c) (endTrim c) false) <$> sel, w')
    /\ sel ≡ₚ chosen
    /\ (forall sid, truthy streamId = Some sid ->
          StronglySorted
            (fun a b => (default 0 (orderPosition <$> assoc_of sid a)
                         <= default 0 (orderPosition <$> assoc_of sid b))%Z) sel
          /\ forall k,
               List.filter
                 (fun c => (default 0 (orderPosition <$> assoc_of sid c) =? k)%Z) sel
               = List.filter
                   (fun c => (default 0 (orderPosition <$> assoc_of sid c) =? k)%Z) chosen)
    /\ (truthy streamId = None ->
        Forall (fun c => is_Some (globalOrderPosition c)) (views_clips w) ->
        StronglySorted
          (fun a b => (default 0 (globalOrderPosition a)
                       <= default 0 (globalOrderPosition b))%Z) sel).
Proof.
  intros Hall Hrc Hflag Hintro Houtro chosen.
  destruct (generateRenderingClips_selection init streamId orientation w Hall)
    as (w' & Hgen & _); try assumption.
  { intros c Hc. apply selection_subset in Hc as (Hc & Hq & He). apply Hrc; assumption. }
  exists (selection streamId (views_clips w)), w'. split; [exact Hgen|].
  assert (Hchosen : forall sid, truthy streamId = Some sid ->
            List.filter (fun c => default false (enabled c)
                                  && bool_decide (is_Some (assoc_of sid c)))
                        (List.filter (in_query streamId) (views_clips w))
            = chosen).
  { intros sid Hs. unfold chosen. rewrite filter_filter. apply filter_ext.
    intros c. unfold in_query. rewrite Hs.
    destruct (default false (enabled c)), (bool_decide (is_Some (assoc_of sid c)));
      reflexivity. }
  split; [|split].
  - unfold selection. destruct (truthy streamId) as [sid|] eqn:Hs; rewrite js_sort_perm.
    + rewrite (Hchosen sid eq_refl). reflexivity.
    + unfold chosen. erewrite filter_ext; [reflexivity|].
      intros c. unfold in_query. rewrite Hs, andb_true_r. reflexivity.
  - intros sid Hs. unfold selection. rewrite Hs, (Hchosen sid Hs). split.
    + apply (js_sort_sorted (fun c => default 0%Z (orderPosition <$> assoc_of sid c))).
    + intros k.
      apply (js_sort_stable (fun c => default 0%Z (orderPosition <$> assoc_of sid c))).
  - intros Hs Hpos. unfold selection. rewrite Hs.
    rewrite (js_sort_ext_in _
               (fun a b => (default 0 (globalOrderPosition a)
                            - default 0 (globalOrderPosition b))%Z)).
    + apply (js_sort_sorted (fun c => default 0%Z (globalOrderPosition c))).
    + intros a b Ha Hb. rewrite Forall_forall in Hpos.
      apply list_elem_of_In, filter_In in Ha as [Ha _], Hb as [Hb _].
      apply list_elem_of_In in Ha, Hb.
      destruct (Hpos a Ha) as [x ->], (Hpos b Hb) as [y ->]. reflexivity.
Qed.

Lemma generateRenderingClips_in_position_order_witness :
  let w := world_of
             (loadClips anyFileType probeOk None
                (disableClip "d"
                   (UPDATE_CLIP (patch_streamInfo "e" {["S" := mkStreamInfo 0 None None]})
                      (addClips [replayClip "c" 5 25; replayClip "d" 9 29;
                                 replayClip "e" 1 3]
                         (Some "S") ReplayBuffer (initialWorld {["c"; "d"; "e"]}))))) in
  let paths (r : list RenderItem * World) := ri_path <$> r.1 in
  paths <$> generateRenderingClips probeOk (Some "S") HORIZONTAL w = Some ["e"; "c"]
  /\ paths <$> generateRenderingClips probeOk None HORIZONTAL w = Some ["c"; "e"]
  /\ exists sel w',
       generateRenderingClips probeOk (Some "S") HORIZONTAL w
       = Some ((fun c => mkRenderItem (path c) true (startTrim c) (endTrim c) false)
                 <$> sel, w')
       /\ sel ≡ₚ List.filter (fun c => default false (enabled c) && in_query (Some "S") c)
                             (views_clips w)
       /\ StronglySorted
            (fun a b => (default 0 (orderPosition <$> assoc_of "S" a)
                         <= default 0 (orderPosition <$> assoc_of "S" b))%Z) sel.
Proof.
  intros w paths. split; [vm_compute; reflexivity|]. split; [vm_compute; reflexivity|].
  destruct (generateRenderingClips_in_position_order probeOk (Some "S") HORIZONTAL w)
    as (sel & w' & Hgen & Hperm & Hsorted & _).
  - vm_compute. repeat constructor; discriminate.
  - assert (F : Forall (fun c => is_Some (renderingClips w !! path c)) (views_clips w))
      by (vm_compute; repeat constructor; eauto).
    rewrite Forall_forall in F. intros c Hc _ _. apply F. exact Hc.
  - apply map_Forall_to_list. vm_compute. repeat constructor.
  - reflexivity.
  - reflexivity.
  - exists sel, w'. split; [exact Hgen|]. split; [exact Hperm|].
    apply (Hsorted "S"). reflexivity.
Defined.

(** ** Clips in a file format that is not supported *)

Lemma removeClip_prune_error clip sid w :
  st_error (state (removeClip_prune clip sid w)) = st_error (state w).
Proof.
  unfold removeClip_prune.
  assert (H : forall ids w0,
            st_error (state (foldl (fun acc id =>
                                      if stream_in_use id acc then acc
                                      else REMOVE_HIGHLIGHTED_STREAM id acc) w0 ids))
            = st_error (state w0)).
  { induction ids as [|id ids IH]; intros w0; [reflexivity|].
    cbn [foldl]. rewrite IH. destruct (stream_in_use id w0); reflexivity. }
  destruct (streamInfo clip), sid; try apply H. reflexivity.
Qed.

Lemma removeClip_sync_error p sid del w :
  st_error (state (spawn (removeClip_sync p sid del w))) = st_error (state w).
Proof.
  unfold removeClip_sync.
  destruct (dict_get p (clips (state w))) as [clip|]; [|reflexivity].
  destruct (match truthy sid, streamInfo clip with
            | Some sid0, Some si =>
                if fileExists w p && bool_decide (1 < size si) then Some (sid0, si) else None
            | _, _ => None
            end) as [[sid0 si]|].
  - unfold spawn. cbn [fst snd]. rewrite removeClip_prune_error. reflexivity.
  - destruct del; unfold spawn; cbn [fst snd].
    + unfold removeScrubFile.
      destruct (truthy (scrubSprite clip)); destruct (fileExists _ p); reflexivity.
    + rewrite removeClip_prune_error.
      unfold removeScrubFile. destruct (truthy (scrubSprite clip)); reflexivity.
Qed.

Section UnsupportedTypes.
Variable supportedFileType : string -> bool.
Variable init : string -> option (option Z * option string * bool).

Lemma loadClips_scan_error cs sid w :
  NoDup (path <$> cs) ->
  Forall (fun c => fileExists w (path c) = true) cs ->
  st_error (state (loadClips_scan supportedFileType cs sid w).1)
  = if forallb (fun c => supportedFileType (path c)) cs then st_error (state w)
    else unsupportedFormat.
Proof.
  revert w. induction cs as [|c cs IH]; intros w Hnd Hall; [reflexivity|].
  rewrite fmap_cons in Hnd. apply NoDup_cons in Hnd as [Hnotin Hnd].
  apply Forall_cons in Hall as [Hex Hall].
  cbn [loadClips_scan forallb]. rewrite Hex.
  destruct (supportedFileType (path c)); cbn [andb].
  - rewrite IH by assumption. reflexivity.
  - rewrite IH.
    + cbn. destruct (forallb _ cs); reflexivity.
    + exact Hnd.
    + apply Forall_forall. intros c' Hin. rewrite Forall_forall in Hall.
      pose proof (Hall c' Hin) as Hc'. unfold fileExists in *.
      cbn [files with_renderingClips]. change (files (SET_ERROR unsupportedFormat ?x))
        with (files x).
      destruct (removeClip_sync_files (path c) sid true w) as [-> | ->]; [exact Hc'|].
      apply bool_decide_eq_true_1 in Hc'. apply bool_decide_eq_true_2.
      apply elem_of_difference. split; [exact Hc'|].
      intros He. apply elem_of_singleton in He. apply Hnotin. rewrite <- He.
      apply list_elem_of_fmap. exists c'. split; [reflexivity | exact Hin].
Qed.

Lemma loadClips_hydrate_error items w :
  st_error (state (world_of (loadClips_hydrate init items w))) = st_error (state w).
Proof.
  revert w. induction items as [|c items IH]; intros w; [reflexivity|].
  cbn [loadClips_hydrate]. destruct (renderingClips w !! path c); [|reflexivity].
  destruct (init (path c)) as [[[d scrub] del]|]; [|reflexivity].
  rewrite IH. unfold probed. destruct (truthy scrub); reflexivity.
Qed.

(** X28. On a ledger whose files all exist, [loadClips] leaves the message
    about unsupported file formats as the service's error exactly when
    some clip of the query has a file type that is not supported, whether
    the load pass then completes or not; otherwise it does not touch the
    error. *)
Theorem loadClips_reports_unsupported_types (streamInfoId : option string) (w : World) :
  healthy w ->
  st_error (state (world_of (loadClips supportedFileType init streamInfoId w)))
  = if forallb (fun c => supportedFileType (path c))
               (List.filter (in_query streamInfoId) (views_clips w))
    then st_error (state w)
    else unsupportedFormat.
Proof.
  intros (Hwf & Hnd & Hall). unfold loadClips.
  rewrite (getClips_healthy (views_clips w) streamInfoId w Hall). cbn [fst snd].
  unfold loadClips_resume.
  set (members := List.filter (in_query streamInfoId) (views_clips w)).
  rewrite <- (loadClips_scan_error members streamInfoId w).
  - destruct (loadClips_scan supportedFileType members streamInfoId w) as [w1 b].
    cbn [fst snd]. destruct b; [apply loadClips_hydrate_error|reflexivity].
  - unfold members. apply NoDup_fmap_filter.
    apply (keyed_ledger_views w Hwf Hnd).
  - apply Forall_forall. intros c Hc. unfold members in Hc.
    apply list_elem_of_In, filter_In in Hc as [Hc _]. apply list_elem_of_In in Hc.
    rewrite Forall_forall in Hall. apply (Hall c Hc).
Qed.
End UnsupportedTypes.

Lemma loadClips_reports_unsupported_types_witness :
  let w := addClips [mkNewClip "a.mp4" None None; mkNewClip "b.txt" None None] None Manual
             (initialWorld {["a.mp4"; "b.txt"]}) in
  let mp4 := fun p : string => bool_decide (p = "a.mp4") in
  st_error (state (world_of (loadClips mp4 probeOk None w))) = unsupportedFormat.
Proof.
  intros w mp4.
  rewrite (loadClips_reports_unsupported_types mp4 probeOk None w).
  - vm_compute. reflexivity.
  - concrete_healthy.
Defined.

(** ** Adding a clip that is already in the ledger *)

(** X29. A replay-buffer clip whose path is already in the ledger is not
    added again: its record stays where it is and gets the association
    with the stream, after the clips the stream has, besides the
    associations it had and in place of an older one with the same stream;
    the rest of the record and every other record are as they were. *)
Theorem addClips_existing_path_joins_the_stream (clipData : INewClip) (sid : string)
    (c : TClip) (w : World) :
  healthy w -> sid <> "" ->
  dict_get (nc_path clipData) (clips (state w)) = Some c ->
  let w' := addClips [clipData] (Some sid) ReplayBuffer w in
  let joined :=
    mkStreamInfo
      (Z.of_nat (length (List.filter (in_query (Some sid)) (views_clips w))) + 1)
      (nc_startTime clipData) (nc_endTime clipData) in
  dict_keys (clips (state w')) = dict_keys (clips (state w))
  /\ dict_get (nc_path clipData) (clips (state w'))
     = Some (merge_clip c
               (patch_streamInfo (nc_path clipData)
                  (<[sid := joined]> (default ∅ (streamInfo c)))))
  /\ (forall q, q <> nc_path clipData ->
        dict_get q (clips (state w')) = dict_get q (clips (state w))).
Proof.
  intros (Hwf & Hnd & Hall) Hsid Hc w' joined.
  unfold w'. rewrite addClips_single. unfold addClips_step.
  rewrite (getClips_healthy _ (Some sid) w Hall). cbn [fst snd].
  rewrite (getClips_healthy _ None w Hall). cbn [fst snd].
  destruct (decide (ReplayBuffer = Manual)) as [|_]; [congruence|].
  assert (Ht : truthy (Some sid) = Some sid).
  { unfold truthy. rewrite decide_False by exact Hsid. reflexivity. }
  rewrite Ht. cbn [fst snd]. rewrite Hc.
  assert (Hunion : {[sid := mkStreamInfo
                             (Z.of_nat 0
                              + Z.of_nat (length (List.filter (in_query (Some sid))
                                                              (views_clips w))) + 1)
                             (nc_startTime clipData) (nc_endTime clipData)]}
                   ∪ default ∅ (streamInfo c)
                   = <[sid := joined]> (default ∅ (streamInfo c))).
  { rewrite insert_union_singleton_l. reflexivity. }
  rewrite Hunion.
  destruct (UPDATE_CLIP_present
              (patch_streamInfo (nc_path clipData)
                 (<[sid := joined]> (default ∅ (streamInfo c)))) w c Hc) as (Hk & Hg & Ho).
  split; [exact Hk|]. split; [exact Hg|exact Ho].
Qed.

Lemma addClips_existing_path_joins_the_stream_witness :
  let w := addClips [replayClip "c" 5 25; replayClip "d" 9 29] (Some "S") ReplayBuffer
             (initialWorld {["c"; "d"]}) in
  let w' := addClips [replayClip "c" 7 27] (Some "T") ReplayBuffer w in
  dict_keys (clips (state w')) = ["c"; "d"]
  /\ (fun c => elements (dom (default ∅ (streamInfo c))))
       <$> dict_get "c" (clips (state w')) = Some ["S"; "T"].
Proof.
  intros w w'.
  destruct (addClips_existing_path_joins_the_stream (replayClip "c" 7 27) "T"
              (mkClip "c" (Some false) (Some true) (Some 0%Z) (Some 0%Z) (Some false)
                 (Some ReplayBuffer) (Some 1%Z)
                 (Some {["S" := mkStreamInfo 1 (Some 5%Z) (Some 25%Z)]}) None None None) w)
    as (Hk & Hg & _).
  - concrete_healthy.
  - discriminate.
  - vm_compute. reflexivity.
  - fold w' in Hk, Hg. split.
    + rewrite Hk. vm_compute. reflexivity.
    + cbn [nc_path replayClip] in Hg. rewrite Hg. vm_compute. reflexivity.
Defined.

(** ** Leaving the view of an emptied query *)

Lemma removeClip_prune_navigations clip sid w :
  navigations (removeClip_prune clip sid w) = navigations w.
Proof.
  unfold removeClip_prune.
  assert (H : forall ids w0,
            navigations (foldl (fun acc id =>
                                  if stream_in_use id acc then acc
                                  else REMOVE_HIGHLIGHTED_STREAM id acc) w0 ids)
            = navigations w0).
  { induction ids as [|id ids IH]; intros w0; [reflexivity|].
    cbn [foldl]. rewrite IH. destruct (stream_in_use id w0); reflexivity. }
  destruct (streamInfo clip), sid; try apply H. reflexivity.
Qed.

(** X30. [removeClip], run to its end on a ledger whose files all exist,
    sends the user to another view exactly when it has deleted the file of
    the clip and no clip is left in the query: to the stream view when a
    stream id was given, to the settings view otherwise.  It does not
    navigate when it only drops an association, when the file is kept, or
    when the query still has a clip. *)
Theorem removeClip_navigates_when_the_query_empties (removePath : string)
    (streamId : option string) (deleteClipFromSystem : bool) (clip : TClip) (w : World) :
  healthy w ->
  dict_get removePath (clips (state w)) = Some clip ->
  let remaining :=
    List.filter (fun c => negb (bool_decide (path c = removePath)) && in_query streamId c)
                (views_clips w) in
  navigations (removeClip removePath streamId deleteClipFromSystem w)
  = navigations w
    ++ (if deleteClipFromSystem && negb (only_detaches removePath streamId clip w)
        then match remaining with
             | [] => [match truthy streamId with Some _ => STREAM | None => SETTINGS end]
             | _ :: _ => []
             end
        else []).
Proof.
  intros (Hwf & Hnd & Hall) Hc remaining.
  pose proof (wf_ledger_get _ _ _ Hwf Hc) as Hpath.
  assert (Hex : fileExists w removePath = true).
  { rewrite Forall_forall in Hall. rewrite <- Hpath. apply (Hall clip).
    apply dict_values_elem. exists removePath. apply dict_get_Some_elem. exact Hc. }
  unfold removeClip, removeClip_sync, only_detaches. rewrite Hc.
  set (w3 := with_renderingClips (delete removePath)
               (removeScrubFile (scrubSprite clip) (REMOVE_CLIP removePath w))).
  assert (H3 : navigations w3 = navigations w /\ files w3 = files w
               /\ clips (state w3) = dict_delete removePath (clips (state w))).
  { unfold w3, removeScrubFile. destruct (truthy (scrubSprite clip)); repeat split. }
  destruct H3 as (Hn3 & Hf3 & Hc3).
  assert (Hex3 : fileExists w3 removePath = true)
    by (unfold fileExists in *; rewrite Hf3; exact Hex).
  rewrite Hex3.
  set (wa := with_files (fun fs => fs ∖ {[removePath]}) w3).
  assert (Hwhole : navigations
                     (if deleteClipFromSystem
                      then removeClip_resume removePath streamId clip true wa
                      else removeClip_prune clip streamId w3)
                   = navigations w
                     ++ (if deleteClipFromSystem
                         then match remaining with
                              | [] => [match truthy streamId with
                                       | Some _ => STREAM
                                       | None => SETTINGS
                                       end]
                              | _ :: _ => []
                              end
                         else [])).
  { destruct deleteClipFromSystem.
    - unfold removeClip_resume. rewrite removeClip_prune_navigations.
      unfold wa, w3.
      rewrite (getClips_after_unlink removePath streamId clip w
                 (conj Hwf (conj Hnd Hall)) Hc).
      fold w3 wa remaining. cbn [fst snd].
      destruct remaining as [|c0 rest].
      + rewrite decide_True by reflexivity. cbn [navigations with_navigations].
        change (navigations wa) with (navigations w3). rewrite Hn3. reflexivity.
      + rewrite decide_False by discriminate.
        change (navigations wa) with (navigations w3). rewrite Hn3, app_nil_r. reflexivity.
    - rewrite removeClip_prune_navigations, Hn3, app_nil_r. reflexivity. }
  destruct (truthy streamId) as [sid|]; [destruct (streamInfo clip) as [si|]|].
  - rewrite Hex. cbn [andb]. destruct (bool_decide (1 < size si)).
    + cbn [fst snd negb]. rewrite andb_false_r, removeClip_prune_navigations, app_nil_r.
      reflexivity.
    + cbn [negb]. rewrite andb_true_r. destruct deleteClipFromSystem; exact Hwhole.
  - cbn [negb]. rewrite andb_true_r. destruct deleteClipFromSystem; exact Hwhole.
  - cbn [negb]. rewrite andb_true_r. destruct deleteClipFromSystem; exact Hwhole.
Qed.

Lemma removeClip_navigates_when_the_query_empties_witness :
  let w := addClips [replayClip "c" 7 27] (Some "T") ReplayBuffer
             (addClips [replayClip "c" 5 25; replayClip "d" 9 29] (Some "S") ReplayBuffer
                (initialWorld {["c"; "d"]})) in
  navigations (removeClip "d" (Some "S") true w) = []
  /\ navigations (removeClip "d" None true (removeClip "c" None true w)) = [SETTINGS].
Proof.
  intros w. split.
  - rewrite (removeClip_navigates_when_the_query_empties "d" (Some "S") true
               (mkClip "d" (Some false) (Some true) (Some 0%Z) (Some 0%Z) (Some false)
                  (Some ReplayBuffer) (Some 3%Z)
                  (Some {["S" := mkStreamInfo 3 (Some 9%Z) (Some 29%Z)]}) None None None) w).
    + vm_compute. reflexivity.
    + concrete_healthy.
    + vm_compute. reflexivity.
  - rewrite (removeClip_navigates_when_the_query_empties "d" None true
               (mkClip "d" (Some false) (Some true) (Some 0%Z) (Some 0%Z) (Some false)
                  (Some ReplayBuffer) (Some 3%Z)
                  (Some {["S" := mkStreamInfo 3 (Some 9%Z) (Some 29%Z)]}) None None None)
               (removeClip "c" None true w)).
    + vm_compute. reflexivity.
    + concrete_healthy.
    + vm_compute. reflexivity.
Defined.
